(** * Jira ticket analytics: embedding of the canonical Lambda handler

    The development follows the optimized handler of the repository
    (the variant with [validateRequest], the real resolution-time and
    SLA computations and the error-translating [storeMetrics]).

    - [Num]: ECMAScript Numbers as IEEE-754 binary64 values, on the
      Standard Library's executable specification [SpecFloat].
    - [JS]: the fragment of the language the handler uses: JSON scalars,
      plain objects with their prototype chain, exceptions, dates.
    - [Analytics]: [validateRequest], [processTickets] and the three
      [calculate*] functions.
    - [Dynamo]: the conditional-update store and [storeMetrics].
    - [Handler]: [handler], the responses and [generateRequestId].
    - [Memory]: [processTickets] and the three [calculate*] functions once
      more, with the array of tickets, the tickets and the accumulators
      as objects of a store that the functions read and update.

    Definitions come first; the properties follow. *)

From Stdlib Require Import ZArith List String Ascii Bool Lia Reals Lra.
From Stdlib Require Import Floats.SpecFloat.
From stdpp Require Import base gmap strings pretty.
Import ListNotations.

Open Scope string_scope.
Open Scope Z_scope.

(** ** Numbers *)

Module Num.

Definition prec : Z := 53.
Definition emax : Z := 1024.

(** An ECMAScript Number. *)
Definition number : Type := spec_float.

Definition NaN : number := S754_nan.
Definition zero : number := S754_zero false.

(** The Number nearest to an integer (exact below [2^53]). *)
Definition of_Z (z : Z) : number := binary_normalize prec emax z 0 false.

Definition one : number := of_Z 1.

Definition add : number -> number -> number := SFadd prec emax.
Definition sub : number -> number -> number := SFsub prec emax.
Definition mul : number -> number -> number := SFmul prec emax.
Definition div : number -> number -> number := SFdiv prec emax.

(** [x <= y] and [x < y] of the language: false as soon as an operand
    is NaN. *)
Definition leb : number -> number -> bool := SFleb.
Definition ltb : number -> number -> bool := SFltb.

(** The Number nearest to the fraction [n / d], with the sign [neg]. *)
Definition of_ratio (neg : bool) (n d : positive) : number :=
  let '(q, e, l) := SFdiv_core_binary prec emax (Zpos n) 0 (Zpos d) 0 in
  binary_round_aux prec emax neg q e l.

(** The numeral printed by [x.toFixed(1)].  A decimal numeral is kept
    as its sign and its number of tenths rather than as characters. *)
Inductive numeral : Type :=
| NumeralNaN
| NumeralInfinity (neg : bool)
| NumeralToString (x : number)          (* String(x), when |x| >= 10^21 *)
| NumeralFixed (neg : bool) (tenths : Z).

(** The integer [n] for which [n / 10 - m * 2^e] is as close to zero as
    possible, the larger one when there are two. *)
Definition tenths (m : positive) (e : Z) : Z :=
  match e with
  | Zneg p => (20 * Zpos m + 2 ^ Zpos p) / 2 ^ (Zpos p + 1)
  | _ => 10 * Zpos m * 2 ^ e
  end.

(** [m * 2^e >= 10^21]. *)
Definition ge_1e21 (m : positive) (e : Z) : bool :=
  match e with
  | Zneg p => 10 ^ 21 * 2 ^ Zpos p <=? Zpos m
  | _ => 10 ^ 21 <=? Zpos m * 2 ^ e
  end.

(** [Number.prototype.toFixed] with one fraction digit. *)
Definition toFixed1 (x : number) : numeral :=
  match x with
  | S754_nan => NumeralNaN
  | S754_infinity s => NumeralInfinity s
  | S754_zero _ => NumeralFixed false 0
  | S754_finite s m e =>
      if ge_1e21 m e then NumeralToString x else NumeralFixed s (tenths m e)
  end.

(** [parseFloat] on a numeral printed by [toFixed1]. *)
Definition parseFloat (s : numeral) : number :=
  match s with
  | NumeralNaN => NaN
  | NumeralInfinity neg => S754_infinity neg
  | NumeralToString x => x
  | NumeralFixed neg (Zpos n) => of_ratio neg n 10
  | NumeralFixed neg _ => S754_zero neg
  end.

(** Truncation toward zero of a finite Number. *)
Definition truncate (x : number) : option Z :=
  match x with
  | S754_zero _ => Some 0
  | S754_finite s m e =>
      let a := match e with
               | Zneg p => Zpos m / 2 ^ Zpos p
               | _ => Zpos m * 2 ^ e
               end in
      Some (if s then - a else a)
  | _ => None
  end.

(** [Math.floor]. *)
Definition floor (x : number) : number :=
  match x with
  | S754_finite s m (Zneg p) =>
      if s then of_Z (- ((Zpos m + 2 ^ Zpos p - 1) / 2 ^ Zpos p))
      else of_Z (Zpos m / 2 ^ Zpos p)
  | _ => x
  end.

(** The real number a finite Number stands for. *)
Definition to_R (x : number) : R :=
  match x with
  | S754_finite s m e => (if s then -1 else 1) * IZR (Zpos m) * powerRZ 2 e
  | _ => 0
  end.

Definition is_finite (x : number) : bool :=
  match x with
  | S754_finite _ _ _ | S754_zero _ => true
  | _ => false
  end.

End Num.

(** ** The language fragment *)

Module JS.
Import Num.

(** A JSON scalar, or [undefined] for an absent property.  Ticket fields
    that hold nested arrays or objects are outside this model. *)
Inductive JSValue : Type :=
| JUndefined
| JNull
| JBool (b : bool)
| JNumber (x : number)
| JString (s : string).

(** What a [throw] carries. *)
Inductive Exception : Type :=
| TypeError (message : string)
| AWSError (code message : string)      (* rejected by the SDK: has [code] *)
| Error (message : string).             (* [new Error(message)]: no [code] *)

Inductive Result (A : Type) : Type :=
| Ok (a : A)
| Throw (e : Exception).
Arguments Ok {A} a.
Arguments Throw {A} e.

Definition bind {A B : Type} (r : Result A) (k : A -> Result B) : Result B :=
  match r with
  | Ok a => k a
  | Throw e => Throw e
  end.

#[export] Instance Result_ret : MRet Result := @Ok.
#[export] Instance Result_bind : MBind Result := fun A B k r => bind r k.

(** [tickets.forEach(callback)], the callback updating the locals [S]. *)
Fixpoint forEach {A S : Type} (xs : list A) (callback : A -> S -> Result S)
    (locals : S) : Result S :=
  match xs with
  | [] => Ok locals
  | x :: rest => bind (callback x locals) (forEach rest callback)
  end.

(** [xs.forEach((x, index) => ...)], counting from [index]. *)
Fixpoint forEach_indexed {A S : Type} (index : nat) (xs : list A)
    (callback : nat -> A -> S -> Result S) (locals : S) : Result S :=
  match xs with
  | [] => Ok locals
  | x :: rest =>
      bind (callback index x locals) (forEach_indexed (Datatypes.S index) rest callback)
  end.

(** [ToBoolean]. *)
Definition truthy (v : JSValue) : bool :=
  match v with
  | JUndefined | JNull => false
  | JBool b => b
  | JNumber (S754_zero _) | JNumber S754_nan => false
  | JNumber _ => true
  | JString s => negb (String.eqb s EmptyString)
  end.

(** [v === s] for a string literal [s]. *)
Definition strict_eq_string (v : JSValue) (s : string) : bool :=
  match v with
  | JString s' => String.eqb s' s
  | _ => false
  end.

(** [String.prototype.toLowerCase], on the ASCII letters; other characters
    are left as they are. *)
Definition lower_ascii (c : ascii) : ascii :=
  let n := nat_of_ascii c in
  if ((65 <=? n)%nat && (n <=? 90)%nat)%bool then ascii_of_nat (n + 32) else c.

Fixpoint toLowerCase (s : string) : string :=
  match s with
  | EmptyString => EmptyString
  | String c rest => String (lower_ascii c) (toLowerCase rest)
  end.

(** [v?.toLowerCase()]: [None] is [undefined]. *)
Definition optional_toLowerCase (v : JSValue) : Result (option string) :=
  match v with
  | JUndefined | JNull => Ok None
  | JString s => Ok (Some (toLowerCase s))
  | JBool _ | JNumber _ => Throw (TypeError "toLowerCase is not a function")
  end.

(** [ToPropertyKey] of the result of [optional_toLowerCase]. *)
Definition property_key (k : option string) : string :=
  match k with
  | Some s => s
  | None => "undefined"
  end.

(** *** Plain objects *)

(** What a property of the local accumulator objects can hold. *)
Inductive PropValue : Type :=
| PNum (x : number)
| PNative (name : string)               (* the function at [Object.prototype[name]] *)
| PProto                                (* [Object.prototype] itself *)
| PConcat (left : PropValue) (right : number).
                                        (* the String [String(left) + String(right)] *)

(** Own enumerable properties, in insertion order; the prototype is
    [Object.prototype]. *)
Definition JSObject : Type := list (string * PropValue).

Definition Object_prototype_functions : list string :=
  [ "constructor"; "hasOwnProperty"; "isPrototypeOf"; "propertyIsEnumerable";
    "toLocaleString"; "toString"; "valueOf";
    "__defineGetter__"; "__defineSetter__"; "__lookupGetter__"; "__lookupSetter__" ].

Fixpoint own (o : JSObject) (key : string) : option PropValue :=
  match o with
  | [] => None
  | (k, v) :: rest => if String.eqb k key then Some v else own rest key
  end.

Definition inherited (key : string) : option PropValue :=
  if String.eqb key "__proto__" then Some PProto
  else if existsb (String.eqb key) Object_prototype_functions then Some (PNative key)
  else None.

(** [o[key]]: [None] is [undefined]. *)
Definition get (o : JSObject) (key : string) : option PropValue :=
  match own o key with
  | Some v => Some v
  | None => inherited key
  end.

Fixpoint replace (o : JSObject) (key : string) (v : PropValue) : JSObject :=
  match o with
  | [] => []
  | (k, w) :: rest =>
      if String.eqb k key then (k, v) :: rest else (k, w) :: replace rest key v
  end.

(** [o[key] = v] for a primitive [v]: an own property is overwritten; the
    [__proto__] setter ignores primitives; any other key becomes a new
    own property, shadowing what was inherited. *)
Definition set (o : JSObject) (key : string) (v : PropValue) : JSObject :=
  match own o key with
  | Some _ => replace o key v
  | None => if String.eqb key "__proto__" then o else (o ++ [(key, v)])%list
  end.

(** [Object.keys(o)]. *)
Definition keys (o : JSObject) : list string := map fst o.

(** [ToNumber]: the functions and [Object.prototype] print as text that is
    no numeral. *)
Definition to_number (v : option PropValue) : number :=
  match v with
  | Some (PNum x) => x
  | _ => NaN
  end.

(** [o[key]++]. *)
Definition increment (o : JSObject) (key : string) : JSObject :=
  set o key (PNum (add (to_number (get o key)) one)).

(** [o[key] += x] where [o[key]] is defined: numeric addition on a Number,
    concatenation on anything else. *)
Definition add_assign (o : JSObject) (key : string) (x : number) : JSObject :=
  match get o key with
  | Some (PNum a) => set o key (PNum (add a x))
  | Some v => set o key (PConcat v x)
  | None => set o key (PNum NaN)
  end.

(** *** Dates *)

(** A time value: milliseconds since the epoch, [None] for an invalid
    date. *)
Definition TimeValue : Type := option Z.

Definition TimeClip (x : number) : TimeValue :=
  match truncate x with
  | Some t => if Z.abs t <=? 8640000000000000 then Some t else None
  | None => None
  end.

(** [new Date(v)] with the engine's string parser [Date_parse]. *)
Definition new_Date (Date_parse : string -> TimeValue) (v : JSValue) : TimeValue :=
  match v with
  | JString s => Date_parse s
  | JNumber x => TimeClip x
  | JBool b => Some (if b then 1 else 0)
  | JNull => Some 0
  | JUndefined => None
  end.

(** [ToNumber] of a Date. *)
Definition valueOf (t : TimeValue) : number :=
  match t with
  | Some ms => of_Z ms
  | None => NaN
  end.

(** Days from 1970-01-01 to a date of the proleptic Gregorian calendar. *)
Definition days_from_civil (y m d : Z) : Z :=
  let y' := if m <=? 2 then y - 1 else y in
  let era := y' / 400 in
  let yoe := y' - era * 400 in
  let doy := (153 * (if 2 <? m then m - 3 else m + 9) + 2) / 5 + d - 1 in
  let doe := yoe * 365 + yoe / 4 - yoe / 100 + doy in
  era * 146097 + doe - 719468.

(** Year, month and day of a number of days since 1970-01-01. *)
Definition civil_from_days (z0 : Z) : Z * Z * Z :=
  let z := z0 + 719468 in
  let era := z / 146097 in
  let doe := z - era * 146097 in
  let yoe := (doe - doe / 1460 + doe / 36524 - doe / 146096) / 365 in
  let doy := doe - (365 * yoe + yoe / 4 - yoe / 100) in
  let mp := (5 * doy + 2) / 153 in
  let d := doy - (153 * mp + 2) / 5 + 1 in
  let m := if mp <? 10 then mp + 3 else mp - 9 in
  (yoe + era * 400 + (if m <=? 2 then 1 else 0), m, d).

Definition digit (n : Z) : ascii := ascii_of_nat (48 + Z.to_nat (n mod 10)).

(** The decimal digits of [n], on [width] characters. *)
Fixpoint pad (width : nat) (n : Z) : string :=
  match width with
  | O => EmptyString
  | S w => pad w (n / 10) +:+ String (digit n) EmptyString
  end.

(** [Date.prototype.toISOString] of a valid time value. *)
Definition toISOString (t : Z) : string :=
  let day := t / 86400000 in
  let ms := t mod 86400000 in
  let '(y, m, d) := civil_from_days day in
  let year :=
    if (0 <=? y) && (y <=? 9999) then pad 4 y
    else (if y <? 0 then "-" else "+") +:+ pad 6 (Z.abs y) in
  year +:+ "-" +:+ pad 2 m +:+ "-" +:+ pad 2 d +:+ "T" +:+
  pad 2 (ms / 3600000) +:+ ":" +:+ pad 2 (ms / 60000 mod 60) +:+ ":" +:+
  pad 2 (ms / 1000 mod 60) +:+ "." +:+ pad 3 (ms mod 1000) +:+ "Z".

(** *** A parser for the Date Time String Format

    [YYYY-MM-DD], optionally followed by [THH:mm:ss] or [THH:mm:ss.sss]
    and [Z].  An engine accepts more than this interchange format, in
    ways the language leaves to it; this parser is the instance used in
    the examples and rejects the rest. *)

Definition digit_value (c : ascii) : option Z :=
  let n := nat_of_ascii c in
  if ((48 <=? n)%nat && (n <=? 57)%nat)%bool then Some (Z.of_nat (n - 48)) else None.

(** The value of the first [width] characters when they are digits, and
    the rest. *)
Fixpoint read_digits (width : nat) (acc : Z) (s : string) : option (Z * string) :=
  match width with
  | O => Some (acc, s)
  | S w =>
      match s with
      | String c rest =>
          match digit_value c with
          | Some v => read_digits w (10 * acc + v) rest
          | None => None
          end
      | EmptyString => None
      end
  end.

Definition expect (c : ascii) (s : string) : option string :=
  match s with
  | String c' rest => if Ascii.eqb c c' then Some rest else None
  | EmptyString => None
  end.

Definition days_in_month (y m : Z) : Z :=
  if m =? 2 then
    (if ((y mod 4 =? 0) && negb (y mod 100 =? 0)) || (y mod 400 =? 0) then 29 else 28)
  else if (m =? 4) || (m =? 6) || (m =? 9) || (m =? 11) then 30 else 31.

Definition parse_time (s : string) : option Z :=
  '(h, s) ← read_digits 2 0 s;
  s ← expect ":" s;
  '(mi, s) ← read_digits 2 0 s;
  s ← expect ":" s;
  '(sec, s) ← read_digits 2 0 s;
  '(ms, s) ← match expect "." s with
             | Some s' => read_digits 3 0 s'
             | None => Some (0, s)
             end;
  s ← expect "Z" s;
  if String.eqb s EmptyString && (h <=? 23) && (mi <=? 59) && (sec <=? 59)
  then Some (h * 3600000 + mi * 60000 + sec * 1000 + ms) else None.

Definition Date_parse_ISO (s : string) : TimeValue :=
  '(y, s) ← read_digits 4 0 s;
  s ← expect "-" s;
  '(m, s) ← read_digits 2 0 s;
  s ← expect "-" s;
  '(d, s) ← read_digits 2 0 s;
  if (1 <=? m) && (m <=? 12) && (1 <=? d) && (d <=? days_in_month y m) then
    let day := days_from_civil y m d * 86400000 in
    match s with
    | EmptyString => Some day
    | String c rest =>
        if Ascii.eqb c "T" then t ← parse_time rest; Some (day + t) else None
    end
  else None.

End JS.

(** ** The analytics engine *)

Module Ticket.
Import JS.

Record t : Type := make {
  id : JSValue;
  severity : JSValue;
  status : JSValue;
  createdDate : JSValue;
  resolvedDate : JSValue
}.
End Ticket.

Module Analytics.
Import Num JS.

Record Request : Type := {
  projectId : string;
  tickets : list Ticket.t
}.

Record Metrics : Type := {
  metrics_projectId : string;
  timestamp : string;
  severityDistribution : JSObject;
  averageResolutionTimes : JSObject;
  slaCompliance : JSObject;
  ticketCount : Z;
  openTickets : Z;
  resolvedTickets : Z
}.

(** The event the handler receives; [event_tickets] is [None] when
    [event.tickets] is not an array. *)
Record Event : Type := {
  event_projectId : JSValue;
  event_tickets : option (list Ticket.t)
}.

Record Validation : Type := {
  isValid : bool;
  errors : list string
}.

(** [typeof v === 'string']. *)
Definition is_string (v : JSValue) : bool :=
  match v with
  | JString _ => true
  | _ => false
  end.

(** [['low', 'medium', 'high', 'critical'].includes(ticket.severity?.toLowerCase())]. *)
Definition includes_severity (ticket : Ticket.t) : Result bool :=
  severity ← optional_toLowerCase (Ticket.severity ticket);
  mret (match severity with
        | Some s => existsb (String.eqb s) ["low"; "medium"; "high"; "critical"]
        | None => false
        end).

(** [errors.push(message)] when [condition] holds. *)
Definition push_if (condition : bool) (message : string) (errors : list string)
    : list string :=
  if condition then (errors ++ [message])%list else errors.

Definition validateRequest (event : Event) : Result Validation :=
  let errors := [] in
  let errors :=
    push_if (negb (truthy (event_projectId event)) || negb (is_string (event_projectId event)))
            "projectId is required and must be a string" errors in
  errors ←
    match event_tickets event with
    | None => mret (push_if true "tickets must be an array" errors)
    | Some [] => mret (push_if true "tickets array cannot be empty" errors)
    | Some tickets =>
        (* Validate individual tickets *)
        forEach_indexed 0 tickets (fun index ticket errors =>
          let errors :=
            push_if (negb (truthy (Ticket.id ticket)))
                    ("Ticket " +:+ pretty index +:+ ": id is required") errors in
          let errors :=
            push_if (negb (truthy (Ticket.severity ticket)))
                    ("Ticket " +:+ pretty index +:+ ": severity is required") errors in
          included ← includes_severity ticket;
          mret (push_if (negb included)
                  ("Ticket " +:+ pretty index
                   +:+ ": severity must be one of: low, medium, high, critical") errors))
          errors
    end;
  mret {| isValid := (length errors =? 0)%nat; errors := errors |}.

(** The object literal [{low: 0, medium: 0, high: 0, critical: 0}]. *)
Definition zeros : JSObject :=
  [("low", PNum zero); ("medium", PNum zero); ("high", PNum zero); ("critical", PNum zero)].

(** [x !== undefined]. *)
Definition defined (v : option PropValue) : bool :=
  match v with
  | Some _ => true
  | None => false
  end.

Definition calculateSeverityDistribution (tickets : list Ticket.t) : Result JSObject :=
  let distribution := zeros in
  let total := Z.of_nat (length tickets) in
  distribution ← forEach tickets (fun ticket distribution =>
    severity ← optional_toLowerCase (Ticket.severity ticket);
    let severity := property_key severity in
    if defined (get distribution severity)
    then mret (increment distribution severity)
    else mret distribution) distribution;
  (* Convert to percentages with one decimal place *)
  mret (fold_left (fun distribution key =>
          set distribution key
            (if 0 <? total
             then PNum (parseFloat (toFixed1
                    (mul (div (to_number (get distribution key)) (of_Z total)) (of_Z 100))))
             else PNum zero))
        (keys distribution) distribution).

(** [(resolved - created) / (1000 * 60 * 60)] on the two Date objects. *)
Definition hoursToResolve (Date_parse : string -> TimeValue) (ticket : Ticket.t) : number :=
  let created := new_Date Date_parse (Ticket.createdDate ticket) in
  let resolved := new_Date Date_parse (Ticket.resolvedDate ticket) in
  div (sub (valueOf resolved) (valueOf created)) (of_Z (1000 * 60 * 60)).

(** [ticket.createdDate && ticket.resolvedDate] as a condition. *)
Definition has_both_dates (ticket : Ticket.t) : bool :=
  truthy (Ticket.createdDate ticket) && truthy (Ticket.resolvedDate ticket).

Section WithDateParser.
Variable Date_parse : string -> TimeValue.

Definition calculateResolutionTimes (tickets : list Ticket.t) : Result JSObject :=
  let resolutionTimes := zeros in
  let counts := zeros in
  '(resolutionTimes, counts) ← forEach tickets (fun ticket '(resolutionTimes, counts) =>
    if has_both_dates ticket then
      severity ← optional_toLowerCase (Ticket.severity ticket);
      let severity := property_key severity in
      if defined (get resolutionTimes severity) then
        let hoursToResolve := hoursToResolve Date_parse ticket in
        mret (add_assign resolutionTimes severity hoursToResolve,
              increment counts severity)
      else mret (resolutionTimes, counts)
    else mret (resolutionTimes, counts)) (resolutionTimes, counts);
  (* Calculate averages *)
  mret (fold_left (fun resolutionTimes severity =>
          if ltb zero (to_number (get counts severity))
          then set resolutionTimes severity
                 (PNum (parseFloat (toFixed1
                    (div (to_number (get resolutionTimes severity))
                         (to_number (get counts severity))))))
          else resolutionTimes)
        (keys resolutionTimes) resolutionTimes).

(** SLA targets in hours. *)
Definition slaTargets : JSObject :=
  [("critical", PNum (of_Z 4)); ("high", PNum (of_Z 24));
   ("medium", PNum (of_Z 72)); ("low", PNum (of_Z 168))].

Definition calculateSLACompliance (tickets : list Ticket.t) : Result JSObject :=
  let compliance := zeros in
  let counts := zeros in
  '(compliance, counts) ← forEach tickets (fun ticket '(compliance, counts) =>
    if has_both_dates ticket then
      severity ← optional_toLowerCase (Ticket.severity ticket);
      let severity := property_key severity in
      if defined (get slaTargets severity) then
        let hoursToResolve := hoursToResolve Date_parse ticket in
        let compliance :=
          if leb hoursToResolve (to_number (get slaTargets severity))
          then increment compliance severity
          else compliance in
        mret (compliance, increment counts severity)
      else mret (compliance, counts)
    else mret (compliance, counts)) (compliance, counts);
  (* Calculate compliance percentages *)
  mret (fold_left (fun compliance severity =>
          if ltb zero (to_number (get counts severity))
          then set compliance severity
                 (PNum (parseFloat (toFixed1
                    (mul (div (to_number (get compliance severity))
                              (to_number (get counts severity)))
                         (of_Z 100)))))
          else compliance)
        (keys compliance) compliance).

Definition is_resolved (t : Ticket.t) : bool :=
  strict_eq_string (Ticket.status t) "resolved"
  || strict_eq_string (Ticket.status t) "closed".

Definition is_open (t : Ticket.t) : bool :=
  negb (strict_eq_string (Ticket.status t) "resolved")
  && negb (strict_eq_string (Ticket.status t) "closed").

(** [processTickets], with the reading [now] of the clock that
    [new Date()] takes. *)
Definition processTickets (now : Z) (request : Request) : Result Metrics :=
  sd ← calculateSeverityDistribution (tickets request);
  art ← calculateResolutionTimes (tickets request);
  slac ← calculateSLACompliance (tickets request);
  mret {| metrics_projectId := projectId request;
          timestamp := toISOString now;
          severityDistribution := sd;
          averageResolutionTimes := art;
          slaCompliance := slac;
          ticketCount := Z.of_nat (length (tickets request));
          openTickets := Z.of_nat (length (List.filter is_open (tickets request)));
          resolvedTickets := Z.of_nat (length (List.filter is_resolved (tickets request))) |}.

End WithDateParser.

End Analytics.

(** ** The metrics store *)

Module Dynamo.
Import Num JS Analytics.

Inductive AttributeValue : Type :=
| AString (s : string)
| ANumber (x : number)
| AMap (o : JSObject).

Abbreviation Item := (gmap string AttributeValue).

(** The operand of a [SET] action: a value, or
    [if_not_exists(attribute, value)]. *)
Inductive Operand : Type :=
| Value (v : AttributeValue)
| If_not_exists (attribute : string) (v : AttributeValue).

(** The parameters of an update; the [SET] actions are listed with the
    [#ttlField] alias already replaced by [ttl], and [ReturnValues] is
    [ALL_NEW]. *)
Record UpdateParams : Type := {
  TableName : string;
  Key : string * string;                 (* [projectId], [timestamp] *)
  UpdateExpression : list (string * Operand)
}.

(** The document client and the service behind it: the tables, the
    requests received so far, and what the service will answer to the
    coming requests ([Some e] rejects a request with [e]). *)
Record Client : Type := {
  tables : gmap string (gmap (string * string) Item);
  requests : list UpdateParams;
  outcomes : list (option Exception)
}.

Definition key_attributes (key : string * string) : Item :=
  <["projectId" := AString key.1]> (<["timestamp" := AString key.2]> ∅).

(** Operands are evaluated on the item as it was before the update. *)
Definition operand_value (old : Item) (op : Operand) : AttributeValue :=
  match op with
  | Value v => v
  | If_not_exists a v => default v (old !! a)
  end.

Definition apply_actions (old : Item) (actions : list (string * Operand)) : Item :=
  fold_left (fun item action => <[action.1 := operand_value old action.2]> item)
            actions old.

(** [dynamoDB.update(params).promise()]: the attributes of the item as
    they are after the update, or the rejection. *)
Definition update (params : UpdateParams) (c : Client) : Result Item * Client :=
  let received := (requests c ++ [params])%list in
  let failed e :=
    (Throw e, {| tables := tables c; requests := received; outcomes := tail (outcomes c) |}) in
  match head (outcomes c) with
  | Some (Some e) => failed e
  | _ =>
      match tables c !! TableName params with
      | None => failed (AWSError "ResourceNotFoundException" "Requested resource not found")
      | Some table =>
          let old := default (key_attributes (Key params)) (table !! Key params) in
          let new := apply_actions old (UpdateExpression params) in
          (Ok new,
           {| tables := <[TableName params := <[Key params := new]> table]> (tables c);
              requests := received;
              outcomes := tail (outcomes c) |})
      end
  end.

(** [error.code]. *)
Definition code (e : Exception) : option string :=
  match e with
  | AWSError c _ => Some c
  | _ => None
  end.

(** [error.message]. *)
Definition message (e : Exception) : string :=
  match e with
  | TypeError m | AWSError _ m | Error m => m
  end.

(** [process.env.DYNAMODB_TABLE || 'MetricsHistory']. *)
Definition table_name (DYNAMODB_TABLE : option string) : string :=
  match DYNAMODB_TABLE with
  | Some name => if String.eqb name EmptyString then "MetricsHistory" else name
  | None => "MetricsHistory"
  end.

(** [Math.floor(Date.now() / 1000) + (365 * 24 * 60 * 60)]. *)
Definition one_year_ttl (now : Z) : number :=
  add (floor (div (of_Z now) (of_Z 1000))) (of_Z (365 * 24 * 60 * 60)).

Definition params_of (DYNAMODB_TABLE : option string) (now updatedAt : Z)
    (metrics : Metrics) : UpdateParams :=
  {| TableName := table_name DYNAMODB_TABLE;
     Key := (metrics_projectId metrics, timestamp metrics);
     UpdateExpression :=
       [ ("severityDistribution", Value (AMap (severityDistribution metrics)));
         ("averageResolutionTimes", Value (AMap (averageResolutionTimes metrics)));
         ("slaCompliance", Value (AMap (slaCompliance metrics)));
         ("ticketCount", Value (ANumber (of_Z (ticketCount metrics))));
         ("openTickets", Value (ANumber (of_Z (openTickets metrics))));
         ("resolvedTickets", Value (ANumber (of_Z (resolvedTickets metrics))));
         ("ttl", If_not_exists "ttl" (ANumber (one_year_ttl now)));
         ("updatedAt", Value (AString (toISOString updatedAt))) ] |}.

(** [error.code === name]. *)
Definition code_is (e : Exception) (name : string) : bool :=
  match code e with
  | Some c => String.eqb c name
  | None => false
  end.

(** [storeMetrics], with the environment variable and the two readings
    of the clock it takes ([Date.now()], then [new Date()]). *)
Definition storeMetrics (DYNAMODB_TABLE : option string) (now updatedAt : Z)
    (metrics : Metrics) (c : Client) : Result Item * Client :=
  let params := params_of DYNAMODB_TABLE now updatedAt metrics in
  match update params c with
  | (Ok attributes, c') => (Ok attributes, c')
  | (Throw error, c') =>
      (* Provide more specific error messages *)
      if code_is error "ResourceNotFoundException" then
        (Throw (Error ("DynamoDB table '" +:+ TableName params +:+ "' not found")), c')
      else if code_is error "ProvisionedThroughputExceededException" then
        (Throw (Error "DynamoDB write capacity exceeded. Please try again later."), c')
      else if code_is error "ValidationException" then
        (Throw (Error ("DynamoDB validation error: " +:+ message error)), c')
      else (Throw error, c')
  end.

End Dynamo.

(** ** The Lambda handler *)

Module Handler.
Import Num JS Analytics Dynamo.

(** The two variables of [process.env] that the handler reads after the
    client has been built. *)
Record Environment : Type := {
  NODE_ENV : option string;
  DYNAMODB_TABLE : option string
}.

(** The object that [JSON.stringify] turns into the [body] of a
    response. *)
Inductive Body : Type :=
| InvalidRequest (message : string) (errors : list string)
| Processed (message : string) (data : Item)
            (processingTimeMs : number) (ticketsProcessed : Z)
| Failed (message : string) (error : string).

(** [X_Processing_Time] holds the Number [duration] of the template
    [`${duration}ms`]; the header is absent from the responses 400 and
    500. *)
Record Headers : Type := {
  Content_Type : string;
  X_Request_ID : string;
  X_Processing_Time : option number
}.

Record Response : Type := {
  statusCode : Z;
  headers : Headers;
  body : Body
}.

(** [generateRequestId], with the reading [now] of the clock and the
    text [random36] of [Math.random().toString(36)]. *)
Definition generateRequestId (now : Z) (random36 : string) : string :=
  "req-" +:+ pretty now +:+ "-" +:+ substring 2 9 random36.

(** The event as [processTickets] reads it, once [validateRequest] has
    let it through. *)
Definition request_of (event : Event) : option Request :=
  match event_projectId event, event_tickets event with
  | JString projectId, Some tickets =>
      Some {| projectId := projectId; tickets := tickets |}
  | _, _ => None
  end.

(** The response of the [catch] block. *)
Definition internal_error (env : Environment) (requestId : string)
    (error : Exception) : Response :=
  {| statusCode := 500;
     headers := {| Content_Type := "application/json";
                   X_Request_ID := requestId;
                   X_Processing_Time := None |};
     body := Failed "Internal Server Error"
               (match NODE_ENV env with
                | Some mode =>
                    if String.eqb mode "development" then message error
                    else "An unexpected error occurred"
                | None => "An unexpected error occurred"
                end) |}.

Section WithDateParser.
Variable Date_parse : string -> TimeValue.

(** [handler].  [clock n] is the [n]-th reading of the clock during the
    invocation ([Date.now()] or [new Date()], counted from 0), and
    [random36] the text of the one random draw.  What is written to
    the console is left out. *)
Definition handler (env : Environment) (clock : nat -> Z) (random36 : string)
    (event : Event) (c : Client) : Response * Client :=
  let startTime := clock 0%nat in
  match validateRequest event with
  | Throw error =>
      (internal_error env (generateRequestId (clock 2%nat) random36) error, c)
  | Ok validationResult =>
      if negb (isValid validationResult) then
        ({| statusCode := 400;
            headers := {| Content_Type := "application/json";
                          X_Request_ID := generateRequestId (clock 1%nat) random36;
                          X_Processing_Time := None |};
            body := InvalidRequest "Invalid request format"
                                   (errors validationResult) |}, c)
      else
        match request_of event with
        | None =>
            (* not reached: a valid event has a string [projectId] and
               an array [tickets] *)
            (internal_error env (generateRequestId (clock 3%nat) random36)
               (TypeError "Cannot read properties of undefined"), c)
        | Some request =>
            (* Process analytics *)
            match processTickets Date_parse (clock 1%nat) request with
            | Throw error =>
                (internal_error env (generateRequestId (clock 3%nat) random36) error, c)
            | Ok metrics =>
                (* Store in DynamoDB *)
                match storeMetrics (DYNAMODB_TABLE env) (clock 2%nat) (clock 3%nat)
                                   metrics c with
                | (Throw error, c') =>
                    (internal_error env (generateRequestId (clock 5%nat) random36) error,
                     c')
                | (Ok storedMetrics, c') =>
                    let duration := sub (of_Z (clock 4%nat)) (of_Z startTime) in
                    ({| statusCode := 200;
                        headers :=
                          {| Content_Type := "application/json";
                             X_Request_ID := generateRequestId (clock 5%nat) random36;
                             X_Processing_Time := Some duration |};
                        body := Processed "Analytics processed successfully"
                                  storedMetrics duration
                                  (Z.of_nat (length (tickets request))) |}, c')
                end
            end
        end
  end.
End WithDateParser.
End Handler.

(** ** The analytics engine, on a store of objects

    The same four functions with the objects they handle kept in a store:
    the array of tickets and the tickets are objects that the caller
    shares with [processTickets], the accumulators are objects that the
    functions create and update in place.  This is where reading is told
    from writing. *)

Module Memory.
Import Num JS Analytics.

Abbreviation address := positive.

(** What a reference points at. *)
Inductive Cell : Type :=
| CArray (elements : list address)      (* an array of references *)
| CTicket (ticket : Ticket.t)           (* a ticket: an object with scalar fields *)
| CPlain (o : JSObject).                (* an object literal used as accumulator *)

(** The store. *)
Abbreviation Heap := (gmap address Cell).

(** A computation: it may update the store, and return or throw. *)
Definition M (A : Type) : Type := Heap -> Result A * Heap.

#[export] Instance M_ret : MRet M := fun A a h => (Ok a, h).
#[export] Instance M_bind : MBind M := fun A B k m h =>
match m h with
| (Ok a, h') => k a h'
| (Throw e, h') => (Throw e, h')
end.

Definition throw {A : Type} (e : Exception) : M A := fun h => (Throw e, h).

(** A pure step that may throw. *)
Definition lift {A : Type} (r : Result A) : M A := fun h => (r, h).

(** A new object. *)
Definition alloc (c : Cell) : M address := fun h =>
let a := fresh (dom h) in (Ok a, <[a := c]> h).

(** A reference always points at an object: the other case does not
  arise, and is made to throw. *)
Definition read (a : address) : M Cell := fun h =>
match h !! a with
| Some c => (Ok c, h)
| None => (Throw (Error "dangling reference"), h)
end.

Definition write (a : address) (c : Cell) : M unit := fun h => (Ok tt, <[a := c]> h).

(** [ticket.name], for one of the fields of a ticket; arrays and
  accumulators have no such property. *)
Definition get_field (ticket : address) (name : Ticket.t -> JSValue) : M JSValue :=
c ← read ticket;
match c with
| CTicket t => mret (name t)
| _ => mret JUndefined
end.

(** The elements of an array; [forEach], [filter] and [length] are
  properties of arrays only. *)
Definition elements_of (array : address) : M (list address) :=
c ← read array;
match c with
| CArray elements => mret elements
| _ => throw (TypeError "not an array")
end.

(** [array.length]. *)
Definition length_of (array : address) : M Z :=
elements ← elements_of array; mret (Z.of_nat (length elements)).

(** [array.push(x)]. *)
Definition push (array : address) (x : address) : M unit :=
elements ← elements_of array; write array (CArray (elements ++ [x])).

(** The accumulator that a local variable is bound to. *)
Definition plain (a : address) : M JSObject :=
c ← read a;
match c with
| CPlain o => mret o
| _ => throw (Error "not an object literal")
end.

(** [o[key]]. *)
Definition get_property (o : address) (key : string) : M (option PropValue) :=
object ← plain o; mret (get object key).

(** [o[key] = v]. *)
Definition set_property (o : address) (key : string) (v : PropValue) : M unit :=
object ← plain o; write o (CPlain (set object key v)).

(** [o[key]++]. *)
Definition increment_property (o : address) (key : string) : M unit :=
object ← plain o; write o (CPlain (increment object key)).

(** [o[key] += x]. *)
Definition add_assign_property (o : address) (key : string) (x : number) : M unit :=
object ← plain o; write o (CPlain (add_assign object key x)).

(** [Object.keys(o)]. *)
Definition keys_of (o : address) : M (list string) :=
object ← plain o; mret (keys object).

(** [array.forEach(callback)]: the length is read once, each element is
  read from the array when its turn comes. *)
Fixpoint forEach_from (array : address) (callback : address -> M unit)
  (index remaining : nat) : M unit :=
match remaining with
| O => mret tt
| S remaining =>
    elements ← elements_of array;
    match elements !! index with
    | Some x => callback x;; forEach_from array callback (S index) remaining
    | None => forEach_from array callback (S index) remaining
    end
end.

Definition forEach (array : address) (callback : address -> M unit) : M unit :=
elements ← elements_of array;
forEach_from array callback 0 (length elements).

(** [keys.forEach(callback)] on the array that [Object.keys] has just
  made, which nothing else refers to. *)
Fixpoint forEach_key (keys : list string) (callback : string -> M unit) : M unit :=
match keys with
| [] => mret tt
| key :: rest => callback key;; forEach_key rest callback
end.

(** [array.filter(predicate)]: a new array, to which the elements that
  pass are added. *)
Definition filter (array : address) (predicate : address -> M bool) : M address :=
result ← alloc (CArray []);
forEach array (fun x =>
  keep ← predicate x;
  if (keep : bool) then push result x else mret tt);;
mret result.

Definition calculateSeverityDistribution (tickets : address) : M address :=
distribution ← alloc (CPlain zeros);
total ← length_of tickets;
forEach tickets (fun ticket =>
  severity ← get_field ticket Ticket.severity;
  severity ← lift (optional_toLowerCase severity);
  let severity := property_key severity in
  current ← get_property distribution severity;
  if defined current
  then increment_property distribution severity
  else mret tt);;
(* Convert to percentages with one decimal place *)
keys ← keys_of distribution;
forEach_key keys (fun key =>
  if 0 <? total then
    current ← get_property distribution key;
    set_property distribution key
      (PNum (parseFloat (toFixed1
         (mul (div (to_number current) (of_Z total)) (of_Z 100)))))
  else set_property distribution key (PNum zero));;
mret distribution.

(** [ticket.createdDate && ticket.resolvedDate] as a condition: the second
  field is read when the first is truthy. *)
Definition has_both_dates (ticket : address) : M bool :=
createdDate ← get_field ticket Ticket.createdDate;
if truthy createdDate
then resolvedDate ← get_field ticket Ticket.resolvedDate; mret (truthy resolvedDate)
else mret false.

Section WithDateParser.
Variable Date_parse : string -> TimeValue.

(** [(resolved - created) / (1000 * 60 * 60)] on the two Date objects made
from the fields of the ticket. *)
Definition hoursToResolve (ticket : address) : M number :=
createdDate ← get_field ticket Ticket.createdDate;
let created := new_Date Date_parse createdDate in
resolvedDate ← get_field ticket Ticket.resolvedDate;
let resolved := new_Date Date_parse resolvedDate in
mret (div (sub (valueOf resolved) (valueOf created)) (of_Z (1000 * 60 * 60))).

Definition calculateResolutionTimes (tickets : address) : M address :=
resolutionTimes ← alloc (CPlain zeros);
counts ← alloc (CPlain zeros);
forEach tickets (fun ticket =>
both ← has_both_dates ticket;
if (both : bool) then
  severity ← get_field ticket Ticket.severity;
  severity ← lift (optional_toLowerCase severity);
  let severity := property_key severity in
  current ← get_property resolutionTimes severity;
  if defined current then
    hoursToResolve ← hoursToResolve ticket;
    add_assign_property resolutionTimes severity hoursToResolve;;
    increment_property counts severity
  else mret tt
else mret tt);;
(* Calculate averages *)
keys ← keys_of resolutionTimes;
forEach_key keys (fun severity =>
count ← get_property counts severity;
if ltb zero (to_number count) then
  sum ← get_property resolutionTimes severity;
  count ← get_property counts severity;
  set_property resolutionTimes severity
    (PNum (parseFloat (toFixed1 (div (to_number sum) (to_number count)))))
else mret tt);;
mret resolutionTimes.

Definition calculateSLACompliance (tickets : address) : M address :=
(* SLA targets in hours *)
slaTargets ← alloc (CPlain slaTargets);
compliance ← alloc (CPlain zeros);
counts ← alloc (CPlain zeros);
forEach tickets (fun ticket =>
both ← has_both_dates ticket;
if (both : bool) then
  severity ← get_field ticket Ticket.severity;
  severity ← lift (optional_toLowerCase severity);
  let severity := property_key severity in
  target ← get_property slaTargets severity;
  if defined target then
    hoursToResolve ← hoursToResolve ticket;
    target ← get_property slaTargets severity;
    (if leb hoursToResolve (to_number target)
     then increment_property compliance severity
     else mret tt);;
    increment_property counts severity
  else mret tt
else mret tt);;
(* Calculate compliance percentages *)
keys ← keys_of compliance;
forEach_key keys (fun severity =>
count ← get_property counts severity;
if ltb zero (to_number count) then
  compliant ← get_property compliance severity;
  count ← get_property counts severity;
  set_property compliance severity
    (PNum (parseFloat (toFixed1
       (mul (div (to_number compliant) (to_number count)) (of_Z 100)))))
else mret tt);;
mret compliance.

(** The request: its array of tickets is a reference. *)
Record Request : Type := {
projectId : string;
tickets : address
}.

(** The object that [processTickets] returns: the three maps are
references. *)
Record Metrics : Type := {
metrics_projectId : string;
timestamp : string;
severityDistribution : address;
averageResolutionTimes : address;
slaCompliance : address;
ticketCount : Z;
openTickets : Z;
resolvedTickets : Z
}.

(** [t.status !== 'resolved' && t.status !== 'closed']. *)
Definition is_open (t : address) : M bool :=
status ← get_field t Ticket.status;
if negb (strict_eq_string status "resolved")
then status ← get_field t Ticket.status; mret (negb (strict_eq_string status "closed"))
else mret false.

(** [t.status === 'resolved' || t.status === 'closed']. *)
Definition is_resolved (t : address) : M bool :=
status ← get_field t Ticket.status;
if strict_eq_string status "resolved"
then mret true
else status ← get_field t Ticket.status; mret (strict_eq_string status "closed").

(** [processTickets], with the reading [now] of the clock that
[new Date()] takes. *)
Definition processTickets (now : Z) (request : Request) : M Metrics :=
let timestamp := toISOString now in
sd ← calculateSeverityDistribution (tickets request);
art ← calculateResolutionTimes (tickets request);
slac ← calculateSLACompliance (tickets request);
count ← length_of (tickets request);
opened ← filter (tickets request) is_open;
opened ← length_of opened;
resolved ← filter (tickets request) is_resolved;
resolved ← length_of resolved;
mret {| metrics_projectId := projectId request;
      timestamp := timestamp;
      severityDistribution := sd;
      averageResolutionTimes := art;
      slaCompliance := slac;
      ticketCount := count;
      openTickets := opened;
      resolvedTickets := resolved |}.

End WithDateParser.

End Memory.

(** ** What the claims speak of *)

Module Spec.
Import Num JS Analytics.

(** The four canonical severities. *)
Definition canonical : list string := ["low"; "medium"; "high"; "critical"].

(** A ticket whose severity is a string, or is absent. *)
Definition well_formed (t : Ticket.t) : Prop :=
  match Ticket.severity t with
  | JBool _ | JNumber _ => False
  | _ => True
  end.

(** The lower-cased severity of the ticket is [key]. *)
Definition has_severity (key : string) (t : Ticket.t) : bool :=
  match Ticket.severity t with
  | JString s => String.eqb (toLowerCase s) key
  | _ => false
  end.

Definition count (p : Ticket.t -> bool) (tickets : list Ticket.t) : Z :=
  Z.of_nat (length (List.filter p tickets)).

(** The severity of the ticket is one of the four. *)
Definition recognized (t : Ticket.t) : bool :=
  existsb (fun key => has_severity key t) canonical.

(** The value that an object holds under [key], as a real number. *)
Definition value (o : JSObject) (key : string) : R := to_R (to_number (get o key)).

(** The four percentages of a distribution, added up. *)
Definition sum_of_values (o : JSObject) : R :=
  (value o "low" + value o "medium" + value o "high" + value o "critical")%R.

(** The status is exactly [resolved] or [closed]. *)
Definition resolved_status (t : Ticket.t) : bool :=
  match Ticket.status t with
  | JString s => String.eqb s "resolved" || String.eqb s "closed"
  | _ => false
  end.

(** The record [m] with another [timestamp]. *)
Definition with_timestamp (ts : string) (m : Metrics) : Metrics :=
  {| metrics_projectId := metrics_projectId m;
     timestamp := ts;
     severityDistribution := severityDistribution m;
     averageResolutionTimes := averageResolutionTimes m;
     slaCompliance := slaCompliance m;
     ticketCount := ticketCount m;
     openTickets := openTickets m;
     resolvedTickets := resolvedTickets m |}.

Definition fmap_result {A B : Type} (f : A -> B) (r : Result A) : Result B :=
  match r with
  | Ok a => Ok (f a)
  | Throw e => Throw e
  end.

(** A Number between 0 and 100. *)
Definition between_0_100 (x : number) : bool := leb zero x && leb x (of_Z 100).

(** The Number written [n / 10] with one decimal. *)
Definition one_decimal (n : Z) : number := parseFloat (NumeralFixed false n).

(** [n / 10] is a multiple of [1/10] nearest to [num / den]. *)
Definition nearest_tenths (n num den : Z) : Prop :=
  2 * Z.abs (n * den - 10 * num) <= den.

(** The fixed SLA target of a severity, in hours. *)
Definition sla_target (key : string) : Z :=
  if String.eqb key "critical" then 4
  else if String.eqb key "high" then 24
  else if String.eqb key "medium" then 72
  else if String.eqb key "low" then 168
  else 0.

(** The ticket has both dates and the severity [key]. *)
Definition qualifies (key : string) (t : Ticket.t) : bool :=
  has_both_dates t && has_severity key t.

Section WithDateParser.
Variable Date_parse : string -> TimeValue.

(** A qualifying ticket whose elapsed hours are within the target. *)
Definition compliant (key : string) (t : Ticket.t) : bool :=
  qualifies key t && leb (hoursToResolve Date_parse t) (of_Z (sla_target key)).

(** The hours of the qualifying tickets, added up in the order of the
    list. *)
Definition total_hours (key : string) (tickets : list Ticket.t) : number :=
  fold_left add (map (hoursToResolve Date_parse) (List.filter (qualifies key) tickets)) zero.

(** One of the two dates of the ticket is present and not a date. *)
Definition unparseable (t : Ticket.t) : bool :=
  match new_Date Date_parse (Ticket.createdDate t),
        new_Date Date_parse (Ticket.resolvedDate t) with
  | Some _, Some _ => false
  | _, _ => true
  end.
End WithDateParser.
End Spec.

Module StoreSpec.
Import Num JS Analytics Dynamo.

(** The key under which a metrics record is persisted. *)
Definition key_of (m : Metrics) : string * string := (metrics_projectId m, timestamp m).

(** The item kept under [key] in the table [name]. *)
Definition stored (c : Client) (name : string) (key : string * string) : option Item :=
  table ← tables c !! name; table !! key.

(** The service lets the next request through. *)
Definition lets_through (outcomes : list (option Exception)) : Prop :=
  forall e, head outcomes <> Some (Some e).

(** What the writer throws when the store call was rejected with [e]:
    a reworded error for the three named kinds, [e] itself otherwise. *)
Definition surfaced (table : string) (e : Exception) : Exception :=
  if code_is e "ResourceNotFoundException"
  then Error ("DynamoDB table '" +:+ table +:+ "' not found")
  else if code_is e "ProvisionedThroughputExceededException"
  then Error "DynamoDB write capacity exceeded. Please try again later."
  else if code_is e "ValidationException"
  then Error ("DynamoDB validation error: " +:+ message e)
  else e.

(** The three kinds of failure that the writer rewords. *)
Definition named_kind (e : Exception) : bool :=
  code_is e "ResourceNotFoundException"
  || code_is e "ProvisionedThroughputExceededException"
  || code_is e "ValidationException".
End StoreSpec.

Module Examples.
Import Num JS Analytics.

Definition ticket (ident severity status created resolved : JSValue) : Ticket.t :=
  Ticket.make ident severity status created resolved.

(** Resolved in twelve hours. *)
Definition twelve_hours : Ticket.t :=
  ticket (JString "T-1") (JString "high") (JString "resolved")
         (JString "2024-01-01T00:00:00Z") (JString "2024-01-01T12:00:00Z").

(** The creation date is present and is no date. *)
Definition garbled_date : Ticket.t :=
  ticket (JString "T-2") (JString "high") (JString "resolved")
         (JString "not a date") (JString "2024-01-02T00:00:00Z").

(** The same ticket without its creation date. *)
Definition missing_date : Ticket.t :=
  ticket (JString "T-2") (JString "high") (JString "resolved")
         JUndefined (JString "2024-01-02T00:00:00Z").

(** A severity outside the four. *)
Definition urgent : Ticket.t :=
  ticket (JString "T-3") (JString "urgent") (JString "open") JUndefined JUndefined.

(** A severity that is the name of a property of [Object.prototype]. *)
Definition constructor_severity : Ticket.t :=
  ticket (JString "T-4") (JString "constructor") (JString "open")
         (JString "2024-01-01T00:00:00Z") (JString "2024-01-01T12:00:00Z").

Definition request (tickets : list Ticket.t) : Request :=
  {| projectId := "PROJ"; tickets := tickets |}.

(** Two metrics records with the same key. *)
Definition sample_metrics : Metrics :=
  {| metrics_projectId := "PROJ";
     timestamp := "2024-01-01T00:00:00.000Z";
     severityDistribution := zeros;
     averageResolutionTimes := zeros;
     slaCompliance := zeros;
     ticketCount := 0;
     openTickets := 0;
     resolvedTickets := 0 |}.

Definition other_metrics : Metrics :=
  {| metrics_projectId := "PROJ";
     timestamp := "2024-01-01T00:00:00.000Z";
     severityDistribution := zeros;
     averageResolutionTimes := zeros;
     slaCompliance := zeros;
     ticketCount := 3;
     openTickets := 1;
     resolvedTickets := 2 |}.

(** A client whose table exists and is empty. *)
Definition empty_client : Dynamo.Client :=
  {| Dynamo.tables := <["MetricsHistory" := ∅]> ∅;
     Dynamo.requests := [];
     Dynamo.outcomes := [] |}.

(** A client whose store rejects the next request with [e]. *)
Definition failing_client (e : Exception) : Dynamo.Client :=
  {| Dynamo.tables := <["MetricsHistory" := ∅]> ∅;
     Dynamo.requests := [];
     Dynamo.outcomes := [Some e] |}.

Definition throttled : Exception :=
  AWSError "ProvisionedThroughputExceededException" "Rate exceeded".
End Examples.

Module Aux.
Import Num JS Analytics.

(** An accumulator object: the four counters of the literal, and what
    may have been added under [constructor]. *)
Definition obj4 (l m h c : number) (x : option PropValue) : JSObject :=
  ([("low", PNum l); ("medium", PNum m); ("high", PNum h); ("critical", PNum c)]
   ++ match x with Some v => [("constructor", v)] | None => [] end)%list.

Definition is_upper (c : ascii) : bool :=
  let n := nat_of_ascii c in ((65 <=? n)%nat && (n <=? 90)%nat)%bool.

Fixpoint no_upper (s : string) : bool :=
  match s with
  | EmptyString => true
  | String c rest => negb (is_upper c) && no_upper rest
  end.

(** The key under which a ticket is looked up in the accumulators. *)
Definition bucket_key (t : Ticket.t) : string :=
  match Ticket.severity t with
  | JString s => toLowerCase s
  | _ => "undefined"
  end.

Definition in_bucket (key : string) (t : Ticket.t) : bool :=
  String.eqb key (bucket_key t).

(** [v++] when [b] holds. *)
Definition bump (b : bool) (v : number) : number :=
  if b then add v one else v.

(** [v += x] when [b] holds. *)
Definition plus (b : bool) (x v : number) : number :=
  if b then add v x else v.

(** What [o.constructor++] leaves under [constructor]. *)
Definition bump_constructor (b : bool) (x : option PropValue) : option PropValue :=
  if b
  then Some (PNum (add (to_number (Some (default (PNative "constructor") x))) one))
  else x.

(** What [o.constructor += h] leaves under [constructor]. *)
Definition plus_constructor (b : bool) (h : number) (x : option PropValue)
    : option PropValue :=
  if b
  then Some (match default (PNative "constructor") x with
             | PNum a => PNum (add a h)
             | v => PConcat v h
             end)
  else x.

Definition bumps (p : Ticket.t -> bool) (tickets : list Ticket.t) (v : number) : number :=
  fold_left (fun v t => bump (p t) v) tickets v.

Definition pluses (p : Ticket.t -> bool) (x : Ticket.t -> number)
    (tickets : list Ticket.t) (v : number) : number :=
  fold_left (fun v t => plus (p t) (x t) v) tickets v.

Definition bumps_constructor (p : Ticket.t -> bool) (tickets : list Ticket.t)
    (x : option PropValue) : option PropValue :=
  fold_left (fun x t => bump_constructor (p t) x) tickets x.

Definition pluses_constructor (p : Ticket.t -> bool) (h : Ticket.t -> number)
    (tickets : list Ticket.t) (x : option PropValue) : option PropValue :=
  fold_left (fun x t => plus_constructor (p t) (h t) x) tickets x.

Definition qualifies_in (key : string) (t : Ticket.t) : bool :=
  has_both_dates t && in_bucket key t.

Definition compliant_in (Date_parse : string -> TimeValue) (key : string) (target : Z)
    (t : Ticket.t) : bool :=
  has_both_dates t && (in_bucket key t && leb (hoursToResolve Date_parse t) (of_Z target)).

(** The percentage that the last loop of [calculateSeverityDistribution]
    stores. *)
Definition percent (total : Z) (v : number) : number :=
  if 0 <? total
  then parseFloat (toFixed1 (mul (div v (of_Z total)) (of_Z 100)))
  else zero.
(** The counter an accumulator keeps for a canonical severity. *)
Definition pick (key : string) (a b c d : number) : number :=
  if String.eqb key "low" then a
  else if String.eqb key "medium" then b
  else if String.eqb key "high" then c
  else d.

(** Powers of two, and the relative error of one rounding: [2^-52]. *)
Definition bpow (e : Z) : R := powerRZ 2 e.

Definition u : R := / IZR (2 ^ 52).
End Aux.

(** *** The words of the claims

    Counts, dates and values as the claims word them, written on integers
    and real numbers and without the functions of the code. *)

Module Reading.
Import Num JS.

(** The capital letters and, in the same order, their small forms. *)
Definition capitals : list (ascii * ascii) :=
  combine (list_ascii_of_string "ABCDEFGHIJKLMNOPQRSTUVWXYZ")
          (list_ascii_of_string "abcdefghijklmnopqrstuvwxyz").

Definition small (c : ascii) : ascii :=
  match List.find (fun p => Ascii.eqb (fst p) c) capitals with
  | Some p => snd p
  | None => c
  end.

(** The string with its capital letters made small. *)
Fixpoint lower_cased (s : string) : string :=
  match s with
  | EmptyString => EmptyString
  | String c rest => String (small c) (lower_cased rest)
  end.

(** The severity of the ticket is a string that, lower-cased, is [key]. *)
Definition severity_is (key : string) (t : Ticket.t) : bool :=
  match Ticket.severity t with
  | JString s => String.eqb (lower_cased s) key
  | _ => false
  end.

(** A field that is there: not [undefined], [null], [false], [0], NaN or
    the empty string. *)
Definition present (v : JSValue) : bool :=
  match v with
  | JUndefined | JNull | JBool false => false
  | JBool true => true
  | JNumber (S754_finite _ _ _) | JNumber (S754_infinity _) => true
  | JNumber _ => false
  | JString EmptyString => false
  | JString (String _ _) => true
  end.

(** The ticket has both dates. *)
Definition dated (t : Ticket.t) : bool :=
  present (Ticket.createdDate t) && present (Ticket.resolvedDate t).

(** The ticket has both dates and the severity [key]. *)
Definition counted (key : string) (t : Ticket.t) : bool :=
  dated t && severity_is key t.

(** One hour, in milliseconds. *)
Definition hour : Z := 3600000.

(** The target of a severity, in hours. *)
Definition target (key : string) : Z :=
  match List.find (fun p => String.eqb (fst p) key)
          [("critical", 4); ("high", 24); ("medium", 72); ("low", 168)] with
  | Some p => snd p
  | None => 0
  end.

Section WithDateParser.
Variable Date_parse : string -> TimeValue.

(** The parser gives time values: at most 8.64e15 milliseconds from the
    epoch, as the language requires of [Date.parse]. *)
Definition time_values : Prop :=
  forall s t, Date_parse s = Some t -> Z.abs t <= 8640000000000000.

(** The milliseconds from the creation to the resolution, when both
    dates are dates. *)
Definition elapsed (t : Ticket.t) : option Z :=
  match new_Date Date_parse (Ticket.createdDate t),
        new_Date Date_parse (Ticket.resolvedDate t) with
  | Some created, Some resolved => Some (resolved - created)
  | _, _ => None
  end.

(** Resolved within the target of [key]: the elapsed milliseconds are
    at most the target in hours. *)
Definition on_time (key : string) (t : Ticket.t) : bool :=
  match elapsed t with
  | Some ms => ms <=? target key * hour
  | None => false
  end.

Definition meets (key : string) (t : Ticket.t) : bool :=
  counted key t && on_time key t.

(** A counted ticket one of whose dates is no date. *)
Definition undated (key : string) (t : Ticket.t) : bool :=
  counted key t && match elapsed t with Some _ => false | None => true end.

(** The elapsed milliseconds of the counted tickets. *)
Definition spans (key : string) (tickets : list Ticket.t) : list Z :=
  map (fun t => default 0 (elapsed t)) (List.filter (counted key) tickets).
End WithDateParser.

Definition total (zs : list Z) : Z := fold_right Z.add 0 zs.

(** The average of a list of milliseconds, in hours. *)
Definition mean (zs : list Z) : R :=
  (IZR (total zs) / (3600000 * IZR (Z.of_nat (length zs))))%R.

(** What the roundings of the sum and of the division may add to the
    distance between the average and the tenth that is stored: for [N]
    terms, [(6 N + 2) / 2^52] of the average of the magnitudes. *)
Definition slack (zs : list Z) : R :=
  ((6 * IZR (Z.of_nat (length zs)) + 2) / IZR (2 ^ 52)
   * (IZR (total (map Z.abs zs)) / (3600000 * IZR (Z.of_nat (length zs)))))%R.

(** The Number [x] is [n / 10]: finite, and [n / 10] to the precision of
    a Number (a relative error of at most [2^-52]). *)
Definition tenth (x : number) (n : Z) : Prop :=
  match x with
  | S754_finite _ _ _ | S754_zero _ =>
      (Rabs (to_R x - IZR n / 10) <= Rabs (IZR n / 10) / IZR (2 ^ 52))%R
  | _ => False
  end.
End Reading.

(** *** Running sums *)

Module SumAux.
Import Num Aux.

(** Positive zero, or a finite Number with a mantissa of 53 bits. *)
Definition normal (x : number) : Prop :=
  match x with
  | S754_zero false => True
  | S754_finite _ m _ => 2 ^ 52 <= Zpos m < 2 ^ 53
  | _ => False
  end.

(** A multiple of [2^L]. *)
Definition on_grid (L : Z) (x : number) : Prop :=
  exists k : Z, to_R x = (IZR k * bpow L)%R.

(** The Number [h] stands for [d] milliseconds, in hours. *)
Definition hours_of (h : number) (d : Z) : Prop :=
  normal h /\ on_grid (-80) h /\ Z.abs d < 2 ^ 55 /\
  (Rabs (to_R h * 3600000 - IZR d) <= 3 * u * IZR (Z.abs d))%R.
End SumAux.

(** *** Stores *)

Module MemorySpec.
Import Num JS Analytics Memory.

(** The array at [array] holds references to the tickets [tickets], in
    this order. *)
Definition holds (h : Heap) (array : address) (tickets : list Ticket.t) : Prop :=
  exists elements,
    h !! array = Some (CArray elements) /\
    Forall2 (fun x t => h !! x = Some (CTicket t)) elements tickets.

(** Every object of [h] is in [h'], as it was. *)
Definition unchanged (h h' : Heap) : Prop :=
  forall a c, h !! a = Some c -> h' !! a = Some c.

(** The accumulator at [a]. *)
Definition plain_at (h : Heap) (a : address) : option JSObject :=
  match h !! a with
  | Some (CPlain o) => Some o
  | _ => None
  end.

(** The record that a result of [processTickets] stands for: each
    reference replaced by the object it points at. *)
Definition denotes (h : Heap) (m : Memory.Metrics) : option Analytics.Metrics :=
  sd ← plain_at h (Memory.severityDistribution m);
  art ← plain_at h (Memory.averageResolutionTimes m);
  slac ← plain_at h (Memory.slaCompliance m);
  Some {| Analytics.metrics_projectId := Memory.metrics_projectId m;
          Analytics.timestamp := Memory.timestamp m;
          Analytics.severityDistribution := sd;
          Analytics.averageResolutionTimes := art;
          Analytics.slaCompliance := slac;
          Analytics.ticketCount := Memory.ticketCount m;
          Analytics.openTickets := Memory.openTickets m;
          Analytics.resolvedTickets := Memory.resolvedTickets m |}.

(** The heap computation [out] does what the pure computation [r] does,
    keeping the invariant [I] between the locals and the store. *)
Definition simulates {S : Type} (I : S -> Heap -> Prop) (r : Result S)
    (out : Result unit * Heap) : Prop :=
  exists locals,
    I locals out.2 /\
    match r with
    | Ok locals' => out.1 = Ok tt /\ locals = locals'
    | Throw e => out.1 = Throw e
    end.
End MemorySpec.

Module MemoryExamples.
Import Num JS Analytics Examples Memory.

(** A store with an array of two tickets, and something else. *)
Definition two_tickets : Heap :=
  <[1%positive := CArray [2%positive; 3%positive]]>
    (<[2%positive := CTicket twelve_hours]>
       (<[3%positive := CTicket urgent]>
          (<[7%positive := CPlain zeros]> ∅))).

Definition stored_request : Memory.Request :=
  {| Memory.projectId := "PROJ"; Memory.tickets := 1%positive |}.
End MemoryExamples.

Module RoundingExamples.
Import Num JS Analytics Examples.

(** Created at the first instant a Date can hold, resolved 542 thousand
    years later. *)
Definition far_dates : Ticket.t :=
  ticket (JString "T-9") (JString "high") (JString "resolved")
         (JNumber (of_Z (-8640000000000000))) (JNumber (of_Z 8484128866620001)).
End RoundingExamples.

(** ** What the further properties speak of *)

Module HandlerSpec.
Import Num JS Analytics Dynamo Spec Handler.

(** The severity is a boolean or a Number: a value on which
    [toLowerCase] is not a function. *)
Definition scalar_severity (t : Ticket.t) : bool :=
  match Ticket.severity t with
  | JBool _ | JNumber _ => true
  | _ => false
  end.

(** The event has a non-empty string [projectId] and a non-empty array
    of tickets, each with an [id] and one of the four severities. *)
Definition acceptable (event : Event) : bool :=
  truthy (event_projectId event) && is_string (event_projectId event)
  && match event_tickets event with
     | Some tickets =>
         negb (Nat.eqb (length tickets) 0)
         && forallb (fun t => truthy (Ticket.id t) && recognized t) tickets
     | None => false
     end.

(** Validation itself fails: some ticket of the array has a boolean or
    a Number for severity. *)
Definition crashes_validation (event : Event) : bool :=
  match event_tickets event with
  | Some tickets => existsb scalar_severity tickets
  | None => false
  end.

(** The ticket with its severity in lower case. *)
Definition lower_severity (t : Ticket.t) : Ticket.t :=
  Ticket.make (Ticket.id t)
    (match Ticket.severity t with
     | JString s => JString (toLowerCase s)
     | v => v
     end)
    (Ticket.status t) (Ticket.createdDate t) (Ticket.resolvedDate t).

(** The names of the attributes that the update expression sets. *)
Definition set_attributes : list string :=
  [ "severityDistribution"; "averageResolutionTimes"; "slaCompliance";
    "ticketCount"; "openTickets"; "resolvedTickets"; "ttl"; "updatedAt" ].
End HandlerSpec.

Module HandlerAux.
Import Num JS Analytics Spec HandlerSpec.

(** The messages that [validateRequest] pushes for the ticket at
    [index]. *)
Definition ticket_errors (index : nat) (t : Ticket.t) : list string :=
  ((if truthy (Ticket.id t) then []
    else ["Ticket " +:+ pretty index +:+ ": id is required"])
   ++ (if truthy (Ticket.severity t) then []
       else ["Ticket " +:+ pretty index +:+ ": severity is required"])
   ++ (if recognized t then []
       else ["Ticket " +:+ pretty index
             +:+ ": severity must be one of: low, medium, high, critical"]))%list.

Fixpoint tickets_errors (index : nat) (tickets : list Ticket.t) : list string :=
  match tickets with
  | [] => []
  | t :: rest => (ticket_errors index t ++ tickets_errors (S index) rest)%list
  end.

(** The messages about the event as a whole. *)
Definition event_errors (event : Event) : list string :=
  ((if truthy (event_projectId event) && is_string (event_projectId event) then []
    else ["projectId is required and must be a string"])
   ++ match event_tickets event with
      | None => ["tickets must be an array"]
      | Some [] => ["tickets array cannot be empty"]
      | Some tickets => tickets_errors 0 tickets
      end)%list.
End HandlerAux.

Module PersistSpec.
Import Num JS Analytics Dynamo.

(** Successive calls of [storeMetrics] on one client, each with its two
    readings of the clock and its record. *)
Fixpoint persist_all (DYNAMODB_TABLE : option string)
    (calls : list (Z * Z * Metrics)) (c : Client) : list (Result Item) * Client :=
  match calls with
  | [] => ([], c)
  | (now, updatedAt, metrics) :: rest =>
      let '(r, c') := storeMetrics DYNAMODB_TABLE now updatedAt metrics c in
      let '(rs, c'') := persist_all DYNAMODB_TABLE rest c' in
      (r :: rs, c'')
  end.

(** The store rejects none of the coming requests. *)
Definition never_rejects (c : Client) : Prop :=
  Forall (fun outcome => outcome = None) (outcomes c).
End PersistSpec.

Module HandlerExamples.
Import Num JS Analytics Dynamo Handler Examples.

(** Without severity. *)
Definition no_severity : Ticket.t :=
  ticket (JString "T-5") JUndefined (JString "open") JUndefined JUndefined.

(** With a Number for severity. *)
Definition numeric_severity : Ticket.t :=
  ticket (JString "T-6") (JNumber (of_Z 3)) (JString "open") JUndefined JUndefined.

Definition event (tickets : list Ticket.t) : Event :=
  {| event_projectId := JString "PROJ"; event_tickets := Some tickets |}.

Definition production : Environment :=
  {| NODE_ENV := Some "production"; DYNAMODB_TABLE := None |}.

(** One millisecond between two readings, from 2024-01-01T00:00:00Z. *)
Definition ticking (n : nat) : Z := 1704067200000 + Z.of_nat n.

Definition draw : string := "0.4fzyo82mvyr".
End HandlerExamples.

Module BatchExamples.
Import Num JS Analytics Examples.

(** The severity in capitals. *)
Definition shouted : Ticket.t :=
  ticket (JString "T-1") (JString "HIGH") (JString "resolved")
         (JString "2024-01-01T00:00:00Z") (JString "2024-01-01T12:00:00Z").
End BatchExamples.

Module DeadlineExamples.
Import Num JS Analytics Examples.

(** Resolved four hours and one millisecond after its creation. *)
Definition one_millisecond_late : Ticket.t :=
  ticket (JString "T-7") (JString "critical") (JString "resolved")
         (JString "2024-01-01T00:00:00.000Z") (JString "2024-01-01T04:00:00.001Z").

(** Resolved a day before its creation. *)
Definition resolved_before_created : Ticket.t :=
  ticket (JString "T-8") (JString "critical") (JString "resolved")
         (JString "2024-01-02T00:00:00Z") (JString "2024-01-01T00:00:00Z").
End DeadlineExamples.

(** * Properties *)

(** ** Arithmetic of Numbers *)

Module NumFacts.
Import Num Aux.
Lemma fexp_normal x : -1021 <= x -> fexp prec emax x = x - 53.
Proof. unfold fexp, emin, prec, emax. lia. Qed.

Lemma digits2_pos_bounds m :
2 ^ (Zpos (digits2_pos m) - 1) <= Zpos m < 2 ^ Zpos (digits2_pos m).
Proof.
induction m as [m IH|m IH|]; cbn [digits2_pos].
- rewrite Pos2Z.inj_succ, Z.pow_succ_r by lia.
  replace (Z.succ (Zpos (digits2_pos m)) - 1) with (Z.succ (Zpos (digits2_pos m) - 1)) by lia.
  rewrite Z.pow_succ_r by lia. lia.
- rewrite Pos2Z.inj_succ, Z.pow_succ_r by lia.
  replace (Z.succ (Zpos (digits2_pos m)) - 1) with (Z.succ (Zpos (digits2_pos m) - 1)) by lia.
  rewrite Z.pow_succ_r by lia. lia.
- cbn. lia.
Qed.

Lemma Zdigits2_unique z j :
2 ^ (j - 1) <= z < 2 ^ j -> 0 < j -> Zdigits2 z = j.
Proof.
intros [Hlo Hhi] Hj.
assert (0 < z) by (pose proof (Z.pow_pos_nonneg 2 (j - 1)); lia).
destruct z as [|p|p]; try lia.
cbn [Zdigits2]. pose proof (digits2_pos_bounds p) as [Lo Hi].
set (d := Zpos (digits2_pos p)) in *.
destruct (Z.lt_trichotomy d j) as [Hlt|[Heq|Hgt]]; [|assumption|].
- assert (2 ^ d <= 2 ^ (j - 1)) by (apply Z.pow_le_mono_r; lia). lia.
- assert (2 ^ j <= 2 ^ (d - 1)) by (apply Z.pow_le_mono_r; lia). lia.
Qed.

Lemma shr_1_m r : 0 <= shr_m r -> shr_m (shr_1 r) = shr_m r / 2.
Proof.
destruct r as [m b s]; cbn [shr_m]; intros H.
destruct m as [|[p|p|]|p]; cbn [shr_1 shr_m]; try lia; try reflexivity.
- apply Z.div_unique with (r := 1); lia.
- apply Z.div_unique with (r := 0); lia.
Qed.

Lemma pow2_xO p : 2 ^ Zpos p~0 = 2 ^ Zpos p * 2 ^ Zpos p.
Proof. rewrite <- Z.pow_add_r by lia. f_equal. lia. Qed.

Lemma pow2_xI p : 2 ^ Zpos p~1 = 2 * (2 ^ Zpos p * 2 ^ Zpos p).
Proof.
rewrite <- Z.pow_add_r, <- Z.pow_succ_r by lia. f_equal. lia.
Qed.

Lemma iter_pos_shr_m p : forall r, 0 <= shr_m r ->
shr_m (SpecFloat.iter_pos shr_1 p r) = shr_m r / 2 ^ Zpos p /\ 0 <= shr_m (SpecFloat.iter_pos shr_1 p r).
Proof.
induction p as [p IH|p IH|]; intros r Hr; cbn [SpecFloat.iter_pos].
- assert (H1 : 0 <= shr_m (shr_1 r)) by (rewrite shr_1_m by lia; apply Z.div_pos; lia).
  destruct (IH _ H1) as [E1 P1]. destruct (IH _ P1) as [E2 P2].
  split; [|assumption]. rewrite E2, E1, shr_1_m by lia.
  rewrite !Z.div_div by (try apply Z.pow_pos_nonneg; lia).
  rewrite pow2_xI. f_equal; lia.
- destruct (IH _ Hr) as [E1 P1]. destruct (IH _ P1) as [E2 P2].
  split; [|assumption]. rewrite E2, E1.
  rewrite !Z.div_div by (try apply Z.pow_pos_nonneg; lia).
  rewrite pow2_xO. reflexivity.
- rewrite shr_1_m by lia. split; [reflexivity|apply Z.div_pos; lia].
Qed.

Lemma shr_m_record_of_loc m l : shr_m (shr_record_of_loc m l) = m.
Proof. destruct l as [|[]]; reflexivity. Qed.

(** Mantissa and exponent after [shr] by [n] positions. *)
Lemma shr_spec r e n : 0 <= shr_m r ->
let k := Z.max 0 n in
shr_m (fst (shr r e n)) = shr_m r / 2 ^ k /\ snd (shr r e n) = e + k.
Proof.
intros Hr k. unfold shr. destruct n as [|p|p]; cbn [fst snd].
- subst k. cbn. rewrite Z.div_1_r. lia.
- subst k. rewrite Z.max_r by lia. split; [apply iter_pos_shr_m; assumption|reflexivity].
- subst k. cbn. rewrite Z.div_1_r. lia.
Qed.

Lemma round_nearest_even_cases m l :
round_nearest_even m l = m \/ round_nearest_even m l = m + 1.
Proof. destruct l as [|[]]; cbn; try (destruct (Z.even m)); auto. Qed.

Lemma Zdigits2_53 M : 2 ^ 52 <= M < 2 ^ 53 -> Zdigits2 M = 53.
Proof. intros H. apply Zdigits2_unique; [exact H|lia]. Qed.

Lemma Zdigits2_54 : Zdigits2 (2 ^ 53) = 54.
Proof. reflexivity. Qed.

Lemma Zdigits2_small M : 0 < M < 2 ^ 53 -> 0 < Zdigits2 M <= 53.
Proof.
intros [H0 H1]. destruct M as [|p|p]; try lia. cbn [Zdigits2].
pose proof (digits2_pos_bounds p) as [Lo Hi]. split; [lia|].
destruct (Z_le_gt_dec (Zpos (digits2_pos p)) 53) as [|Hgt]; [assumption|].
assert (2 ^ 53 <= 2 ^ (Zpos (digits2_pos p) - 1)) by (apply Z.pow_le_mono_r; lia).
lia.
Qed.

(** The second pass of [binary_round_aux] only renormalises a mantissa
  that the first pass rounded up to [2^53]. *)
Lemma renormalise_spec s M e1 :
0 < M <= 2 ^ 53 -> -1021 <= Zdigits2 M + e1 -> e1 <= 970 ->
exists m e,
  (let '(mrs, e2) := shr_fexp prec emax M e1 loc_Exact in
   match shr_m mrs with
   | Z0 => S754_zero s
   | Zpos m => if Z.leb e2 (emax - prec) then S754_finite s m e2 else S754_infinity s
   | Zneg _ => S754_nan
   end) = S754_finite s m e /\
  (M < 2 ^ 53 -> Zpos m = M /\ e = e1) /\
  (M = 2 ^ 53 -> Zpos m = 2 ^ 52 /\ e = e1 + 1).
Proof.
intros [HM0 HM1] Hn He. unfold shr_fexp.
rewrite fexp_normal by assumption.
pose proof (shr_spec (shr_record_of_loc M loc_Exact) e1 (Zdigits2 M + e1 - 53 - e1)) as Hs.
cbn [shr_record_of_loc shr_m] in Hs. specialize (Hs ltac:(lia)). cbv zeta in Hs.
cbn [shr_record_of_loc].
destruct (shr _ e1 _) as [mrs e2]. cbn [fst snd] in Hs. destruct Hs as [Em Ee].
destruct (Z.eq_dec M (2 ^ 53)) as [->|Hne].
- rewrite Zdigits2_54 in Em, Ee.
  replace (Z.max 0 (54 + e1 - 53 - e1)) with 1 in * by lia.
  rewrite Em. change (2 ^ 53 / 2 ^ 1) with (Zpos (2 ^ 52)).
  exists (2 ^ 52)%positive, e2. subst e2.
  replace (e1 + 1 <=? emax - prec) with true by (symmetry; apply Z.leb_le; unfold emax, prec; lia).
  split; [reflexivity|]. split; [lia|]. intros _. split; reflexivity.
- pose proof (Zdigits2_small M ltac:(lia)) as Hd.
  replace (Z.max 0 (Zdigits2 M + e1 - 53 - e1)) with 0 in * by lia.
  rewrite Z.div_1_r in Em. rewrite Em.
  destruct M as [|p|p]; try lia.
  exists p, e2. subst e2. rewrite Z.add_0_r.
  replace (e1 <=? emax - prec) with true by (symmetry; apply Z.leb_le; unfold emax, prec; lia).
  split; [reflexivity|]. split; [intros _; split; reflexivity|]. intros E. lia.
Qed.

Lemma shr_1_exact x :
0 <= x ->
shr_1 {| shr_m := 2 * x; shr_r := false; shr_s := false |}
= {| shr_m := x; shr_r := false; shr_s := false |}.
Proof. destruct x as [|q|q]; intros H; try lia; reflexivity. Qed.

Lemma iter_pos_shr_exact p : forall x, 0 <= x ->
SpecFloat.iter_pos shr_1 p {| shr_m := x * 2 ^ Zpos p; shr_r := false; shr_s := false |}
= {| shr_m := x; shr_r := false; shr_s := false |}.
Proof.
assert (P2 : forall q, 0 < 2 ^ Zpos q) by (intros q; apply Z.pow_pos_nonneg; lia).
induction p as [p IH|p IH|]; intros x Hx; cbn [SpecFloat.iter_pos].
- rewrite pow2_xI. pose proof (P2 p).
  replace (x * (2 * (2 ^ Zpos p * 2 ^ Zpos p))) with (2 * (x * 2 ^ Zpos p * 2 ^ Zpos p)) by lia.
  rewrite shr_1_exact by nia. rewrite IH by nia. apply IH. assumption.
- rewrite pow2_xO. pose proof (P2 p).
  replace (x * (2 ^ Zpos p * 2 ^ Zpos p)) with (x * 2 ^ Zpos p * 2 ^ Zpos p) by lia.
  rewrite IH by nia. apply IH. assumption.
- replace (x * 2 ^ 1) with (2 * x) by lia. apply shr_1_exact. assumption.
Qed.

(** What [binary_round_aux] returns on a mantissa of at least 53 digits,
  or on an exact one: one of the two neighbours of the value at the
  target exponent. *)
Lemma binary_round_aux_faithful s mx ex lx :
let d := Zpos (digits2_pos mx) in
let k := Z.max 0 (d - 53) in
-1021 <= d + ex -> ex + k <= 969 ->
(lx = loc_Exact \/ 53 <= d) ->
exists m e M,
  binary_round_aux prec emax s (Zpos mx) ex lx = S754_finite s m e /\
  (M = Zpos mx / 2 ^ k \/ M = Zpos mx / 2 ^ k + 1) /\
  (lx = loc_Exact -> Zpos mx mod 2 ^ k = 0 -> M = Zpos mx / 2 ^ k) /\
  0 < M <= 2 ^ 53 /\ (53 <= d -> 2 ^ 52 <= M) /\
  (M < 2 ^ 53 -> Zpos m = M /\ e = ex + k) /\
  (M = 2 ^ 53 -> Zpos m = 2 ^ 52 /\ e = ex + k + 1).
Proof.
intros d k Hn Ho Hl. unfold binary_round_aux, shr_fexp at 1.
cbn [Zdigits2]. fold d. rewrite fexp_normal by assumption.
pose proof (shr_spec (shr_record_of_loc (Zpos mx) lx) ex (d + ex - 53 - ex)) as Hs.
rewrite shr_m_record_of_loc in Hs. specialize (Hs ltac:(lia)). cbv zeta in Hs.
replace (Z.max 0 (d + ex - 53 - ex)) with k in Hs by (subst k; lia).
pose proof (digits2_pos_bounds mx) as [Lo Hi]. fold d in Lo, Hi.
assert (Hk0 : 0 < 2 ^ k) by (apply Z.pow_pos_nonneg; subst k; lia).
assert (Hlx : lx = loc_Exact -> Zpos mx mod 2 ^ k = 0 ->
              loc_of_shr_record (fst (shr (shr_record_of_loc (Zpos mx) lx) ex (d + ex - 53 - ex)))
              = loc_Exact).
{ intros -> Hmod. unfold shr. destruct (d + ex - 53 - ex) as [|p|p] eqn:E; cbn [fst];
    try reflexivity.
  assert (k = Zpos p) as Hk by (subst k; lia).
  rewrite (Z.div_mod (Zpos mx) (2 ^ k)) by lia. rewrite Hmod, Z.add_0_r, Hk.
  cbn [shr_record_of_loc]. rewrite Z.mul_comm.
  rewrite iter_pos_shr_exact by (apply Z.div_pos; lia). reflexivity. }
destruct (shr _ ex _) as [mrs e1]. cbn [fst snd] in Hs, Hlx. destruct Hs as [Em Ee].
set (M := round_nearest_even (shr_m mrs) (loc_of_shr_record mrs)).
assert (HM : M = Zpos mx / 2 ^ k \/ M = Zpos mx / 2 ^ k + 1).
{ subst M. rewrite <- Em. apply round_nearest_even_cases. }
assert (Hex : lx = loc_Exact -> Zpos mx mod 2 ^ k = 0 -> M = Zpos mx / 2 ^ k).
{ intros Hl' Hmod. subst M. rewrite (Hlx Hl' Hmod), Em. reflexivity. }
assert (Hb : 0 < M <= 2 ^ 53 /\ d - k <= Zdigits2 M /\ (53 <= d -> 2 ^ 52 <= M)).
{ destruct (Z_le_gt_dec d 53) as [Hd|Hd].
  - assert (k = 0) as Hk by (subst k; lia).
    rewrite Hk, Z.div_1_r in HM. rewrite Hk, Z.sub_0_r.
    rewrite Hk, Z.div_1_r in Hex. change (2 ^ 0) with 1 in Hex. rewrite Z.mod_1_r in Hex.
    assert (2 ^ d <= 2 ^ 53) by (apply Z.pow_le_mono_r; lia).
    destruct Hl as [Hl|Hl].
    + rewrite (Hex Hl eq_refl). cbn [Zdigits2]. fold d.
      split; [lia|]. split; [lia|]. intros H53. replace d with 53 in Lo by lia. exact Lo.
    + assert (d = 53) as Hd53 by lia. rewrite Hd53 in *.
      destruct HM as [-> | ->].
      * cbn [Zdigits2]. fold d. split; [lia|]. split; [lia|]. intros _. exact Lo.
      * split; [lia|]. split; [|intros _; change (53 - 1) with 52 in Lo; lia].
        destruct (Z.eq_dec (Zpos mx + 1) (2 ^ 53)) as [->|Hne].
        -- rewrite Zdigits2_54. lia.
        -- rewrite Zdigits2_53; [lia|]. change (53 - 1) with 52 in Lo. lia.
  - assert (k = d - 53) as Hk by (subst k; lia).
    assert (2 ^ d = 2 ^ 53 * 2 ^ k) as Hp by (rewrite <- Z.pow_add_r by lia; f_equal; lia).
    assert (2 ^ (d - 1) = 2 ^ 52 * 2 ^ k) as Hp' by (rewrite <- Z.pow_add_r by lia; f_equal; lia).
    assert (2 ^ 52 <= Zpos mx / 2 ^ k) by (apply Z.div_le_lower_bound; lia).
    assert (Zpos mx / 2 ^ k < 2 ^ 53) by (apply Z.div_lt_upper_bound; lia).
    split; [lia|]. split; [|lia]. replace (d - k) with 53 by lia.
    destruct (Z.eq_dec M (2 ^ 53)) as [->|Hne].
    + rewrite Zdigits2_54. lia.
    + rewrite Zdigits2_53; lia. }
destruct Hb as (Hb & Hd & H52).
destruct (renormalise_spec s M e1 Hb ltac:(lia) ltac:(lia)) as (m & e & Hr & Hlt & Heq).
exists m, e, M. rewrite Hr. subst e1. repeat split; auto; try lia; try apply Hlt; try apply Heq; auto.
Qed.

Lemma pos_iter_xO m p : Zpos (Pos.iter xO m p) = Zpos m * 2 ^ Zpos p.
Proof.
induction p as [|p IH] using Pos.peano_ind.
- cbn. lia.
- rewrite Pos.iter_succ, Pos2Z.inj_xO, IH, Pos2Z.inj_succ, Z.pow_succ_r by lia. lia.
Qed.

Lemma shl_align_spec m e e' :
e' <= e ->
exists m', shl_align m e e' = (m', e') /\ Zpos m' = Zpos m * 2 ^ (e - e').
Proof.
intros H. unfold shl_align. destruct (e' - e) as [|d|d] eqn:E; try lia.
- exists m. replace e' with e by lia. rewrite Z.sub_diag. split; [reflexivity|cbn; lia].
- exists (Pos.iter xO m d). split; [reflexivity|].
  rewrite pos_iter_xO. f_equal. f_equal. lia.
Qed.

Lemma shl_align_id m e e' : e <= e' -> shl_align m e e' = (m, e).
Proof. intros H. unfold shl_align. destruct (e' - e) as [|d|d] eqn:E; try lia; reflexivity. Qed.

Lemma Zdigits2_shift z j :
0 < z -> 0 <= j -> Zdigits2 (z * 2 ^ j) = Zdigits2 z + j.
Proof.
intros Hz Hj. destruct z as [|p|p]; try lia.
pose proof (digits2_pos_bounds p) as [Lo Hi]. cbn [Zdigits2].
assert (0 < 2 ^ j) by (apply Z.pow_pos_nonneg; lia).
apply Zdigits2_unique; [|lia].
replace (Zpos (digits2_pos p) + j - 1) with ((Zpos (digits2_pos p) - 1) + j) by lia.
rewrite !Z.pow_add_r by lia. nia.
Qed.

Lemma Zdigits2_mono a b : 0 < a <= b -> Zdigits2 a <= Zdigits2 b.
Proof.
intros [Ha Hab]. destruct a as [|pa|pa], b as [|pb|pb]; try lia.
pose proof (digits2_pos_bounds pa) as [La _].
pose proof (digits2_pos_bounds pb) as [_ Hb]. cbn [Zdigits2].
destruct (Z_le_gt_dec (Zpos (digits2_pos pa)) (Zpos (digits2_pos pb))) as [|Hgt]; [assumption|].
assert (2 ^ Zpos (digits2_pos pb) <= 2 ^ (Zpos (digits2_pos pa) - 1))
  by (apply Z.pow_le_mono_r; lia).
lia.
Qed.

Lemma Zdigits2_le_53 z : 0 < z < 2 ^ 53 -> 1 <= Zdigits2 z <= 53.
Proof. intros H. pose proof (Zdigits2_small z H). lia. Qed.

(** A positive integer below [2^53] is a Number, with a mantissa of 53
  digits. *)
Lemma of_Z_finite z :
0 < z < 2 ^ 53 ->
exists m, of_Z z = S754_finite false m (Zdigits2 z - 53) /\
          Zpos m = z * 2 ^ (53 - Zdigits2 z) /\ 2 ^ 52 <= Zpos m < 2 ^ 53.
Proof.
intros Hz. pose proof (Zdigits2_le_53 z Hz) as Hd.
destruct z as [|p|p]; try lia.
unfold of_Z, binary_normalize, binary_round.
rewrite fexp_normal by (cbn [Zdigits2] in Hd; lia).
destruct (shl_align_spec p 0 (Zpos (digits2_pos p) + 0 - 53)) as (m' & -> & Hm');
  [cbn [Zdigits2] in Hd; lia|].
assert (Hdm : Zdigits2 (Zpos m') = 53).
{ rewrite Hm'. rewrite Zdigits2_shift by (cbn [Zdigits2] in Hd; lia). cbn [Zdigits2] in *. lia. }
cbn [Zdigits2] in Hdm, Hd.
destruct (binary_round_aux_faithful false m' (Zpos (digits2_pos p) + 0 - 53) loc_Exact)
  as (m & e & M & Hr & _ & Hex & HM & H52 & Hlt & _).
- rewrite Hdm. lia.
- rewrite Hdm. lia.
- left; reflexivity.
- rewrite Hdm in *. change (Z.max 0 (53 - 53)) with 0 in *. change (2 ^ 0) with 1 in *.
  specialize (Hex eq_refl (Z.mod_1_r _)). rewrite Z.div_1_r in Hex.
  pose proof (digits2_pos_bounds m') as [Lo Hi]. rewrite Hdm in Lo, Hi.
  destruct (Hlt ltac:(lia)) as [Em Ee].
  exists m. rewrite Hr. cbn [Zdigits2]. split; [f_equal; lia|].
  split; [|change (53 - 1) with 52 in Lo; lia].
  rewrite Em, Hex, Hm'. f_equal. f_equal. lia.
Qed.

(** Adding integers is exact as long as the sum stays below [2^53]. *)
Lemma add_of_Z a b :
0 < a -> 0 < b -> a + b < 2 ^ 53 -> add (of_Z a) (of_Z b) = of_Z (a + b).
Proof.
intros Ha Hb Hab.
destruct (of_Z_finite a ltac:(lia)) as (ma & -> & Ema & Rma).
destruct (of_Z_finite b ltac:(lia)) as (mb & -> & Emb & Rmb).
destruct (of_Z_finite (a + b) ltac:(lia)) as (mc & -> & Emc & Rmc).
pose proof (Zdigits2_le_53 a ltac:(lia)) as Hda.
pose proof (Zdigits2_le_53 b ltac:(lia)) as Hdb.
pose proof (Zdigits2_le_53 (a + b) ltac:(lia)) as Hdc.
set (da := Zdigits2 a) in *. set (db := Zdigits2 b) in *. set (dc := Zdigits2 (a + b)) in *.
assert (Hmono : da <= dc /\ db <= dc)
  by (subst da db dc; split; apply Zdigits2_mono; lia).
unfold add, SFadd. cbv zeta.
set (ez := Z.min (da - 53) (db - 53)).
destruct (shl_align_spec ma (da - 53) ez) as (ma' & -> & Ema'); [subst ez; lia|].
destruct (shl_align_spec mb (db - 53) ez) as (mb' & -> & Emb'); [subst ez; lia|].
cbn [fst cond_Zopp Z.add]. unfold binary_normalize, binary_round.
assert (Hsum : Zpos (ma' + mb') = (a + b) * 2 ^ (- ez)).
{ rewrite Pos2Z.inj_add, Ema', Emb', Ema, Emb.
  rewrite <- !Z.mul_assoc, <- !Z.pow_add_r by (subst ez; lia).
  replace (53 - da + (da - 53 - ez)) with (- ez) by lia.
  replace (53 - db + (db - 53 - ez)) with (- ez) by lia. lia. }
assert (Hds : Zpos (digits2_pos (ma' + mb')) = dc - ez).
{ change (Zpos (digits2_pos (ma' + mb'))) with (Zdigits2 (Zpos (ma' + mb'))).
  rewrite Hsum, Zdigits2_shift by (subst ez; lia). subst dc. lia. }
change (Z.pos ma' + Z.pos mb') with (Z.pos (ma' + mb')). cbv iota.
rewrite Hds. rewrite fexp_normal by lia.
rewrite shl_align_id by (subst ez; lia).
destruct (binary_round_aux_faithful false (ma' + mb') ez loc_Exact)
  as (m & e & M & Hr & _ & Hex & HM & H52 & Hlt & _).
- rewrite Hds. lia.
- rewrite Hds. subst ez. lia.
- left; reflexivity.
- rewrite Hds in *. rewrite Hr.
  replace (Z.max 0 (dc - ez - 53)) with (dc - ez - 53) in * by (subst ez; lia).
  assert (Hsplit : Zpos (ma' + mb') = (a + b) * 2 ^ (53 - dc) * 2 ^ (dc - ez - 53)).
  { rewrite Hsum, <- Z.mul_assoc, <- Z.pow_add_r by (subst ez; lia). do 2 f_equal. lia. }
  assert (0 < 2 ^ (dc - ez - 53)) by (apply Z.pow_pos_nonneg; subst ez; lia).
  assert (HM' : M = (a + b) * 2 ^ (53 - dc)).
  { rewrite Hex; [|reflexivity|].
    - rewrite Hsplit. apply Z.div_mul. lia.
    - rewrite Hsplit. apply Z.mod_mul. lia. }
  destruct (Hlt ltac:(lia)) as [Em Ee].
  f_equal; [|lia]. apply Pos2Z.inj. lia.
Qed.

Lemma add_one n : 0 <= n < 2 ^ 53 - 1 -> add (of_Z n) one = of_Z (n + 1).
Proof.
intros H. destruct (Z.eq_dec n 0) as [->|Hn].
- reflexivity.
- apply add_of_Z; lia.
Qed.

Lemma ltb_zero_of_Z n : 0 <= n < 2 ^ 53 -> ltb zero (of_Z n) = (0 <? n).
Proof.
intros H. destruct (Z.eq_dec n 0) as [->|Hn].
- reflexivity.
- destruct (of_Z_finite n ltac:(lia)) as (m & -> & _).
  symmetry. apply Z.ltb_lt. lia.
Qed.

(** *** Values as real numbers *)

Ltac push_IZR H :=
repeat (rewrite plus_IZR in H || rewrite mult_IZR in H || rewrite minus_IZR in H).

Lemma u_pos : (0 < u)%R.
Proof. unfold u. apply Rinv_0_lt_compat, IZR_lt. lia. Qed.

Lemma u_scale : (IZR (2 ^ 52) * u = 1)%R.
Proof. unfold u. apply Rinv_r, not_0_IZR. lia. Qed.

Lemma bpow_pos e : (0 < bpow e)%R.
Proof. apply powerRZ_lt. lra. Qed.

Lemma bpow_add a b : bpow (a + b) = (bpow a * bpow b)%R.
Proof. apply powerRZ_add. lra. Qed.

Lemma bpow_IZR k : 0 <= k -> IZR (2 ^ k) = bpow k.
Proof.
intros Hk. destruct k as [|p|p]; try lia.
- reflexivity.
- unfold bpow. change (2 ^ Zpos p) with (Z.pow_pos 2 p).
  apply Zpower_pos_powerRZ.
Qed.

Lemma to_R_finite s m e :
to_R (S754_finite s m e) = ((if s then -1 else 1) * IZR (Zpos m) * bpow e)%R.
Proof. reflexivity. Qed.

(** [binary_round_aux] returns a neighbour of the value it is given, within
  relative distance [u]. *)
Lemma round_error s mx ex lx (v : R) :
let d := Zpos (digits2_pos mx) in
let k := d - 53 in
53 <= d -> -1021 <= d + ex -> ex + k <= 969 ->
(IZR (Zpos mx) * bpow ex <= v < (IZR (Zpos mx) + 1) * bpow ex)%R ->
exists m e,
  binary_round_aux prec emax s (Zpos mx) ex lx = S754_finite s m e /\
  2 ^ 52 <= Zpos m < 2 ^ 53 /\ ex + k <= e <= ex + k + 1 /\
  (v * (1 - u) <= IZR (Zpos m) * bpow e <= v * (1 + u))%R.
Proof.
intros d k Hd Hn Ho Hv.
pose proof (binary_round_aux_faithful s mx ex lx) as F. cbv zeta in F. fold d in F.
replace (Z.max 0 (d - 53)) with k in F by (subst k; lia).
destruct F as (m & e & M & Hr & HM & _ & HMr & H52 & Hlt & Heq); [lia|lia|right; lia|].
specialize (H52 Hd).
pose proof (digits2_pos_bounds mx) as [Lo Hi]. fold d in Lo, Hi.
assert (Hk0 : 0 < 2 ^ k) by (apply Z.pow_pos_nonneg; subst k; lia).
assert (Hp : 2 ^ (d - 1) = 2 ^ 52 * 2 ^ k)
  by (rewrite <- Z.pow_add_r by (subst k; lia); f_equal; subst k; lia).
set (m1 := Zpos mx / 2 ^ k) in *.
assert (Hm1 : 2 ^ 52 <= m1) by (apply Z.div_le_lower_bound; lia).
assert (Hlo : m1 * 2 ^ k <= Zpos mx) by (rewrite Z.mul_comm; apply Z.mul_div_le; lia).
assert (Hhi : Zpos mx + 1 <= (m1 + 1) * 2 ^ k).
{ pose proof (Z.mul_succ_div_gt (Zpos mx) (2 ^ k) ltac:(lia)). fold m1 in H. lia. }
(* the value returned *)
assert (Hval : (IZR (Zpos m) * bpow e = IZR M * bpow (ex + k))%R).
{ destruct (Z_lt_le_dec M (2 ^ 53)) as [Hlt'|Hge].
  - destruct (Hlt Hlt') as [-> ->]. reflexivity.
  - destruct (Heq ltac:(lia)) as [-> ->]. replace M with (2 ^ 53) by lia.
    replace (ex + k + 1) with (1 + (ex + k)) by lia. rewrite bpow_add.
    assert (E1 : bpow 1 = 2%R) by (unfold bpow, powerRZ; rewrite Pos2Nat.inj_1; simpl; lra).
    assert (E2 : IZR (2 ^ 53) = (IZR (2 ^ 52) * 2)%R) by (rewrite <- mult_IZR; reflexivity).
    rewrite E1, E2. ring. }
assert (Hrange : 2 ^ 52 <= Zpos m < 2 ^ 53 /\ ex + k <= e <= ex + k + 1).
{ destruct (Z_lt_le_dec M (2 ^ 53)) as [Hlt'|Hge].
  - destruct (Hlt Hlt') as [-> ->]. lia.
  - destruct (Heq ltac:(lia)) as [-> ->]. lia. }
exists m, e. split; [exact Hr|]. split; [apply Hrange|]. split; [apply Hrange|].
rewrite Hval. rewrite bpow_add, <- (bpow_IZR k) by (subst k; lia).
pose proof (bpow_pos ex) as Hex.
apply IZR_le in Hm1, Hlo, Hhi. apply IZR_lt in Hk0.
rewrite mult_IZR in Hlo. rewrite plus_IZR in Hhi. rewrite mult_IZR, plus_IZR in Hhi.
set (K := IZR (2 ^ k)) in *. set (B := bpow ex) in *. set (X := IZR (Zpos mx)) in *.
set (A := IZR m1) in *. change (IZR 1) with 1%R in Hhi. change (IZR 0) with 0%R in Hk0.
destruct Hv as [Hv1 Hv2].
assert (HU : (0 < B * K)%R) by (apply Rmult_lt_0_compat; assumption).
assert (HA : (A * (B * K) <= v)%R) by nra.
assert (HA' : (v <= (A + 1) * (B * K))%R) by nra.
assert (Hu : (B * K <= v * u)%R).
{ pose proof u_pos as Hu0. pose proof u_scale as Hu1.
  assert (1 <= A * u)%R by nra.
  assert (B * K <= (B * K) * (A * u))%R by nra.
  nra. }
destruct HM as [-> | ->].
- fold A. nra.
- rewrite plus_IZR. fold A. change (IZR 1) with 1%R. nra.
Qed.

(** Division of two positive values: the operands are aligned so that the
  integer quotient has 53 or 54 digits, and then rounded. *)
Lemma div_error s mx ex my ey :
let d1 := Zpos (digits2_pos mx) in
let d2 := Zpos (digits2_pos my) in
let D := d1 + ex - (d2 + ey) in
d1 <= d2 + 53 -> -1021 <= D <= 1021 ->
exists m e,
  (let '(q, e', l) := SFdiv_core_binary prec emax (Zpos mx) ex (Zpos my) ey in
   binary_round_aux prec emax s q e' l) = S754_finite s m e /\
  2 ^ 52 <= Zpos m < 2 ^ 53 /\ D - 53 <= e <= D - 51 /\
  (let v := (IZR (Zpos mx) * bpow ex / (IZR (Zpos my) * bpow ey))%R in
   v * (1 - u) <= IZR (Zpos m) * bpow e <= v * (1 + u))%R.
Proof.
intros d1 d2 D Hd HD. unfold SFdiv_core_binary. cbn [Zdigits2]. fold d1 d2.
replace (d1 + ex - (d2 + ey)) with D by reflexivity.
rewrite fexp_normal by lia.
replace (Z.min (D - 53) (ex - ey)) with (D - 53) by (subst D; lia).
set (sh := ex - ey - (D - 53)).
assert (Hsh : sh = 53 + d2 - d1) by (subst sh D; lia).
set (m' := match sh with Z.pos _ => Z.shiftl (Zpos mx) sh | 0 => Zpos mx | Z.neg _ => 0 end).
assert (Hm' : m' = Zpos mx * 2 ^ sh).
{ subst m'. destruct sh as [|p|p] eqn:E; try lia.
  apply Z.shiftl_mul_pow2. lia. }
pose proof (digits2_pos_bounds mx) as [Lo1 Hi1].
pose proof (digits2_pos_bounds my) as [Lo2 Hi2]. fold d1 in Lo1, Hi1. fold d2 in Lo2, Hi2.
assert (Hsh0 : 0 < 2 ^ sh) by (apply Z.pow_pos_nonneg; lia).
assert (Lm' : 2 ^ 52 * 2 ^ d2 <= m').
{ rewrite Hm'. replace (2 ^ 52 * 2 ^ d2) with (2 ^ (d1 - 1) * 2 ^ sh).
  - apply Z.mul_le_mono_nonneg_r; lia.
  - rewrite <- !Z.pow_add_r by lia. f_equal. lia. }
assert (Um' : m' < 2 ^ 54 * 2 ^ (d2 - 1)).
{ rewrite Hm'. replace (2 ^ 54 * 2 ^ (d2 - 1)) with (2 ^ d1 * 2 ^ sh).
  - apply Z.mul_lt_mono_pos_r; lia.
  - rewrite <- !Z.pow_add_r by lia. f_equal. lia. }
pose proof (Z_div_mod m' (Zpos my) ltac:(lia)) as Hdm.
destruct (Z.div_eucl m' (Zpos my)) as [q r]. destruct Hdm as [Eq Hr].
assert (Hq : 2 ^ 52 <= q < 2 ^ 54) by (split; nia).
destruct q as [|q|q]; try lia.
assert (Hdq : 53 <= Zpos (digits2_pos q) <= 54).
{ destruct (Z_lt_le_dec (Zpos q) (2 ^ 53)).
  - change (Zpos (digits2_pos q)) with (Zdigits2 (Zpos q)). rewrite Zdigits2_53; lia.
  - change (Zpos (digits2_pos q)) with (Zdigits2 (Zpos q)).
    rewrite (Zdigits2_unique (Zpos q) 54); lia. }
set (v := (IZR (Zpos mx) * bpow ex / (IZR (Zpos my) * bpow ey))%R).
destruct (round_error s q (D - 53) (new_location (Zpos my) r) v)
  as (m & e & Hres & Hm & He & Hv); try lia.
- (* the quotient brackets the value *)
  pose proof (bpow_pos (D - 53)) as HB. pose proof (bpow_pos ey) as HBy.
  assert (HY : (0 < IZR (Zpos my))%R) by (apply IZR_lt; lia).
  assert (Ev : (v * IZR (Zpos my) = IZR m' * bpow (D - 53))%R).
  { subst v. replace ex with (sh + (D - 53) + ey) by (subst sh; lia).
    rewrite !bpow_add, Hm', mult_IZR, (bpow_IZR sh) by lia. field. lra. }
  assert (E1 : (IZR (Zpos my) * IZR (Zpos q) <= IZR m')%R)
    by (rewrite <- mult_IZR; apply IZR_le; lia).
  assert (E2 : (IZR m' + 1 <= IZR (Zpos my) * (IZR (Zpos q) + 1))%R).
  { replace 1%R with (IZR 1) by reflexivity.
    rewrite <- !plus_IZR, <- mult_IZR. apply IZR_le. lia. }
  split; nra.
- exists m, e. split; [exact Hres|]. split; [exact Hm|]. split; [lia|exact Hv].
Qed.

Lemma mul_error s mx ex my ey :
let d := Zpos (digits2_pos (mx * my)) in
53 <= d -> -1021 <= d + (ex + ey) -> ex + ey + (d - 53) <= 969 ->
exists m e,
  binary_round_aux prec emax s (Zpos (mx * my)) (ex + ey) loc_Exact = S754_finite s m e /\
  2 ^ 52 <= Zpos m < 2 ^ 53 /\
  ex + ey + (d - 53) <= e <= ex + ey + (d - 53) + 1 /\
  (let v := ((IZR (Zpos mx) * bpow ex) * (IZR (Zpos my) * bpow ey))%R in
   v * (1 - u) <= IZR (Zpos m) * bpow e <= v * (1 + u))%R.
Proof.
intros d Hd Hn Ho.
set (v := ((IZR (Zpos mx) * bpow ex) * (IZR (Zpos my) * bpow ey))%R).
apply (round_error s (mx * my) (ex + ey) loc_Exact v); try assumption.
pose proof (bpow_pos (ex + ey)) as HB.
assert (Ev : v = (IZR (Zpos (mx * my)) * bpow (ex + ey))%R).
{ subst v. rewrite Pos2Z.inj_mul, mult_IZR, bpow_add. ring. }
rewrite Ev. split; nra.
Qed.

Lemma bpow_neg p : (bpow (Zneg p) * IZR (2 ^ Zpos p) = 1)%R.
Proof.
rewrite (bpow_IZR (Zpos p)) by lia. rewrite <- bpow_add.
replace (Zneg p + Zpos p) with 0 by lia. reflexivity.
Qed.

(** [tenths] rounds ten times the value to the nearest integer, halves
  upwards. *)
Lemma tenths_spec m p :
(IZR (tenths m (Zneg p)) <= 10 * (IZR (Zpos m) * bpow (Zneg p)) + / 2
 < IZR (tenths m (Zneg p)) + 1)%R.
Proof.
unfold tenths. set (P := 2 ^ Zpos p).
assert (HP : 0 < P) by (apply Z.pow_pos_nonneg; lia).
replace (2 ^ (Zpos p + 1)) with (2 * P) by (subst P; rewrite Z.pow_add_r by lia; lia).
set (n := (20 * Zpos m + P) / (2 * P)).
assert (Hlo : 2 * P * n <= 20 * Zpos m + P) by (apply Z.mul_div_le; lia).
assert (Hhi : 20 * Zpos m + P + 1 <= 2 * P * (n + 1)).
{ pose proof (Z.mul_succ_div_gt (20 * Zpos m + P) (2 * P) ltac:(lia)). fold n in H. lia. }
pose proof (bpow_neg p) as HB. fold P in HB.
apply IZR_le in Hlo, Hhi. apply IZR_lt in HP.
push_IZR Hlo. push_IZR Hhi.
set (X := IZR (Zpos m)) in *. set (N := IZR n) in *. set (Q := IZR P) in *.
set (B := bpow (Zneg p)) in *.
assert (EX : (X = X * B * Q)%R) by (rewrite Rmult_assoc, HB; ring).
split.
- apply Rmult_le_reg_r with (2 * Q)%R; [lra|]. nra.
- apply Rmult_lt_reg_r with (2 * Q)%R; [lra|]. nra.
Qed.

Lemma of_Z_R z m :
0 < z < 2 ^ 53 -> Zpos m = z * 2 ^ (53 - Zdigits2 z) ->
(IZR (Zpos m) * bpow (Zdigits2 z - 53) = IZR z)%R.
Proof.
intros Hz Hm. pose proof (Zdigits2_le_53 z Hz) as Hd.
rewrite Hm, mult_IZR, bpow_IZR by lia.
rewrite Rmult_assoc, <- bpow_add.
replace (53 - Zdigits2 z + (Zdigits2 z - 53)) with 0 by lia.
change (bpow 0) with 1%R. ring.
Qed.

Lemma Zdigits2_upper z j : 0 < z < 2 ^ j -> Zdigits2 z <= j.
Proof.
intros [Hz Hj]. destruct z as [|p|p]; try lia. cbn [Zdigits2].
pose proof (digits2_pos_bounds p) as [Lo _].
destruct (Z_le_gt_dec (Zpos (digits2_pos p)) j) as [|Hgt]; [assumption|].
assert (0 <= j).
{ destruct (Z_lt_le_dec j 0) as [Hneg|]; [|assumption].
  rewrite Z.pow_neg_r in Hj by assumption. lia. }
assert (2 ^ j <= 2 ^ (Zpos (digits2_pos p) - 1)) by (apply Z.pow_le_mono_r; lia).
lia.
Qed.

Lemma digits2_pos_53 m : 2 ^ 52 <= Zpos m < 2 ^ 53 -> Zpos (digits2_pos m) = 53.
Proof. intros H. exact (Zdigits2_53 (Zpos m) H). Qed.

Lemma digits2_pos_mul a b :
2 ^ 52 <= Zpos a < 2 ^ 53 -> 2 ^ 52 <= Zpos b < 2 ^ 53 ->
105 <= Zpos (digits2_pos (a * b)) <= 106.
Proof.
intros Ha Hb. change (Zpos (digits2_pos (a * b))) with (Zdigits2 (Zpos (a * b))).
rewrite Pos2Z.inj_mul.
assert (2 ^ 104 <= Zpos a * Zpos b < 2 ^ 106).
{ change (2 ^ 104) with (2 ^ 52 * 2 ^ 52). change (2 ^ 106) with (2 ^ 53 * 2 ^ 53). nia. }
destruct (Z_lt_le_dec (Zpos a * Zpos b) (2 ^ 105)).
- rewrite (Zdigits2_unique _ 105); lia.
- rewrite (Zdigits2_unique _ 106); lia.
Qed.

Lemma hundred_R : (IZR (Zpos 7036874417766400) * bpow (-46) = 100)%R.
Proof.
change (Zpos 7036874417766400) with (100 * 2 ^ 46). rewrite mult_IZR.
pose proof (bpow_neg 46) as H. change (Zneg 46) with (-46) in H.
change (2 ^ Zpos 46) with (2 ^ 46) in H. rewrite Rmult_assoc, (Rmult_comm (IZR (2 ^ 46))), H.
ring.
Qed.

(** The percentage [(a / t) * 100] printed with one decimal is a multiple
  of [1/10] nearest to the exact [100 * a / t]. *)
Lemma percent_tenths a t :
0 < a <= t -> t < 2 ^ 32 ->
exists n,
  toFixed1 (mul (div (of_Z a) (of_Z t)) (of_Z 100)) = NumeralFixed false n /\
  2 * Z.abs (n * t - 1000 * a) <= t.
Proof.
intros Ha Ht.
assert (Ha53 : 0 < a < 2 ^ 53) by (change (2 ^ 53) with (2 ^ 32 * 2 ^ 21); lia).
assert (Ht53 : 0 < t < 2 ^ 53) by (change (2 ^ 53) with (2 ^ 32 * 2 ^ 21); lia).
destruct (of_Z_finite a Ha53) as (ma & Ea & Ema & Rma).
destruct (of_Z_finite t Ht53) as (mt & Et & Emt & Rmt).
pose proof (of_Z_R a ma Ha53 Ema) as Va. pose proof (of_Z_R t mt Ht53 Emt) as Vt.
pose proof (Zdigits2_le_53 a Ha53) as Hda.
pose proof (Zdigits2_mono a t ltac:(lia)) as Hmono.
pose proof (Zdigits2_upper t 32 ltac:(lia)) as Hdt.
set (da := Zdigits2 a) in *. set (dt := Zdigits2 t) in *.
rewrite Ea, Et. unfold div, SFdiv. cbn [xorb].
pose proof (div_error false ma (da - 53) mt (dt - 53)) as F. cbv zeta in F.
rewrite (digits2_pos_53 ma Rma), (digits2_pos_53 mt Rmt) in F.
destruct F as (mq & eq & -> & Rq & Hq & Vq); [lia|lia|].
rewrite Va, Vt in Vq.
change (of_Z 100) with (S754_finite false 7036874417766400 (-46)).
unfold mul, SFmul. cbn [xorb].
pose proof (digits2_pos_mul mq 7036874417766400 Rq ltac:(lia)) as Hdm.
pose proof (mul_error false mq eq 7036874417766400 (-46)) as G. cbv zeta in G.
destruct G as (mx & e & -> & Rx & Hx & Vx); [lia|lia|lia|].
rewrite hundred_R in Vx.
destruct e as [|p|p]; try lia.
unfold toFixed1, ge_1e21.
replace (10 ^ 21 * 2 ^ Zpos p <=? Zpos mx) with false.
2:{ symmetry. apply Z.leb_gt. assert (0 < 2 ^ Zpos p) by (apply Z.pow_pos_nonneg; lia).
    assert (2 ^ 53 < 10 ^ 21) by reflexivity. nia. }
exists (tenths mx (Zneg p)). split; [reflexivity|].
pose proof (tenths_spec mx p) as Hn.
set (n := tenths mx (Zneg p)) in *.
set (X := (IZR (Zpos mx) * bpow (Zneg p))%R) in *.
set (Q := (IZR (Zpos mq) * bpow eq)%R) in *.
assert (HA : (0 < IZR a <= IZR t)%R) by (split; [apply IZR_lt|apply IZR_le]; lia).
assert (HT : (IZR t < IZR (2 ^ 32))%R) by (apply IZR_lt; lia).
change (2 ^ 32) with 4294967296 in HT.
set (A := IZR a) in *. set (T := IZR t) in *. set (N := IZR n) in *.
pose proof u_pos as Hu0. pose proof u_scale as Hu1.
change (2 ^ 52) with 4503599627370496 in Hu1.
assert (Hu2 : (u < / 1000000000000000)%R) by (unfold u; change (2 ^ 52) with 4503599627370496; lra).
set (r := (A / T)%R) in *.
assert (Hr : (r * T = A)%R) by (subst r; field; lra).
assert (Hr0 : (0 < r <= 1)%R).
{ split.
  - subst r. apply Rdiv_lt_0_compat; lra.
  - apply Rmult_le_reg_r with T; [lra|]. rewrite Hr. lra. }
assert (HQ0 : (0 <= Q)%R) by nra.
assert (HX1 : (X <= 100 * r * (1 + u) * (1 + u))%R) by nra.
assert (HX2 : (100 * r * (1 - u) * (1 - u) <= X)%R) by nra.
assert (HAu : (A * u < / 1000000)%R) by nra.
assert (HXT1 : (X * T <= 100 * A * (1 + u) * (1 + u))%R).
{ rewrite <- Hr. nra. }
assert (HXT2 : (100 * A * (1 - u) * (1 - u) <= X * T)%R).
{ rewrite <- Hr. nra. }
assert (U1 : (2 * (N * T - 1000 * A) < T + 1)%R) by nra.
assert (U2 : (2 * (1000 * A - N * T) < T + 1)%R) by nra.
assert (Z1 : 2 * (n * t - 1000 * a) < t + 1).
{ apply lt_IZR. rewrite plus_IZR, !mult_IZR, minus_IZR, !mult_IZR. exact U1. }
assert (Z2 : 2 * (1000 * a - n * t) < t + 1).
{ apply lt_IZR. rewrite plus_IZR, !mult_IZR, minus_IZR, !mult_IZR. exact U2. }
lia.
Qed.

(** The Number nearest to [n / 10]. *)
Lemma of_ratio_error n :
Zpos n < 2 ^ 53 ->
exists m e,
  of_ratio false n 10 = S754_finite false m e /\
  2 ^ 52 <= Zpos m < 2 ^ 53 /\
  (IZR (Zpos n) / 10 * (1 - u) <= IZR (Zpos m) * bpow e <= IZR (Zpos n) / 10 * (1 + u))%R.
Proof.
intros Hn. unfold of_ratio.
pose proof (Zdigits2_le_53 (Zpos n) ltac:(lia)) as Hd. cbn [Zdigits2] in Hd.
pose proof (div_error false n 0 10 0) as F. cbv zeta in F.
change (Zpos (digits2_pos 10)) with 4 in F.
destruct F as (m & e & Hr & Hm & _ & Hv); [lia|lia|].
exists m, e. split; [exact Hr|]. split; [exact Hm|].
change (bpow 0) with 1%R in Hv.
replace (IZR (Zpos n) / 10)%R with (IZR (Zpos n) * 1 / (10 * 1))%R by (field; lra).
exact Hv.
Qed.

End NumFacts.

Module ObjFacts.
Import Num JS Analytics Spec Aux.

Lemma lower_ascii_not_upper c : is_upper (lower_ascii c) = false.
Proof. destruct c as [[] [] [] [] [] [] [] []]; reflexivity. Qed.

Lemma toLowerCase_no_upper s : no_upper (toLowerCase s) = true.
Proof.
  induction s as [|c s IH]; [reflexivity|].
  cbn [toLowerCase no_upper]. rewrite lower_ascii_not_upper, IH. reflexivity.
Qed.

Lemma bucket_key_no_upper t : no_upper (bucket_key t) = true.
Proof.
  unfold bucket_key. destruct (Ticket.severity t); try reflexivity.
  apply toLowerCase_no_upper.
Qed.

Lemma optional_toLowerCase_ok t :
  well_formed t ->
  exists k, optional_toLowerCase (Ticket.severity t) = Ok k /\ property_key k = bucket_key t.
Proof.
  unfold well_formed, bucket_key. destruct (Ticket.severity t); intros H; try contradiction;
    eexists; split; reflexivity.
Qed.

(** A lower-case key is one of the four severities, one of the two
    lower-case names that [Object.prototype] answers to, or unknown to
    the accumulators. *)
Lemma key_cases k :
  no_upper k = true ->
  k = "low" \/ k = "medium" \/ k = "high" \/ k = "critical" \/
  k = "constructor" \/ k = "__proto__" \/
  (String.eqb "low" k = false /\ String.eqb "medium" k = false /\
   String.eqb "high" k = false /\ String.eqb "critical" k = false /\
   String.eqb "constructor" k = false /\ inherited k = None).
Proof.
  intros Hk.
  destruct (String.eqb_spec "low" k) as [<-|N1]; [tauto|].
  destruct (String.eqb_spec "medium" k) as [<-|N2]; [tauto|].
  destruct (String.eqb_spec "high" k) as [<-|N3]; [tauto|].
  destruct (String.eqb_spec "critical" k) as [<-|N4]; [tauto|].
  destruct (String.eqb_spec "constructor" k) as [<-|N5]; [tauto|].
  destruct (String.eqb_spec "__proto__" k) as [<-|N6]; [tauto|].
  do 6 right. repeat split.
  unfold inherited, Object_prototype_functions. cbn [existsb].
  repeat match goal with
  | |- context [String.eqb k ?s] =>
      destruct (String.eqb_spec k s) as [->|?]; [try congruence; discriminate Hk|]
  end.
  reflexivity.
Qed.

Lemma tail_other l m h c x k :
  String.eqb "low" k = false -> String.eqb "medium" k = false ->
  String.eqb "high" k = false -> String.eqb "critical" k = false ->
  String.eqb "constructor" k = false ->
  own (obj4 l m h c x) k = None.
Proof.
  intros N1 N2 N3 N4 N5. unfold obj4. cbn [own app]. rewrite N1, N2, N3, N4.
  destruct x; cbn [own]; rewrite ?N5; reflexivity.
Qed.

Lemma dist_callback l m h c x k :
  no_upper k = true ->
  (if defined (get (obj4 l m h c x) k)
   then increment (obj4 l m h c x) k else obj4 l m h c x)
  = obj4 (bump (String.eqb "low" k) l) (bump (String.eqb "medium" k) m)
         (bump (String.eqb "high" k) h) (bump (String.eqb "critical" k) c)
         (bump_constructor (String.eqb "constructor" k) x).
Proof.
  intros Hk.
  destruct (key_cases k Hk) as [->|[->|[->|[->|[->|[->|(N1 & N2 & N3 & N4 & N5 & Hi)]]]]]];
    try (destruct x; reflexivity).
  rewrite N1, N2, N3, N4, N5.
  unfold get. rewrite tail_other, Hi by assumption. reflexivity.
Qed.

Lemma forEach_distribution tickets :
  Forall well_formed tickets ->
  forall l m h c x,
    forEach tickets (fun ticket distribution =>
      severity ← optional_toLowerCase (Ticket.severity ticket);
      let severity := property_key severity in
      if defined (get distribution severity)
      then mret (increment distribution severity)
      else mret distribution) (obj4 l m h c x)
    = Ok (obj4 (bumps (in_bucket "low") tickets l) (bumps (in_bucket "medium") tickets m)
               (bumps (in_bucket "high") tickets h) (bumps (in_bucket "critical") tickets c)
               (bumps_constructor (in_bucket "constructor") tickets x)).
Proof.
  induction 1 as [|t tickets Ht _ IH]; intros l m h c x; [reflexivity|].
  cbn [forEach]. destruct (optional_toLowerCase_ok t Ht) as (k & -> & Hk).
  cbn [mbind Result_bind bind]. cbv zeta. rewrite Hk.
  pose proof (dist_callback l m h c x (bucket_key t) (bucket_key_no_upper t)) as E.
  destruct (defined (get (obj4 l m h c x) (bucket_key t)));
    cbn [mret Result_ret bind]; rewrite E; apply IH.
Qed.

Lemma bumps_constructor_none p tickets x :
  existsb p tickets = false -> bumps_constructor p tickets x = x.
Proof.
  revert x. induction tickets as [|t tickets IH]; intros x H; [reflexivity|].
  cbn [existsb] in H. apply orb_false_elim in H. destruct H as [Ht Hr].
  unfold bumps_constructor in *. cbn [fold_left]. rewrite Ht. cbn [bump_constructor].
  apply IH. exact Hr.
Qed.

Lemma pluses_constructor_none p h tickets x :
  existsb p tickets = false -> pluses_constructor p h tickets x = x.
Proof.
  revert x. induction tickets as [|t tickets IH]; intros x H; [reflexivity|].
  cbn [existsb] in H. apply orb_false_elim in H. destruct H as [Ht Hr].
  unfold pluses_constructor in *. cbn [fold_left]. rewrite Ht. cbn [plus_constructor].
  apply IH. exact Hr.
Qed.

Lemma has_severity_bucket key t :
  In key canonical -> in_bucket key t = has_severity key t.
Proof.
  intros Hkey. unfold in_bucket, bucket_key, has_severity.
  destruct (Ticket.severity t); try apply String.eqb_sym;
    cbn in Hkey; intuition (subst; reflexivity).
Qed.

Lemma count_cons p t tickets :
  count p (t :: tickets) = (if p t then 1 else 0) + count p tickets.
Proof.
  unfold count. cbn [List.filter]. destruct (p t); cbn [length]; lia.
Qed.

Lemma count_bounds p tickets : 0 <= count p tickets <= Z.of_nat (length tickets).
Proof.
  unfold count. pose proof (List.filter_length_le p tickets). lia.
Qed.

Lemma count_ext p q tickets :
  (forall t, p t = q t) -> count p tickets = count q tickets.
Proof.
  intros H. unfold count. rewrite (List.filter_ext p q H). reflexivity.
Qed.

Lemma count_le p q tickets :
  (forall t, p t = true -> q t = true) -> count p tickets <= count q tickets.
Proof.
  intros H. induction tickets as [|t tickets IH]; [reflexivity|].
  rewrite !count_cons. specialize (H t).
  destruct (p t), (q t); lia.
Qed.

(** The counters are exact: they hold the number of matching tickets. *)
Lemma bumps_count p tickets :
  forall a, 0 <= a -> a + Z.of_nat (length tickets) < 2 ^ 53 ->
    bumps p tickets (of_Z a) = of_Z (a + count p tickets).
Proof.
  induction tickets as [|t tickets IH]; intros a Ha Hb.
  - cbn. f_equal. unfold count. cbn. lia.
  - unfold bumps in *. cbn [fold_left]. rewrite count_cons.
    cbn [length] in Hb. unfold bump at 2. destruct (p t).
    + rewrite NumFacts.add_one by lia. rewrite IH by lia. f_equal. lia.
    + rewrite IH by lia. f_equal.
Qed.

Lemma keys_obj4 a b c d X :
  keys (obj4 a b c d X)
  = "low" :: "medium" :: "high" :: "critical"
    :: match X with Some _ => ["constructor"] | None => [] end.
Proof. destruct X; reflexivity. Qed.

Lemma get_obj4 a b c d X key :
  In key canonical -> get (obj4 a b c d X) key = Some (PNum (pick key a b c d)).
Proof. intros H. cbn in H. intuition (subst; reflexivity). Qed.

Lemma set_obj4 a b c d X key v :
  In key canonical ->
  set (obj4 a b c d X) key (PNum v)
  = obj4 (if String.eqb key "low" then v else a)
         (if String.eqb key "medium" then v else b)
         (if String.eqb key "high" then v else c)
         (if String.eqb key "critical" then v else d) X.
Proof. intros H. cbn in H. intuition (subst; reflexivity). Qed.

Lemma in_canonical_low : In "low" canonical.
Proof. cbn; tauto. Qed.
Lemma in_canonical_medium : In "medium" canonical.
Proof. cbn; tauto. Qed.
Lemma in_canonical_high : In "high" canonical.
Proof. cbn; tauto. Qed.
Lemma in_canonical_critical : In "critical" canonical.
Proof. cbn; tauto. Qed.

Lemma final_low (t : bool) a b c d X v :
  (if t then set (obj4 a b c d X) "low" (PNum v) else obj4 a b c d X)
  = obj4 (if t then v else a) b c d X.
Proof. destruct t; reflexivity. Qed.

Lemma final_medium (t : bool) a b c d X v :
  (if t then set (obj4 a b c d X) "medium" (PNum v) else obj4 a b c d X)
  = obj4 a (if t then v else b) c d X.
Proof. destruct t; reflexivity. Qed.

Lemma final_high (t : bool) a b c d X v :
  (if t then set (obj4 a b c d X) "high" (PNum v) else obj4 a b c d X)
  = obj4 a b (if t then v else c) d X.
Proof. destruct t; reflexivity. Qed.

Lemma final_critical (t : bool) a b c d X v :
  (if t then set (obj4 a b c d X) "critical" (PNum v) else obj4 a b c d X)
  = obj4 a b c (if t then v else d) X.
Proof. destruct t; reflexivity. Qed.

Lemma final_constructor (t : bool) a b c d v w :
  (if t then set (obj4 a b c d (Some v)) "constructor" w else obj4 a b c d (Some v))
  = obj4 a b c d (Some (if t then w else v)).
Proof. destruct t; reflexivity. Qed.

Lemma number_low a b c d X : to_number (get (obj4 a b c d X) "low") = a.
Proof. reflexivity. Qed.
Lemma number_medium a b c d X : to_number (get (obj4 a b c d X) "medium") = b.
Proof. reflexivity. Qed.
Lemma number_high a b c d X : to_number (get (obj4 a b c d X) "high") = c.
Proof. reflexivity. Qed.
Lemma number_critical a b c d X : to_number (get (obj4 a b c d X) "critical") = d.
Proof. reflexivity. Qed.

Ltac final_loop :=
  rewrite keys_obj4; cbn [fold_left];
  rewrite ?number_low, final_low, ?number_medium, final_medium,
          ?number_high, final_high, ?number_critical, final_critical.

Lemma leb_NaN_r x : leb x NaN = false.
Proof. destruct x; reflexivity. Qed.

Lemma sla_callback cl cm ch cc X nl nm nh nc Y k hr :
  no_upper k = true ->
  (if defined (get slaTargets k)
   then (if leb hr (to_number (get slaTargets k))
         then increment (obj4 cl cm ch cc X) k else obj4 cl cm ch cc X,
         increment (obj4 nl nm nh nc Y) k)
   else (obj4 cl cm ch cc X, obj4 nl nm nh nc Y))
  = (obj4 (bump (String.eqb "low" k && leb hr (of_Z 168)) cl)
          (bump (String.eqb "medium" k && leb hr (of_Z 72)) cm)
          (bump (String.eqb "high" k && leb hr (of_Z 24)) ch)
          (bump (String.eqb "critical" k && leb hr (of_Z 4)) cc) X,
     obj4 (bump (String.eqb "low" k) nl) (bump (String.eqb "medium" k) nm)
          (bump (String.eqb "high" k) nh) (bump (String.eqb "critical" k) nc)
          (bump_constructor (String.eqb "constructor" k) Y)).
Proof.
  intros Hk.
  destruct (key_cases k Hk) as [->|[->|[->|[->|[->|[->|(N1 & N2 & N3 & N4 & N5 & Hi)]]]]]].
  - change (to_number (get slaTargets "low")) with (of_Z 168).
    destruct (leb hr (of_Z 168)); reflexivity.
  - change (to_number (get slaTargets "medium")) with (of_Z 72).
    destruct (leb hr (of_Z 72)); reflexivity.
  - change (to_number (get slaTargets "high")) with (of_Z 24).
    destruct (leb hr (of_Z 24)); reflexivity.
  - change (to_number (get slaTargets "critical")) with (of_Z 4).
    destruct (leb hr (of_Z 4)); reflexivity.
  - change (to_number (get slaTargets "constructor")) with NaN.
    rewrite leb_NaN_r. destruct Y; reflexivity.
  - change (to_number (get slaTargets "__proto__")) with NaN.
    rewrite leb_NaN_r. destruct Y; reflexivity.
  - rewrite N1, N2, N3, N4, N5. unfold get.
    replace (own slaTargets k) with (@None PropValue).
    + rewrite Hi. reflexivity.
    + unfold slaTargets. cbn [own]. rewrite N1, N2, N3, N4. reflexivity.
Qed.

Lemma resolution_callback sl sm sh sc X nl nm nh nc Y k hr :
  no_upper k = true ->
  (if defined (get (obj4 sl sm sh sc X) k)
   then (add_assign (obj4 sl sm sh sc X) k hr, increment (obj4 nl nm nh nc Y) k)
   else (obj4 sl sm sh sc X, obj4 nl nm nh nc Y))
  = (obj4 (plus (String.eqb "low" k) hr sl) (plus (String.eqb "medium" k) hr sm)
          (plus (String.eqb "high" k) hr sh) (plus (String.eqb "critical" k) hr sc)
          (plus_constructor (String.eqb "constructor" k) hr X),
     obj4 (bump (String.eqb "low" k) nl) (bump (String.eqb "medium" k) nm)
          (bump (String.eqb "high" k) nh) (bump (String.eqb "critical" k) nc)
          (bump_constructor (String.eqb "constructor" k) Y)).
Proof.
  intros Hk.
  destruct (key_cases k Hk) as [->|[->|[->|[->|[->|[->|(N1 & N2 & N3 & N4 & N5 & Hi)]]]]]];
    try (destruct X as [[]|], Y; reflexivity).
  rewrite N1, N2, N3, N4, N5. unfold get. rewrite tail_other, Hi by assumption.
  reflexivity.
Qed.

Lemma pluses_filter p x tickets : forall v,
  pluses p x tickets v = fold_left add (map x (List.filter p tickets)) v.
Proof.
  induction tickets as [|t tickets IH]; intros v; [reflexivity|].
  unfold pluses in *. cbn [fold_left List.filter]. unfold plus at 2.
  destruct (p t); cbn [map fold_left]; apply IH.
Qed.

End ObjFacts.

Module AnalyticsFacts.
Import Num JS Analytics Spec Aux ObjFacts.

Lemma obj4_zeros : zeros = obj4 zero zero zero zero None.
Proof. reflexivity. Qed.

Lemma distribution_final total (f : string -> number) x key :
  In key canonical ->
  get (fold_left (fun distribution key =>
          set distribution key
            (if 0 <? total
             then PNum (parseFloat (toFixed1
                    (mul (div (to_number (get distribution key)) (of_Z total)) (of_Z 100))))
             else PNum zero))
        (keys (obj4 (f "low") (f "medium") (f "high") (f "critical") x))
        (obj4 (f "low") (f "medium") (f "high") (f "critical") x)) key
  = Some (PNum (percent total (f key))).
Proof.
  intros Hkey. unfold percent.
  destruct x; cbn in Hkey; destruct (0 <? total);
    intuition (subst; reflexivity).
Qed.

Lemma percent_zero t :
  0 < t < 2 ^ 53 -> toFixed1 (mul (div zero (of_Z t)) (of_Z 100)) = NumeralFixed false 0.
Proof.
  intros Ht. destruct (NumFacts.of_Z_finite t Ht) as (m & -> & _). reflexivity.
Qed.

(** The stored percentage of [cnt] out of [total]. *)
Lemma percent_nearest cnt total :
  0 <= cnt <= total -> total < 2 ^ 32 ->
  exists n, percent total (of_Z cnt) = one_decimal n /\
            nearest_tenths n (100 * cnt) total /\ (total = 0 -> n = 0) /\ 0 <= n.
Proof.
  intros Hc Ht. unfold percent, nearest_tenths, one_decimal.
  destruct (Z.ltb_spec 0 total) as [Hpos|Hz].
  - destruct (Z.eq_dec cnt 0) as [->|Hne].
    + exists 0. change (of_Z 0) with zero. rewrite percent_zero
        by (change (2 ^ 53) with (2 ^ 32 * 2 ^ 21); lia).
      split; [reflexivity|]. lia.
    + destruct (NumFacts.percent_tenths cnt total ltac:(lia) Ht) as (n & -> & Hn).
      exists n. split; [reflexivity|]. split; [lia|]. split; [lia|nia].
  - exists 0. split; [reflexivity|]. lia.
Qed.

Lemma calculateSeverityDistribution_eq tickets :
  Forall well_formed tickets ->
  let x := bumps_constructor (in_bucket "constructor") tickets None in
    calculateSeverityDistribution tickets
    = Ok (fold_left (fun distribution key =>
            set distribution key
              (if 0 <? Z.of_nat (length tickets)
               then PNum (parseFloat (toFixed1
                      (mul (div (to_number (get distribution key))
                                (of_Z (Z.of_nat (length tickets)))) (of_Z 100))))
               else PNum zero))
          (keys (obj4 (bumps (in_bucket "low") tickets zero)
                      (bumps (in_bucket "medium") tickets zero)
                      (bumps (in_bucket "high") tickets zero)
                      (bumps (in_bucket "critical") tickets zero) x))
          (obj4 (bumps (in_bucket "low") tickets zero)
                (bumps (in_bucket "medium") tickets zero)
                (bumps (in_bucket "high") tickets zero)
                (bumps (in_bucket "critical") tickets zero) x)).
Proof.
  intros Hwf x. unfold calculateSeverityDistribution. rewrite obj4_zeros.
  pose proof (forEach_distribution tickets Hwf zero zero zero zero None) as E.
  cbv zeta in *. rewrite E. reflexivity.
Qed.

Lemma distribution_keys total a b c d :
  keys (fold_left (fun distribution key =>
          set distribution key
            (if 0 <? total
             then PNum (parseFloat (toFixed1
                    (mul (div (to_number (get distribution key)) (of_Z total)) (of_Z 100))))
             else PNum zero))
        (keys (obj4 a b c d None)) (obj4 a b c d None)) = canonical.
Proof. destruct (0 <? total); reflexivity. Qed.

Lemma pow_32_53 : 2 ^ 32 < 2 ^ 53.
Proof. reflexivity. Qed.

(** The percentage stored for each canonical severity. *)
Lemma severity_distribution_nearest tickets :
  Forall well_formed tickets ->
  Z.of_nat (length tickets) < 2 ^ 32 ->
  exists distribution,
    calculateSeverityDistribution tickets = Ok distribution /\
    forall key, In key canonical ->
      exists n,
        get distribution key = Some (PNum (one_decimal n)) /\
        nearest_tenths n (100 * count (has_severity key) tickets)
                         (Z.of_nat (length tickets)) /\
        (tickets = [] -> n = 0) /\ 0 <= n.
Proof.
  intros Hwf Hlen.
  rewrite (calculateSeverityDistribution_eq tickets Hwf).
  set (x := bumps_constructor (in_bucket "constructor") tickets None).
  eexists. split; [reflexivity|]. intros key Hkey.
  pose proof (count_bounds (has_severity key) tickets) as Hc.
  pose proof pow_32_53.
  destruct (percent_nearest (count (has_severity key) tickets) (Z.of_nat (length tickets)) Hc Hlen)
    as (n & Hp & Hn & H0 & Hn0).
  exists n.
  rewrite (distribution_final _ (fun key => bumps (in_bucket key) tickets zero) x key Hkey).
  change zero with (of_Z 0). rewrite (bumps_count (in_bucket key) tickets 0) by lia.
  rewrite Z.add_0_l, (count_ext _ _ tickets (fun t => has_severity_bucket key t Hkey)), Hp.
  split; [reflexivity|]. split; [exact Hn|]. split; [|exact Hn0].
  intros ->. apply H0. reflexivity.
Qed.

Lemma one_decimal_R n :
  0 <= n < 2 ^ 53 ->
  (IZR n / 10 * (1 - u) <= to_R (one_decimal n) <= IZR n / 10 * (1 + u))%R.
Proof.
  intros Hn. unfold one_decimal, parseFloat. destruct n as [|p|p]; try lia.
  - cbn [to_R]. lra.
  - destruct (NumFacts.of_ratio_error p ltac:(lia)) as (m & e & -> & _ & Hv).
    rewrite NumFacts.to_R_finite. rewrite Rmult_1_l. exact Hv.
Qed.

Lemma between_0_100_table :
  forallb (fun n => between_0_100 (one_decimal (Z.of_nat n))) (seq 0 1001) = true.
Proof. vm_compute. reflexivity. Qed.

Lemma one_decimal_between n : 0 <= n <= 1000 -> between_0_100 (one_decimal n) = true.
Proof.
  intros Hn. pose proof between_0_100_table as T.
  rewrite forallb_forall in T. specialize (T (Z.to_nat n)).
  rewrite Z2Nat.id in T by lia. apply T. apply in_seq. lia.
Qed.

Lemma nearest_tenths_le_1000 n c t :
  0 <= c <= t -> 0 <= n -> nearest_tenths n (100 * c) t -> (t = 0 -> n = 0) -> n <= 1000.
Proof.
  unfold nearest_tenths. intros Hc Hn H H0.
  destruct (Z.eq_dec t 0) as [->|Ht]; [rewrite H0; lia|]. nia.
Qed.

(** On every list, the percentages kept under the four canonical
    severities are between 0 and 100. *)
Lemma canonical_distribution_between tickets key :
  Forall well_formed tickets ->
  Z.of_nat (length tickets) < 2 ^ 32 ->
  In key canonical ->
  exists distribution,
    calculateSeverityDistribution tickets = Ok distribution /\
    between_0_100 (to_number (get distribution key)) = true.
Proof.
  intros Hwf Hlen Hkey.
  destruct (severity_distribution_nearest tickets Hwf Hlen) as (d & Hd & Hk).
  destruct (Hk key Hkey) as (n & Hg & Hn & H0 & Hn0).
  exists d. split; [exact Hd|]. rewrite Hg. cbn [to_number].
  apply one_decimal_between. split; [exact Hn0|].
  apply (nearest_tenths_le_1000 n (count (has_severity key) tickets) (Z.of_nat (length tickets)));
    auto using count_bounds.
  intros E. apply H0. destruct tickets; [reflexivity|cbn in E; lia].
Qed.

Lemma recognized_well_formed t : recognized t = true -> well_formed t.
Proof.
  unfold recognized, has_severity, well_formed. destruct (Ticket.severity t); auto;
    cbn; discriminate.
Qed.

(** A recognized ticket is counted under exactly one severity. *)
Lemma recognized_once t :
  recognized t = true ->
  (if has_severity "low" t then 1 else 0) + (if has_severity "medium" t then 1 else 0)
  + (if has_severity "high" t then 1 else 0) + (if has_severity "critical" t then 1 else 0) = 1.
Proof.
  unfold recognized, has_severity. destruct (Ticket.severity t); try discriminate.
  cbn [existsb canonical]. generalize (toLowerCase s). intros k.
  destruct (String.eqb_spec k "low") as [->|]; [reflexivity|].
  destruct (String.eqb_spec k "medium") as [->|]; [reflexivity|].
  destruct (String.eqb_spec k "high") as [->|]; [reflexivity|].
  destruct (String.eqb_spec k "critical") as [->|]; [reflexivity|].
  discriminate.
Qed.

Lemma recognized_partition tickets :
  forallb recognized tickets = true ->
  count (has_severity "low") tickets + count (has_severity "medium") tickets
  + count (has_severity "high") tickets + count (has_severity "critical") tickets
  = Z.of_nat (length tickets).
Proof.
  induction tickets as [|t tickets IH]; [reflexivity|].
  cbn [forallb]. intros H. apply andb_prop in H. destruct H as [Ht Hr].
  rewrite !count_cons. specialize (IH Hr). pose proof (recognized_once t Ht).
  cbn [length]. lia.
Qed.

Section WithDateParser.
Variable Date_parse : string -> TimeValue.

Lemma calculateSLACompliance_canonical tickets :
  Forall well_formed tickets ->
  exists sla,
    calculateSLACompliance Date_parse tickets = Ok sla /\
    keys sla = canonical /\
    forall key target,
      In (key, target) [("low", 168); ("medium", 72); ("high", 24); ("critical", 4)] ->
      get sla key =
      Some (PNum (let c := bumps (compliant_in Date_parse key target) tickets zero in
                  let n := bumps (qualifies_in key) tickets zero in
                  if ltb zero n
                  then parseFloat (toFixed1 (mul (div c n) (of_Z 100)))
                  else c)).
Proof.
  intros Hwf. unfold calculateSLACompliance. rewrite obj4_zeros.
  match goal with |- context [forEach tickets ?cb _] => set (callback := cb) end.
  assert (Hloop : forall cl cm ch cc X nl nm nh nc Y,
    let Y' := bumps_constructor (qualifies_in "constructor") tickets Y in
    forEach tickets callback (obj4 cl cm ch cc X, obj4 nl nm nh nc Y)
    = Ok (obj4 (bumps (compliant_in Date_parse "low" 168) tickets cl)
               (bumps (compliant_in Date_parse "medium" 72) tickets cm)
               (bumps (compliant_in Date_parse "high" 24) tickets ch)
               (bumps (compliant_in Date_parse "critical" 4) tickets cc) X,
          obj4 (bumps (qualifies_in "low") tickets nl)
               (bumps (qualifies_in "medium") tickets nm)
               (bumps (qualifies_in "high") tickets nh)
               (bumps (qualifies_in "critical") tickets nc) Y')).
  { clear -Hwf. induction Hwf as [|t tickets Ht _ IH]; intros cl cm ch cc X nl nm nh nc Y;
      [reflexivity|].
    cbn [forEach]. unfold callback at 1.
    unfold bumps, bumps_constructor, compliant_in, qualifies_in, in_bucket.
    cbn [fold_left].
    destruct (has_both_dates t); cbn [andb bump bump_constructor].
    - destruct (optional_toLowerCase_ok t Ht) as (k & -> & Hk).
      cbn [mbind Result_bind bind]. cbv zeta. rewrite Hk.
      pose proof (sla_callback cl cm ch cc X nl nm nh nc Y (bucket_key t)
                    (hoursToResolve Date_parse t) (bucket_key_no_upper t)) as E.
      destruct (defined (get slaTargets (bucket_key t)));
        cbn [mret Result_ret bind]; rewrite E; apply IH.
    - cbn [mret Result_ret bind]. apply IH. }
  specialize (Hloop zero zero zero zero None zero zero zero zero None).
  cbv zeta in Hloop. rewrite Hloop.
  set (Y := bumps_constructor (qualifies_in "constructor") tickets None).
  cbn [mbind Result_bind bind mret Result_ret]. eexists. split; [reflexivity|].
  cbv zeta.
  set (cl := bumps (compliant_in Date_parse "low" 168) tickets zero).
  set (cm := bumps (compliant_in Date_parse "medium" 72) tickets zero).
  set (ch := bumps (compliant_in Date_parse "high" 24) tickets zero).
  set (cc := bumps (compliant_in Date_parse "critical" 4) tickets zero).
  set (nl := bumps (qualifies_in "low") tickets zero).
  set (nm := bumps (qualifies_in "medium") tickets zero).
  set (nh := bumps (qualifies_in "high") tickets zero).
  set (nc := bumps (qualifies_in "critical") tickets zero).
  final_loop. cbn [fold_left]. split; [reflexivity|].
  intros key target Hkey. cbn in Hkey.
  destruct Hkey as [E|[E|[E|[E|[]]]]]; inversion E; subst key target; reflexivity.
Qed.

Lemma calculateResolutionTimes_canonical tickets :
  Forall well_formed tickets ->
  exists art,
    calculateResolutionTimes Date_parse tickets = Ok art /\
    (existsb (qualifies_in "constructor") tickets = false -> keys art = canonical) /\
    forall key,
      In key canonical ->
      get art key =
      Some (PNum (let s := pluses (qualifies_in key) (hoursToResolve Date_parse)
                                  tickets zero in
                  let n := bumps (qualifies_in key) tickets zero in
                  if ltb zero n then parseFloat (toFixed1 (div s n)) else s)).
Proof.
  intros Hwf. unfold calculateResolutionTimes. rewrite obj4_zeros.
  match goal with |- context [forEach tickets ?cb _] => set (callback := cb) end.
  assert (Hloop : forall sl sm sh sc X nl nm nh nc Y,
    let X' := pluses_constructor (qualifies_in "constructor") (hoursToResolve Date_parse)
                                 tickets X in
    let Y' := bumps_constructor (qualifies_in "constructor") tickets Y in
    forEach tickets callback (obj4 sl sm sh sc X, obj4 nl nm nh nc Y)
    = Ok (obj4 (pluses (qualifies_in "low") (hoursToResolve Date_parse) tickets sl)
               (pluses (qualifies_in "medium") (hoursToResolve Date_parse) tickets sm)
               (pluses (qualifies_in "high") (hoursToResolve Date_parse) tickets sh)
               (pluses (qualifies_in "critical") (hoursToResolve Date_parse) tickets sc) X',
          obj4 (bumps (qualifies_in "low") tickets nl)
               (bumps (qualifies_in "medium") tickets nm)
               (bumps (qualifies_in "high") tickets nh)
               (bumps (qualifies_in "critical") tickets nc) Y')).
  { clear -Hwf. induction Hwf as [|t tickets Ht _ IH]; intros sl sm sh sc X nl nm nh nc Y;
      [reflexivity|].
    cbn [forEach]. unfold callback at 1.
    unfold bumps, pluses, bumps_constructor, pluses_constructor, qualifies_in, in_bucket.
    cbn [fold_left].
    destruct (has_both_dates t); cbn [andb bump plus bump_constructor plus_constructor].
    - destruct (optional_toLowerCase_ok t Ht) as (k & -> & Hk).
      cbn [mbind Result_bind bind]. cbv zeta. rewrite Hk.
      pose proof (resolution_callback sl sm sh sc X nl nm nh nc Y (bucket_key t)
                    (hoursToResolve Date_parse t) (bucket_key_no_upper t)) as E.
      destruct (defined (get (obj4 sl sm sh sc X) (bucket_key t)));
        cbn [mret Result_ret bind]; rewrite E; apply IH.
    - cbn [mret Result_ret bind]. apply IH. }
  specialize (Hloop zero zero zero zero None zero zero zero zero None).
  cbv zeta in Hloop. rewrite Hloop.
  assert (HX : existsb (qualifies_in "constructor") tickets = false ->
               pluses_constructor (qualifies_in "constructor") (hoursToResolve Date_parse)
                                  tickets None = None)
    by apply pluses_constructor_none.
  set (X := pluses_constructor (qualifies_in "constructor") (hoursToResolve Date_parse)
                               tickets None) in *.
  set (Y := bumps_constructor (qualifies_in "constructor") tickets None).
  cbn [mbind Result_bind bind mret Result_ret]. eexists. split; [reflexivity|].
  cbv zeta.
  set (sl := pluses (qualifies_in "low") (hoursToResolve Date_parse) tickets zero).
  set (sm := pluses (qualifies_in "medium") (hoursToResolve Date_parse) tickets zero).
  set (sh := pluses (qualifies_in "high") (hoursToResolve Date_parse) tickets zero).
  set (sc := pluses (qualifies_in "critical") (hoursToResolve Date_parse) tickets zero).
  set (nl := bumps (qualifies_in "low") tickets zero).
  set (nm := bumps (qualifies_in "medium") tickets zero).
  set (nh := bumps (qualifies_in "high") tickets zero).
  set (nc := bumps (qualifies_in "critical") tickets zero).
  final_loop. split.
  - intros Hno. rewrite (HX Hno). reflexivity.
  - intros key Hkey.
    destruct X as [v|]; cbn [fold_left]; rewrite ?final_constructor;
      cbn in Hkey; destruct Hkey as [<-|[<-|[<-|[<-|[]]]]]; reflexivity.
Qed.

Lemma compliant_in_spec key t :
  In key canonical ->
  compliant_in Date_parse key (sla_target key) t = compliant Date_parse key t.
Proof.
  intros Hkey. unfold compliant_in, compliant, qualifies.
  rewrite (has_severity_bucket key t Hkey), andb_assoc. reflexivity.
Qed.

Lemma qualifies_in_spec key t :
  In key canonical -> qualifies_in key t = qualifies key t.
Proof.
  intros Hkey. unfold qualifies_in, qualifies.
  rewrite (has_severity_bucket key t Hkey). reflexivity.
Qed.

Lemma compliant_qualifies key t : compliant Date_parse key t = true -> qualifies key t = true.
Proof. unfold compliant. intros H. apply andb_prop in H. tauto. Qed.

(** The compliance rate of a canonical severity. *)
Lemma sla_compliance_nearest tickets key :
  Forall well_formed tickets ->
  Z.of_nat (length tickets) < 2 ^ 32 ->
  In key canonical ->
  exists sla n,
    calculateSLACompliance Date_parse tickets = Ok sla /\
    get sla key = Some (PNum (one_decimal n)) /\
    nearest_tenths n (100 * count (compliant Date_parse key) tickets)
                     (count (qualifies key) tickets) /\
    (count (qualifies key) tickets = 0 -> n = 0) /\ 0 <= n.
Proof.
  intros Hwf Hlen Hkey.
  destruct (calculateSLACompliance_canonical tickets Hwf) as (sla & Hsla & _ & Hget).
  pose proof pow_32_53.
  pose proof (count_bounds (qualifies key) tickets) as Hq.
  pose proof (count_bounds (compliant Date_parse key) tickets) as Hc.
  pose proof (count_le _ _ tickets (compliant_qualifies key)) as Hcq.
  destruct (percent_nearest (count (compliant Date_parse key) tickets)
              (count (qualifies key) tickets) ltac:(lia) ltac:(lia))
    as (n & Hp & Hn & H0 & Hn0).
  exists sla, n. split; [exact Hsla|]. split; [|auto].
  rewrite (Hget key (sla_target key))
    by (cbn in Hkey |- *; intuition (subst; auto)).
  cbv zeta. change zero with (of_Z 0). rewrite !bumps_count by lia.
  rewrite !Z.add_0_l.
  rewrite (count_ext _ _ tickets (fun t => compliant_in_spec key t Hkey)).
  rewrite (count_ext _ _ tickets (fun t => qualifies_in_spec key t Hkey)).
  change (of_Z 0) with zero. rewrite NumFacts.ltb_zero_of_Z by lia.
  rewrite <- Hp. unfold percent.
  destruct (Z.ltb_spec 0 (count (qualifies key) tickets)) as [|Hz]; [reflexivity|].
  replace (count (compliant Date_parse key) tickets) with 0 by lia. reflexivity.
Qed.

Lemma add_NaN_l x : add NaN x = NaN.
Proof. destruct x; reflexivity. Qed.

Lemma add_NaN_r x : add x NaN = NaN.
Proof. destruct x as [[]|[]| |]; reflexivity. Qed.

Lemma fold_add_NaN xs : fold_left add xs NaN = NaN.
Proof. induction xs as [|x xs IH]; [reflexivity|]. cbn [fold_left]. rewrite add_NaN_l. exact IH. Qed.

Lemma fold_add_In_NaN xs : In NaN xs -> forall v, fold_left add xs v = NaN.
Proof.
  induction xs as [|x xs IH]; intros Hin v; [contradiction|].
  cbn [fold_left]. destruct Hin as [->|Hin].
  - rewrite add_NaN_r. apply fold_add_NaN.
  - apply IH. exact Hin.
Qed.

Lemma sub_NaN_l x : sub NaN x = NaN.
Proof. destruct x; reflexivity. Qed.

Lemma sub_NaN_r x : sub x NaN = NaN.
Proof. destruct x as [[]|[]| |]; reflexivity. Qed.

Lemma unparseable_hours t :
  unparseable Date_parse t = true -> hoursToResolve Date_parse t = NaN.
Proof.
  unfold unparseable, hoursToResolve.
  destruct (new_Date Date_parse (Ticket.createdDate t)),
           (new_Date Date_parse (Ticket.resolvedDate t)); intros H; try discriminate H;
    cbn [valueOf]; rewrite ?sub_NaN_l, ?sub_NaN_r; reflexivity.
Qed.

Lemma unparseable_not_compliant key t :
  unparseable Date_parse t = true -> compliant Date_parse key t = false.
Proof.
  intros H. unfold compliant. rewrite (unparseable_hours t H).
  destruct (qualifies key t); reflexivity.
Qed.

Lemma count_pos_exists p tickets :
  existsb p tickets = true -> 0 < count p tickets.
Proof.
  induction tickets as [|t tickets IH]; [discriminate|].
  cbn [existsb]. rewrite count_cons. pose proof (count_bounds p tickets) as Hb.
  destruct (p t); [lia|]. cbn [orb]. intros He. specialize (IH He). lia.
Qed.

Lemma resolution_average tickets key :
  Forall well_formed tickets ->
  Z.of_nat (length tickets) < 2 ^ 32 ->
  In key canonical ->
  exists art,
    calculateResolutionTimes Date_parse tickets = Ok art /\
    get art key =
    Some (PNum (if count (qualifies key) tickets =? 0 then zero
                else parseFloat (toFixed1
                       (div (total_hours Date_parse key tickets)
                            (of_Z (count (qualifies key) tickets)))))).
Proof.
  intros Hwf Hlen Hkey.
  destruct (calculateResolutionTimes_canonical tickets Hwf) as (art & Hart & _ & Hget).
  pose proof pow_32_53.
  pose proof (count_bounds (qualifies key) tickets) as Hq.
  exists art. split; [exact Hart|].
  rewrite (Hget key Hkey). cbv zeta.
  assert (En : bumps (qualifies_in key) tickets zero
               = of_Z (count (qualifies key) tickets)).
  { change zero with (of_Z 0). rewrite bumps_count by lia. rewrite Z.add_0_l.
    rewrite (count_ext _ _ tickets (fun t => qualifies_in_spec key t Hkey)).
    reflexivity. }
  rewrite !En. rewrite NumFacts.ltb_zero_of_Z by lia.
  rewrite pluses_filter.
  rewrite (List.filter_ext _ _ (fun t => qualifies_in_spec key t Hkey)).
  fold (total_hours Date_parse key tickets).
  destruct (Z.ltb_spec 0 (count (qualifies key) tickets)) as [Hpos|Hz].
  - replace (count (qualifies key) tickets =? 0) with false
      by (symmetry; apply Z.eqb_neq; lia). reflexivity.
  - replace (count (qualifies key) tickets =? 0) with true
      by (symmetry; apply Z.eqb_eq; lia).
    unfold total_hours. unfold count in Hz, Hq.
    destruct (List.filter (qualifies key) tickets); [reflexivity|cbn [length] in Hz; lia].
Qed.

Lemma processTickets_returns now request :
  Forall well_formed (tickets request) ->
  exists m, processTickets Date_parse now request = Ok m.
Proof.
  intros Hwf. unfold processTickets.
  rewrite (calculateSeverityDistribution_eq (tickets request) Hwf).
  destruct (calculateResolutionTimes_canonical (tickets request) Hwf) as (art & -> & _).
  destruct (calculateSLACompliance_canonical (tickets request) Hwf) as (sla & -> & _).
  eexists. reflexivity.
Qed.

Lemma processTickets_inv now request m :
  processTickets Date_parse now request = Ok m ->
  ticketCount m = Z.of_nat (length (tickets request)) /\
  openTickets m = Z.of_nat (length (List.filter is_open (tickets request))) /\
  resolvedTickets m = Z.of_nat (length (List.filter is_resolved (tickets request))) /\
  timestamp m = toISOString now /\
  metrics_projectId m = projectId request.
Proof.
  unfold processTickets.
  destruct (calculateSeverityDistribution (tickets request)); [|discriminate].
  destruct (calculateResolutionTimes Date_parse (tickets request)); [|discriminate].
  destruct (calculateSLACompliance Date_parse (tickets request)); [|discriminate].
  cbn. intros E. inversion E. cbn. auto.
Qed.

Lemma is_resolved_spec t : is_resolved t = resolved_status t.
Proof. unfold is_resolved, resolved_status. destruct (Ticket.status t); reflexivity. Qed.

Lemma is_open_spec t : is_open t = negb (resolved_status t).
Proof.
  unfold is_open, resolved_status. destruct (Ticket.status t); try reflexivity.
  cbn [strict_eq_string]. rewrite negb_orb. reflexivity.
Qed.

Lemma open_resolved_partition tickets :
  (length (List.filter is_open tickets) + length (List.filter is_resolved tickets)
   = length tickets)%nat.
Proof.
  induction tickets as [|t tickets IH]; [reflexivity|].
  cbn [List.filter]. unfold is_open at 1, is_resolved at 1.
  destruct (strict_eq_string (Ticket.status t) "resolved"),
           (strict_eq_string (Ticket.status t) "closed"); cbn; lia.
Qed.

Lemma canonical_sla_between tickets key :
  Forall well_formed tickets ->
  Z.of_nat (length tickets) < 2 ^ 32 ->
  In key canonical ->
  exists sla,
    calculateSLACompliance Date_parse tickets = Ok sla /\
    between_0_100 (to_number (get sla key)) = true.
Proof.
  intros Hwf Hlen Hkey.
  destruct (sla_compliance_nearest tickets key Hwf Hlen Hkey)
    as (sla & n & Hs & Hg & Hn & H0 & Hn0).
  exists sla. split; [exact Hs|]. rewrite Hg. cbn [to_number].
  apply one_decimal_between. split; [exact Hn0|].
  apply (nearest_tenths_le_1000 n (count (compliant Date_parse key) tickets)
           (count (qualifies key) tickets)); auto.
  split; [apply count_bounds|]. apply count_le, compliant_qualifies.
Qed.

Lemma existsb_qualifies_in key tickets :
  existsb (in_bucket key) tickets = false -> existsb (qualifies_in key) tickets = false.
Proof.
  induction tickets as [|t tickets IH]; [reflexivity|].
  cbn [existsb]. intros H. apply orb_false_elim in H. destruct H as [Ht Hr].
  unfold qualifies_in at 1. rewrite Ht, andb_false_r. cbn [orb]. apply IH, Hr.
Qed.

(** Without a ticket whose severity lower-cases to [constructor], the
    three maps have the four canonical keys and no other. *)
Lemma processTickets_canonical_keys now request :
  Forall well_formed (tickets request) ->
  existsb (in_bucket "constructor") (tickets request) = false ->
  exists m,
    processTickets Date_parse now request = Ok m /\
    keys (severityDistribution m) = canonical /\
    keys (averageResolutionTimes m) = canonical /\
    keys (slaCompliance m) = canonical.
Proof.
  intros Hwf Hno. unfold processTickets.
  rewrite (calculateSeverityDistribution_eq (tickets request) Hwf). cbv zeta.
  rewrite (bumps_constructor_none _ _ None Hno).
  destruct (calculateResolutionTimes_canonical (tickets request) Hwf) as (art & -> & Ka & _).
  destruct (calculateSLACompliance_canonical (tickets request) Hwf) as (sla & -> & Ks & _).
  eexists. split; [reflexivity|]. cbn [severityDistribution averageResolutionTimes slaCompliance].
  split; [apply distribution_keys|]. split; [|exact Ks].
  apply Ka, existsb_qualifies_in, Hno.
Qed.

End WithDateParser.

(** *** Validated requests *)

Lemma includes_recognized t :
  includes_severity t = Ok true -> recognized t = true.
Proof.
  unfold includes_severity, recognized, has_severity.
  destruct (Ticket.severity t); cbn; try discriminate.
  intros E. injection E as E'. exact E'.
Qed.

Lemma push_if_nil condition message errors :
  push_if condition message errors = [] -> condition = false /\ errors = [].
Proof.
  unfold push_if. destruct condition; [|auto].
  destruct errors; discriminate.
Qed.

Lemma validate_tickets_nil tickets : forall index errors,
  forEach_indexed index tickets (fun index ticket errors =>
    let errors :=
      push_if (negb (truthy (Ticket.id ticket)))
              ("Ticket " +:+ pretty index +:+ ": id is required") errors in
    let errors :=
      push_if (negb (truthy (Ticket.severity ticket)))
              ("Ticket " +:+ pretty index +:+ ": severity is required") errors in
    included ← includes_severity ticket;
    mret (push_if (negb included)
            ("Ticket " +:+ pretty index
             +:+ ": severity must be one of: low, medium, high, critical") errors))
    errors = Ok [] ->
  errors = [] /\ forallb recognized tickets = true.
Proof.
  induction tickets as [|t tickets IH]; intros index errors H.
  - cbn in H. inversion H. auto.
  - cbn [forEach_indexed] in H. cbv zeta in H.
    destruct (includes_severity t) as [included|e] eqn:Ei; [|discriminate H].
    cbn [mbind Result_bind bind mret Result_ret] in H.
    destruct (IH _ _ H) as [E Hrest].
    apply push_if_nil in E. destruct E as [Hinc E].
    apply push_if_nil in E. destruct E as [_ E].
    apply push_if_nil in E. destruct E as [_ E].
    split; [exact E|]. cbn [forallb]. rewrite Hrest, andb_true_r.
    apply includes_recognized. rewrite Ei. f_equal.
    destruct included; [reflexivity|discriminate Hinc].
Qed.

(** A request that [validateRequest] accepts has a non-empty list of
    tickets, all of a canonical severity. *)
Lemma validateRequest_recognized event v :
  validateRequest event = Ok v -> isValid v = true ->
  exists tickets,
    event_tickets event = Some tickets /\ tickets <> [] /\
    forallb recognized tickets = true.
Proof.
  unfold validateRequest. cbv zeta.
  destruct (event_tickets event) as [[|t tickets]|].
  - cbn. intros E. inversion E. cbn.
    destruct (push_if _ _ []); discriminate.
  - set (es := push_if _ _ []).
    match goal with |- context [forEach_indexed 0%nat ?l ?cb ?e] =>
      destruct (forEach_indexed 0%nat l cb e) as [errs|ex] eqn:Ef end; [|discriminate].
    cbn [mbind Result_bind bind mret Result_ret]. intros E Hv. inversion E. subst v.
    cbn [isValid] in Hv. apply Nat.eqb_eq in Hv.
    destruct errs; [|discriminate Hv].
    apply validate_tickets_nil in Ef. destruct Ef as [_ Hrec].
    exists (t :: tickets). split; [reflexivity|]. split; [discriminate|exact Hrec].
  - cbn. intros E. inversion E. cbn.
    destruct (push_if _ _ []); discriminate.
Qed.

Lemma recognized_not_constructor tickets :
  forallb recognized tickets = true -> existsb (in_bucket "constructor") tickets = false.
Proof.
  induction tickets as [|t tickets IH]; [reflexivity|].
  cbn [forallb existsb]. intros H. apply andb_prop in H. destruct H as [Ht Hr].
  rewrite (IH Hr), orb_false_r. clear IH Hr.
  unfold recognized, has_severity in Ht. unfold in_bucket, bucket_key.
  destruct (Ticket.severity t); try discriminate.
  cbn [existsb canonical] in Ht. revert Ht. generalize (toLowerCase s). intros k Ht.
  destruct (String.eqb_spec "constructor" k) as [<-|]; [discriminate Ht|reflexivity].
Qed.

End AnalyticsFacts.

Module StoreFacts.
Import Num JS Analytics Dynamo StoreSpec.

Lemma apply_actions_ttl old env now upd m :
  apply_actions old (UpdateExpression (params_of env now upd m)) !! "ttl"
  = Some (default (ANumber (one_year_ttl now)) (old !! "ttl")).
Proof.
  unfold apply_actions, params_of. cbn [UpdateExpression fold_left fst snd operand_value].
  rewrite lookup_insert_ne by discriminate. rewrite lookup_insert_eq. reflexivity.
Qed.

Lemma update_ok params c table :
  lets_through (outcomes c) ->
  tables c !! TableName params = Some table ->
  update params c
  = (Ok (apply_actions (default (key_attributes (Key params)) (table !! Key params))
                       (UpdateExpression params)),
     {| tables := <[TableName params :=
                     <[Key params :=
                        apply_actions (default (key_attributes (Key params)) (table !! Key params))
                                      (UpdateExpression params)]> table]> (tables c);
        requests := (requests c ++ [params])%list;
        outcomes := tail (outcomes c) |}).
Proof.
  intros Hout Htab. unfold update. rewrite Htab.
  destruct (head (outcomes c)) as [[e|]|] eqn:E; try reflexivity.
  exfalso. exact (Hout e E).
Qed.

Lemma update_requests params c :
  requests (snd (update params c)) = (requests c ++ [params])%list.
Proof.
  unfold update. destruct (head (outcomes c)) as [[e|]|];
    try reflexivity; destruct (tables c !! TableName params); reflexivity.
Qed.

Lemma update_failed params c e c' :
  update params c = (Throw e, c') -> tables c' = tables c.
Proof.
  unfold update. destruct (head (outcomes c)) as [[e0|]|];
    try (destruct (tables c !! TableName params));
    intros E; inversion E; reflexivity.
Qed.

End StoreFacts.

(** ** Validation, the handler and the batch *)

Module ValidationFacts.
Import Num JS Analytics Spec Aux ObjFacts AnalyticsFacts HandlerSpec HandlerAux.

Lemma includes_severity_recognized t :
  scalar_severity t = false -> includes_severity t = Ok (recognized t).
Proof.
  unfold scalar_severity, includes_severity, recognized, has_severity, canonical.
  destruct (Ticket.severity t) as [| | |x|s]; intros H; try discriminate H; try reflexivity.
Qed.

Lemma includes_severity_throws t :
  scalar_severity t = true -> exists m, includes_severity t = Throw (TypeError m).
Proof.
  unfold scalar_severity, includes_severity.
  destruct (Ticket.severity t); intros H; try discriminate H; eexists; reflexivity.
Qed.

Lemma push_if_app condition message errors :
  push_if condition message errors
  = (errors ++ (if condition then [message] else []))%list.
Proof. destruct condition; cbn; [reflexivity|]. symmetry. apply app_nil_r. Qed.

(** The loop over the tickets, when no severity is a boolean or a
    Number. *)
Lemma validate_tickets_ok tickets : forall index errors,
  existsb scalar_severity tickets = false ->
  forEach_indexed index tickets (fun index ticket errors =>
    let errors :=
      push_if (negb (truthy (Ticket.id ticket)))
              ("Ticket " +:+ pretty index +:+ ": id is required") errors in
    let errors :=
      push_if (negb (truthy (Ticket.severity ticket)))
              ("Ticket " +:+ pretty index +:+ ": severity is required") errors in
    included ← includes_severity ticket;
    mret (push_if (negb included)
            ("Ticket " +:+ pretty index
             +:+ ": severity must be one of: low, medium, high, critical") errors))
    errors
  = Ok (errors ++ tickets_errors index tickets)%list.
Proof.
  induction tickets as [|t rest IH]; intros index errors H.
  - cbn. rewrite app_nil_r. reflexivity.
  - cbn [existsb] in H. apply orb_false_elim in H. destruct H as [Ht Hrest].
    cbn [forEach_indexed]. cbv zeta.
    rewrite (includes_severity_recognized t Ht).
    unfold mbind, Result_bind, mret, Result_ret. cbn [bind].
    rewrite (IH _ _ Hrest). f_equal.
    rewrite !push_if_app. cbn [tickets_errors]. unfold ticket_errors.
    rewrite <- !app_assoc.
    destruct (truthy (Ticket.id t)), (truthy (Ticket.severity t)), (recognized t);
      reflexivity.
Qed.

(** The loop stops at the first severity that is a boolean or a Number. *)
Lemma validate_tickets_throws tickets : forall index errors,
  existsb scalar_severity tickets = true ->
  exists m,
    forEach_indexed index tickets (fun index ticket errors =>
      let errors :=
        push_if (negb (truthy (Ticket.id ticket)))
                ("Ticket " +:+ pretty index +:+ ": id is required") errors in
      let errors :=
        push_if (negb (truthy (Ticket.severity ticket)))
                ("Ticket " +:+ pretty index +:+ ": severity is required") errors in
      included ← includes_severity ticket;
      mret (push_if (negb included)
              ("Ticket " +:+ pretty index
               +:+ ": severity must be one of: low, medium, high, critical") errors))
      errors
    = Throw (TypeError m).
Proof.
  induction tickets as [|t rest IH]; intros index errors H; [discriminate H|].
  cbn [existsb] in H. cbn [forEach_indexed]. cbv zeta.
  destruct (scalar_severity t) eqn:Ht.
  - destruct (includes_severity_throws t Ht) as (m & ->). exists m. reflexivity.
  - cbn [orb] in H. rewrite (includes_severity_recognized t Ht).
    unfold mbind, Result_bind, mret, Result_ret. cbn [bind]. apply IH. exact H.
Qed.

(** What [validateRequest] returns when it returns. *)
Lemma validateRequest_ok event :
  crashes_validation event = false ->
  validateRequest event
  = Ok {| isValid := (length (event_errors event) =? 0)%nat;
          errors := event_errors event |}.
Proof.
  unfold crashes_validation, validateRequest, event_errors. intros H. cbv zeta.
  destruct (event_tickets event) as [[|t rest]|].
  - unfold mbind, Result_bind, mret, Result_ret. cbn [bind]. rewrite !push_if_app.
    rewrite <- negb_andb.
    destruct (truthy (event_projectId event) && is_string (event_projectId event));
      reflexivity.
  - rewrite (validate_tickets_ok (t :: rest) 0 _ H).
    unfold mbind, Result_bind, mret, Result_ret. cbn [bind]. rewrite !push_if_app.
    rewrite <- negb_andb.
    destruct (truthy (event_projectId event) && is_string (event_projectId event));
      reflexivity.
  - unfold mbind, Result_bind, mret, Result_ret. cbn [bind]. rewrite !push_if_app.
    rewrite <- negb_andb.
    destruct (truthy (event_projectId event) && is_string (event_projectId event));
      reflexivity.
Qed.

Lemma validateRequest_crashes event :
  crashes_validation event = true ->
  exists m, validateRequest event = Throw (TypeError m).
Proof.
  unfold crashes_validation, validateRequest. intros H. cbv zeta.
  destruct (event_tickets event) as [[|t rest]|]; try discriminate H.
  destruct (validate_tickets_throws (t :: rest) 0
              (push_if (negb (truthy (event_projectId event))
                        || negb (is_string (event_projectId event)))
                       "projectId is required and must be a string" []) H) as (m & E).
  exists m. cbv zeta in E. rewrite E. reflexivity.
Qed.

Lemma recognized_truthy t : recognized t = true -> truthy (Ticket.severity t) = true.
Proof.
  unfold recognized, has_severity, canonical.
  destruct (Ticket.severity t) as [| | |x|s]; cbn; try discriminate.
  destruct s; [cbn; discriminate|reflexivity].
Qed.

Lemma recognized_not_scalar t : recognized t = true -> scalar_severity t = false.
Proof.
  unfold recognized, has_severity, scalar_severity.
  destruct (Ticket.severity t); cbn; try discriminate; reflexivity.
Qed.

Lemma ticket_errors_nil index t :
  ticket_errors index t = [] <-> truthy (Ticket.id t) && recognized t = true.
Proof.
  unfold ticket_errors. split.
  - destruct (truthy (Ticket.id t)); [|discriminate].
    destruct (truthy (Ticket.severity t)); [|discriminate].
    destruct (recognized t); [reflexivity|discriminate].
  - intros H. apply andb_prop in H. destruct H as [H1 H2].
    rewrite H1, (recognized_truthy t H2), H2. reflexivity.
Qed.

Lemma tickets_errors_nil tickets : forall index,
  tickets_errors index tickets = [] <->
  forallb (fun t => truthy (Ticket.id t) && recognized t) tickets = true.
Proof.
  induction tickets as [|t rest IH]; intros index; cbn [tickets_errors forallb].
  - tauto.
  - split.
    + intros H. apply app_eq_nil in H. destruct H as [H1 H2].
      apply andb_true_intro. split; [apply (ticket_errors_nil index t), H1|].
      apply (IH (S index)), H2.
    + intros H. apply andb_prop in H. destruct H as [H1 H2].
      apply (ticket_errors_nil index t) in H1. apply (IH (S index)) in H2.
      rewrite H1, H2. reflexivity.
Qed.

Lemma event_errors_nil event : event_errors event = [] <-> acceptable event = true.
Proof.
  unfold event_errors, acceptable.
  destruct (truthy (event_projectId event) && is_string (event_projectId event)).
  - cbn [app andb]. destruct (event_tickets event) as [[|t rest]|].
    + split; discriminate.
    + rewrite (tickets_errors_nil (t :: rest) 0). reflexivity.
    + split; discriminate.
  - split; discriminate.
Qed.

Lemma acceptable_no_crash event :
  acceptable event = true -> crashes_validation event = false.
Proof.
  unfold acceptable, crashes_validation. intros H.
  apply andb_prop in H. destruct H as [_ H].
  destruct (event_tickets event) as [tickets|]; [|reflexivity].
  apply andb_prop in H. destruct H as [_ H].
  apply not_true_is_false. intros Hex. apply existsb_exists in Hex.
  destruct Hex as (t & Hin & Hs). rewrite forallb_forall in H.
  specialize (H t Hin). apply andb_prop in H. destruct H as [_ H].
  rewrite (recognized_not_scalar t H) in Hs. discriminate Hs.
Qed.

Lemma length_eqb_nil {A} (l : list A) : (length l =? 0)%nat = true <-> l = [].
Proof. destruct l; cbn; split; intros H; try reflexivity; discriminate H. Qed.

Lemma validateRequest_cases event :
  (crashes_validation event = true /\ exists m, validateRequest event = Throw (TypeError m))
  \/ (crashes_validation event = false /\
      validateRequest event
      = Ok {| isValid := acceptable event; errors := event_errors event |}).
Proof.
  destruct (crashes_validation event) eqn:H.
  - left. split; [reflexivity|]. apply validateRequest_crashes, H.
  - right. split; [reflexivity|]. rewrite (validateRequest_ok event H). do 2 f_equal.
    apply eq_true_iff_eq. rewrite length_eqb_nil. apply event_errors_nil.
Qed.
End ValidationFacts.

Module HandlerFacts.
Import Num JS Analytics Dynamo Spec StoreSpec Aux ObjFacts AnalyticsFacts StoreFacts.
Import Handler HandlerSpec HandlerAux ValidationFacts.

Lemma acceptable_request event :
  acceptable event = true ->
  exists request,
    request_of event = Some request /\
    event_projectId event = JString (projectId request) /\
    event_tickets event = Some (tickets request) /\
    tickets request <> [] /\
    forallb recognized (tickets request) = true.
Proof.
  unfold acceptable, request_of. intros H.
  apply andb_prop in H. destruct H as [H1 H2].
  apply andb_prop in H1. destruct H1 as [_ H1].
  destruct (event_projectId event) as [| | | |p]; try discriminate H1.
  destruct (event_tickets event) as [ts|]; [|discriminate H2].
  apply andb_prop in H2. destruct H2 as [H2 H3].
  eexists. split; [reflexivity|]. cbn [projectId tickets].
  split; [reflexivity|]. split; [reflexivity|]. split.
  - intros ->. discriminate H2.
  - apply forallb_forall. intros t Ht. rewrite forallb_forall in H3.
    specialize (H3 t Ht). apply andb_prop in H3. tauto.
Qed.

Lemma recognized_all_well_formed tickets :
  forallb recognized tickets = true -> Forall well_formed tickets.
Proof.
  intros H. apply Forall_forall. intros t Ht. apply recognized_well_formed.
  rewrite forallb_forall in H. apply H. apply list_elem_of_In. exact Ht.
Qed.

Section WithDateParser.
Variable Date_parse : string -> TimeValue.

(** The three maps of the record are what the three functions return. *)
Lemma processTickets_fields now request m :
  processTickets Date_parse now request = Ok m ->
  calculateSeverityDistribution (tickets request) = Ok (severityDistribution m) /\
  calculateResolutionTimes Date_parse (tickets request) = Ok (averageResolutionTimes m) /\
  calculateSLACompliance Date_parse (tickets request) = Ok (slaCompliance m).
Proof.
  unfold processTickets.
  destruct (calculateSeverityDistribution (tickets request)) as [sd|]; [|discriminate].
  destruct (calculateResolutionTimes Date_parse (tickets request)) as [art|]; [|discriminate].
  destruct (calculateSLACompliance Date_parse (tickets request)) as [slac|]; [|discriminate].
  intros E. injection E as <-. repeat split; reflexivity.
Qed.

(** The handler on an event that validation lets through. *)
Lemma handler_accepted env clock random36 event c :
  acceptable event = true ->
  exists request m,
    request_of event = Some request /\
    forallb recognized (tickets request) = true /\
    processTickets Date_parse (clock 1%nat) request = Ok m /\
    handler Date_parse env clock random36 event c
    = match storeMetrics (DYNAMODB_TABLE env) (clock 2%nat) (clock 3%nat) m c with
      | (Throw error, c') =>
          (internal_error env (generateRequestId (clock 5%nat) random36) error, c')
      | (Ok storedMetrics, c') =>
          ({| statusCode := 200;
              headers :=
                {| Content_Type := "application/json";
                   X_Request_ID := generateRequestId (clock 5%nat) random36;
                   X_Processing_Time :=
                     Some (sub (of_Z (clock 4%nat)) (of_Z (clock 0%nat))) |};
              body := Processed "Analytics processed successfully" storedMetrics
                        (sub (of_Z (clock 4%nat)) (of_Z (clock 0%nat)))
                        (Z.of_nat (length (tickets request))) |}, c')
      end.
Proof.
  intros Ha.
  destruct (acceptable_request event Ha) as (request & Hreq & _ & _ & _ & Hrec).
  destruct (processTickets_returns Date_parse (clock 1%nat) request
              (recognized_all_well_formed _ Hrec)) as (m & Hm).
  exists request, m. split; [exact Hreq|]. split; [exact Hrec|]. split; [exact Hm|].
  unfold handler. cbv zeta.
  destruct (validateRequest_cases event) as [[Hc _]|[_ ->]].
  - rewrite (acceptable_no_crash event Ha) in Hc. discriminate Hc.
  - cbn [isValid]. rewrite Ha. cbn [negb]. rewrite Hreq, Hm. reflexivity.
Qed.

Lemma handler_rejected env clock random36 event c :
  crashes_validation event = false -> acceptable event = false ->
  handler Date_parse env clock random36 event c
  = ({| statusCode := 400;
        headers := {| Content_Type := "application/json";
                      X_Request_ID := generateRequestId (clock 1%nat) random36;
                      X_Processing_Time := None |};
        body := InvalidRequest "Invalid request format" (event_errors event) |}, c).
Proof.
  intros Hc Ha. unfold handler. cbv zeta.
  destruct (validateRequest_cases event) as [[Hc' _]|[_ ->]].
  - rewrite Hc in Hc'. discriminate Hc'.
  - cbn [isValid errors]. rewrite Ha. reflexivity.
Qed.

Lemma handler_crashed env clock random36 event c :
  crashes_validation event = true ->
  exists m,
    handler Date_parse env clock random36 event c
    = (internal_error env (generateRequestId (clock 2%nat) random36) (TypeError m), c).
Proof.
  intros Hc. unfold handler. cbv zeta.
  destruct (validateRequest_crashes event Hc) as (m & ->). exists m. reflexivity.
Qed.
End WithDateParser.

Lemma nth_error_tickets_errors tickets : forall base index t message,
  nth_error tickets index = Some t ->
  In message (ticket_errors (base + index) t) ->
  In message (tickets_errors base tickets).
Proof.
  induction tickets as [|t' rest IH]; intros base index t message Hn Hin.
  - destruct index; discriminate Hn.
  - cbn [tickets_errors]. apply in_or_app. destruct index as [|index].
    + cbn in Hn. injection Hn as ->. rewrite Nat.add_0_r in Hin. left. exact Hin.
    + right. apply (IH (S base) index t); [exact Hn|].
      replace (S base + index)%nat with (base + S index)%nat by lia. exact Hin.
Qed.

Lemma update_rejected params c e :
  head (outcomes c) = Some (Some e) ->
  update params c
  = (Throw e, {| tables := tables c;
                 requests := (requests c ++ [params])%list;
                 outcomes := tail (outcomes c) |}).
Proof. intros H. unfold update. rewrite H. reflexivity. Qed.

Lemma storeMetrics_rejected env now upd m c e :
  head (outcomes c) = Some (Some e) ->
  storeMetrics env now upd m c
  = (Throw (surfaced (table_name env) e),
     {| tables := tables c;
        requests := (requests c ++ [params_of env now upd m])%list;
        outcomes := tail (outcomes c) |}).
Proof.
  intros H. unfold storeMetrics, surfaced. cbv zeta.
  rewrite (update_rejected _ c e H).
  change (TableName (params_of env now upd m)) with (table_name env).
  destruct (code_is e "ResourceNotFoundException"); [reflexivity|].
  destruct (code_is e "ProvisionedThroughputExceededException"); [reflexivity|].
  destruct (code_is e "ValidationException"); reflexivity.
Qed.

Lemma storeMetrics_ok env now upd m c table :
  lets_through (outcomes c) ->
  tables c !! table_name env = Some table ->
  storeMetrics env now upd m c
  = (let new := apply_actions (default (key_attributes (key_of m)) (table !! key_of m))
                              (UpdateExpression (params_of env now upd m)) in
     (Ok new,
      {| tables := <[table_name env := <[key_of m := new]> table]> (tables c);
         requests := (requests c ++ [params_of env now upd m])%list;
         outcomes := tail (outcomes c) |})).
Proof.
  intros Ho Ht. unfold storeMetrics. cbv zeta.
  rewrite (update_ok (params_of env now upd m) c table Ho Ht). reflexivity.
Qed.

Lemma storeMetrics_no_table env now upd m c :
  lets_through (outcomes c) ->
  tables c !! table_name env = None ->
  storeMetrics env now upd m c
  = (Throw (Error ("DynamoDB table '" +:+ table_name env +:+ "' not found")),
     {| tables := tables c;
        requests := (requests c ++ [params_of env now upd m])%list;
        outcomes := tail (outcomes c) |}).
Proof.
  intros Ho Ht. unfold storeMetrics, update. cbv zeta.
  change (TableName (params_of env now upd m)) with (table_name env). rewrite Ht.
  destruct (head (outcomes c)) as [[e|]|] eqn:Hh.
  - exfalso. apply (Ho e). exact Hh.
  - reflexivity.
  - reflexivity.
Qed.

(** The attributes of the item after the update. *)
Lemma apply_actions_lookup old env now upd m a :
  apply_actions old (UpdateExpression (params_of env now upd m)) !! a
  = if String.eqb a "updatedAt" then Some (AString (toISOString upd))
    else if String.eqb a "ttl"
    then Some (default (ANumber (one_year_ttl now)) (old !! "ttl"))
    else if String.eqb a "resolvedTickets" then Some (ANumber (of_Z (resolvedTickets m)))
    else if String.eqb a "openTickets" then Some (ANumber (of_Z (openTickets m)))
    else if String.eqb a "ticketCount" then Some (ANumber (of_Z (ticketCount m)))
    else if String.eqb a "slaCompliance" then Some (AMap (slaCompliance m))
    else if String.eqb a "averageResolutionTimes"
    then Some (AMap (averageResolutionTimes m))
    else if String.eqb a "severityDistribution"
    then Some (AMap (severityDistribution m))
    else old !! a.
Proof.
  unfold apply_actions, params_of.
  cbn [UpdateExpression fold_left fst snd operand_value].
  repeat match goal with
  | |- context [String.eqb a ?k] =>
      destruct (String.eqb_spec a k) as [->|];
        [repeat (rewrite lookup_insert_ne by discriminate);
         rewrite lookup_insert_eq; reflexivity
        |rewrite (lookup_insert_ne _ k a) by congruence]
  end.
  reflexivity.
Qed.
End HandlerFacts.

Module PersistFacts.
Import Num JS Analytics Dynamo Spec StoreSpec StoreFacts HandlerSpec HandlerFacts PersistSpec.

Lemma never_rejects_lets_through c : never_rejects c -> lets_through (outcomes c).
Proof.
  unfold never_rejects, lets_through. intros H e He.
  destruct (outcomes c) as [|o rest]; [discriminate He|].
  apply Forall_inv in H. cbn in He. congruence.
Qed.

Lemma never_rejects_tail (c : Client) tables' requests' :
  never_rejects c ->
  never_rejects {| tables := tables'; requests := requests'; outcomes := tail (outcomes c) |}.
Proof.
  unfold never_rejects. cbn [outcomes]. intros H.
  destruct (outcomes c) as [|o rest]; [exact H|]. apply Forall_inv_tail in H. exact H.
Qed.

(** Later calls on a key whose item already has an expiration. *)
Lemma persist_all_ttl env calls : forall c table old key v,
  tables c !! table_name env = Some table ->
  table !! key = Some old ->
  old !! "ttl" = Some v ->
  never_rejects c ->
  Forall (fun call => key_of call.2 = key) calls ->
  exists items c',
    persist_all env calls c = (map Ok items, c') /\
    Forall (fun item => item !! "ttl" = Some v) items /\
    length items = length calls.
Proof.
  induction calls as [|[[now upd] m] rest IH]; intros c table old key v Ht Hk Hv Hn Hc.
  - exists [], c. repeat split. constructor.
  - pose proof (Forall_inv Hc) as Hkey. cbn [snd] in Hkey.
    apply Forall_inv_tail in Hc.
    cbn [persist_all].
    rewrite (storeMetrics_ok env now upd m c table (never_rejects_lets_through c Hn) Ht).
    cbv zeta. rewrite Hkey, Hk. cbn [default]. change (Datatypes.id old) with old.
    set (new := apply_actions old (UpdateExpression (params_of env now upd m))).
    assert (Hnew : new !! "ttl" = Some v).
    { subst new. rewrite apply_actions_ttl, Hv. reflexivity. }
    cbv beta iota.
    destruct (IH {| tables := <[table_name env := <[key := new]> table]> (tables c);
                    requests := (requests c ++ [params_of env now upd m])%list;
                    outcomes := tail (outcomes c) |}
                 (<[key := new]> table) new key v) as (items & c' & E & Hall & Hlen).
    + cbn [tables]. apply lookup_insert_eq.
    + apply lookup_insert_eq.
    + exact Hnew.
    + apply never_rejects_tail. exact Hn.
    + exact Hc.
    + rewrite E. exists (new :: items), c'. split; [reflexivity|].
      split; [constructor; assumption|]. cbn. rewrite Hlen. reflexivity.
Qed.
End PersistFacts.

Module BatchFacts.
Import Num JS Analytics Spec Aux ObjFacts AnalyticsFacts HandlerSpec.

Lemma forEach_map {A B S : Type} (f : A -> B) (xs : list A)
    (callback : B -> S -> Result S) : forall locals,
  forEach (map f xs) callback locals = forEach xs (fun x => callback (f x)) locals.
Proof.
  induction xs as [|x xs IH]; intros locals; [reflexivity|].
  cbn [map forEach]. destruct (callback (f x) locals); [apply IH|reflexivity].
Qed.

Lemma forEach_ext {A S : Type} (xs : list A) (g h : A -> S -> Result S) :
  (forall x locals, g x locals = h x locals) ->
  forall locals, forEach xs g locals = forEach xs h locals.
Proof.
  intros E. induction xs as [|x xs IH]; intros locals; [reflexivity|].
  cbn [forEach]. rewrite E. destruct (h x locals); [apply IH|reflexivity].
Qed.

(** A callback that leaves the locals alone on every element. *)
Lemma forEach_skip {A S : Type} (xs : list A) (g : A -> S -> Result S) locals :
  (forall x, In x xs -> g x locals = Ok locals) ->
  forEach xs g locals = Ok locals.
Proof.
  induction xs as [|x xs IH]; intros H; [reflexivity|].
  cbn [forEach]. rewrite (H x (or_introl eq_refl)). cbn [bind].
  apply IH. intros y Hy. apply H. right. exact Hy.
Qed.

(** A callback that leaves the locals alone outside [p] runs as on the
    elements of [p] only. *)
Lemma forEach_filter {A S : Type} (p : A -> bool) (xs : list A)
    (g : A -> S -> Result S) :
  (forall x locals, p x = false -> g x locals = Ok locals) ->
  forall locals, forEach xs g locals = forEach (List.filter p xs) g locals.
Proof.
  intros H. induction xs as [|x xs IH]; intros locals; [reflexivity|].
  cbn [forEach List.filter]. destruct (p x) eqn:Hp.
  - cbn [forEach]. destruct (g x locals); [apply IH|reflexivity].
  - rewrite (H x locals Hp). cbn [bind]. apply IH.
Qed.

Lemma lower_ascii_idempotent c : lower_ascii (lower_ascii c) = lower_ascii c.
Proof.
  pose proof (lower_ascii_not_upper c) as H. unfold is_upper in H.
  unfold lower_ascii at 1. cbv zeta. rewrite H. reflexivity.
Qed.

Lemma toLowerCase_idempotent s : toLowerCase (toLowerCase s) = toLowerCase s.
Proof.
  induction s as [|c s IH]; [reflexivity|].
  cbn [toLowerCase]. rewrite lower_ascii_idempotent, IH. reflexivity.
Qed.

Lemma lower_severity_key t :
  optional_toLowerCase (Ticket.severity (lower_severity t))
  = optional_toLowerCase (Ticket.severity t).
Proof.
  unfold lower_severity. cbn [Ticket.severity].
  destruct (Ticket.severity t); cbn [optional_toLowerCase]; try reflexivity.
  rewrite toLowerCase_idempotent. reflexivity.
Qed.

Section WithDateParser.
Variable Date_parse : string -> TimeValue.

Lemma calculateSeverityDistribution_lower tickets :
  calculateSeverityDistribution (map lower_severity tickets)
  = calculateSeverityDistribution tickets.
Proof.
  unfold calculateSeverityDistribution. cbv zeta.
  rewrite length_map, forEach_map.
  erewrite forEach_ext; [reflexivity|].
  intros t distribution. cbv beta. rewrite lower_severity_key. reflexivity.
Qed.

Lemma calculateResolutionTimes_lower tickets :
  calculateResolutionTimes Date_parse (map lower_severity tickets)
  = calculateResolutionTimes Date_parse tickets.
Proof.
  unfold calculateResolutionTimes. cbv zeta.
  rewrite forEach_map.
  erewrite forEach_ext; [reflexivity|].
  intros t [resolutionTimes counts]. cbv beta iota.
  rewrite lower_severity_key. reflexivity.
Qed.

Lemma calculateSLACompliance_lower tickets :
  calculateSLACompliance Date_parse (map lower_severity tickets)
  = calculateSLACompliance Date_parse tickets.
Proof.
  unfold calculateSLACompliance. cbv zeta.
  rewrite forEach_map.
  erewrite forEach_ext; [reflexivity|].
  intros t [compliance counts]. cbv beta iota.
  rewrite lower_severity_key. reflexivity.
Qed.

Lemma filter_map_lower (p : Ticket.t -> bool) tickets :
  (forall t, p (lower_severity t) = p t) ->
  length (List.filter p (map lower_severity tickets)) = length (List.filter p tickets).
Proof.
  intros Hp. induction tickets as [|t rest IH]; [reflexivity|].
  cbn [map List.filter]. rewrite Hp. destruct (p t); cbn [length]; rewrite IH; reflexivity.
Qed.

Lemma processTickets_lower now projectId tickets :
  processTickets Date_parse now
    {| projectId := projectId; tickets := map lower_severity tickets |}
  = processTickets Date_parse now {| projectId := projectId; tickets := tickets |}.
Proof.
  unfold processTickets. cbn [Analytics.tickets Analytics.projectId].
  rewrite calculateSeverityDistribution_lower, calculateResolutionTimes_lower,
          calculateSLACompliance_lower, length_map.
  rewrite (filter_map_lower is_open), (filter_map_lower is_resolved)
    by (intros t; reflexivity).
  reflexivity.
Qed.

(** The two loops over the dates pass over a ticket that lacks one. *)
Lemma calculateResolutionTimes_filter tickets :
  calculateResolutionTimes Date_parse tickets
  = calculateResolutionTimes Date_parse (List.filter has_both_dates tickets).
Proof.
  unfold calculateResolutionTimes. cbv zeta.
  rewrite (forEach_filter has_both_dates tickets); [reflexivity|].
  intros t [resolutionTimes counts] Hp. cbv beta iota. rewrite Hp. reflexivity.
Qed.

Lemma calculateSLACompliance_filter tickets :
  calculateSLACompliance Date_parse tickets
  = calculateSLACompliance Date_parse (List.filter has_both_dates tickets).
Proof.
  unfold calculateSLACompliance. cbv zeta.
  rewrite (forEach_filter has_both_dates tickets); [reflexivity|].
  intros t [compliance counts] Hp. cbv beta iota. rewrite Hp. reflexivity.
Qed.

(** Without a ticket that has both dates, the two loops over the dates
    change nothing, whatever the severities are. *)
Lemma calculateResolutionTimes_no_dates tickets :
  existsb has_both_dates tickets = false ->
  calculateResolutionTimes Date_parse tickets = Ok zeros.
Proof.
  intros H. unfold calculateResolutionTimes. cbv zeta.
  rewrite forEach_skip; [reflexivity|].
  intros t Ht. destruct (has_both_dates t) eqn:E; [|reflexivity].
  assert (existsb has_both_dates tickets = true)
    by (apply existsb_exists; exists t; split; assumption).
  congruence.
Qed.

Lemma calculateSLACompliance_no_dates tickets :
  existsb has_both_dates tickets = false ->
  calculateSLACompliance Date_parse tickets = Ok zeros.
Proof.
  intros H. unfold calculateSLACompliance. cbv zeta.
  rewrite forEach_skip; [reflexivity|].
  intros t Ht. destruct (has_both_dates t) eqn:E; [|reflexivity].
  assert (existsb has_both_dates tickets = true)
    by (apply existsb_exists; exists t; split; assumption).
  congruence.
Qed.
End WithDateParser.

(** *** The order of the tickets *)

Lemma count_Permutation p tickets tickets' :
  Permutation tickets tickets' -> count p tickets' = count p tickets.
Proof.
  intros H. unfold count. f_equal. symmetry. apply Permutation_length.
  induction H as [|x l l' _ IH|x y l|l l' l'' _ IH1 _ IH2]; cbn [List.filter].
  - constructor.
  - destruct (p x); [constructor|]; exact IH.
  - destruct (p x), (p y); try apply Permutation_refl. apply perm_swap.
  - eapply Permutation_trans; eassumption.
Qed.

Lemma existsb_Permutation {A} (p : A -> bool) l l' :
  Permutation l l' -> existsb p l' = existsb p l.
Proof.
  intros H. apply eq_true_iff_eq. rewrite !existsb_exists.
  split; intros (x & Hin & Hx); exists x; split; try assumption.
  - eapply Permutation_in; [apply Permutation_sym; exact H|exact Hin].
  - eapply Permutation_in; [exact H|exact Hin].
Qed.

Lemma bumps_zero p tickets :
  Z.of_nat (length tickets) < 2 ^ 53 -> bumps p tickets zero = of_Z (count p tickets).
Proof.
  intros H. change zero with (of_Z 0). rewrite bumps_count by lia. reflexivity.
Qed.

Lemma bumps_Permutation p tickets tickets' :
  Permutation tickets tickets' ->
  Z.of_nat (length tickets) < 2 ^ 53 ->
  bumps p tickets' zero = bumps p tickets zero.
Proof.
  intros H Hlen. rewrite !bumps_zero, (count_Permutation p _ _ H); [reflexivity|exact Hlen|].
  rewrite <- (Permutation_length H). exact Hlen.
Qed.

(** What [constructor] holds after at least one increment is NaN. *)
Lemma bumps_constructor_value p tickets :
  bumps_constructor p tickets None
  = (if existsb p tickets then Some (PNum NaN) else None) /\
  bumps_constructor p tickets (Some (PNum NaN)) = Some (PNum NaN).
Proof.
  unfold bumps_constructor.
  induction tickets as [|t rest [IH1 IH2]]; [split; reflexivity|].
  cbn [fold_left existsb]. unfold bump_constructor at 2 4.
  destruct (p t); cbn [orb default to_number].
  - change (add NaN one) with NaN. split; exact IH2.
  - split; assumption.
Qed.

Lemma bumps_constructor_Permutation p tickets tickets' :
  Permutation tickets tickets' ->
  bumps_constructor p tickets' None = bumps_constructor p tickets None.
Proof.
  intros H. rewrite !(proj1 (bumps_constructor_value p _)), (existsb_Permutation p _ _ H).
  reflexivity.
Qed.

(** An object with the four keys is known by what it holds under them. *)
Lemma object_canonical_ext (o o' : JSObject) :
  keys o = canonical -> keys o' = canonical ->
  (forall key, In key canonical -> get o key = get o' key) ->
  o = o'.
Proof.
  unfold keys, canonical. intros K K' H.
  destruct o as [|[k1 v1] [|[k2 v2] [|[k3 v3] [|[k4 v4] [|? ?]]]]]; try discriminate K.
  destruct o' as [|[j1 w1] [|[j2 w2] [|[j3 w3] [|[j4 w4] [|? ?]]]]]; try discriminate K'.
  cbn in K, K'. injection K as -> -> -> ->. injection K' as -> -> -> ->.
  pose proof (H "low" ltac:(cbn; tauto)) as H1.
  pose proof (H "medium" ltac:(cbn; tauto)) as H2.
  pose proof (H "high" ltac:(cbn; tauto)) as H3.
  pose proof (H "critical" ltac:(cbn; tauto)) as H4.
  cbn in H1, H2, H3, H4. congruence.
Qed.

Lemma well_formed_Permutation tickets tickets' :
  Permutation tickets tickets' -> Forall well_formed tickets -> Forall well_formed tickets'.
Proof.
  intros H Hwf. apply List.Forall_forall. intros t Ht.
  rewrite List.Forall_forall in Hwf. apply Hwf.
  eapply Permutation_in; [apply Permutation_sym; exact H|exact Ht].
Qed.

Lemma calculateSeverityDistribution_Permutation tickets tickets' :
  Permutation tickets tickets' ->
  Forall well_formed tickets ->
  Z.of_nat (length tickets) < 2 ^ 53 ->
  calculateSeverityDistribution tickets' = calculateSeverityDistribution tickets.
Proof.
  intros H Hwf Hlen.
  rewrite (calculateSeverityDistribution_eq tickets Hwf).
  rewrite (calculateSeverityDistribution_eq tickets' (well_formed_Permutation _ _ H Hwf)).
  cbv zeta.
  rewrite !(bumps_Permutation _ _ _ H Hlen), (bumps_constructor_Permutation _ _ _ H),
          <- (Permutation_length H).
  reflexivity.
Qed.

Lemma calculateSLACompliance_Permutation Date_parse tickets tickets' :
  Permutation tickets tickets' ->
  Forall well_formed tickets ->
  Z.of_nat (length tickets) < 2 ^ 53 ->
  calculateSLACompliance Date_parse tickets' = calculateSLACompliance Date_parse tickets.
Proof.
  intros H Hwf Hlen.
  destruct (calculateSLACompliance_canonical Date_parse tickets Hwf)
    as (sla & -> & K & G).
  destruct (calculateSLACompliance_canonical Date_parse tickets'
              (well_formed_Permutation _ _ H Hwf)) as (sla' & -> & K' & G').
  f_equal. apply object_canonical_ext; [exact K'|exact K|].
  intros key Hkey.
  assert (Ht : exists target,
             In (key, target) [("low", 168); ("medium", 72); ("high", 24); ("critical", 4)]).
  { cbn in Hkey. destruct Hkey as [<-|[<-|[<-|[<-|[]]]]]; eexists; cbn; eauto 6. }
  destruct Ht as (target & Ht).
  rewrite (G key target Ht), (G' key target Ht). cbv zeta.
  rewrite !(bumps_Permutation _ _ _ H Hlen). reflexivity.
Qed.

Lemma in_bucket_constructor t :
  in_bucket "constructor" t = has_severity "constructor" t.
Proof.
  unfold in_bucket, bucket_key, has_severity.
  destruct (Ticket.severity t); try reflexivity. apply String.eqb_sym.
Qed.
End BatchFacts.

(** ** Exact arithmetic on integers *)

Module ExactFacts.
Import Num Aux NumFacts.

Lemma binary_round_aux_opp mx ex lx :
  binary_round_aux prec emax true mx ex lx
  = SFopp (binary_round_aux prec emax false mx ex lx).
Proof.
  unfold binary_round_aux.
  destruct (shr_fexp prec emax mx ex lx) as [mrs' e'].
  destruct (shr_fexp prec emax _ e' loc_Exact) as [mrs'' e''].
  destruct (shr_m mrs''); try reflexivity.
  destruct (Z.leb e'' (emax - prec)); reflexivity.
Qed.

Lemma binary_round_opp m e :
  binary_round prec emax true m e = SFopp (binary_round prec emax false m e).
Proof.
  unfold binary_round.
  destruct (shl_align m e (fexp prec emax (Zpos (digits2_pos m) + e))) as [mz ez].
  apply binary_round_aux_opp.
Qed.

Lemma of_Z_opp z : z <> 0 -> of_Z (- z) = SFopp (of_Z z).
Proof.
  intros Hz. destruct z as [|p|p]; [contradiction| |].
  - change (binary_round prec emax true p 0 = SFopp (binary_round prec emax false p 0)).
    apply binary_round_opp.
  - change (binary_round prec emax false p 0 = SFopp (binary_round prec emax true p 0)).
    rewrite binary_round_opp.
    destruct (binary_round prec emax false p 0) as [[]|[]| |[] ? ?]; reflexivity.
Qed.

(** The shape of the Number that stands for a non-zero integer below
    [2^53] in magnitude. *)
Lemma of_Z_signed z :
  z <> 0 -> Z.abs z < 2 ^ 53 ->
  exists m, of_Z z = S754_finite (z <? 0) m (Zdigits2 (Z.abs z) - 53) /\
            Zpos m = Z.abs z * 2 ^ (53 - Zdigits2 (Z.abs z)) /\
            2 ^ 52 <= Zpos m < 2 ^ 53.
Proof.
  intros Hz Hlt. destruct (Z_lt_le_dec z 0) as [Hneg|Hpos].
  - destruct (of_Z_finite (- z) ltac:(lia)) as (m & E & Hm & Hr).
    exists m. replace (Z.abs z) with (- z) by lia.
    split; [|split; assumption].
    replace z with (- - z) at 1 by lia. rewrite of_Z_opp by lia. rewrite E.
    replace (z <? 0) with true by (symmetry; apply Z.ltb_lt; lia). reflexivity.
  - destruct (of_Z_finite z ltac:(lia)) as (m & E & Hm & Hr).
    exists m. replace (Z.abs z) with z by lia.
    split; [|split; assumption].
    rewrite E. replace (z <? 0) with false by (symmetry; apply Z.ltb_ge; lia).
    reflexivity.
Qed.

(** An integer below [2^53] written with a larger mantissa and a
    negative exponent is the same Number. *)
Lemma normalize_exact_pos z j :
  0 < z < 2 ^ 53 -> 0 <= j -> j <= 1000 ->
  binary_normalize prec emax (z * 2 ^ j) (- j) false = of_Z z.
Proof.
  intros Hz Hj Hj'.
  pose proof (Zdigits2_le_53 z Hz) as Hd. set (dz := Zdigits2 z) in *.
  assert (Hpj : 0 < 2 ^ j) by (apply Z.pow_pos_nonneg; lia).
  destruct (z * 2 ^ j) as [|p|p] eqn:Ep; try lia.
  assert (Hdp : Zpos (digits2_pos p) = dz + j).
  { change (Zpos (digits2_pos p)) with (Zdigits2 (Zpos p)).
    rewrite <- Ep. apply Zdigits2_shift; lia. }
  destruct (of_Z_finite z Hz) as (m & Eof & Hm & Hr). fold dz in Eof, Hm.
  rewrite Eof. unfold binary_normalize, binary_round. rewrite Hdp.
  replace (dz + j + - j) with dz by lia. rewrite fexp_normal by lia.
  destruct (Z_le_gt_dec (dz - 53) (- j)) as [Hle|Hgt].
  - destruct (shl_align_spec p (- j) (dz - 53) Hle) as (m' & -> & Hm').
    assert (Em : m' = m).
    { apply Pos2Z.inj. rewrite Hm', Hm, <- Ep, <- !Z.mul_assoc, <- !Z.pow_add_r by lia.
      do 2 f_equal. lia. }
    subst m'.
    destruct (binary_round_aux_faithful false m (dz - 53) loc_Exact)
      as (m2 & e2 & M & Hres & _ & Hex & HM & _ & Hlt & _).
    + rewrite (digits2_pos_53 m Hr). lia.
    + rewrite (digits2_pos_53 m Hr). lia.
    + left; reflexivity.
    + rewrite (digits2_pos_53 m Hr) in *. change (Z.max 0 (53 - 53)) with 0 in *.
      change (2 ^ 0) with 1 in *.
      specialize (Hex eq_refl (Z.mod_1_r _)). rewrite Z.div_1_r in Hex.
      destruct (Hlt ltac:(lia)) as [Em Ee].
      rewrite Hres. f_equal; [apply Pos2Z.inj; lia|lia].
  - rewrite shl_align_id by lia.
    destruct (binary_round_aux_faithful false p (- j) loc_Exact)
      as (m2 & e2 & M & Hres & _ & Hex & HM & _ & Hlt & _).
    + rewrite Hdp. lia.
    + rewrite Hdp. lia.
    + left; reflexivity.
    + rewrite Hdp in *.
      replace (Z.max 0 (dz + j - 53)) with (dz + j - 53) in * by lia.
      assert (Hk : 0 < 2 ^ (dz + j - 53)) by (apply Z.pow_pos_nonneg; lia).
      assert (Hsplit : Zpos p = Zpos m * 2 ^ (dz + j - 53)).
      { rewrite Hm, <- Ep, <- !Z.mul_assoc, <- !Z.pow_add_r by lia. do 2 f_equal. lia. }
      assert (HM' : M = Zpos m).
      { rewrite Hex; [|reflexivity|].
        - rewrite Hsplit. apply Z.div_mul. lia.
        - rewrite Hsplit. apply Z.mod_mul. lia. }
      destruct (Hlt ltac:(lia)) as [Em Ee].
      rewrite Hres. f_equal; [apply Pos2Z.inj; lia|lia].
Qed.

Lemma normalize_exact z j :
  z <> 0 -> Z.abs z < 2 ^ 53 -> 0 <= j -> j <= 1000 ->
  binary_normalize prec emax (z * 2 ^ j) (- j) false = of_Z z.
Proof.
  intros Hz Hlt Hj Hj'. destruct (Z_lt_le_dec z 0) as [Hneg|Hpos].
  - assert (Hpj : 0 < 2 ^ j) by (apply Z.pow_pos_nonneg; lia).
    pose proof (normalize_exact_pos (- z) j ltac:(lia) Hj Hj') as E.
    replace z with (- - z) at 2 by lia. rewrite of_Z_opp by lia. rewrite <- E.
    destruct (- z * 2 ^ j) as [|p|p] eqn:Ep; try lia.
    replace (z * 2 ^ j) with (Zneg p) by lia.
    cbn [binary_normalize]. apply binary_round_opp.
  - apply normalize_exact_pos; lia.
Qed.

(** The aligned mantissa of an operand of [add] or [sub], with its
    sign. *)
Lemma aligned_operand z m ez :
  z <> 0 -> Z.abs z < 2 ^ 53 ->
  Zpos m = Z.abs z * 2 ^ (53 - Zdigits2 (Z.abs z)) ->
  ez <= Zdigits2 (Z.abs z) - 53 -> ez <= 0 ->
  cond_Zopp (z <? 0) (Zpos (fst (shl_align m (Zdigits2 (Z.abs z) - 53) ez)))
  = z * 2 ^ (- ez).
Proof.
  intros Hz Hlt Hm Hez Hez0.
  pose proof (Zdigits2_le_53 (Z.abs z) ltac:(lia)) as Hd.
  destruct (shl_align_spec m (Zdigits2 (Z.abs z) - 53) ez Hez) as (m' & -> & Hm').
  cbn [fst]. rewrite Hm', Hm, <- Z.mul_assoc, <- Z.pow_add_r by lia.
  replace (53 - Zdigits2 (Z.abs z) + (Zdigits2 (Z.abs z) - 53 - ez)) with (- ez) by lia.
  destruct (Z.ltb_spec z 0); cbn [cond_Zopp]; lia.
Qed.

(** Subtraction of integers is exact while the operands and the
    difference stay below [2^53] in magnitude. *)
Lemma sub_of_Z a b :
  Z.abs a < 2 ^ 53 -> Z.abs b < 2 ^ 53 -> Z.abs (a - b) < 2 ^ 53 ->
  sub (of_Z a) (of_Z b) = of_Z (a - b).
Proof.
  intros Ha Hb Hab.
  destruct (Z.eq_dec b 0) as [->|Hb0].
  { rewrite Z.sub_0_r. change (of_Z 0) with (S754_zero false).
    destruct (of_Z a) as [[]|[]| |[] ? ?]; reflexivity. }
  destruct (Z.eq_dec a 0) as [->|Ha0].
  { rewrite Z.sub_0_l, of_Z_opp by exact Hb0.
    destruct (of_Z_signed b Hb0 Hb) as (mb & -> & _). reflexivity. }
  destruct (of_Z_signed a Ha0 Ha) as (ma & -> & Ema & Rma).
  destruct (of_Z_signed b Hb0 Hb) as (mb & -> & Emb & Rmb).
  pose proof (Zdigits2_le_53 (Z.abs a) ltac:(lia)) as Hda.
  pose proof (Zdigits2_le_53 (Z.abs b) ltac:(lia)) as Hdb.
  unfold sub, SFsub. cbv zeta.
  set (ez := Z.min (Zdigits2 (Z.abs a) - 53) (Zdigits2 (Z.abs b) - 53)).
  rewrite (aligned_operand a ma ez Ha0 Ha Ema) by (subst ez; lia).
  rewrite (aligned_operand b mb ez Hb0 Hb Emb) by (subst ez; lia).
  rewrite <- Z.mul_sub_distr_r.
  destruct (Z.eq_dec (a - b) 0) as [->|Hne]; [reflexivity|].
  replace ez with (- - ez) at 2 by lia.
  apply normalize_exact; subst ez; lia.
Qed.

(** *** Comparisons *)

Lemma bpow_ge_2 k : 1 <= k -> (2 <= bpow k)%R.
Proof.
  intros H. rewrite <- bpow_IZR by lia. apply IZR_le.
  change 2 with (2 ^ 1) at 1. apply Z.pow_le_mono_r; lia.
Qed.

(** On two positive Numbers with full mantissas, [<=] is the order of
    the values. *)
Lemma leb_finite m1 e1 m2 e2 :
  2 ^ 52 <= Zpos m1 < 2 ^ 53 -> 2 ^ 52 <= Zpos m2 < 2 ^ 53 ->
  leb (S754_finite false m1 e1) (S754_finite false m2 e2) = true
  <-> (IZR (Zpos m1) * bpow e1 <= IZR (Zpos m2) * bpow e2)%R.
Proof.
  intros H1 H2. unfold leb, SFleb, SFcompare.
  pose proof (bpow_pos e1) as B1. pose proof (bpow_pos e2) as B2.
  assert (L1 : (IZR (2 ^ 52) <= IZR (Zpos m1))%R) by (apply IZR_le; lia).
  assert (L2 : (IZR (2 ^ 52) <= IZR (Zpos m2))%R) by (apply IZR_le; lia).
  assert (U1 : (IZR (Zpos m1) < IZR (2 ^ 53))%R) by (apply IZR_lt; lia).
  assert (U2 : (IZR (Zpos m2) < IZR (2 ^ 53))%R) by (apply IZR_lt; lia).
  assert (E53 : IZR (2 ^ 53) = (2 * IZR (2 ^ 52))%R) by (rewrite <- mult_IZR; reflexivity).
  assert (P52 : (0 < IZR (2 ^ 52))%R) by (apply IZR_lt; reflexivity).
  destruct (Z.compare_spec e1 e2) as [->|Hlt|Hgt].
  - change (Pos.compare_cont Eq m1 m2) with (Pos.compare m1 m2).
    destruct (Pos.compare_spec m1 m2) as [->|Hm|Hm].
    + split; [intros _; lra|reflexivity].
    + split; [intros _|reflexivity].
      apply Rmult_le_compat_r; [lra|]. apply IZR_le. lia.
    + split; [discriminate|]. intros H. exfalso.
      assert (IZR (Zpos m2) < IZR (Zpos m1))%R by (apply IZR_lt; lia). nra.
  - split; [intros _|reflexivity].
    replace e2 with ((e2 - e1) + e1) by lia. rewrite bpow_add.
    pose proof (bpow_ge_2 (e2 - e1) ltac:(lia)) as HP.
    set (P := bpow (e2 - e1)) in *.
    assert (HA : (IZR (Zpos m1) <= IZR (Zpos m2) * P)%R) by nra.
    rewrite <- Rmult_assoc. apply Rmult_le_compat_r; [lra|exact HA].
  - split; [discriminate|]. intros H. exfalso.
    replace e1 with ((e1 - e2) + e2) in H by lia. rewrite bpow_add in H.
    pose proof (bpow_ge_2 (e1 - e2) ltac:(lia)) as HP.
    set (P := bpow (e1 - e2)) in *.
    assert (HA : (IZR (Zpos m2) < IZR (Zpos m1) * P)%R) by nra.
    rewrite <- Rmult_assoc in H.
    apply Rmult_le_reg_r in H; [lra|exact B2].
Qed.

(** The value of a quotient of two positive integers below [2^53]. *)
Lemma div_of_Z_error (s : bool) a b :
  0 < a < 2 ^ 53 -> 0 < b < 2 ^ 53 ->
  exists m e,
    div (if s then SFopp (of_Z a) else of_Z a) (of_Z b) = S754_finite s m e /\
    2 ^ 52 <= Zpos m < 2 ^ 53 /\
    (IZR a / IZR b * (1 - u) <= IZR (Zpos m) * bpow e <= IZR a / IZR b * (1 + u))%R.
Proof.
  intros Ha Hb.
  destruct (of_Z_finite a Ha) as (ma & Ea & Hma & Rma).
  destruct (of_Z_finite b Hb) as (mb & Eb & Hmb & Rmb).
  pose proof (Zdigits2_le_53 a Ha) as Hda. pose proof (Zdigits2_le_53 b Hb) as Hdb.
  pose proof (div_error s ma (Zdigits2 a - 53) mb (Zdigits2 b - 53)) as E.
  cbv zeta in E. rewrite (digits2_pos_53 ma Rma), (digits2_pos_53 mb Rmb) in E.
  destruct E as (m & e & Hres & Hm & _ & Hv); [lia|lia|].
  exists m, e. split; [|split; [exact Hm|]].
  - rewrite Ea, Eb. destruct s; cbn [SFopp negb]; unfold div, SFdiv; exact Hres.
  - rewrite (of_Z_R a ma Ha Hma), (of_Z_R b mb Hb Hmb) in Hv. exact Hv.
Qed.
End ExactFacts.

Module DeadlineFacts.
Import Num JS Analytics Spec Aux NumFacts ExactFacts.

Lemma u_small : (IZR 1000000000 * u <= / 1000000)%R.
Proof.
  pose proof u_pos as H0. pose proof u_scale as H1.
  assert (H2 : (IZR 1000000000 * 1000000 <= IZR (2 ^ 52))%R).
  { rewrite <- mult_IZR. apply IZR_le. apply Z.leb_le. reflexivity. }
  assert (H3 : (IZR 1000000000 * u * 1000000 <= 1)%R) by nra.
  apply Rmult_le_reg_r with 1000000%R; [lra|].
  rewrite Rinv_l by lra. exact H3.
Qed.

(** Elapsed milliseconds against a target in hours: the comparison of
    the Numbers is the comparison of the integers. *)
Lemma hours_leb d T :
  In T [4; 24; 72; 168] -> Z.abs d < 2 ^ 53 ->
  leb (div (of_Z d) (of_Z 3600000)) (of_Z T) = (d <=? T * 3600000).
Proof.
  intros HT Hd.
  assert (HT' : 0 < T <= 168) by (cbn in HT; lia).
  destruct (of_Z_finite T ltac:(change (2 ^ 53) with 9007199254740992; lia))
    as (mT & ET & HmT & RmT).
  pose proof (of_Z_R T mT ltac:(change (2 ^ 53) with 9007199254740992; lia) HmT) as VT.
  assert (Hb : 0 < 3600000 < 2 ^ 53) by (split; reflexivity).
  destruct (Z.lt_trichotomy d 0) as [Hneg|[->|Hpos]].
  - (* resolved before created *)
    destruct (div_of_Z_error true (- d) 3600000 ltac:(lia) Hb) as (m & e & E & _).
    cbv iota in E. rewrite <- of_Z_opp in E by lia.
    replace (- - d) with d in E by lia. rewrite E, ET.
    symmetry. apply Z.leb_le. lia.
  - cbn in HT. destruct HT as [<-|[<-|[<-|[<-|[]]]]]; reflexivity.
  - destruct (div_of_Z_error false d 3600000 ltac:(lia) Hb) as (m & e & E & Rm & Lo & Hi).
    cbv iota in E. rewrite E, ET.
    set (V := (IZR (Zpos m) * bpow e)%R) in *.
    set (x := (IZR d / IZR 3600000)%R) in *.
    assert (Hx : (x * 3600000 = IZR d)%R) by (subst x; field).
    pose proof u_pos as Hu0. pose proof u_small as Hu1.
    assert (TT : (0 < IZR T <= 168)%R) by (split; [apply IZR_lt|apply IZR_le]; lia).
    assert (Hx0 : (0 < x)%R).
    { assert (0 < IZR d)%R by (apply IZR_lt; lia). nra. }
    destruct (Z.lt_trichotomy d (T * 3600000)) as [Hlt|[->|Hgt]].
    + (* within the target *)
      replace (d <=? T * 3600000) with true by (symmetry; apply Z.leb_le; lia).
      apply (leb_finite m e mT (Zdigits2 T - 53) Rm RmT). fold V. rewrite VT.
      assert (Hd1 : (IZR d <= IZR T * 3600000 - 1)%R).
      { replace (IZR T * 3600000 - 1)%R with (IZR (T * 3600000 - 1))
          by (rewrite minus_IZR, mult_IZR; reflexivity).
        apply IZR_le. lia. }
      assert (Hxu : (x * u * 3600000 <= 1)%R) by nra.
      assert (HV : (x * (1 + u) * 3600000 <= IZR T * 3600000)%R) by nra.
      apply Rmult_le_reg_r in HV; [lra|lra].
    + (* exactly the target *)
      rewrite <- E, <- ET. clear -HT.
      cbn in HT. destruct HT as [<-|[<-|[<-|[<-|[]]]]]; vm_compute; reflexivity.
    + (* past the target *)
      replace (d <=? T * 3600000) with false by (symmetry; apply Z.leb_gt; lia).
      apply not_true_is_false. intros Hleb.
      apply (leb_finite m e mT (Zdigits2 T - 53) Rm RmT) in Hleb. fold V in Hleb.
      rewrite VT in Hleb.
      assert (Hd1 : (IZR T * 3600000 + 1 <= IZR d)%R).
      { replace (IZR T * 3600000 + 1)%R with (IZR (T * 3600000 + 1))
          by (rewrite plus_IZR, mult_IZR; reflexivity).
        apply IZR_le. lia. }
      assert (Hx1 : (x * (1 - u) <= IZR T)%R) by lra.
      assert (HTu : (IZR T * 3600000 * u < 1 - u)%R) by nra.
      nra.
Qed.

Lemma sla_target_canonical key :
  In key canonical -> In (sla_target key) [4; 24; 72; 168].
Proof.
  intros H. cbn in H. destruct H as [<-|[<-|[<-|[<-|[]]]]]; cbn; tauto.
Qed.
End DeadlineFacts.

Module FarDatesFacts.
Import Num JS Analytics Spec Aux NumFacts ExactFacts DeadlineFacts.

(** A difference of [2^53] or more is rounded, and keeps its sign and
    its size. *)
Lemma sub_of_Z_large a b :
  Z.abs a < 2 ^ 53 -> Z.abs b < 2 ^ 53 -> 2 ^ 53 <= Z.abs (a - b) ->
  exists m e,
    sub (of_Z a) (of_Z b) = S754_finite (a - b <? 0) m e /\
    2 ^ 52 <= Zpos m < 2 ^ 53 /\ 1 <= e <= 2 /\
    (IZR (Z.abs (a - b)) * (1 - u) <= IZR (Zpos m) * bpow e
     <= IZR (Z.abs (a - b)) * (1 + u))%R.
Proof.
  intros Ha Hb Hab.
  assert (Ha0 : a <> 0) by lia. assert (Hb0 : b <> 0) by lia.
  destruct (of_Z_signed a Ha0 Ha) as (ma & -> & Ema & Rma).
  destruct (of_Z_signed b Hb0 Hb) as (mb & -> & Emb & Rmb).
  pose proof (Zdigits2_le_53 (Z.abs a) ltac:(lia)) as Hda.
  pose proof (Zdigits2_le_53 (Z.abs b) ltac:(lia)) as Hdb.
  unfold sub, SFsub. cbv zeta.
  set (ez := Z.min (Zdigits2 (Z.abs a) - 53) (Zdigits2 (Z.abs b) - 53)).
  assert (Hez : -52 <= ez <= 0) by (subst ez; lia).
  rewrite (aligned_operand a ma ez Ha0 Ha Ema) by lia.
  rewrite (aligned_operand b mb ez Hb0 Hb Emb) by lia.
  rewrite <- Z.mul_sub_distr_r.
  set (z := a - b) in *.
  assert (Hz54 : Z.abs z < 2 ^ 54) by (change (2 ^ 54) with (2 * 2 ^ 53); lia).
  assert (Hpe : 0 < 2 ^ (- ez)) by (apply Z.pow_pos_nonneg; lia).
  assert (Hround : forall s p, Zpos p = Z.abs z * 2 ^ (- ez) ->
    exists m e,
      binary_round prec emax s p ez = S754_finite s m e /\
      2 ^ 52 <= Zpos m < 2 ^ 53 /\ 1 <= e <= 2 /\
      (IZR (Z.abs z) * (1 - u) <= IZR (Zpos m) * bpow e <= IZR (Z.abs z) * (1 + u))%R).
  { intros s p Hp. unfold binary_round.
    assert (Hdp : Zpos (digits2_pos p) = 54 - ez).
    { change (Zpos (digits2_pos p)) with (Zdigits2 (Zpos p)).
      rewrite Hp, Zdigits2_shift by lia.
      rewrite (Zdigits2_unique (Z.abs z) 54) by (change (54 - 1) with 53; lia). lia. }
    rewrite Hdp. replace (54 - ez + ez) with 54 by lia.
    rewrite fexp_normal by lia. rewrite shl_align_id by lia.
    pose proof (round_error s p ez loc_Exact (IZR (Z.abs z))) as F.
    cbv zeta in F. rewrite Hdp in F.
    destruct F as (m & e & Hres & Hm & He & Hv); [lia|lia|lia| |].
    - assert (Ev : (IZR (Zpos p) * bpow ez = IZR (Z.abs z))%R).
      { rewrite Hp, mult_IZR, (bpow_IZR (- ez)) by lia.
        rewrite Rmult_assoc, <- bpow_add. replace (- ez + ez) with 0 by lia.
        unfold bpow. cbn. ring. }
      pose proof (bpow_pos ez). split; [lra|]. rewrite Rmult_plus_distr_r, Ev. lra.
    - exists m, e. split; [exact Hres|]. split; [exact Hm|]. split; [lia|exact Hv]. }
  destruct (Z.ltb_spec z 0) as [Hneg|Hpos].
  - destruct (z * 2 ^ (- ez)) as [|p|p] eqn:Ep; try lia.
    cbn [binary_normalize]. apply Hround. lia.
  - destruct (z * 2 ^ (- ez)) as [|p|p] eqn:Ep; try lia.
    cbn [binary_normalize]. apply Hround. lia.
Qed.

Lemma hours_leb_large a b T :
  In T [4; 24; 72; 168] ->
  Z.abs a < 2 ^ 53 -> Z.abs b < 2 ^ 53 -> 2 ^ 53 <= Z.abs (a - b) ->
  leb (div (sub (of_Z a) (of_Z b)) (of_Z 3600000)) (of_Z T) = (a - b <=? T * 3600000).
Proof.
  intros HT Ha Hb Hab.
  assert (HT' : 0 < T <= 168) by (cbn in HT; lia).
  destruct (of_Z_finite T ltac:(change (2 ^ 53) with 9007199254740992; lia))
    as (mT & ET & HmT & RmT).
  pose proof (of_Z_R T mT ltac:(change (2 ^ 53) with 9007199254740992; lia) HmT) as VT.
  assert (Hc : 0 < 3600000 < 2 ^ 53) by (split; reflexivity).
  destruct (of_Z_finite 3600000 Hc) as (mc & Ec & Hmc & Rmc).
  pose proof (of_Z_R 3600000 mc Hc Hmc) as Vc.
  change (Zdigits2 3600000) with 22 in *.
  destruct (sub_of_Z_large a b Ha Hb Hab) as (m & e & -> & Rm & He & Lo & Hi).
  rewrite Ec. unfold div, SFdiv. rewrite xorb_false_r.
  pose proof (div_error (a - b <? 0) m e mc (22 - 53)) as F. cbv zeta in F.
  rewrite (digits2_pos_53 m Rm), (digits2_pos_53 mc Rmc) in F.
  destruct F as (m2 & e2 & -> & Rm2 & _ & Lo2 & Hi2); [lia|lia|].
  rewrite ET.
  destruct (Z.ltb_spec (a - b) 0) as [Hneg|Hpos].
  - symmetry. apply Z.leb_le. lia.
  - replace (a - b <=? T * 3600000) with false
      by (symmetry; apply Z.leb_gt; change (2 ^ 53) with 9007199254740992 in Hab; lia).
    apply not_true_is_false. intros Hleb.
    apply (leb_finite m2 e2 mT (Zdigits2 T - 53) Rm2 RmT) in Hleb.
    rewrite VT in Hleb. rewrite Vc in Lo2.
    set (V := (IZR (Zpos m) * bpow e)%R) in *.
    set (V2 := (IZR (Zpos m2) * bpow e2)%R) in *.
    assert (TT : (IZR T <= 168)%R) by (apply IZR_le; lia).
    assert (Hz : (IZR 9007199254740992 <= IZR (Z.abs (a - b)))%R)
      by (apply IZR_le; exact Hab).
    pose proof u_pos as Hu0. pose proof u_small as Hu1.
    assert (Hu : (u <= / 1000000)%R) by nra.
    assert (HV : (9007199254000000 <= V)%R) by nra.
    set (x := (V / IZR 3600000)%R) in *.
    assert (Hx : (x * 3600000 = V)%R) by (subst x; field).
    assert (Hx1 : (2000000000 <= x)%R) by nra.
    nra.
Qed.

Lemma hours_leb_any a b T :
  In T [4; 24; 72; 168] ->
  Z.abs a < 2 ^ 53 -> Z.abs b < 2 ^ 53 ->
  leb (div (sub (of_Z a) (of_Z b)) (of_Z 3600000)) (of_Z T) = (a - b <=? T * 3600000).
Proof.
  intros HT Ha Hb. destruct (Z_lt_le_dec (Z.abs (a - b)) (2 ^ 53)) as [Hs|Hl].
  - rewrite (sub_of_Z a b Ha Hb Hs). apply hours_leb; assumption.
  - apply hours_leb_large; assumption.
Qed.
End FarDatesFacts.

Module FloorFacts.
Import Num JS Analytics Dynamo Aux NumFacts ExactFacts.

(** The quotient of two positive integers below [2^53] is not below an
    integer that the exact quotient reaches: rounding does not cross
    the integers. *)
Lemma div_of_Z_ge a b K :
  0 < a < 2 ^ 53 -> 0 < b < 2 ^ 53 -> 0 < K -> K * b <= a ->
  exists m e,
    div (of_Z a) (of_Z b) = S754_finite false m e /\
    (IZR K <= IZR (Zpos m) * bpow e)%R.
Proof.
  intros Ha Hb HK HKb.
  destruct (of_Z_finite a Ha) as (ma & Ea & Hma & Rma).
  destruct (of_Z_finite b Hb) as (mb & Eb & Hmb & Rmb).
  pose proof (Zdigits2_le_53 a Ha) as Hda. pose proof (Zdigits2_le_53 b Hb) as Hdb.
  set (da := Zdigits2 a) in *. set (db := Zdigits2 b) in *.
  rewrite Ea, Eb. unfold div, SFdiv, SFdiv_core_binary. cbn [Zdigits2 xorb].
  rewrite (digits2_pos_53 ma Rma), (digits2_pos_53 mb Rmb).
  set (D := da - db).
  replace (53 + (da - 53) - (53 + (db - 53))) with D by (subst D; lia).
  rewrite fexp_normal by (subst D; lia).
  replace (da - 53 - (db - 53)) with D by (subst D; lia).
  replace (Z.min (D - 53) D) with (D - 53) by lia.
  replace (D - (D - 53)) with 53 by lia.
  assert (Hm' : Z.shiftl (Zpos ma) 53 = Zpos ma * 2 ^ 53)
    by (apply Z.shiftl_mul_pow2; lia).
  cbv iota. rewrite Hm'. set (m' := Zpos ma * 2 ^ 53) in *.
  pose proof (Z_div_mod m' (Zpos mb) ltac:(lia)) as Hdm.
  destruct (Z.div_eucl m' (Zpos mb)) as [q r] eqn:Eqr. destruct Hdm as [Eq Hr].
  assert (Hq : 2 ^ 52 <= q < 2 ^ 54).
  { subst m'. change (2 ^ 54) with (2 * 2 ^ 53). change (2 ^ 53) with (2 * 2 ^ 52) in *.
    split; nia. }
  destruct q as [|q|q]; try lia.
  assert (Hdq : 53 <= Zpos (digits2_pos q) <= 54).
  { change (Zpos (digits2_pos q)) with (Zdigits2 (Zpos q)).
    destruct (Z_lt_le_dec (Zpos q) (2 ^ 53)).
    - rewrite Zdigits2_53; lia.
    - rewrite (Zdigits2_unique (Zpos q) 54); lia. }
  pose proof (binary_round_aux_faithful false q (D - 53) (new_location (Zpos mb) r))
    as F.
  cbv zeta in F. set (dq := Zpos (digits2_pos q)) in *.
  replace (Z.max 0 (dq - 53)) with (dq - 53) in F by lia.
  set (k := dq - 53) in *.
  destruct F as (m & e & M & Hres & HM & _ & HMr & _ & Hlt & Heq);
    [subst D; lia|subst D k; lia|right; lia|].
  exists m, e. split; [exact Hres|].
  assert (Hk0 : 0 < 2 ^ k) by (apply Z.pow_pos_nonneg; subst k; lia).
  (* the value returned *)
  assert (Hval : (IZR (Zpos m) * bpow e = IZR M * bpow (D - 53 + k))%R).
  { destruct (Z_lt_le_dec M (2 ^ 53)) as [Hlt'|Hge].
    - destruct (Hlt Hlt') as [-> ->]. reflexivity.
    - destruct (Heq ltac:(lia)) as [-> ->]. replace M with (2 ^ 53) by lia.
      replace (D - 53 + k + 1) with (1 + (D - 53 + k)) by lia. rewrite bpow_add.
      assert (E1 : bpow 1 = 2%R)
        by (unfold bpow, powerRZ; rewrite Pos2Nat.inj_1; simpl; lra).
      assert (E2 : IZR (2 ^ 53) = (IZR (2 ^ 52) * 2)%R)
        by (rewrite <- mult_IZR; reflexivity).
      rewrite E1, E2. ring. }
  rewrite Hval.
  (* the integer on the grid of the result *)
  set (E := D - 53 + k) in *.
  assert (HE : E <= 0) by (subst E D k; lia).
  set (N := K * 2 ^ (- E)).
  assert (HN : N <= M).
  { assert (Hq' : N * 2 ^ k <= Zpos q).
    { replace (N * 2 ^ k) with (K * 2 ^ (53 - D))
        by (subst N; rewrite <- Z.mul_assoc, <- Z.pow_add_r by (subst E D k; lia);
            do 2 f_equal; subst E; lia).
      assert (Hnum : Zpos mb * (K * 2 ^ (53 - D)) <= m').
      { subst m'. rewrite Hma, Hmb. fold da db.
        replace (b * 2 ^ (53 - db) * (K * 2 ^ (53 - D)))
          with (K * b * (2 ^ (53 - db) * 2 ^ (53 - D))) by ring.
        rewrite <- Z.pow_add_r by (subst D; lia).
        replace (a * 2 ^ (53 - da) * 2 ^ 53) with (a * (2 ^ (53 - da) * 2 ^ 53)) by ring.
        rewrite <- Z.pow_add_r by lia.
        replace (53 - db + (53 - D)) with (53 - da + 53) by (subst D; lia).
        apply Z.mul_le_mono_nonneg_r; [apply Z.pow_nonneg; lia|exact HKb]. }
      assert (Hpos : 0 <= K * 2 ^ (53 - D))
        by (apply Z.mul_nonneg_nonneg; [lia|apply Z.pow_nonneg; lia]).
      nia. }
    assert (N <= Zpos q / 2 ^ k) by (apply Z.div_le_lower_bound; lia).
    lia. }
  assert (EK : (IZR K = IZR N * bpow E)%R).
  { subst N. rewrite mult_IZR, (bpow_IZR (- E)) by lia.
    rewrite Rmult_assoc, <- bpow_add. replace (- E + E) with 0 by lia.
    unfold bpow. cbn. ring. }
  rewrite EK. apply Rmult_le_compat_r; [pose proof (bpow_pos E); lra|].
  apply IZR_le. exact HN.
Qed.

(** [Math.floor] of a positive Number with a full mantissa whose value
    lies between an integer and the next. *)
Lemma floor_between m e K :
  2 ^ 52 <= Zpos m < 2 ^ 53 -> 0 <= K < 2 ^ 52 ->
  (IZR K <= IZR (Zpos m) * bpow e < IZR K + 1)%R ->
  floor (S754_finite false m e) = of_Z K.
Proof.
  intros Hm HK [Lo Hi].
  assert (L52 : (IZR (2 ^ 52) <= IZR (Zpos m))%R) by (apply IZR_le; lia).
  assert (K52 : (IZR K + 1 <= IZR (2 ^ 52))%R).
  { replace (IZR K + 1)%R with (IZR (K + 1)) by (rewrite plus_IZR; reflexivity).
    apply IZR_le. lia. }
  assert (P52 : (0 < IZR (2 ^ 52))%R) by (apply IZR_lt; reflexivity).
  destruct e as [|p|p].
  - exfalso. unfold bpow in Hi. cbn in Hi. lra.
  - exfalso. pose proof (bpow_IZR (Zpos p) ltac:(lia)) as E. rewrite <- E in Hi.
    assert (1 <= IZR (2 ^ Zpos p))%R
      by (apply IZR_le; pose proof (Z.pow_pos_nonneg 2 (Zpos p)); lia).
    nra.
  - cbn [floor]. f_equal.
    pose proof (bpow_neg p) as E.
    assert (Hp : 0 < 2 ^ Zpos p) by (apply Z.pow_pos_nonneg; lia).
    assert (HP : (0 < IZR (2 ^ Zpos p))%R) by (apply IZR_lt; exact Hp).
    set (P := IZR (2 ^ Zpos p)) in *. set (B := bpow (Zneg p)) in *.
    assert (HB : (0 < B)%R) by apply bpow_pos.
    assert (Lo' : (IZR (K * 2 ^ Zpos p) <= IZR (Zpos m))%R).
    { rewrite mult_IZR. fold P.
      replace (IZR (Zpos m)) with (IZR (Zpos m) * B * P)%R by (rewrite Rmult_assoc, E; ring).
      apply Rmult_le_compat_r; lra. }
    assert (Hi' : (IZR (Zpos m) < IZR ((K + 1) * 2 ^ Zpos p))%R).
    { rewrite mult_IZR, plus_IZR. fold P.
      replace (IZR (Zpos m)) with (IZR (Zpos m) * B * P)%R by (rewrite Rmult_assoc, E; ring).
      apply Rmult_lt_compat_r; [exact HP|]. change (IZR 1) with 1%R. lra. }
    apply le_IZR in Lo'. apply lt_IZR in Hi'.
    symmetry. apply Z.div_unique with (Zpos m - K * 2 ^ Zpos p); lia.
Qed.

(** [Math.floor(a / b)] on integers is the integer quotient. *)
Lemma floor_div_of_Z a b :
  0 <= a -> 0 < b -> a + b < 2 ^ 52 ->
  floor (div (of_Z a) (of_Z b)) = of_Z (a / b).
Proof.
  intros Ha Hb Hab.
  assert (H52 : 2 ^ 52 < 2 ^ 53) by reflexivity.
  destruct (Z.eq_dec a 0) as [->|Ha0].
  { destruct (of_Z_finite b ltac:(lia)) as (mb & -> & _). reflexivity. }
  set (K := a / b).
  assert (HK : K * b <= a < (K + 1) * b).
  { subst K. pose proof (Z.mul_div_le a b Hb). pose proof (Z.mul_succ_div_gt a b Hb). lia. }
  assert (HK0 : 0 <= K) by (subst K; apply Z.div_pos; lia).
  assert (HKb : (K + 1) * b < 2 ^ 52) by nia.
  destruct (div_of_Z_error false a b ltac:(lia) ltac:(lia)) as (m & e & E & Rm & Lo & Hi).
  cbv iota in E. rewrite E. apply floor_between; [exact Rm|nia|].
  set (V := (IZR (Zpos m) * bpow e)%R) in *.
  assert (HB : (0 < IZR b)%R) by (apply IZR_lt; lia).
  set (x := (IZR a / IZR b)%R) in *.
  assert (Hx : (x * IZR b = IZR a)%R) by (subst x; field; lra).
  pose proof u_pos as Hu0. pose proof u_scale as Hu1.
  split.
  - destruct (Z.eq_dec K 0) as [->|HKn].
    + assert (0 <= IZR a)%R by (apply IZR_le; lia).
      assert (0 <= x)%R.
      { apply Rmult_le_reg_r with (IZR b); [exact HB|]. lra. }
      assert (u < 1)%R.
      { assert (2 <= IZR (2 ^ 52))%R by (apply IZR_le; apply Z.leb_le; reflexivity). nra. }
      nra.
    + destruct (div_of_Z_ge a b K ltac:(lia) ltac:(lia) ltac:(lia) ltac:(lia))
        as (m2 & e2 & E2 & Hge).
      rewrite E in E2. injection E2 as <- <-. exact Hge.
  - assert (Ha1 : (IZR a + 1 <= (IZR K + 1) * IZR b)%R).
    { replace (IZR a + 1)%R with (IZR (a + 1)) by (rewrite plus_IZR; reflexivity).
      replace ((IZR K + 1) * IZR b)%R with (IZR ((K + 1) * b))
        by (rewrite mult_IZR, plus_IZR; reflexivity).
      apply IZR_le. lia. }
    assert (Hb52 : ((IZR K + 1) * IZR b <= IZR (2 ^ 52))%R).
    { replace ((IZR K + 1) * IZR b)%R with (IZR ((K + 1) * b))
        by (rewrite mult_IZR, plus_IZR; reflexivity).
      apply IZR_le. lia. }
    assert (Hau : (IZR a * u < 1)%R) by nra.
    assert (HV : (x * (1 + u) * IZR b < (IZR K + 1) * IZR b)%R) by nra.
    apply Rmult_lt_reg_r in HV; [lra|exact HB].
Qed.

Lemma one_year_ttl_exact now :
  0 <= now < 2 ^ 51 -> one_year_ttl now = of_Z (now / 1000 + 31536000).
Proof.
  intros H. unfold one_year_ttl.
  assert (H51 : 2 ^ 51 + 1000 < 2 ^ 52) by reflexivity.
  rewrite floor_div_of_Z by lia.
  change (365 * 24 * 60 * 60) with 31536000.
  assert (HK : 0 <= now / 1000 < 2 ^ 51).
  { split; [apply Z.div_pos; lia|]. apply Z.div_lt_upper_bound; lia. }
  destruct (Z.eq_dec (now / 1000) 0) as [->|Hne]; [reflexivity|].
  apply add_of_Z; [lia|reflexivity|].
  assert (2 ^ 51 + 31536000 < 2 ^ 53) by reflexivity. lia.
Qed.
End FloorFacts.

Module TotalityFacts.
Import Num JS Analytics Spec Aux ObjFacts AnalyticsFacts HandlerSpec ValidationFacts.

Lemma scalar_severity_well_formed t : scalar_severity t = false <-> well_formed t.
Proof.
  unfold scalar_severity, well_formed.
  destruct (Ticket.severity t); split; intros H; try reflexivity; try exact I;
    try discriminate H; try contradiction H.
Qed.

Lemma no_scalar_well_formed tickets :
  existsb scalar_severity tickets = false -> Forall well_formed tickets.
Proof.
  intros H. apply List.Forall_forall. intros t Ht. apply scalar_severity_well_formed.
  apply not_true_is_false. intros Hs.
  assert (existsb scalar_severity tickets = true)
    by (apply existsb_exists; exists t; split; assumption).
  congruence.
Qed.

(** The first loop reads every severity: it stops at the first one that
    is a boolean or a Number. *)
Lemma distribution_loop_throws tickets : forall distribution,
  existsb scalar_severity tickets = true ->
  exists text,
    forEach tickets (fun ticket distribution =>
      severity ← optional_toLowerCase (Ticket.severity ticket);
      let severity := property_key severity in
      if defined (get distribution severity)
      then mret (increment distribution severity)
      else mret distribution) distribution
    = Throw (TypeError text).
Proof.
  induction tickets as [|t rest IH]; intros distribution H; [discriminate H|].
  cbn [existsb] in H. cbn [forEach].
  unfold scalar_severity in H at 1.
  destruct (Ticket.severity t) as [| |b|x|s]; cbn [optional_toLowerCase orb] in *.
  - unfold mbind, Result_bind, mret, Result_ret. cbn [bind]. cbv zeta.
    destruct (defined (get distribution (property_key None))); cbn [bind]; apply IH, H.
  - unfold mbind, Result_bind, mret, Result_ret. cbn [bind]. cbv zeta.
    destruct (defined (get distribution (property_key None))); cbn [bind]; apply IH, H.
  - eexists. reflexivity.
  - eexists. reflexivity.
  - unfold mbind, Result_bind, mret, Result_ret. cbn [bind]. cbv zeta.
    destruct (defined (get distribution (property_key (Some (toLowerCase s)))));
      cbn [bind]; apply IH, H.
Qed.

Lemma calculateSeverityDistribution_throws tickets :
  existsb scalar_severity tickets = true ->
  exists text, calculateSeverityDistribution tickets = Throw (TypeError text).
Proof.
  intros H. unfold calculateSeverityDistribution.
  destruct (distribution_loop_throws tickets zeros H) as (text & E).
  exists text. cbv zeta in E |- *. rewrite E. reflexivity.
Qed.

Lemma one_decimal_100 : one_decimal 1000 = of_Z 100.
Proof. vm_compute. reflexivity. Qed.

Lemma nearest_tenths_all n c :
  0 < c -> nearest_tenths n (100 * c) c -> n = 1000.
Proof. unfold nearest_tenths. intros Hc H. nia. Qed.

Lemma nearest_tenths_none n t :
  0 < t -> nearest_tenths n (100 * 0) t -> n = 0.
Proof. unfold nearest_tenths. intros Ht H. nia. Qed.
End TotalityFacts.

(** ** The words of the claims, the sum of the hours, the store *)

Module ReadingFacts.
Import Num JS Analytics Spec Aux NumFacts AnalyticsFacts Reading.

Lemma small_lower_ascii c : small c = lower_ascii c.
Proof.
  destruct c as [b0 b1 b2 b3 b4 b5 b6 b7].
  destruct b0, b1, b2, b3, b4, b5, b6, b7; reflexivity.
Qed.

Lemma lower_cased_toLowerCase s : lower_cased s = toLowerCase s.
Proof.
  induction s as [|c rest IH]; [reflexivity|].
  cbn [lower_cased toLowerCase]. rewrite small_lower_ascii, IH. reflexivity.
Qed.

Lemma severity_is_spec key t : severity_is key t = has_severity key t.
Proof.
  unfold severity_is, has_severity.
  destruct (Ticket.severity t); try reflexivity.
  rewrite lower_cased_toLowerCase. reflexivity.
Qed.

Lemma present_truthy v : present v = truthy v.
Proof. destruct v as [| |[]|[]|[]]; reflexivity. Qed.

Lemma counted_spec key t : counted key t = qualifies key t.
Proof.
  unfold counted, qualifies, dated, has_both_dates.
  rewrite !present_truthy, severity_is_spec. reflexivity.
Qed.

Lemma target_spec key : target key = sla_target key.
Proof.
  unfold target, sla_target. cbn [List.find fst snd].
  rewrite (String.eqb_sym "critical"), (String.eqb_sym "high"),
    (String.eqb_sym "medium"), (String.eqb_sym "low").
  destruct (key =? "critical")%string; [reflexivity|].
  destruct (key =? "high")%string; [reflexivity|].
  destruct (key =? "medium")%string; [reflexivity|].
  destruct (key =? "low")%string; reflexivity.
Qed.

(** The Number written [n / 10] is [n / 10]. *)
Lemma one_decimal_tenth n : 0 <= n < 2 ^ 53 -> tenth (one_decimal n) n.
Proof.
  intros Hn. pose proof (one_decimal_R n Hn) as HR.
  assert (Q : (0 <= IZR n / 10)%R).
  { assert (0 <= IZR n)%R by (apply IZR_le; lia). lra. }
  assert (T : (Rabs (to_R (one_decimal n) - IZR n / 10)
               <= Rabs (IZR n / 10) / IZR (2 ^ 52))%R).
  { fold u in *. rewrite (Rabs_pos_eq (IZR n / 10)) by exact Q.
    unfold Rdiv at 2. fold u. apply Rabs_le. lra. }
  unfold one_decimal, parseFloat in *. destruct n as [|p|p]; [exact T| |lia].
  destruct (of_ratio_error p ltac:(lia)) as (m & e & E & _).
  rewrite E in *. exact T.
Qed.

Section WithDateParser.
Variable Date_parse : string -> TimeValue.
Hypothesis Htimes : time_values Date_parse.

Lemma new_Date_range v t :
  new_Date Date_parse v = Some t -> Z.abs t <= 8640000000000000.
Proof.
  destruct v as [| |b|x|s]; cbn [new_Date]; intros H.
  - discriminate H.
  - injection H as <-. lia.
  - injection H as <-. destruct b; lia.
  - unfold TimeClip in H. destruct (truncate x) as [z|]; [|discriminate H].
    destruct (Z.leb_spec (Z.abs z) 8640000000000000); [|discriminate H].
    injection H as <-. assumption.
  - exact (Htimes s t H).
Qed.

Lemma on_time_leb key t :
  In key canonical ->
  on_time Date_parse key t = leb (hoursToResolve Date_parse t) (of_Z (sla_target key)).
Proof.
  intros Hkey. unfold on_time, elapsed, hoursToResolve. cbv zeta.
  destruct (new_Date Date_parse (Ticket.createdDate t)) as [created|] eqn:Hc.
  - destruct (new_Date Date_parse (Ticket.resolvedDate t)) as [resolved|] eqn:Hr.
    + cbn [valueOf]. rewrite target_spec. symmetry.
      pose proof (new_Date_range _ _ Hc). pose proof (new_Date_range _ _ Hr).
      apply FarDatesFacts.hours_leb_any.
      * apply DeadlineFacts.sla_target_canonical, Hkey.
      * change (2 ^ 53) with 9007199254740992. lia.
      * change (2 ^ 53) with 9007199254740992. lia.
    + cbn [valueOf]. rewrite sub_NaN_l. reflexivity.
  - cbn [valueOf]. rewrite sub_NaN_r.
    destruct (new_Date Date_parse (Ticket.resolvedDate t)); reflexivity.
Qed.

Lemma meets_spec key t :
  In key canonical -> meets Date_parse key t = compliant Date_parse key t.
Proof.
  intros Hkey. unfold meets, compliant.
  rewrite counted_spec, (on_time_leb key t Hkey). reflexivity.
Qed.
End WithDateParser.
End ReadingFacts.

Module SumFacts.
Import Num JS Analytics Spec Aux NumFacts ObjFacts ExactFacts FarDatesFacts Reading SumAux.

Lemma bpow_ge_1 k : 0 <= k -> (1 <= bpow k)%R.
Proof.
  intros Hk. rewrite <- (bpow_IZR k Hk). apply IZR_le.
  assert (0 < 2 ^ k) by (apply Z.pow_pos_nonneg; lia). lia.
Qed.

Lemma bpow_le a b : a <= b -> (bpow a <= bpow b)%R.
Proof.
  intros H. replace b with (a + (b - a)) by lia. rewrite bpow_add.
  pose proof (bpow_pos a). pose proof (bpow_ge_1 (b - a) ltac:(lia)). nra.
Qed.

Lemma bpow_lt a b : a < b -> (bpow a < bpow b)%R.
Proof.
  intros H. replace b with (a + (b - a)) by lia. rewrite bpow_add.
  pose proof (bpow_pos a). pose proof (bpow_ge_2 (b - a) ltac:(lia)). nra.
Qed.

Lemma bpow_lt_inv a b : (bpow a < bpow b)%R -> a < b.
Proof.
  intros H. destruct (Z_lt_le_dec a b) as [|Hge]; [assumption|].
  pose proof (bpow_le b a Hge). lra.
Qed.

Lemma bpow_le_inv a b : (bpow a <= bpow b)%R -> a <= b.
Proof.
  intros H. destruct (Z_le_gt_dec a b) as [|Hgt]; [assumption|].
  pose proof (bpow_lt b a ltac:(lia)). lra.
Qed.

Lemma bpow_1 : bpow 1 = 2%R.
Proof. unfold bpow, powerRZ. rewrite Pos2Nat.inj_1. simpl. lra. Qed.

(** The value that [binary_round_aux] returns, from its integer. *)
Lemma rounded_value (M : Z) (m : positive) (e e1 : Z) :
  (M < 2 ^ 53 -> Zpos m = M /\ e = e1) ->
  (M = 2 ^ 53 -> Zpos m = 2 ^ 52 /\ e = e1 + 1) ->
  M <= 2 ^ 53 ->
  (IZR (Zpos m) * bpow e = IZR M * bpow e1)%R.
Proof.
  intros Hlt Heq HM. destruct (Z_lt_le_dec M (2 ^ 53)) as [Hlt'|Hge].
  - destruct (Hlt Hlt') as [-> ->]. reflexivity.
  - destruct (Heq ltac:(lia)) as [-> ->]. replace M with (2 ^ 53) by lia.
    replace (e1 + 1) with (1 + e1) by lia. rewrite bpow_add, bpow_1.
    assert (E2 : IZR (2 ^ 53) = (IZR (2 ^ 52) * 2)%R) by (rewrite <- mult_IZR; reflexivity).
    rewrite E2. ring.
Qed.

(** Rounding an integer multiple of [2^ez]: the result has a mantissa of
    53 bits, is within the relative distance [u], and is a multiple of
    every power of two that the value is a multiple of. *)
Lemma round_grid s p ez :
  -1021 <= Zpos (digits2_pos p) + ez ->
  ez + Z.max 0 (Zpos (digits2_pos p) - 53) <= 969 ->
  exists m e,
    binary_round prec emax s p ez = S754_finite s m e /\
    2 ^ 52 <= Zpos m < 2 ^ 53 /\
    (IZR (Zpos p) * bpow ez * (1 - u) <= IZR (Zpos m) * bpow e
     <= IZR (Zpos p) * bpow ez * (1 + u))%R /\
    (forall L K, (IZR (Zpos p) * bpow ez = IZR K * bpow L)%R ->
                 exists K', (IZR (Zpos m) * bpow e = IZR K' * bpow L)%R).
Proof.
  intros Hlo Hhi. set (d := Zpos (digits2_pos p)) in *.
  pose proof (digits2_pos_bounds p) as [Lo Hi]. fold d in Lo, Hi.
  assert (Hd : 1 <= d) by (subst d; lia).
  pose proof u_pos as Hu0. pose proof (bpow_pos ez) as HB.
  assert (HP : (0 < IZR (Zpos p))%R) by (apply IZR_lt; lia).
  assert (HX : (0 < IZR (Zpos p) * bpow ez)%R) by (apply Rmult_lt_0_compat; assumption).
  unfold binary_round. fold d. rewrite fexp_normal by lia.
  destruct (Z_le_gt_dec d 53) as [Hsmall|Hbig].
  - (* fewer than 54 bits: exact *)
    destruct (shl_align_spec p ez (d + ez - 53)) as (p' & -> & Hp'); [lia|].
    replace (ez - (d + ez - 53)) with (53 - d) in Hp' by lia.
    assert (Hdp : Zpos (digits2_pos p') = 53).
    { change (Zpos (digits2_pos p')) with (Zdigits2 (Zpos p')).
      rewrite Hp', Zdigits2_shift by lia. cbn [Zdigits2]. fold d. lia. }
    destruct (binary_round_aux_faithful s p' (d + ez - 53) loc_Exact)
      as (m & e & M & Hr & _ & Hex & HM & H52 & Hlt & Heq).
    + rewrite Hdp. lia.
    + rewrite Hdp. lia.
    + left; reflexivity.
    + rewrite Hdp in *. change (Z.max 0 (53 - 53)) with 0 in *.
      change (2 ^ 0) with 1 in *.
      specialize (Hex eq_refl (Z.mod_1_r _)). rewrite Z.div_1_r in Hex.
      pose proof (digits2_pos_bounds p') as [Lo' Hi']. rewrite Hdp in Lo', Hi'.
      change (53 - 1) with 52 in Lo'.
      destruct (Hlt ltac:(lia)) as [Em Ee].
      assert (Ev : (IZR (Zpos m) * bpow e = IZR (Zpos p) * bpow ez)%R).
      { rewrite Em, Hex, Hp', Ee, mult_IZR, (bpow_IZR (53 - d)) by lia.
        rewrite Rmult_assoc, <- bpow_add. do 2 f_equal. lia. }
      exists m, e. split; [exact Hr|]. split; [lia|]. rewrite Ev.
      split; [split; nra|].
      intros L K HK. exists K. exact HK.
  - (* more: rounded *)
    rewrite shl_align_id by lia.
    set (k := d - 53) in *.
    replace (Z.max 0 k) with k in Hhi by lia.
    destruct (binary_round_aux_faithful s p ez loc_Exact)
      as (m & e & M & Hr & HM & Hex & HMr & H52 & Hlt & Heq).
    + fold d. lia.
    + fold d. fold k. replace (Z.max 0 k) with k by lia. lia.
    + left; reflexivity.
    + fold d in HM, Hex, H52, Hlt, Heq. fold k in HM, Hex, Hlt, Heq.
      replace (Z.max 0 k) with k in * by lia.
      specialize (H52 ltac:(lia)).
      pose proof (rounded_value M m e (ez + k) Hlt Heq ltac:(lia)) as Hval.
      assert (Hrange : 2 ^ 52 <= Zpos m < 2 ^ 53).
      { destruct (Z_lt_le_dec M (2 ^ 53)) as [Hlt'|Hge].
        - destruct (Hlt Hlt') as [-> _]. lia.
        - destruct (Heq ltac:(lia)) as [-> _]. lia. }
      destruct (round_error s p ez loc_Exact (IZR (Zpos p) * bpow ez))
        as (m2 & e2 & Hr2 & _ & _ & Hv2).
      * fold d. lia.
      * fold d. lia.
      * fold d. fold k. lia.
      * split; [lra|]. rewrite Rmult_plus_distr_r. lra.
      * rewrite Hr in Hr2. injection Hr2 as <- <-.
        exists m, e. split; [exact Hr|]. split; [exact Hrange|]. split; [exact Hv2|].
        intros L K HK. rewrite Hval.
        assert (Hk0 : 0 < 2 ^ k) by (apply Z.pow_pos_nonneg; lia).
        destruct (Z_le_gt_dec L (ez + k)) as [HL|HL].
        -- exists (M * 2 ^ (ez + k - L)).
           rewrite mult_IZR, (bpow_IZR (ez + k - L)) by lia.
           rewrite Rmult_assoc, <- bpow_add. do 2 f_equal. lia.
        -- (* the value has few bits: the rounding is exact *)
           assert (Ep : Zpos p = K * 2 ^ (L - ez)).
           { apply eq_IZR. rewrite mult_IZR, (bpow_IZR (L - ez)) by lia.
             replace L with ((L - ez) + ez) in HK at 1 by lia.
             rewrite bpow_add in HK. nra. }
           assert (Ep' : Zpos p = K * 2 ^ (L - ez - k) * 2 ^ k).
           { rewrite Ep, <- Z.mul_assoc, <- Z.pow_add_r by lia. do 2 f_equal. lia. }
           assert (EM : M = K * 2 ^ (L - ez - k)).
           { rewrite Hex; [|reflexivity|].
             - rewrite Ep'. apply Z.div_mul. lia.
             - rewrite Ep'. apply Z.mod_mul. lia. }
           exists K. rewrite EM, mult_IZR, (bpow_IZR (L - ez - k)) by lia.
           rewrite Rmult_assoc, <- bpow_add. do 2 f_equal. lia.
Qed.

Lemma aligned_value (s : bool) m m' e ez :
  ez <= e -> Zpos m' = Zpos m * 2 ^ (e - ez) ->
  (IZR (cond_Zopp s (Zpos m')) * bpow ez = to_R (S754_finite s m e))%R.
Proof.
  intros He Hm. rewrite to_R_finite.
  assert (E : bpow e = (IZR (2 ^ (e - ez)) * bpow ez)%R).
  { rewrite (bpow_IZR (e - ez)), <- bpow_add by lia. f_equal. lia. }
  rewrite E.
  destruct s; cbn [cond_Zopp].
  - change (Z.opp (Zpos m')) with (- Zpos m'). rewrite opp_IZR, Hm, mult_IZR. ring.
  - rewrite Hm, mult_IZR. ring.
Qed.

(** The sum of two finite Numbers: rounded once, and a multiple of every
    power of two that both are multiples of. *)
Lemma add_finite sx mx ex sy my ey :
  2 ^ 52 <= Zpos mx < 2 ^ 53 -> 2 ^ 52 <= Zpos my < 2 ^ 53 ->
  -960 <= ex <= 900 -> -960 <= ey <= 900 ->
  let x := S754_finite sx mx ex in
  let y := S754_finite sy my ey in
  normal (add x y) /\
  (Rabs (to_R (add x y) - (to_R x + to_R y)) <= u * Rabs (to_R x + to_R y))%R /\
  (forall L, on_grid L x -> on_grid L y -> on_grid L (add x y)).
Proof.
  intros Hmx Hmy Hex Hey x y.
  pose proof u_pos as Hu0.
  subst x y. unfold add, SFadd. cbv zeta.
  set (ez := Z.min ex ey).
  destruct (shl_align_spec mx ex ez) as (mx' & Ex & Hmx'); [subst ez; lia|].
  destruct (shl_align_spec my ey ez) as (my' & Ey & Hmy'); [subst ez; lia|].
  rewrite Ex, Ey. cbn [fst].
  pose proof (aligned_value sx mx mx' ex ez ltac:(subst ez; lia) Hmx') as Vx.
  pose proof (aligned_value sy my my' ey ez ltac:(subst ez; lia) Hmy') as Vy.
  set (X := to_R (S754_finite sx mx ex)) in *.
  set (Y := to_R (S754_finite sy my ey)) in *.
  set (zs := cond_Zopp sx (Zpos mx') + cond_Zopp sy (Zpos my')).
  assert (HR : (X + Y = IZR zs * bpow ez)%R).
  { subst zs. rewrite plus_IZR, Rmult_plus_distr_r, Vx, Vy. reflexivity. }
  set (top := Z.max ex ey).
  assert (Hpow : 2 ^ (54 + top - ez) = 2 * 2 ^ (53 + top - ez)).
  { replace (54 + top - ez) with (1 + (53 + top - ez)) by lia.
    rewrite Z.pow_add_r by (subst top ez; lia). reflexivity. }
  assert (Bx : Zpos mx' <= 2 ^ (53 + top - ez) - 1).
  { assert (Zpos mx' < 2 ^ (53 + top - ez)); [|lia].
    rewrite Hmx'. replace (53 + top - ez) with (53 + (ex - ez) + (top - ex)) by lia.
    rewrite !Z.pow_add_r by (subst top ez; lia).
    assert (0 < 2 ^ (ex - ez)) by (apply Z.pow_pos_nonneg; subst ez; lia).
    assert (0 < 2 ^ (top - ex)) by (apply Z.pow_pos_nonneg; subst top; lia).
    nia. }
  assert (By : Zpos my' <= 2 ^ (53 + top - ez) - 1).
  { assert (Zpos my' < 2 ^ (53 + top - ez)); [|lia].
    rewrite Hmy'. replace (53 + top - ez) with (53 + (ey - ez) + (top - ey)) by lia.
    rewrite !Z.pow_add_r by (subst top ez; lia).
    assert (0 < 2 ^ (ey - ez)) by (apply Z.pow_pos_nonneg; subst ez; lia).
    assert (0 < 2 ^ (top - ey)) by (apply Z.pow_pos_nonneg; subst top; lia).
    nia. }
  assert (Bz : Z.abs zs < 2 ^ (54 + top - ez)).
  { subst zs. destruct sx, sy; cbn [cond_Zopp]; lia. }
  assert (Hround : forall s p, Zpos p = Z.abs zs ->
    exists m e,
      binary_round prec emax s p ez = S754_finite s m e /\
      2 ^ 52 <= Zpos m < 2 ^ 53 /\
      (IZR (Zpos p) * bpow ez * (1 - u) <= IZR (Zpos m) * bpow e
       <= IZR (Zpos p) * bpow ez * (1 + u))%R /\
      (forall L K, (IZR (Zpos p) * bpow ez = IZR K * bpow L)%R ->
                   exists K', (IZR (Zpos m) * bpow e = IZR K' * bpow L)%R)).
  { intros s p Hp.
    pose proof (Zdigits2_upper (Zpos p) (54 + top - ez) ltac:(lia)) as Hd.
    cbn [Zdigits2] in Hd.
    apply round_grid; [subst ez; lia|subst top ez; lia]. }
  assert (HB : (0 < bpow ez)%R) by apply bpow_pos.
  destruct zs as [|p|p] eqn:Ez.
  - (* the two cancel *)
    cbn [binary_normalize]. cbn [to_R normal].
    change (IZR 0) with 0%R in HR. rewrite Rmult_0_l in HR. rewrite HR.
    split; [exact I|]. split.
    + rewrite Rminus_0_r, Rabs_R0. lra.
    + intros L _ _. exists 0. rewrite Rmult_0_l. reflexivity.
  - cbn [binary_normalize].
    destruct (Hround false p eq_refl) as (m & e & -> & Hm & Hv & Hg).
    assert (HP : (0 < IZR (Zpos p) * bpow ez)%R)
      by (apply Rmult_lt_0_compat; [apply IZR_lt; lia|assumption]).
    cbn [normal]. split; [exact Hm|]. rewrite to_R_finite, HR. split.
    + rewrite (Rabs_pos_eq (IZR (Zpos p) * bpow ez)) by lra.
      apply Rabs_le. split; lra.
    + intros L (kx & Hkx) (ky & Hky).
      destruct (Hg L (kx + ky)) as (K' & HK').
      * rewrite <- HR. fold X in Hkx. fold Y in Hky. rewrite Hkx, Hky, plus_IZR. ring.
      * exists K'. rewrite to_R_finite, <- HK'. ring.
  - cbn [binary_normalize].
    destruct (Hround true p eq_refl) as (m & e & -> & Hm & Hv & Hg).
    assert (HP : (0 < IZR (Zpos p) * bpow ez)%R)
      by (apply Rmult_lt_0_compat; [apply IZR_lt; lia|assumption]).
    assert (HN : (IZR (Zneg p) = - IZR (Zpos p))%R)
      by (change (Zneg p) with (- Zpos p); apply opp_IZR).
    cbn [normal]. split; [exact Hm|]. rewrite to_R_finite, HR, HN. split.
    + replace (- IZR (Zpos p) * bpow ez)%R with (- (IZR (Zpos p) * bpow ez))%R by ring.
      rewrite Rabs_Ropp, (Rabs_pos_eq (IZR (Zpos p) * bpow ez)) by lra.
      apply Rabs_le. split; lra.
    + intros L (kx & Hkx) (ky & Hky).
      destruct (Hg L (- (kx + ky))) as (K' & HK').
      * fold X in Hkx. fold Y in Hky.
        assert (E : (IZR (Zneg p) * bpow ez = IZR (kx + ky) * bpow L)%R)
          by (rewrite <- HR, Hkx, Hky, plus_IZR; ring).
        rewrite opp_IZR. rewrite HN in E. lra.
      * exists (- K'). rewrite to_R_finite, opp_IZR.
        replace (-1 * IZR (Zpos m) * bpow e)%R with (- (IZR (Zpos m) * bpow e))%R by ring.
        rewrite HK'. ring.
Qed.

Lemma Rabs_to_R_finite s m e :
  Rabs (to_R (S754_finite s m e)) = (IZR (Zpos m) * bpow e)%R.
Proof.
  rewrite to_R_finite.
  assert (0 < IZR (Zpos m) * bpow e)%R
    by (apply Rmult_lt_0_compat; [apply IZR_lt; lia|apply bpow_pos]).
  destruct s.
  - replace (-1 * IZR (Zpos m) * bpow e)%R with (- (IZR (Zpos m) * bpow e))%R by ring.
    rewrite Rabs_Ropp. apply Rabs_pos_eq. lra.
  - rewrite Rmult_1_l. apply Rabs_pos_eq. lra.
Qed.

Lemma grid_exponent L s m e :
  Zpos m < 2 ^ 53 -> on_grid L (S754_finite s m e) -> L - 52 <= e.
Proof.
  intros Hm (k & Hk).
  assert (Hk0 : k <> 0).
  { intros ->. pose proof (Rabs_to_R_finite s m e) as H. rewrite Hk in H.
    rewrite Rmult_0_l, Rabs_R0 in H.
    assert (0 < IZR (Zpos m) * bpow e)%R
      by (apply Rmult_lt_0_compat; [apply IZR_lt; lia|apply bpow_pos]).
    lra. }
  pose proof (Rabs_to_R_finite s m e) as H. rewrite Hk in H.
  rewrite Rabs_mult, (Rabs_pos_eq (bpow L)) in H by (pose proof (bpow_pos L); lra).
  assert (H1 : (1 <= Rabs (IZR k))%R).
  { rewrite <- abs_IZR. apply IZR_le. lia. }
  assert (H53 : (IZR (Zpos m) < bpow 53)%R).
  { rewrite <- (bpow_IZR 53) by lia. apply IZR_lt. exact Hm. }
  pose proof (bpow_pos L) as HL. pose proof (bpow_pos e) as He.
  assert (Hlt : (bpow L < bpow (53 + e))%R) by (rewrite bpow_add; nra).
  apply bpow_lt_inv in Hlt. lia.
Qed.

Lemma magnitude_exponent H s m e :
  2 ^ 52 <= Zpos m -> (Rabs (to_R (S754_finite s m e)) <= bpow H)%R -> e <= H - 52.
Proof.
  intros Hm Hv. rewrite Rabs_to_R_finite in Hv.
  assert (H52 : (bpow 52 <= IZR (Zpos m))%R).
  { rewrite <- (bpow_IZR 52) by lia. apply IZR_le. exact Hm. }
  pose proof (bpow_pos e) as He.
  assert (Hle : (bpow (52 + e) <= bpow H)%R) by (rewrite bpow_add; nra).
  apply bpow_le_inv in Hle. lia.
Qed.

Lemma on_grid_zero L s : on_grid L (S754_zero s).
Proof. exists 0. cbn [to_R]. rewrite Rmult_0_l. reflexivity. Qed.

(** One addition of the running sum. *)
Lemma add_normal L x y :
  -900 <= L ->
  normal x -> normal y -> on_grid L x -> on_grid L y ->
  (Rabs (to_R x) <= bpow 950)%R -> (Rabs (to_R y) <= bpow 950)%R ->
  normal (add x y) /\ on_grid L (add x y) /\
  (Rabs (to_R (add x y) - (to_R x + to_R y)) <= u * Rabs (to_R x + to_R y))%R.
Proof.
  intros HL Nx Ny Gx Gy Bx By. pose proof u_pos as Hu0.
  assert (Exact : forall a b : R, (Rabs (a - a) <= u * Rabs b)%R).
  { intros a b. rewrite Rminus_diag, Rabs_R0. pose proof (Rabs_pos b). nra. }
  destruct x as [[]| | |sx mx ex]; try contradiction Nx;
    destruct y as [[]| | |sy my ey]; try contradiction Ny.
  - cbn [add SFadd Bool.eqb to_R]. unfold add. cbn [SFadd Bool.eqb].
    split; [exact I|]. split; [assumption|].
    cbn [to_R]. rewrite Rplus_0_l. apply Exact.
  - unfold add. cbn [SFadd]. split; [exact Ny|]. split; [assumption|].
    cbn [to_R]. rewrite Rplus_0_l. apply Exact.
  - unfold add. cbn [SFadd]. split; [exact Nx|]. split; [assumption|].
    cbn [to_R]. rewrite Rplus_0_r. apply Exact.
  - cbn [normal] in Nx, Ny.
    pose proof (grid_exponent L sx mx ex ltac:(lia) Gx).
    pose proof (grid_exponent L sy my ey ltac:(lia) Gy).
    pose proof (magnitude_exponent 950 sx mx ex ltac:(lia) Bx).
    pose proof (magnitude_exponent 950 sy my ey ltac:(lia) By).
    destruct (add_finite sx mx ex sy my ey Nx Ny ltac:(lia) ltac:(lia)) as (N & E & G).
    split; [exact N|]. split; [apply G; assumption|exact E].
Qed.

Lemma on_grid_finite L s m e : L <= e -> on_grid L (S754_finite s m e).
Proof.
  intros H. exists ((if s then -1 else 1) * Zpos m * 2 ^ (e - L)).
  rewrite to_R_finite, !mult_IZR, (bpow_IZR (e - L)) by lia.
  rewrite !Rmult_assoc, <- bpow_add. replace (e - L + L) with e by lia.
  destruct s; reflexivity.
Qed.

Lemma u_tiny : (u <= / 1000000000000000)%R.
Proof. unfold u. change (2 ^ 52) with 4503599627370496. lra. Qed.

(** The hours between two dates: the exact quotient, within three
    roundings. *)
Lemma hours_value created resolved :
  Z.abs created <= 8640000000000000 -> Z.abs resolved <= 8640000000000000 ->
  let h := div (sub (of_Z resolved) (of_Z created)) (of_Z 3600000) in
  normal h /\ on_grid (-80) h /\
  (Rabs (to_R h * 3600000 - IZR (resolved - created))
   <= 3 * u * IZR (Z.abs (resolved - created)))%R.
Proof.
  intros Hc Hr h. subst h. set (d := resolved - created).
  pose proof u_pos as Hu0. pose proof u_tiny as Hu1.
  assert (Bc : Z.abs created < 2 ^ 53) by (change (2 ^ 53) with 9007199254740992; lia).
  assert (Br : Z.abs resolved < 2 ^ 53) by (change (2 ^ 53) with 9007199254740992; lia).
  assert (Hcc : 0 < 3600000 < 2 ^ 53) by (split; reflexivity).
  assert (Finite : forall (s : bool) m e (a : Z),
    0 < a -> Z.abs d = a -> s = (d <? 0) -> -80 <= e ->
    2 ^ 52 <= Zpos m < 2 ^ 53 ->
    (Rabs (IZR (Zpos m) * bpow e * 3600000 - IZR a) <= 3 * u * IZR a)%R ->
    normal (S754_finite s m e) /\ on_grid (-80) (S754_finite s m e) /\
    (Rabs (to_R (S754_finite s m e) * 3600000 - IZR d) <= 3 * u * IZR (Z.abs d))%R).
  { intros s m e a Ha Hd Hs He Hm Hv. split; [exact Hm|].
    split; [apply on_grid_finite, He|]. rewrite Hd, to_R_finite, Hs.
    destruct (Z.ltb_spec d 0) as [Hneg|Hpos].
    - replace (IZR d) with (- IZR a)%R by (rewrite <- opp_IZR; f_equal; lia).
      replace (-1 * IZR (Zpos m) * bpow e * 3600000 - - IZR a)%R
        with (- (IZR (Zpos m) * bpow e * 3600000 - IZR a))%R by ring.
      rewrite Rabs_Ropp. exact Hv.
    - replace (IZR d) with (IZR a) by (f_equal; lia).
      rewrite (Rmult_1_l (IZR (Zpos m))). exact Hv. }
  destruct (Z_lt_le_dec (Z.abs d) (2 ^ 53)) as [Hs|Hl].
  - rewrite (sub_of_Z resolved created Br Bc Hs). fold d.
    destruct (Z.eq_dec d 0) as [Hd0|Hd0].
    + rewrite Hd0. change (div (of_Z 0) (of_Z 3600000)) with (S754_zero false).
      split; [exact I|]. split; [apply on_grid_zero|].
      cbn [to_R Z.abs]. rewrite Rmult_0_l, Rminus_diag, Rabs_R0.
      change (Z.abs 0) with 0. lra.
    + set (a := Z.abs d).
      assert (Ha : 0 < a < 2 ^ 53) by (subst a; lia).
      destruct (div_of_Z_error (d <? 0) a 3600000 Ha Hcc) as (m & e & E & Rm & Lo & Hi).
      assert (Ed : div (of_Z d) (of_Z 3600000) = S754_finite (d <? 0) m e).
      { rewrite <- E. f_equal. subst a. destruct (Z.ltb_spec d 0).
        - rewrite <- of_Z_opp by lia. f_equal. lia.
        - f_equal. lia. }
      rewrite Ed.
      set (V := (IZR (Zpos m) * bpow e)%R) in *.
      assert (HA : (1 <= IZR a)%R) by (apply IZR_le; lia).
      set (x := (IZR a / IZR 3600000)%R) in *.
      assert (Hx : (x * 3600000 = IZR a)%R) by (subst x; field).
      apply (Finite (d <? 0) m e a); [lia|reflexivity|reflexivity| |exact Rm|].
      * (* the exponent *)
        assert (H53 : (IZR (Zpos m) < bpow 53)%R).
        { rewrite <- (bpow_IZR 53) by lia. apply IZR_lt. lia. }
        assert (HV : (bpow (-23) < V)%R).
        { assert (E23 : (bpow (-23) * IZR (2 ^ 23) = 1)%R) by apply (bpow_neg 23).
          change (2 ^ 23) with 8388608 in E23. nra. }
        pose proof (bpow_pos e) as He.
        assert (Hlt : (bpow (-23) < bpow (53 + e))%R) by (rewrite bpow_add; subst V; nra).
        apply bpow_lt_inv in Hlt. lia.
      * fold V. apply Rabs_le. split; nra.
  - destruct (sub_of_Z_large resolved created Br Bc Hl) as (m & e & -> & Rm & He & Lo & Hi).
    fold d in Lo, Hi |- *.
    destruct (of_Z_finite 3600000 Hcc) as (mc & Ec & Hmc & Rmc).
    pose proof (of_Z_R 3600000 mc Hcc Hmc) as Vc.
    change (Zdigits2 3600000) with 22 in *.
    rewrite Ec. unfold div, SFdiv. rewrite xorb_false_r.
    pose proof (div_error (d <? 0) m e mc (22 - 53)) as F. cbv zeta in F.
    rewrite (digits2_pos_53 m Rm), (digits2_pos_53 mc Rmc) in F.
    destruct F as (m2 & e2 & -> & Rm2 & He2 & Lo2 & Hi2); [lia|lia|].
    rewrite Vc in Lo2, Hi2.
    set (a := Z.abs d) in *.
    set (V := (IZR (Zpos m) * bpow e)%R) in *.
    set (V2 := (IZR (Zpos m2) * bpow e2)%R) in *.
    assert (HA : (1 <= IZR a)%R).
    { apply IZR_le. change (2 ^ 53) with 9007199254740992 in Hl. lia. }
    set (x := (V / IZR 3600000)%R) in *.
    assert (Hx : (x * 3600000 = V)%R) by (subst x; field).
    apply (Finite (d <? 0) m2 e2 a);
      [change (2 ^ 53) with 9007199254740992 in Hl; lia|reflexivity|reflexivity|lia|exact Rm2|].
    fold V2. apply Rabs_le. split; nra.
Qed.

Lemma abs_bounds x a : (Rabs x <= a)%R -> (- a <= x <= a)%R.
Proof.
  intros H. pose proof (Rle_abs x). pose proof (Rle_abs (- x)) as H'.
  rewrite Rabs_Ropp in H'. lra.
Qed.

(** One step of the sum, on real numbers: [n] terms so far, within
    [6 n u] of the exact sum relative to the sum of magnitudes. *)
Lemma sum_step_R (s h s1 t d p a n : R) :
  (0 <= n)%R -> (n * u <= / 1000)%R ->
  (Rabs (s * 3600000 - t) <= 6 * n * u * p)%R ->
  (Rabs (h * 3600000 - d) <= 3 * u * a)%R ->
  (Rabs t <= p)%R -> (Rabs d <= a)%R ->
  (Rabs (s1 - (s + h)) <= u * Rabs (s + h))%R ->
  (Rabs (s1 * 3600000 - (t + d)) <= 6 * (n + 1) * u * (p + a))%R.
Proof.
  intros Hn Hnu Hs Hh Ht Hd H1.
  pose proof u_pos as Hu0. pose proof u_tiny as Hu1.
  apply abs_bounds in Hs, Hh, Ht, Hd.
  assert (Hp : (0 <= p)%R) by lra. assert (Ha : (0 <= a)%R) by lra.
  set (w := (s + h)%R) in *.
  set (q := (n * u)%R) in *.
  assert (Hq : (0 <= q)%R) by (subst q; nra).
  assert (Hqp : (0 <= q * p)%R) by nra.
  assert (Hua : (0 <= u * a)%R) by nra.
  assert (Hup : (0 <= u * p)%R) by nra.
  assert (Es : (6 * n * u * p = 6 * (q * p))%R) by (subst q; ring).
  rewrite Es in Hs.
  set (delta := (6 * (q * p) + 3 * (u * a))%R).
  assert (Hw : (- delta <= w * 3600000 - (t + d) <= delta)%R) by (subst w delta; lra).
  assert (Hwabs : (Rabs w * 3600000 <= p + a + delta)%R).
  { unfold Rabs. destruct (Rcase_abs w); lra. }
  assert (F1 : (u * (q * p) <= u * p / 1000)%R) by nra.
  assert (F2 : (u * (u * a) <= u * a / 1000)%R) by nra.
  assert (Ed : (u * delta = 6 * (u * (q * p)) + 3 * (u * (u * a)))%R)
    by (subst delta; ring).
  assert (Hr : (Rabs (s1 - w) * 3600000 <= u * p + u * a + u * delta)%R).
  { pose proof (Rabs_pos w). pose proof (Rabs_pos (s1 - w)). nra. }
  pose proof (abs_bounds _ _ (Rle_refl (Rabs (s1 - w)))) as Hr'.
  assert (Hqa : (0 <= q * a)%R) by nra.
  assert (Eg : (6 * (n + 1) * u * (p + a)
                = 6 * (q * p) + 6 * (u * p) + 6 * (q * a) + 6 * (u * a))%R)
    by (subst q; ring).
  rewrite Eg, Ed in *. subst delta.
  set (r := Rabs (s1 - w)) in *.
  assert (Hs1 : (s1 * 3600000 - (t + d)
                 = (s1 - w) * 3600000 + (w * 3600000 - (t + d)))%R) by ring.
  rewrite Hs1.
  assert (Hr1 : (- (r * 3600000) <= (s1 - w) * 3600000 <= r * 3600000)%R) by lra.
  apply Rabs_le. split; lra.
Qed.

Lemma count_u n : 0 <= n <= 2 ^ 32 -> (0 <= IZR n /\ IZR n * u <= / 1000)%R.
Proof.
  intros [H0 H1]. apply IZR_le in H0, H1. change (2 ^ 32) with 4294967296 in H1.
  pose proof u_pos. pose proof u_tiny. split; [lra|nra].
Qed.

Lemma below_bpow_950 (x : R) (z : Z) :
  (Rabs x * 3600000 <= IZR z)%R -> z <= 2 ^ 100 -> (Rabs x <= bpow 950)%R.
Proof.
  intros Hx Hz. pose proof (Rabs_pos x).
  apply IZR_le in Hz. rewrite (bpow_IZR 100) in Hz by lia.
  pose proof (bpow_le 100 950 ltac:(lia)). nra.
Qed.

(** The hours added up in the order of the list: within [6 n u] of the
    exact sum, relative to the sum of the magnitudes. *)
Lemma sum_hours hs ds :
  Forall2 hours_of hs ds ->
  forall s n t p,
    0 <= n -> n + Z.of_nat (length hs) <= 2 ^ 32 ->
    normal s -> on_grid (-80) s ->
    Z.abs t <= p -> p <= n * 2 ^ 55 ->
    (Rabs (to_R s * 3600000 - IZR t) <= 6 * IZR n * u * IZR p)%R ->
    normal (fold_left add hs s) /\ on_grid (-80) (fold_left add hs s) /\
    (Rabs (to_R (fold_left add hs s) * 3600000 - IZR (t + total ds))
     <= 6 * IZR (n + Z.of_nat (length hs)) * u * IZR (p + total (map Z.abs ds)))%R.
Proof.
  induction 1 as [|h d hs ds (Nh & Gh & Bd & Vh) _ IH]; intros s n t p Hn Hlen Ns Gs Ht Hp Vs.
  - cbn [fold_left length total map fold_right]. rewrite !Z.add_0_r. auto.
  - cbn [fold_left].
    cbn [length] in Hlen. rewrite Nat2Z.inj_succ in Hlen.
    destruct (count_u n ltac:(lia)) as [Hn0 Hnu].
    pose proof u_pos as Hu0. pose proof u_tiny as Hu1.
    assert (Rt : (Rabs (IZR t) <= IZR p)%R) by (rewrite <- abs_IZR; apply IZR_le; lia).
    assert (Rd : (Rabs (IZR d) <= IZR (Z.abs d))%R) by (rewrite <- abs_IZR; lra).
    assert (Rp : (0 <= IZR p)%R) by (apply IZR_le; lia).
    assert (Ra : (0 <= IZR (Z.abs d))%R) by (apply IZR_le; lia).
    assert (Ms : (Rabs (to_R s) <= bpow 950)%R).
    { apply (below_bpow_950 _ (2 * p)).
      - rewrite mult_IZR. apply abs_bounds in Vs, Rt.
        assert (6 * IZR n * u * IZR p <= IZR p)%R by nra.
        unfold Rabs. destruct (Rcase_abs (to_R s)); lra.
      - change (2 ^ 100) with (2 * (2 ^ 32 * 2 ^ 55) * 2 ^ 12). nia. }
    assert (Mh : (Rabs (to_R h) <= bpow 950)%R).
    { apply (below_bpow_950 _ (2 * Z.abs d)).
      - rewrite mult_IZR. apply abs_bounds in Vh, Rd.
        assert (3 * u * IZR (Z.abs d) <= IZR (Z.abs d))%R by nra.
        unfold Rabs. destruct (Rcase_abs (to_R h)); lra.
      - change (2 ^ 100) with (2 * 2 ^ 55 * 2 ^ 44). lia. }
    destruct (add_normal (-80) s h ltac:(lia) Ns Nh Gs Gh Ms Mh) as (N1 & G1 & E1).
    pose proof (sum_step_R (to_R s) (to_R h) (to_R (add s h)) (IZR t) (IZR d)
                  (IZR p) (IZR (Z.abs d)) (IZR n) Hn0 Hnu Vs Vh Rt Rd E1) as V1.
    destruct (IH (add s h) (n + 1) (t + d) (p + Z.abs d)) as (N2 & G2 & V2);
      try assumption; try lia.
    + rewrite !plus_IZR. exact V1.
    + split; [exact N2|]. split; [exact G2|].
      cbn [total map fold_right length]. rewrite Nat2Z.inj_succ.
      fold (total ds). fold (total (map Z.abs ds)).
      replace (t + (d + total ds)) with (t + d + total ds) by lia.
      replace (n + Z.succ (Z.of_nat (length hs))) with (n + 1 + Z.of_nat (length hs)) by lia.
      replace (p + (Z.abs d + total (map Z.abs ds)))
        with (p + Z.abs d + total (map Z.abs ds)) by lia.
      exact V2.
Qed.

Lemma of_ratio_signed (s : bool) n :
  Zpos n < 2 ^ 53 ->
  exists m e,
    of_ratio s n 10 = S754_finite s m e /\
    2 ^ 52 <= Zpos m < 2 ^ 53 /\
    (IZR (Zpos n) / 10 * (1 - u) <= IZR (Zpos m) * bpow e <= IZR (Zpos n) / 10 * (1 + u))%R.
Proof.
  intros Hn. unfold of_ratio.
  pose proof (Zdigits2_le_53 (Zpos n) ltac:(lia)) as Hd. cbn [Zdigits2] in Hd.
  pose proof (div_error s n 0 10 0) as F. cbv zeta in F.
  change (Zpos (digits2_pos 10)) with 4 in F.
  destruct F as (m & e & Hr & Hm & _ & Hv); [lia|lia|].
  exists m, e. split; [exact Hr|]. split; [exact Hm|].
  change (bpow 0) with 1%R in Hv.
  replace (IZR (Zpos n) / 10)%R with (IZR (Zpos n) * 1 / (10 * 1))%R by (field; lra).
  exact Hv.
Qed.

Lemma tenths_near m e :
  0 <= tenths m e /\
  (Rabs (IZR (tenths m e) - 10 * (IZR (Zpos m) * bpow e)) <= / 2)%R.
Proof.
  destruct e as [|p|p].
  - unfold tenths. split; [lia|]. rewrite !mult_IZR. change (IZR (2 ^ 0)) with 1%R.
    change (bpow 0) with 1%R.
    replace (IZR 10 * IZR (Zpos m) * 1 - 10 * (IZR (Zpos m) * 1))%R with 0%R by ring.
    rewrite Rabs_R0. lra.
  - unfold tenths. assert (0 < 2 ^ Zpos p) by (apply Z.pow_pos_nonneg; lia).
    split; [nia|]. rewrite !mult_IZR, (bpow_IZR (Zpos p)) by lia.
    replace (IZR 10 * IZR (Zpos m) * bpow (Zpos p) - 10 * (IZR (Zpos m) * bpow (Zpos p)))%R
      with 0%R by ring.
    rewrite Rabs_R0. lra.
  - pose proof (tenths_spec m p) as [H1 H2]. split.
    + unfold tenths. apply Z.div_pos.
      * assert (0 < 2 ^ Zpos p) by (apply Z.pow_pos_nonneg; lia). lia.
      * apply Z.pow_pos_nonneg; lia.
    + apply Rabs_le. lra.
Qed.

Lemma ge_1e21_small m e :
  (IZR (Zpos m) * bpow e < IZR (10 ^ 21))%R -> ge_1e21 m e = false.
Proof.
  intros H. unfold ge_1e21. destruct e as [|p|p].
  - apply Z.leb_gt. apply lt_IZR. rewrite mult_IZR. exact H.
  - apply Z.leb_gt. apply lt_IZR. rewrite mult_IZR, (bpow_IZR (Zpos p)) by lia. exact H.
  - apply Z.leb_gt. apply lt_IZR. rewrite mult_IZR.
    pose proof (bpow_neg p) as HB.
    assert (HP : (0 < IZR (2 ^ Zpos p))%R)
      by (apply IZR_lt, Z.pow_pos_nonneg; lia).
    set (Q := IZR (2 ^ Zpos p)) in *. set (B := bpow (Zneg p)) in *.
    assert (E : (IZR (Zpos m) = IZR (Zpos m) * B * Q)%R) by (rewrite Rmult_assoc, HB; ring).
    rewrite E. nra.
Qed.

Lemma Rabs_scale (x y b k : R) :
  (0 < k)%R -> (Rabs (x * k - y * k) <= b * k)%R -> (Rabs (x - y) <= b)%R.
Proof.
  intros Hk H. apply Rmult_le_reg_r with k; [exact Hk|].
  replace (x * k - y * k)%R with ((x - y) * k)%R in H by ring.
  rewrite Rabs_mult, (Rabs_pos_eq k) in H by lra. exact H.
Qed.

(** The average on one decimal: a tenth of an integer [n] that is within
    half a tenth of the exact average, up to the roundings of the sum. *)
Lemma average_tenth S N t p :
  normal S -> on_grid (-80) S -> 0 < N < 2 ^ 32 ->
  Z.abs t <= p -> p <= N * 2 ^ 55 ->
  (Rabs (to_R S * 3600000 - IZR t) <= 6 * IZR N * u * IZR p)%R ->
  exists n,
    tenth (parseFloat (toFixed1 (div S (of_Z N)))) n /\
    (Rabs (IZR n / 10 - IZR t / (3600000 * IZR N))
     <= / 20 + (6 * IZR N + 2) * u * (IZR p / (3600000 * IZR N)))%R.
Proof.
  intros NS GS HN Ht Hp VS.
  pose proof u_pos as Hu0. pose proof u_tiny as Hu1.
  destruct (count_u N ltac:(lia)) as [_ HNu].
  assert (N1 : (1 <= IZR N)%R) by (apply IZR_le; lia).
  assert (RP : (0 <= IZR p)%R) by (apply IZR_le; lia).
  assert (RT : (Rabs (IZR t) <= IZR p)%R) by (rewrite <- abs_IZR; apply IZR_le; lia).
  assert (RPN : (IZR p <= IZR N * 36028797018963968)%R).
  { change 36028797018963968%R with (IZR (2 ^ 55)). rewrite <- mult_IZR.
    apply IZR_le. exact Hp. }
  set (T := IZR t) in *. set (P := IZR p) in *. set (Nr := IZR N) in *.
  set (Tq := (T / (3600000 * Nr))%R). set (Pq := (P / (3600000 * Nr))%R).
  assert (ETq : (Tq * (3600000 * Nr) = T)%R) by (subst Tq; field; lra).
  assert (EPq : (Pq * (3600000 * Nr) = P)%R) by (subst Pq; field; lra).
  assert (HK : (0 < 3600000 * Nr)%R) by lra.
  assert (HNP : (0 <= Nr * u * P /\ Nr * u * P <= P / 1000)%R).
  { set (q := (Nr * u)%R) in *. assert (0 <= q)%R by (subst q; nra). split; nra. }
  destruct HNP as [HNP HNP'].
  apply abs_bounds in RT.
  assert (N53 : 0 < N < 2 ^ 53) by (change (2 ^ 53) with (2 ^ 32 * 2 ^ 21); lia).
  destruct (of_Z_finite N N53) as (mN & EN & HmN & RmN).
  pose proof (of_Z_R N mN N53 HmN) as VN. fold Nr in VN.
  pose proof (Zdigits2_le_53 N N53) as HdN.
  destruct S as [[]| | |s m e]; try contradiction NS.
  - (* the sum is zero *)
    rewrite EN. exists 0. split.
    + cbn. unfold Rdiv. rewrite !Rmult_0_l, Rminus_diag, Rabs_R0, Rmult_0_l. lra.
    + cbn [to_R] in VS. rewrite Rmult_0_l in VS. apply abs_bounds in VS.
      apply Rabs_scale with (3600000 * Nr)%R; [exact HK|].
      rewrite ETq, Rmult_plus_distr_r, (Rmult_assoc ((6 * Nr + 2) * u)), EPq.
      unfold Rdiv. rewrite Rmult_0_l, Rmult_0_l.
      apply Rabs_le. split; nra.
  - cbn [normal] in NS.
    pose proof (grid_exponent (-80) s m e ltac:(lia) GS) as He1.
    assert (MS : (Rabs (to_R (S754_finite s m e)) * 3600000 <= 2 * P)%R).
    { apply abs_bounds in VS. unfold Rabs.
      destruct (Rcase_abs (to_R (S754_finite s m e))); lra. }
    assert (He2 : e <= 898).
    { apply (magnitude_exponent 950 s m e ltac:(lia)).
      apply (below_bpow_950 _ (2 * p)); [rewrite mult_IZR; exact MS|].
      change (2 ^ 100) with (2 * (2 ^ 32 * 2 ^ 55) * 2 ^ 12). nia. }
    rewrite Rabs_to_R_finite in MS.
    rewrite to_R_finite, (Rmult_assoc _ (IZR (Zpos m))) in VS.
    rewrite EN. unfold div, SFdiv. rewrite xorb_false_r.
    pose proof (div_error s m e mN (Zdigits2 N - 53)) as F. cbv zeta in F.
    rewrite (digits2_pos_53 m NS), (digits2_pos_53 mN RmN) in F.
    destruct F as (m2 & e2 & -> & Rm2 & _ & Lo2 & Hi2); [lia|lia|].
    rewrite VN in Lo2, Hi2.
    set (A := (IZR (Zpos m) * bpow e)%R) in *.
    set (V := (IZR (Zpos m2) * bpow e2)%R) in *.
    assert (HA : (0 < A)%R)
      by (apply Rmult_lt_0_compat; [apply IZR_lt; lia|apply bpow_pos]).
    set (y := (A / Nr)%R) in *.
    assert (Ey : (y * Nr = A)%R) by (subst y; field; lra).
    assert (Hy0 : (0 < y)%R) by (subst y; apply Rdiv_lt_0_compat; lra).
    assert (Hyc : (y * 3600000 <= 72057594037927936)%R).
    { apply Rmult_le_reg_r with Nr; [lra|]. nra. }
    assert (HV : (V < 68719476736)%R) by nra.
    unfold toFixed1. rewrite ge_1e21_small
      by (change (10 ^ 21) with 1000000000000000000000; fold V; lra).
    destruct (tenths_near m2 e2) as [Hna0 Hna]. fold V in Hna.
    apply abs_bounds in Hna.
    assert (Hna53 : tenths m2 e2 < 2 ^ 53).
    { apply lt_IZR. change (2 ^ 53) with 9007199254740992. lra. }
    assert (Hclose : forall sg : R, (sg = 1 \/ sg = -1)%R ->
      (- (6 * Nr * u * P) <= sg * A * 3600000 - T <= 6 * Nr * u * P)%R ->
      (Rabs (sg * IZR (tenths m2 e2) / 10 - Tq)
       <= / 20 + (6 * Nr + 2) * u * Pq)%R).
    { intros sg Hsg HS.
      apply Rabs_scale with (3600000 * Nr)%R; [exact HK|].
      rewrite ETq, Rmult_plus_distr_r, (Rmult_assoc ((6 * Nr + 2) * u)), EPq.
      set (na := IZR (tenths m2 e2)) in *.
      assert (H1 : (- (u * A) <= V * Nr - A <= u * A)%R) by nra.
      assert (H2 : (u * A * 3600000 <= 2 * (u * P))%R) by nra.
      assert (H3 : (- (Nr / 2) <= na * Nr - 10 * (V * Nr) <= Nr / 2)%R) by nra.
      apply Rabs_le. destruct Hsg as [-> | ->]; split; nra. }
    apply abs_bounds in VS.
    destruct (tenths m2 e2) as [|q|q] eqn:Eq; [| |lia].
    + exists 0. split.
      * cbn. unfold Rdiv. rewrite !Rmult_0_l, Rminus_diag, Rabs_R0, Rmult_0_l. lra.
      * destruct s; cbv iota in VS.
        -- replace (IZR 0 / 10)%R with (-1 * IZR 0 / 10)%R by (unfold Rdiv; ring).
           apply Hclose; [right; reflexivity|lra].
        -- replace (IZR 0 / 10)%R with (1 * IZR 0 / 10)%R by (unfold Rdiv; ring).
           apply Hclose; [left; reflexivity|lra].
    + destruct (of_ratio_signed s q Hna53) as (m3 & e3 & E3 & Rm3 & Lo3 & Hi3).
      cbn [parseFloat]. rewrite E3.
      assert (Q0 : (0 < IZR (Zpos q) / 10)%R).
      { assert (0 < IZR (Zpos q))%R by (apply IZR_lt; lia). lra. }
      destruct s; cbv iota in VS.
      * exists (Zneg q). change (Zneg q) with (- Zpos q).
        split; [|rewrite opp_IZR].
        -- cbn [tenth]. rewrite to_R_finite, opp_IZR, (Rmult_assoc _ (IZR (Zpos m3))).
           replace (- IZR (Zpos q) / 10)%R with (- (IZR (Zpos q) / 10))%R by (unfold Rdiv; ring).
           rewrite Rabs_Ropp, (Rabs_pos_eq (IZR (Zpos q) / 10)) by lra.
           unfold Rdiv in *. fold u. apply Rabs_le. split; lra.
        -- replace (- IZR (Zpos q) / 10)%R with (-1 * IZR (Zpos q) / 10)%R
             by (unfold Rdiv; ring).
           apply Hclose; [right; reflexivity|lra].
      * exists (Zpos q). split.
        -- cbn [tenth]. rewrite to_R_finite, (Rmult_assoc _ (IZR (Zpos m3))).
           rewrite (Rabs_pos_eq (IZR (Zpos q) / 10)) by lra.
           unfold Rdiv in *. fold u. apply Rabs_le. split; lra.
        -- replace (IZR (Zpos q) / 10)%R with (1 * IZR (Zpos q) / 10)%R
             by (unfold Rdiv; ring).
           apply Hclose; [left; reflexivity|lra].
Qed.

Lemma total_bounds ds :
  Forall (fun d => Z.abs d < 2 ^ 55) ds ->
  Z.abs (total ds) <= total (map Z.abs ds) /\
  total (map Z.abs ds) <= Z.of_nat (length ds) * 2 ^ 55.
Proof.
  induction 1 as [|d ds Hd _ [IH1 IH2]]; [cbn; lia|].
  cbn [total map fold_right length]. fold (total ds). fold (total (map Z.abs ds)).
  rewrite Nat2Z.inj_succ. lia.
Qed.

Section WithDateParser.
Variable Date_parse : string -> TimeValue.
Hypothesis Htimes : time_values Date_parse.

Lemma hours_of_elapsed t d :
  elapsed Date_parse t = Some d -> hours_of (hoursToResolve Date_parse t) d.
Proof.
  unfold elapsed, hoursToResolve. cbv zeta.
  destruct (new_Date Date_parse (Ticket.createdDate t)) as [created|] eqn:Hc;
    [|discriminate].
  destruct (new_Date Date_parse (Ticket.resolvedDate t)) as [resolved|] eqn:Hr;
    [|discriminate].
  intros H. injection H as <-. cbn [valueOf].
  pose proof (ReadingFacts.new_Date_range Date_parse Htimes _ _ Hc) as Bc.
  pose proof (ReadingFacts.new_Date_range Date_parse Htimes _ _ Hr) as Br.
  destruct (hours_value created resolved Bc Br) as (N & G & V).
  split; [exact N|]. split; [exact G|]. split; [|exact V].
  change (2 ^ 55) with 36028797018963968. lia.
Qed.

(** The average of the counted tickets, when all their dates are
    dates. *)
Lemma mean_of_counted key tickets :
  Z.of_nat (length tickets) < 2 ^ 32 ->
  0 < count (counted key) tickets ->
  existsb (undated Date_parse key) tickets = false ->
  exists n,
    tenth (parseFloat (toFixed1
             (div (fold_left add
                     (map (hoursToResolve Date_parse)
                          (List.filter (counted key) tickets)) zero)
                  (of_Z (count (counted key) tickets))))) n /\
    (Rabs (IZR n / 10 - mean (spans Date_parse key tickets))
     <= / 20 + slack (spans Date_parse key tickets))%R.
Proof.
  intros Hlen Hpos Hdated.
  set (ts := List.filter (counted key) tickets).
  assert (Hts : Forall (fun t => elapsed Date_parse t <> None) ts).
  { apply List.Forall_forall. intros t Ht. subst ts.
    apply List.filter_In in Ht. destruct Ht as [Hin Hc].
    intros He.
    assert (existsb (undated Date_parse key) tickets = true); [|congruence].
    apply existsb_exists. exists t. split; [exact Hin|].
    unfold undated. rewrite Hc, He. reflexivity. }
  assert (Hlen' : Z.of_nat (length ts) = count (counted key) tickets) by reflexivity.
  assert (Hspans : spans Date_parse key tickets
                   = map (fun t => default 0 (elapsed Date_parse t)) ts) by reflexivity.
  assert (HF : Forall2 hours_of (map (hoursToResolve Date_parse) ts)
                 (spans Date_parse key tickets)).
  { rewrite Hspans. clear -Hts Htimes. induction Hts as [|t ts Ht _ IH]; [constructor|].
    cbn [map]. constructor; [|exact IH].
    destruct (elapsed Date_parse t) as [d|] eqn:E; [|contradiction].
    apply hours_of_elapsed, E. }
  assert (HB : Forall (fun d => Z.abs d < 2 ^ 55) (spans Date_parse key tickets)).
  { clear -HF. induction HF as [|h d hs ds (_ & _ & B & _) _ IH]; constructor; assumption. }
  assert (Hls : length (spans Date_parse key tickets) = length ts)
    by (rewrite Hspans; apply length_map).
  destruct (total_bounds _ HB) as [T1 T2]. rewrite Hls, Hlen' in T2.
  pose proof (count_bounds (counted key) tickets) as [_ Hc].
  destruct (sum_hours _ _ HF zero 0 0 0) as (NS & GS & VS); try lia.
  - rewrite length_map, Hlen'. lia.
  - exact I.
  - apply on_grid_zero.
  - cbn [to_R]. rewrite !Rmult_0_l, Rmult_0_r, Rminus_diag, Rabs_R0. lra.
  - rewrite length_map, Hlen', !Z.add_0_l in VS.
    destruct (average_tenth _ (count (counted key) tickets) _ _ NS GS ltac:(lia) T1 T2 VS)
      as (n & Hn & Hv).
    exists n. split; [exact Hn|].
    unfold mean, slack. rewrite Hls, Hlen'.
    replace ((6 * IZR (count (counted key) tickets) + 2) / IZR (2 ^ 52))%R
      with ((6 * IZR (count (counted key) tickets) + 2) * u)%R by reflexivity.
    exact Hv.
Qed.
End WithDateParser.
End SumFacts.

Module ParserFacts.
Import Num JS Reading.

Lemma digit_value_range c v : digit_value c = Some v -> 0 <= v <= 9.
Proof.
  unfold digit_value.
  destruct ((48 <=? nat_of_ascii c)%nat && (nat_of_ascii c <=? 57)%nat)%bool eqn:E;
    [|discriminate].
  apply andb_prop in E. destruct E as [E1 E2].
  apply Nat.leb_le in E1, E2. intros H. injection H as <-. lia.
Qed.

Lemma read_digits_range width : forall acc s v rest,
  read_digits width acc s = Some (v, rest) ->
  acc * 10 ^ Z.of_nat width <= v < (acc + 1) * 10 ^ Z.of_nat width.
Proof.
  induction width as [|w IH]; intros acc s v rest H.
  - cbn in H. injection H as <- <-. cbn. lia.
  - cbn [read_digits] in H. destruct s as [|c s']; [discriminate|].
    destruct (digit_value c) as [x|] eqn:Ex; [|discriminate].
    apply digit_value_range in Ex. apply IH in H.
    rewrite Nat2Z.inj_succ, Z.pow_succ_r by lia.
    assert (0 < 10 ^ Z.of_nat w) by (apply Z.pow_pos_nonneg; lia). nia.
Qed.

Lemma parse_time_range s t : parse_time s = Some t -> 0 <= t < 86400000.
Proof.
  unfold parse_time. intros H.
  destruct (read_digits 2 0 s) as [[h s1]|] eqn:E1;
    cbn [mbind option_bind] in H; [|discriminate].
  destruct (expect ":" s1) as [s2|]; cbn [mbind option_bind] in H; [|discriminate].
  destruct (read_digits 2 0 s2) as [[mi s3]|] eqn:E2;
    cbn [mbind option_bind] in H; [|discriminate].
  destruct (expect ":" s3) as [s4|]; cbn [mbind option_bind] in H; [|discriminate].
  destruct (read_digits 2 0 s4) as [[sec s5]|] eqn:E3;
    cbn [mbind option_bind] in H; [|discriminate].
  apply read_digits_range in E1, E2, E3.
  change (10 ^ Z.of_nat 2) with 100 in E1, E2, E3.
  assert (Hms : forall ms s6 r,
    (s7 ← expect "Z" s6;
     if String.eqb s7 EmptyString && (h <=? 23) && (mi <=? 59) && (sec <=? 59)
     then Some (h * 3600000 + mi * 60000 + sec * 1000 + ms) else None) = Some r ->
    0 <= ms < 1000 -> 0 <= r < 86400000).
  { intros ms s6 r Hr Hms.
    destruct (expect "Z" s6) as [s7|]; cbn [mbind option_bind] in Hr; [|discriminate].
    destruct (String.eqb s7 EmptyString && (h <=? 23) && (mi <=? 59) && (sec <=? 59))
      eqn:Ec; [|discriminate].
    apply andb_prop in Ec. destruct Ec as [Ec Hs].
    apply andb_prop in Ec. destruct Ec as [Ec Hm].
    apply andb_prop in Ec. destruct Ec as [_ Hh].
    apply Z.leb_le in Hs, Hm, Hh. injection Hr as <-. lia. }
  destruct (expect "." s5) as [s6|].
  - destruct (read_digits 3 0 s6) as [[ms s7]|] eqn:E4;
      cbn [mbind option_bind] in H; [|discriminate].
    apply read_digits_range in E4. change (10 ^ Z.of_nat 3) with 1000 in E4.
    apply (Hms ms s7 t H). lia.
  - cbn [mbind option_bind] in H. apply (Hms 0 s5 t H). lia.
Qed.

Lemma days_from_civil_range y m d :
  0 <= y <= 9999 -> 1 <= m <= 12 -> 1 <= d <= 31 ->
  -1000000 <= days_from_civil y m d <= 3000000.
Proof.
  intros Hy Hm Hd. unfold days_from_civil. cbv zeta.
  destruct (m <=? 2) eqn:E1; destruct (2 <? m) eqn:E2;
    try apply Z.leb_le in E1; try apply Z.leb_gt in E1;
    try apply Z.ltb_lt in E2; try apply Z.ltb_ge in E2;
    Z.div_mod_to_equations; lia.
Qed.

Lemma days_in_month_le y m : days_in_month y m <= 31.
Proof.
  unfold days_in_month. destruct (m =? 2).
  - destruct ((y mod 4 =? 0) && negb (y mod 100 =? 0) || (y mod 400 =? 0)); lia.
  - destruct ((m =? 4) || (m =? 6) || (m =? 9) || (m =? 11)); lia.
Qed.

(** The parser of the examples gives time values. *)
Lemma Date_parse_ISO_time_values : time_values Date_parse_ISO.
Proof.
  intros s t H. unfold Date_parse_ISO in H.
  destruct (read_digits 4 0 s) as [[y s1]|] eqn:E1;
    cbn [mbind option_bind] in H; [|discriminate].
  destruct (expect "-" s1) as [s2|]; cbn [mbind option_bind] in H; [|discriminate].
  destruct (read_digits 2 0 s2) as [[m s3]|] eqn:E2;
    cbn [mbind option_bind] in H; [|discriminate].
  destruct (expect "-" s3) as [s4|]; cbn [mbind option_bind] in H; [|discriminate].
  destruct (read_digits 2 0 s4) as [[d s5]|] eqn:E3;
    cbn [mbind option_bind] in H; [|discriminate].
  apply read_digits_range in E1, E2, E3.
  change (10 ^ Z.of_nat 4) with 10000 in E1. change (10 ^ Z.of_nat 2) with 100 in E2, E3.
  destruct ((1 <=? m) && (m <=? 12) && (1 <=? d) && (d <=? days_in_month y m)) eqn:Ec;
    [|discriminate].
  apply andb_prop in Ec. destruct Ec as [Ec Hd2].
  apply andb_prop in Ec. destruct Ec as [Ec Hd1].
  apply andb_prop in Ec. destruct Ec as [Hm1 Hm2].
  apply Z.leb_le in Hd1, Hd2, Hm1, Hm2.
  pose proof (days_in_month_le y m) as Hdm.
  pose proof (days_from_civil_range y m d ltac:(lia) ltac:(lia) ltac:(lia)) as Hdays.
  cbv zeta in H. destruct s5 as [|c rest].
  - injection H as <-. lia.
  - destruct (Ascii.eqb c "T"); [|discriminate].
    destruct (parse_time rest) as [tm|] eqn:Et;
      cbn [mbind option_bind] in H; [|discriminate].
    injection H as <-. apply parse_time_range in Et. lia.
Qed.
End ParserFacts.

Module ReadingClaims.
Import Num JS Analytics Spec Aux NumFacts ObjFacts AnalyticsFacts.
Import Reading ReadingFacts SumAux SumFacts.

Section WithDateParser.
Variable Date_parse : string -> TimeValue.
Hypothesis Htimes : time_values Date_parse.

(** The compliance of a severity, in the words of the claims. *)
Lemma sla_reading tickets key :
  Forall well_formed tickets ->
  Z.of_nat (length tickets) < 2 ^ 32 ->
  In key canonical ->
  exists sla x n,
    calculateSLACompliance Date_parse tickets = Ok sla /\
    get sla key = Some (PNum x) /\
    tenth x n /\
    nearest_tenths n (100 * count (meets Date_parse key) tickets)
                     (count (counted key) tickets) /\
    (count (counted key) tickets = 0 -> x = zero).
Proof.
  intros Hwf Hlen Hkey.
  destruct (sla_compliance_nearest Date_parse tickets key Hwf Hlen Hkey)
    as (sla & n & H1 & H2 & H3 & H4 & H5).
  rewrite <- (count_ext _ _ tickets (fun t => meets_spec Date_parse Htimes key t Hkey)) in H3.
  rewrite <- (count_ext _ _ tickets (counted_spec key)) in H3, H4.
  exists sla, (one_decimal n), n. split; [exact H1|]. split; [exact H2|].
  assert (Hn : n <= 1000).
  { pose proof (count_bounds (counted key) tickets) as [B1 _].
    pose proof (count_le (meets Date_parse key) (counted key) tickets) as B2.
    apply (nearest_tenths_le_1000 n (count (meets Date_parse key) tickets)
             (count (counted key) tickets)); try assumption.
    split.
    - apply count_bounds.
    - apply B2. intros t Ht. unfold meets in Ht. apply andb_prop in Ht. tauto. }
  split; [apply one_decimal_tenth; change (2 ^ 53) with 9007199254740992; lia|].
  split; [exact H3|].
  intros E. rewrite (H4 E). reflexivity.
Qed.

(** The average of a severity, in the words of the claims. *)
Lemma average_reading tickets key :
  Forall well_formed tickets ->
  Z.of_nat (length tickets) < 2 ^ 32 ->
  In key canonical ->
  exists art x,
    calculateResolutionTimes Date_parse tickets = Ok art /\
    get art key = Some (PNum x) /\
    (count (counted key) tickets = 0 -> x = zero) /\
    (existsb (undated Date_parse key) tickets = true -> x = NaN) /\
    (0 < count (counted key) tickets ->
     existsb (undated Date_parse key) tickets = false ->
     exists n,
       tenth x n /\
       (Rabs (IZR n / 10 - mean (spans Date_parse key tickets))
        <= / 20 + slack (spans Date_parse key tickets))%R).
Proof.
  intros Hwf Hlen Hkey.
  destruct (resolution_average Date_parse tickets key Hwf Hlen Hkey) as (art & Hart & Hget).
  rewrite <- (count_ext _ _ tickets (counted_spec key)) in Hget.
  unfold total_hours in Hget.
  rewrite <- (List.filter_ext _ _ (counted_spec key)) in Hget.
  eexists art, _. split; [exact Hart|]. split; [exact Hget|].
  split; [|split].
  - intros E. rewrite E. reflexivity.
  - intros Hex.
    assert (Hq : 0 < count (counted key) tickets).
    { apply count_pos_exists. apply existsb_exists in Hex.
      destruct Hex as (t & Hin & Ht). apply existsb_exists. exists t.
      unfold undated in Ht. apply andb_prop in Ht. tauto. }
    replace (count (counted key) tickets =? 0) with false
      by (symmetry; apply Z.eqb_neq; lia).
    replace (fold_left add _ zero) with NaN; [reflexivity|].
    symmetry. apply fold_add_In_NaN.
    apply existsb_exists in Hex. destruct Hex as (t & Hin & Ht).
    unfold undated in Ht. apply andb_prop in Ht. destruct Ht as [Hc Hu].
    assert (Hun : unparseable Date_parse t = true).
    { unfold unparseable. unfold elapsed in Hu.
      destruct (new_Date Date_parse (Ticket.createdDate t));
        destruct (new_Date Date_parse (Ticket.resolvedDate t));
        try reflexivity; discriminate Hu. }
    rewrite <- (unparseable_hours Date_parse t Hun). apply in_map.
    apply List.filter_In. split; assumption.
  - intros Hpos Hdated.
    replace (count (counted key) tickets =? 0) with false
      by (symmetry; apply Z.eqb_neq; lia).
    apply (mean_of_counted Date_parse Htimes key tickets Hlen Hpos Hdated).
Qed.
End WithDateParser.
End ReadingClaims.

Module MemoryFacts.
Import Num JS Analytics Memory MemorySpec.

Lemma bind_Ok {A B : Type} (m : M A) (k : A -> M B) h a h' :
  m h = (Ok a, h') -> (m ≫= k) h = k a h'.
Proof. intros E. unfold mbind, M_bind. rewrite E. reflexivity. Qed.

Lemma bind_Throw {A B : Type} (m : M A) (k : A -> M B) h e h' :
  m h = (Throw e, h') -> (m ≫= k) h = (Throw e, h').
Proof. intros E. unfold mbind, M_bind. rewrite E. reflexivity. Qed.

Lemma read_at h a c : h !! a = Some c -> read a h = (Ok c, h).
Proof. intros E. unfold read. rewrite E. reflexivity. Qed.

Lemma get_field_at h a t name :
  h !! a = Some (CTicket t) -> get_field a name h = (Ok (name t), h).
Proof. intros E. unfold get_field. rewrite (bind_Ok _ _ _ _ _ (read_at h a _ E)). reflexivity. Qed.

Lemma elements_of_at h a xs :
  h !! a = Some (CArray xs) -> elements_of a h = (Ok xs, h).
Proof. intros E. unfold elements_of. rewrite (bind_Ok _ _ _ _ _ (read_at h a _ E)). reflexivity. Qed.

Lemma length_of_at h a xs :
  h !! a = Some (CArray xs) -> length_of a h = (Ok (Z.of_nat (length xs)), h).
Proof.
  intros E. unfold length_of. rewrite (bind_Ok _ _ _ _ _ (elements_of_at h a _ E)). reflexivity.
Qed.

Lemma push_at h a xs x :
  h !! a = Some (CArray xs) -> push a x h = (Ok tt, <[a := CArray (xs ++ [x])]> h).
Proof.
  intros E. unfold push. rewrite (bind_Ok _ _ _ _ _ (elements_of_at h a _ E)). reflexivity.
Qed.

Lemma plain_read h a o : h !! a = Some (CPlain o) -> plain a h = (Ok o, h).
Proof. intros E. unfold plain. rewrite (bind_Ok _ _ _ _ _ (read_at h a _ E)). reflexivity. Qed.

Lemma get_property_at h a o key :
  h !! a = Some (CPlain o) -> get_property a key h = (Ok (get o key), h).
Proof.
  intros E. unfold get_property. rewrite (bind_Ok _ _ _ _ _ (plain_read h a _ E)). reflexivity.
Qed.

Lemma set_property_at h a o key v :
  h !! a = Some (CPlain o) ->
  set_property a key v h = (Ok tt, <[a := CPlain (set o key v)]> h).
Proof.
  intros E. unfold set_property. rewrite (bind_Ok _ _ _ _ _ (plain_read h a _ E)). reflexivity.
Qed.

Lemma increment_property_at h a o key :
  h !! a = Some (CPlain o) ->
  increment_property a key h = (Ok tt, <[a := CPlain (increment o key)]> h).
Proof.
  intros E. unfold increment_property.
  rewrite (bind_Ok _ _ _ _ _ (plain_read h a _ E)). reflexivity.
Qed.

Lemma add_assign_property_at h a o key x :
  h !! a = Some (CPlain o) ->
  add_assign_property a key x h = (Ok tt, <[a := CPlain (add_assign o key x)]> h).
Proof.
  intros E. unfold add_assign_property.
  rewrite (bind_Ok _ _ _ _ _ (plain_read h a _ E)). reflexivity.
Qed.

Lemma keys_of_at h a o : h !! a = Some (CPlain o) -> keys_of a h = (Ok (keys o), h).
Proof.
  intros E. unfold keys_of. rewrite (bind_Ok _ _ _ _ _ (plain_read h a _ E)). reflexivity.
Qed.

Lemma alloc_at h c : alloc c h = (Ok (fresh (dom h)), <[fresh (dom h) := c]> h).
Proof. reflexivity. Qed.

Lemma fresh_None (h : Heap) : h !! fresh (dom h) = None.
Proof. apply not_elem_of_dom. apply is_fresh. Qed.

Lemma unchanged_refl h : unchanged h h.
Proof. intros a c H. exact H. Qed.

Lemma unchanged_trans h1 h2 h3 : unchanged h1 h2 -> unchanged h2 h3 -> unchanged h1 h3.
Proof. intros H1 H2 a c H. apply H2, H1, H. Qed.

Lemma unchanged_insert h h' a c :
  unchanged h h' -> h !! a = None -> unchanged h (<[a := c]> h').
Proof.
  intros H Ha b c' Hb. rewrite lookup_insert_ne; [apply H, Hb|].
  intros ->. congruence.
Qed.

Lemma unchanged_alloc h c : unchanged h (<[fresh (dom h) := c]> h).
Proof. apply unchanged_insert; [apply unchanged_refl|apply fresh_None]. Qed.

Lemma holds_unchanged h h' a ts : unchanged h h' -> holds h a ts -> holds h' a ts.
Proof.
  intros H (xs & Ha & Hts). exists xs. split; [apply H, Ha|]. clear Ha.
  induction Hts as [|x t xs ts' Hx _ IH]; [constructor|].
  constructor; [apply H, Hx|exact IH].
Qed.

(** [forEach] over the array of the store against [forEach] over the
    list of tickets, for a callback that keeps the array and the tickets
    as they are. *)
Section Loop.
Context {S : Type}.
Variable I : S -> Heap -> Prop.
Variables (array : address) (xs : list address) (ts : list Ticket.t).
Variable callback_h : address -> M unit.
Variable callback : Ticket.t -> S -> Result S.
Hypothesis I_holds : forall locals h, I locals h ->
  h !! array = Some (CArray xs) /\
  Forall2 (fun x t => h !! x = Some (CTicket t)) xs ts.
Hypothesis callback_simulates : forall x t locals h,
  I locals h -> h !! x = Some (CTicket t) ->
  simulates I (callback t locals) (callback_h x h).

Lemma forEach_from_simulates : forall remaining index locals h,
  (index + remaining)%nat = length xs ->
  I locals h ->
  simulates I (JS.forEach (drop index ts) callback locals)
              (forEach_from array callback_h index remaining h).
Proof.
  induction remaining as [|remaining IH]; intros index locals h Hlen HI.
  - destruct (I_holds _ _ HI) as [_ HF].
    pose proof (Forall2_length _ _ _ HF) as Hl.
    rewrite drop_ge by lia. cbn [forEach_from JS.forEach].
    exists locals. split; [exact HI|]. split; reflexivity.
  - destruct (I_holds _ _ HI) as [Ha HF].
    cbn [forEach_from]. rewrite (bind_Ok _ _ _ _ _ (elements_of_at h array xs Ha)).
    destruct (lookup_lt_is_Some_2 xs index ltac:(lia)) as (x & Hx).
    destruct (Forall2_lookup_l _ _ _ _ _ HF Hx) as (t & Ht & Hxt).
    rewrite Hx, (drop_S _ _ _ Ht). cbn [JS.forEach].
    destruct (callback_simulates x t locals h HI Hxt) as (locals1 & HI1 & Hr).
    destruct (callback_h x h) as [r1 h1] eqn:E1. cbn [fst snd] in HI1, Hr.
    destruct (callback t locals) as [locals'|e]; cbn [bind].
    + destruct Hr as [-> ->]. rewrite (bind_Ok _ _ _ _ _ E1).
      apply IH; [lia|exact HI1].
    + subst r1. rewrite (bind_Throw _ _ _ _ _ E1).
      exists locals1. split; [exact HI1|reflexivity].
Qed.

Lemma forEach_simulates locals h :
  I locals h ->
  simulates I (JS.forEach ts callback locals) (forEach array callback_h h).
Proof.
  intros HI. destruct (I_holds _ _ HI) as [Ha _].
  unfold forEach. rewrite (bind_Ok _ _ _ _ _ (elements_of_at h array xs Ha)).
  apply (forEach_from_simulates (length xs) 0%nat locals h); [reflexivity|exact HI].
Qed.
End Loop.

(** The loop over the keys, for a callback that returns. *)
Lemma forEach_key_simulates {S : Type} (I : S -> Heap -> Prop)
    (callback_h : string -> M unit) (callback : S -> string -> S) :
  (forall key locals h, I locals h ->
     exists h', callback_h key h = (Ok tt, h') /\ I (callback locals key) h') ->
  forall ks locals h, I locals h ->
    exists h', forEach_key ks callback_h h = (Ok tt, h') /\
               I (fold_left callback ks locals) h'.
Proof.
  intros Hcb ks. induction ks as [|key ks IH]; intros locals h HI.
  - exists h. split; [reflexivity|exact HI].
  - destruct (Hcb key locals h HI) as (h1 & E1 & HI1).
    destruct (IH _ _ HI1) as (h2 & E2 & HI2).
    exists h2. cbn [forEach_key fold_left]. rewrite (bind_Ok _ _ _ _ _ E1).
    split; [exact E2|exact HI2].
Qed.

Lemma pure_bind_Ok {A B : Type} (a : A) (k : A -> Result B) : (Ok a ≫= k) = k a.
Proof. reflexivity. Qed.

Lemma pure_bind_Throw {A B : Type} (e : Exception) (k : A -> Result B) :
  (Throw e ≫= k) = Throw e.
Proof. reflexivity. Qed.

Lemma pure_ret {A : Type} (a : A) : mret (M := Result) a = Ok a.
Proof. reflexivity. Qed.

Lemma lift_at {A : Type} (r : Result A) h : lift r h = (r, h).
Proof. reflexivity. Qed.

Lemma ret_at {A : Type} (a : A) (h : Heap) : mret (M := M) a h = (Ok a, h).
Proof. reflexivity. Qed.

Lemma calculateSeverityDistribution_simulates h array ts :
  holds h array ts ->
  unchanged h (Memory.calculateSeverityDistribution array h).2 /\
  match Analytics.calculateSeverityDistribution ts with
  | Ok o => exists d,
      (Memory.calculateSeverityDistribution array h).1 = Ok d /\
      (Memory.calculateSeverityDistribution array h).2 !! d = Some (CPlain o)
  | Throw e => (Memory.calculateSeverityDistribution array h).1 = Throw e
  end.
Proof.
  intros (xs & Ha & HF).
  pose proof (Forall2_length _ _ _ HF) as Hlen.
  set (d := fresh (dom h)). pose proof (fresh_None h) as Hd. fold d in Hd.
  set (I := fun (o : JSObject) (h' : Heap) =>
              unchanged h h' /\ h' !! d = Some (CPlain o)).
  assert (I0 : unchanged h (<[d := CPlain zeros]> h) /\
               <[d := CPlain zeros]> h !! d = Some (CPlain zeros)).
  { split; [apply unchanged_alloc|apply lookup_insert_eq]. }
  unfold Memory.calculateSeverityDistribution, Analytics.calculateSeverityDistribution.
  rewrite (bind_Ok _ _ _ _ _ (alloc_at h _)). fold d.
  assert (Ha0 : <[d := CPlain zeros]> h !! array = Some (CArray xs))
    by (apply (proj1 I0), Ha).
  rewrite (bind_Ok _ _ _ _ _ (length_of_at _ array xs Ha0)).
  rewrite Hlen. cbv zeta.
  match goal with
  | |- context [JS.forEach ts ?cb zeros] => set (callback := cb)
  end.
  match goal with
  | |- context [forEach array ?cb] => set (callback_h := cb)
  end.
  assert (Hloop : simulates I (JS.forEach ts callback zeros)
                    (forEach array callback_h (<[d := CPlain zeros]> h))).
  { apply (forEach_simulates I array xs ts); [| |exact I0].
    - intros o h' [Hu _]. split; [apply Hu, Ha|].
      clear -HF Hu. induction HF; constructor; auto.
    - intros x t o h' [Hu Ho] Hx. subst callback_h callback. cbv beta.
      rewrite (bind_Ok _ _ _ _ _ (get_field_at h' x t _ Hx)).
      destruct (optional_toLowerCase (Ticket.severity t)) as [k|e] eqn:Ek.
      + rewrite (bind_Ok _ _ _ _ _ (lift_at (Ok k) h')). cbv zeta.
        rewrite (bind_Ok _ _ _ _ _ (get_property_at h' d o _ Ho)).
        rewrite pure_bind_Ok.
        destruct (defined (get o (property_key k))); rewrite pure_ret.
        * rewrite (increment_property_at h' d o _ Ho).
          exists (increment o (property_key k)). split; [|split; reflexivity].
          split; [apply unchanged_insert; assumption|apply lookup_insert_eq].
        * exists o. split; [split; assumption|split; reflexivity].
      + rewrite (bind_Throw _ _ _ _ _ (lift_at (Throw e) h')), pure_bind_Throw.
        exists o. split; [split; assumption|reflexivity]. }
  destruct Hloop as (o1 & [Hu1 Ho1] & Hr).
  destruct (forEach array callback_h (<[d := CPlain zeros]> h)) as [r1 h1] eqn:E1.
  cbn [fst snd] in Hu1, Ho1, Hr.
  destruct (JS.forEach ts callback zeros) as [o|e].
  - destruct Hr as [-> ->].
    rewrite (bind_Ok _ _ _ _ _ E1).
    rewrite (bind_Ok _ _ _ _ _ (keys_of_at h1 d o Ho1)), pure_bind_Ok, pure_ret.
    match goal with
    | |- context [forEach_key (keys o) ?cb] => set (final_h := cb)
    end.
    match goal with
    | |- context [fold_left ?cb (keys o) o] => set (final := cb)
    end.
    destruct (forEach_key_simulates I final_h final) with (ks := keys o) (locals := o) (h := h1)
      as (h2 & E2 & Hu2 & Ho2).
    + intros key o' h' [Hu' Ho']. subst final_h final. cbv beta.
      destruct (0 <? Z.of_nat (length ts)).
      * rewrite (bind_Ok _ _ _ _ _ (get_property_at h' d o' _ Ho')).
        rewrite (set_property_at h' d o' _ _ Ho').
        eexists. split; [reflexivity|].
        split; [apply unchanged_insert; assumption|apply lookup_insert_eq].
      * rewrite (set_property_at h' d o' _ _ Ho').
        eexists. split; [reflexivity|].
        split; [apply unchanged_insert; assumption|apply lookup_insert_eq].
    + split; assumption.
    + rewrite (bind_Ok _ _ _ _ _ E2), ret_at. cbn [fst snd].
      split; [exact Hu2|]. exists d. split; [reflexivity|exact Ho2].
  - subst r1. rewrite (bind_Throw _ _ _ _ _ E1), pure_bind_Throw. cbn [fst snd].
    split; [exact Hu1|reflexivity].
Qed.

Lemma has_both_dates_at h x t :
  h !! x = Some (CTicket t) ->
  Memory.has_both_dates x h = (Ok (Analytics.has_both_dates t), h).
Proof.
  intros Hx. unfold Memory.has_both_dates, Analytics.has_both_dates.
  rewrite (bind_Ok _ _ _ _ _ (get_field_at h x t _ Hx)).
  destruct (truthy (Ticket.createdDate t)); [|reflexivity].
  rewrite (bind_Ok _ _ _ _ _ (get_field_at h x t _ Hx)). reflexivity.
Qed.

Lemma hoursToResolve_at Date_parse h x t :
  h !! x = Some (CTicket t) ->
  Memory.hoursToResolve Date_parse x h = (Ok (Analytics.hoursToResolve Date_parse t), h).
Proof.
  intros Hx. unfold Memory.hoursToResolve, Analytics.hoursToResolve.
  rewrite (bind_Ok _ _ _ _ _ (get_field_at h x t _ Hx)). cbv zeta.
  rewrite (bind_Ok _ _ _ _ _ (get_field_at h x t _ Hx)). reflexivity.
Qed.

Lemma fresh_ne (h : Heap) a c : h !! a = Some c -> fresh (dom h) <> a.
Proof. intros Ha E. pose proof (fresh_None h) as H. rewrite E in H. congruence. Qed.

Section WithDateParser.
Variable Date_parse : string -> TimeValue.

Lemma calculateResolutionTimes_simulates h array ts :
  holds h array ts ->
  unchanged h (Memory.calculateResolutionTimes Date_parse array h).2 /\
  match Analytics.calculateResolutionTimes Date_parse ts with
  | Ok o => exists d,
      (Memory.calculateResolutionTimes Date_parse array h).1 = Ok d /\
      (Memory.calculateResolutionTimes Date_parse array h).2 !! d = Some (CPlain o)
  | Throw e => (Memory.calculateResolutionTimes Date_parse array h).1 = Throw e
  end.
Proof.
  intros (xs & Ha & HF).
  set (d1 := fresh (dom h)). pose proof (fresh_None h) as Hd1. fold d1 in Hd1.
  set (h1 := <[d1 := CPlain zeros]> h).
  set (d2 := fresh (dom h1)). pose proof (fresh_None h1) as Hd2. fold d2 in Hd2.
  set (h2 := <[d2 := CPlain zeros]> h1).
  assert (Hne : d2 <> d1).
  { subst d2. apply (fresh_ne h1 d1 (CPlain zeros)). subst h1. apply lookup_insert_eq. }
  assert (Hd2' : h !! d2 = None).
  { subst h1. rewrite lookup_insert_ne in Hd2 by congruence. exact Hd2. }
  set (I := fun (s : JSObject * JSObject) (h' : Heap) =>
              unchanged h h' /\ h' !! d1 = Some (CPlain s.1) /\
              h' !! d2 = Some (CPlain s.2)).
  assert (I0 : unchanged h h2 /\ h2 !! d1 = Some (CPlain zeros) /\
               h2 !! d2 = Some (CPlain zeros)).
  { subst h2 h1. split; [|split].
    - apply unchanged_insert; [apply unchanged_alloc|exact Hd2'].
    - rewrite lookup_insert_ne by exact Hne. apply lookup_insert_eq.
    - apply lookup_insert_eq. }
  unfold Memory.calculateResolutionTimes, Analytics.calculateResolutionTimes.
  rewrite (bind_Ok _ _ _ _ _ (alloc_at h _)). fold d1 h1.
  rewrite (bind_Ok _ _ _ _ _ (alloc_at h1 _)). fold d2 h2.
  cbv zeta.
  match goal with
  | |- context [JS.forEach ts ?cb (zeros, zeros)] => set (callback := cb)
  end.
  match goal with
  | |- context [forEach array ?cb] => set (callback_h := cb)
  end.
  assert (Hloop : simulates I (JS.forEach ts callback (zeros, zeros))
                    (forEach array callback_h h2)).
  { apply (forEach_simulates I array xs ts); [| |exact I0].
    - intros o h' [Hu _]. split; [apply Hu, Ha|].
      clear -HF Hu. induction HF; constructor; auto.
    - intros x t [r c] h' (Hu & Hr & Hc) Hx. subst callback_h callback. cbv beta.
      cbn [fst snd] in Hr, Hc.
      rewrite (bind_Ok _ _ _ _ _ (has_both_dates_at h' x t Hx)).
      destruct (Analytics.has_both_dates t).
      + rewrite (bind_Ok _ _ _ _ _ (get_field_at h' x t _ Hx)).
        destruct (optional_toLowerCase (Ticket.severity t)) as [k|e] eqn:Ek.
        * rewrite (bind_Ok _ _ _ _ _ (lift_at (Ok k) h')). cbv zeta.
          rewrite (bind_Ok _ _ _ _ _ (get_property_at h' d1 r _ Hr)).
          rewrite pure_bind_Ok.
          destruct (defined (get r (property_key k))); rewrite pure_ret.
          -- rewrite (bind_Ok _ _ _ _ _ (hoursToResolve_at Date_parse h' x t Hx)).
             rewrite (bind_Ok _ _ _ _ _ (add_assign_property_at h' d1 r _ _ Hr)).
             rewrite (increment_property_at _ d2 c).
             2:{ rewrite lookup_insert_ne by congruence. exact Hc. }
             eexists (_, _). split; [|split; reflexivity].
             split; [|split]; cbn [fst snd].
             ++ apply unchanged_insert; [|exact Hd2'].
                apply unchanged_insert; assumption.
             ++ rewrite lookup_insert_ne by exact Hne. apply lookup_insert_eq.
             ++ apply lookup_insert_eq.
          -- exists (r, c). split; [repeat split; assumption|split; reflexivity].
        * rewrite (bind_Throw _ _ _ _ _ (lift_at (Throw e) h')), pure_bind_Throw.
          exists (r, c). split; [repeat split; assumption|reflexivity].
      + rewrite pure_ret. exists (r, c).
        split; [repeat split; assumption|split; reflexivity]. }
  destruct Hloop as ([r1 c1] & (Hu1 & Hr1 & Hc1) & Hr).
  destruct (forEach array callback_h h2) as [res h3] eqn:E1.
  cbn [fst snd] in Hu1, Hr1, Hc1, Hr.
  destruct (JS.forEach ts callback (zeros, zeros)) as [[r c]|e].
  - destruct Hr as [-> Hrc]. injection Hrc as -> ->.
    rewrite (bind_Ok _ _ _ _ _ E1).
    rewrite (bind_Ok _ _ _ _ _ (keys_of_at h3 d1 r Hr1)), pure_bind_Ok, pure_ret.
    match goal with
    | |- context [forEach_key (keys r) ?cb] => set (final_h := cb)
    end.
    match goal with
    | |- context [fold_left ?cb (keys r) r] => set (final := cb)
    end.
    set (J := fun (o : JSObject) (h' : Heap) =>
                unchanged h h' /\ h' !! d1 = Some (CPlain o) /\
                h' !! d2 = Some (CPlain c)).
    destruct (forEach_key_simulates J final_h final) with (ks := keys r) (locals := r) (h := h3)
      as (h4 & E2 & Hu2 & Ho2 & _).
    + intros key o' h' (Hu' & Ho' & Hc'). subst final_h final. cbv beta.
      rewrite (bind_Ok _ _ _ _ _ (get_property_at h' d2 c _ Hc')).
      destruct (ltb zero (to_number (get c key))).
      * rewrite (bind_Ok _ _ _ _ _ (get_property_at h' d1 o' _ Ho')).
        rewrite (bind_Ok _ _ _ _ _ (get_property_at h' d2 c _ Hc')).
        rewrite (set_property_at h' d1 o' _ _ Ho').
        eexists. split; [reflexivity|].
        split; [apply unchanged_insert; assumption|].
        split; [apply lookup_insert_eq|].
        rewrite lookup_insert_ne by congruence. exact Hc'.
      * exists h'. split; [reflexivity|]. repeat split; assumption.
    + repeat split; assumption.
    + rewrite (bind_Ok _ _ _ _ _ E2), ret_at. cbn [fst snd].
      split; [exact Hu2|]. exists d1. split; [reflexivity|exact Ho2].
  - subst res. rewrite (bind_Throw _ _ _ _ _ E1), pure_bind_Throw. cbn [fst snd].
    split; [exact Hu1|reflexivity].
Qed.

Lemma calculateSLACompliance_simulates h array ts :
  holds h array ts ->
  unchanged h (Memory.calculateSLACompliance Date_parse array h).2 /\
  match Analytics.calculateSLACompliance Date_parse ts with
  | Ok o => exists d,
      (Memory.calculateSLACompliance Date_parse array h).1 = Ok d /\
      (Memory.calculateSLACompliance Date_parse array h).2 !! d = Some (CPlain o)
  | Throw e => (Memory.calculateSLACompliance Date_parse array h).1 = Throw e
  end.
Proof.
  intros (xs & Ha & HF).
  set (d0 := fresh (dom h)). pose proof (fresh_None h) as Hd0. fold d0 in Hd0.
  set (h0 := <[d0 := CPlain slaTargets]> h).
  set (d1 := fresh (dom h0)). pose proof (fresh_None h0) as Hd1. fold d1 in Hd1.
  set (h1 := <[d1 := CPlain zeros]> h0).
  set (d2 := fresh (dom h1)). pose proof (fresh_None h1) as Hd2. fold d2 in Hd2.
  set (h2 := <[d2 := CPlain zeros]> h1).
  assert (N10 : d1 <> d0).
  { subst d1. apply (fresh_ne h0 d0 (CPlain slaTargets)). subst h0. apply lookup_insert_eq. }
  assert (N21 : d2 <> d1).
  { subst d2. apply (fresh_ne h1 d1 (CPlain zeros)). subst h1. apply lookup_insert_eq. }
  assert (N20 : d2 <> d0).
  { subst d2. apply (fresh_ne h1 d0 (CPlain slaTargets)). subst h1 h0.
    rewrite lookup_insert_ne by exact N10. apply lookup_insert_eq. }
  assert (Hd1' : h !! d1 = None).
  { subst h0. rewrite lookup_insert_ne in Hd1 by congruence. exact Hd1. }
  assert (Hd2' : h !! d2 = None).
  { subst h1 h0. rewrite !lookup_insert_ne in Hd2 by congruence. exact Hd2. }
  set (I := fun (s : JSObject * JSObject) (h' : Heap) =>
              unchanged h h' /\ h' !! d0 = Some (CPlain slaTargets) /\
              h' !! d1 = Some (CPlain s.1) /\ h' !! d2 = Some (CPlain s.2)).
  assert (I0 : unchanged h h2 /\ h2 !! d0 = Some (CPlain slaTargets) /\
               h2 !! d1 = Some (CPlain zeros) /\ h2 !! d2 = Some (CPlain zeros)).
  { subst h2 h1 h0. split; [|split; [|split]].
    - apply unchanged_insert; [|exact Hd2'].
      apply unchanged_insert; [apply unchanged_alloc|exact Hd1'].
    - rewrite !lookup_insert_ne by congruence. apply lookup_insert_eq.
    - rewrite lookup_insert_ne by congruence. apply lookup_insert_eq.
    - apply lookup_insert_eq. }
  unfold Memory.calculateSLACompliance, Analytics.calculateSLACompliance.
  rewrite (bind_Ok _ _ _ _ _ (alloc_at h _)). fold d0 h0.
  rewrite (bind_Ok _ _ _ _ _ (alloc_at h0 _)). fold d1 h1.
  rewrite (bind_Ok _ _ _ _ _ (alloc_at h1 _)). fold d2 h2.
  cbv zeta.
  match goal with
  | |- context [JS.forEach ts ?cb (zeros, zeros)] => set (callback := cb)
  end.
  match goal with
  | |- context [forEach array ?cb] => set (callback_h := cb)
  end.
  assert (Hloop : simulates I (JS.forEach ts callback (zeros, zeros))
                    (forEach array callback_h h2)).
  { apply (forEach_simulates I array xs ts); [| |exact I0].
    - intros o h' [Hu _]. split; [apply Hu, Ha|].
      clear -HF Hu. induction HF; constructor; auto.
    - intros x t [m c] h' (Hu & Ht & Hm & Hc) Hx. subst callback_h callback. cbv beta.
      cbn [fst snd] in Hm, Hc.
      rewrite (bind_Ok _ _ _ _ _ (has_both_dates_at h' x t Hx)).
      destruct (Analytics.has_both_dates t).
      + rewrite (bind_Ok _ _ _ _ _ (get_field_at h' x t _ Hx)).
        destruct (optional_toLowerCase (Ticket.severity t)) as [k|e] eqn:Ek.
        * rewrite (bind_Ok _ _ _ _ _ (lift_at (Ok k) h')). cbv zeta.
          rewrite (bind_Ok _ _ _ _ _ (get_property_at h' d0 _ _ Ht)).
          rewrite pure_bind_Ok.
          destruct (defined (get slaTargets (property_key k))); rewrite pure_ret.
          -- rewrite (bind_Ok _ _ _ _ _ (hoursToResolve_at Date_parse h' x t Hx)).
             rewrite (bind_Ok _ _ _ _ _ (get_property_at h' d0 _ _ Ht)).
             destruct (leb (Analytics.hoursToResolve Date_parse t)
                           (to_number (get slaTargets (property_key k)))).
             ++ rewrite (bind_Ok _ _ _ _ _ (increment_property_at h' d1 m _ Hm)).
                rewrite (increment_property_at _ d2 c).
                2:{ rewrite lookup_insert_ne by congruence. exact Hc. }
                eexists (_, _). split; [|split; reflexivity].
                split; [|split; [|split]]; cbn [fst snd].
                ** apply unchanged_insert; [|exact Hd2'].
                   apply unchanged_insert; assumption.
                ** rewrite !lookup_insert_ne by congruence. exact Ht.
                ** rewrite lookup_insert_ne by congruence. apply lookup_insert_eq.
                ** apply lookup_insert_eq.
             ++ rewrite (bind_Ok _ _ _ _ _ (ret_at tt h')).
                rewrite (increment_property_at _ d2 c _ Hc).
                eexists (_, _). split; [|split; reflexivity].
                split; [|split; [|split]]; cbn [fst snd].
                ** apply unchanged_insert; assumption.
                ** rewrite lookup_insert_ne by congruence. exact Ht.
                ** rewrite lookup_insert_ne by congruence. exact Hm.
                ** apply lookup_insert_eq.
          -- exists (m, c). split; [repeat split; assumption|split; reflexivity].
        * rewrite (bind_Throw _ _ _ _ _ (lift_at (Throw e) h')), pure_bind_Throw.
          exists (m, c). split; [repeat split; assumption|reflexivity].
      + rewrite pure_ret. exists (m, c).
        split; [repeat split; assumption|split; reflexivity]. }
  destruct Hloop as ([m1 c1] & (Hu1 & Ht1 & Hm1 & Hc1) & Hr).
  destruct (forEach array callback_h h2) as [res h3] eqn:E1.
  cbn [fst snd] in Hu1, Ht1, Hm1, Hc1, Hr.
  destruct (JS.forEach ts callback (zeros, zeros)) as [[m c]|e].
  - destruct Hr as [-> Hrc]. injection Hrc as -> ->.
    rewrite (bind_Ok _ _ _ _ _ E1).
    rewrite (bind_Ok _ _ _ _ _ (keys_of_at h3 d1 m Hm1)), pure_bind_Ok, pure_ret.
    match goal with
    | |- context [forEach_key (keys m) ?cb] => set (final_h := cb)
    end.
    match goal with
    | |- context [fold_left ?cb (keys m) m] => set (final := cb)
    end.
    set (J := fun (o : JSObject) (h' : Heap) =>
                unchanged h h' /\ h' !! d1 = Some (CPlain o) /\
                h' !! d2 = Some (CPlain c)).
    destruct (forEach_key_simulates J final_h final) with (ks := keys m) (locals := m) (h := h3)
      as (h4 & E2 & Hu2 & Ho2 & _).
    + intros key o' h' (Hu' & Ho' & Hc'). subst final_h final. cbv beta.
      rewrite (bind_Ok _ _ _ _ _ (get_property_at h' d2 c _ Hc')).
      destruct (ltb zero (to_number (get c key))).
      * rewrite (bind_Ok _ _ _ _ _ (get_property_at h' d1 o' _ Ho')).
        rewrite (bind_Ok _ _ _ _ _ (get_property_at h' d2 c _ Hc')).
        rewrite (set_property_at h' d1 o' _ _ Ho').
        eexists. split; [reflexivity|].
        split; [apply unchanged_insert; assumption|].
        split; [apply lookup_insert_eq|].
        rewrite lookup_insert_ne by congruence. exact Hc'.
      * exists h'. split; [reflexivity|]. repeat split; assumption.
    + repeat split; assumption.
    + rewrite (bind_Ok _ _ _ _ _ E2), ret_at. cbn [fst snd].
      split; [exact Hu2|]. exists d1. split; [reflexivity|exact Ho2].
  - subst res. rewrite (bind_Throw _ _ _ _ _ E1), pure_bind_Throw. cbn [fst snd].
    split; [exact Hu1|reflexivity].
Qed.
End WithDateParser.

Lemma is_open_at h x t :
  h !! x = Some (CTicket t) -> Memory.is_open x h = (Ok (Analytics.is_open t), h).
Proof.
  intros Hx. unfold Memory.is_open, Analytics.is_open.
  rewrite (bind_Ok _ _ _ _ _ (get_field_at h x t _ Hx)).
  destruct (negb (strict_eq_string (Ticket.status t) "resolved")); [|reflexivity].
  rewrite (bind_Ok _ _ _ _ _ (get_field_at h x t _ Hx)). reflexivity.
Qed.

Lemma is_resolved_at h x t :
  h !! x = Some (CTicket t) -> Memory.is_resolved x h = (Ok (Analytics.is_resolved t), h).
Proof.
  intros Hx. unfold Memory.is_resolved, Analytics.is_resolved.
  rewrite (bind_Ok _ _ _ _ _ (get_field_at h x t _ Hx)).
  destruct (strict_eq_string (Ticket.status t) "resolved"); [reflexivity|].
  rewrite (bind_Ok _ _ _ _ _ (get_field_at h x t _ Hx)). reflexivity.
Qed.

Lemma forEach_count (p : Ticket.t -> bool) ts : forall n : nat,
  JS.forEach ts (fun t n => Ok (if p t then S n else n)) n
  = Ok (n + length (List.filter p ts))%nat.
Proof.
  induction ts as [|t ts IH]; intros n; cbn [JS.forEach List.filter bind].
  - f_equal. cbn. lia.
  - rewrite IH. destruct (p t); cbn [length]; f_equal; lia.
Qed.

(** [array.filter(predicate).length], for a predicate that only reads
    its ticket. *)
Lemma filter_length h array ts (predicate_h : address -> M bool) (predicate : Ticket.t -> bool) :
  holds h array ts ->
  (forall h' x t, h' !! x = Some (CTicket t) -> predicate_h x h' = (Ok (predicate t), h')) ->
  exists r h',
    Memory.filter array predicate_h h = (Ok r, h') /\
    unchanged h h' /\
    length_of r h' = (Ok (Z.of_nat (length (List.filter predicate ts))), h').
Proof.
  intros (xs & Ha & HF) Hp.
  set (r := fresh (dom h)). pose proof (fresh_None h) as Hr. fold r in Hr.
  set (I := fun (n : nat) (h' : Heap) =>
              unchanged h h' /\
              exists kept, h' !! r = Some (CArray kept) /\ length kept = n).
  assert (I0 : I 0%nat (<[r := CArray []]> h)).
  { split; [apply unchanged_alloc|]. exists []. split; [apply lookup_insert_eq|reflexivity]. }
  unfold Memory.filter. rewrite (bind_Ok _ _ _ _ _ (alloc_at h _)). fold r.
  match goal with
  | |- context [forEach array ?cb] => set (callback_h := cb)
  end.
  assert (Hloop : simulates I
            (JS.forEach ts (fun t n => Ok (if predicate t then S n else n)) 0%nat)
            (forEach array callback_h (<[r := CArray []]> h))).
  { apply (forEach_simulates I array xs ts); [| |exact I0].
    - intros n h' [Hu _]. split; [apply Hu, Ha|].
      clear -HF Hu. induction HF; constructor; auto.
    - intros x t n h' (Hu & kept & Hk & Hn) Hx. subst callback_h. cbv beta.
      rewrite (bind_Ok _ _ _ _ _ (Hp h' x t Hx)).
      destruct (predicate t).
      + rewrite (push_at h' r kept x Hk).
        exists (S n). split; [|split; reflexivity].
        split; [apply unchanged_insert; assumption|].
        exists (kept ++ [x])%list. split; [apply lookup_insert_eq|].
        rewrite length_app. cbn. lia.
      + exists n. split; [|split; reflexivity].
        split; [exact Hu|]. exists kept. split; assumption. }
  rewrite forEach_count in Hloop.
  destruct Hloop as (n & (Hu & kept & Hk & Hn) & Hres).
  destruct (forEach array callback_h (<[r := CArray []]> h)) as [res h1] eqn:E1.
  cbn [fst snd] in Hu, Hk, Hres. destruct Hres as [-> ->].
  exists r, h1. rewrite (bind_Ok _ _ _ _ _ E1), ret_at.
  split; [reflexivity|]. split; [exact Hu|].
  rewrite (length_of_at h1 r kept Hk), Hn. reflexivity.
Qed.
End MemoryFacts.

Module ProcessFacts.
Import Num JS Analytics Memory MemorySpec MemoryFacts.

Lemma plain_at_lookup h a o : h !! a = Some (CPlain o) -> plain_at h a = Some o.
Proof. intros E. unfold plain_at. rewrite E. reflexivity. Qed.

Section WithDateParser.
Variable Date_parse : string -> TimeValue.

(** [processTickets] on the store does what [processTickets] on the
    list of tickets does, and keeps every object of the store as it
    was. *)
Lemma processTickets_simulates now request h ts :
  holds h (Memory.tickets request) ts ->
  unchanged h (Memory.processTickets Date_parse now request h).2 /\
  match Analytics.processTickets Date_parse now
          {| Analytics.projectId := Memory.projectId request;
             Analytics.tickets := ts |} with
  | Ok m => exists m_h,
      (Memory.processTickets Date_parse now request h).1 = Ok m_h /\
      denotes (Memory.processTickets Date_parse now request h).2 m_h = Some m
  | Throw e => (Memory.processTickets Date_parse now request h).1 = Throw e
  end.
Proof.
  intros H. set (a := Memory.tickets request) in *.
  unfold Memory.processTickets, Analytics.processTickets. cbv zeta.
  cbn [Analytics.tickets Analytics.projectId]. fold a.
  destruct (calculateSeverityDistribution_simulates h a ts H) as [U1 R1].
  destruct (Memory.calculateSeverityDistribution a h) as [r1 h1] eqn:E1.
  cbn [fst snd] in U1, R1.
  destruct (Analytics.calculateSeverityDistribution ts) as [o1|e];
    [|subst r1; rewrite (bind_Throw _ _ _ _ _ E1), pure_bind_Throw;
      split; [exact U1|reflexivity]].
  destruct R1 as (d1 & -> & L1).
  rewrite (bind_Ok _ _ _ _ _ E1), pure_bind_Ok.
  pose proof (holds_unchanged _ _ _ _ U1 H) as H1.
  destruct (calculateResolutionTimes_simulates Date_parse h1 a ts H1) as [U2 R2].
  destruct (Memory.calculateResolutionTimes Date_parse a h1) as [r2 h2] eqn:E2.
  cbn [fst snd] in U2, R2.
  destruct (Analytics.calculateResolutionTimes Date_parse ts) as [o2|e];
    [|subst r2; rewrite (bind_Throw _ _ _ _ _ E2), pure_bind_Throw;
      split; [exact (unchanged_trans _ _ _ U1 U2)|reflexivity]].
  destruct R2 as (d2 & -> & L2).
  rewrite (bind_Ok _ _ _ _ _ E2), pure_bind_Ok.
  pose proof (holds_unchanged _ _ _ _ U2 H1) as H2.
  destruct (calculateSLACompliance_simulates Date_parse h2 a ts H2) as [U3 R3].
  destruct (Memory.calculateSLACompliance Date_parse a h2) as [r3 h3] eqn:E3.
  cbn [fst snd] in U3, R3.
  destruct (Analytics.calculateSLACompliance Date_parse ts) as [o3|e];
    [|subst r3; rewrite (bind_Throw _ _ _ _ _ E3), pure_bind_Throw;
      split; [exact (unchanged_trans _ _ _ U1 (unchanged_trans _ _ _ U2 U3))|reflexivity]].
  destruct R3 as (d3 & -> & L3).
  rewrite (bind_Ok _ _ _ _ _ E3), pure_bind_Ok, pure_ret.
  pose proof (holds_unchanged _ _ _ _ U3 H2) as H3.
  destruct H3 as (xs & Ha3 & HF3).
  pose proof (Forall2_length _ _ _ HF3) as Hlen.
  rewrite (bind_Ok _ _ _ _ _ (length_of_at h3 a xs Ha3)).
  destruct (filter_length h3 a ts Memory.is_open Analytics.is_open
              (ex_intro _ xs (conj Ha3 HF3)) is_open_at)
    as (ro & h4 & E4 & U4 & Lo).
  rewrite (bind_Ok _ _ _ _ _ E4), (bind_Ok _ _ _ _ _ Lo).
  destruct (filter_length h4 a ts Memory.is_resolved Analytics.is_resolved
              (holds_unchanged _ _ _ _ U4 (ex_intro _ xs (conj Ha3 HF3))) is_resolved_at)
    as (rr & h5 & E5 & U5 & Lr).
  rewrite (bind_Ok _ _ _ _ _ E5), (bind_Ok _ _ _ _ _ Lr), ret_at.
  cbn [fst snd].
  assert (U35 : unchanged h3 h5) by exact (unchanged_trans _ _ _ U4 U5).
  split.
  - exact (unchanged_trans _ _ _ U1
             (unchanged_trans _ _ _ U2 (unchanged_trans _ _ _ U3 U35))).
  - eexists. split; [reflexivity|]. unfold denotes.
    cbn [Memory.severityDistribution Memory.averageResolutionTimes Memory.slaCompliance].
    rewrite (plain_at_lookup h5 d1 o1) by (apply U35, U3, U2, L1).
    rewrite (plain_at_lookup h5 d2 o2) by (apply U35, U3, L2).
    rewrite (plain_at_lookup h5 d3 o3) by (apply U35, L3).
    cbn [mbind option_bind]. rewrite Hlen. reflexivity.
Qed.
End WithDateParser.

Lemma denotes_unchanged h h' m r :
  unchanged h h' -> denotes h m = Some r -> denotes h' m = Some r.
Proof.
  intros U. unfold denotes, plain_at.
  destruct (h !! Memory.severityDistribution m) as [[| |o1]|] eqn:E1;
    cbn [mbind option_bind]; try discriminate.
  destruct (h !! Memory.averageResolutionTimes m) as [[| |o2]|] eqn:E2;
    cbn [mbind option_bind]; try discriminate.
  destruct (h !! Memory.slaCompliance m) as [[| |o3]|] eqn:E3;
    cbn [mbind option_bind]; try discriminate.
  rewrite (U _ _ E1), (U _ _ E2), (U _ _ E3). cbn [mbind option_bind]. auto.
Qed.

(** The clock is read for [timestamp] only. *)
Lemma processTickets_clock Date_parse now1 now2 request :
  Analytics.processTickets Date_parse now2 request
  = Spec.fmap_result (Spec.with_timestamp (toISOString now2))
      (Analytics.processTickets Date_parse now1 request).
Proof.
  unfold Analytics.processTickets.
  destruct (Analytics.calculateSeverityDistribution (Analytics.tickets request));
    [|reflexivity].
  destruct (Analytics.calculateResolutionTimes Date_parse (Analytics.tickets request));
    [|reflexivity].
  destruct (Analytics.calculateSLACompliance Date_parse (Analytics.tickets request));
    reflexivity.
Qed.
End ProcessFacts.

(** ** The claims *)

Import Num JS Analytics Dynamo Spec StoreSpec Examples Aux.
Import NumFacts ObjFacts AnalyticsFacts StoreFacts.
Import Reading BatchExamples RoundingExamples MemorySpec MemoryExamples.

(** *** Severity distribution *)

(** [C1]: for every list of well-formed tickets (at most [2^32 - 1] of them,
    the bound on the length of an array), [severityDistribution] holds under
    each canonical severity a Number that is [n / 10] to the precision of a
    Number, where [n / 10] is a tenth nearest to [100 * count / total],
    [count] being the number of tickets whose severity, lower-cased, is
    that key and [total] the number of tickets; on the empty list the
    Number is [0]. *)
Theorem C1_severity_distribution (tickets : list Ticket.t) (key : string) :
  Forall well_formed tickets ->
  Z.of_nat (length tickets) < 2 ^ 32 ->
  In key canonical ->
  exists distribution x n,
    calculateSeverityDistribution tickets = Ok distribution /\
    get distribution key = Some (PNum x) /\
    tenth x n /\
    nearest_tenths n (100 * count (severity_is key) tickets) (Z.of_nat (length tickets)) /\
    (tickets = [] -> x = zero).
Proof.
  intros Hwf Hlen Hkey.
  destruct (severity_distribution_nearest tickets Hwf Hlen) as (d & Hd & Hk).
  destruct (Hk key Hkey) as (n & Hg & Hn & H0 & Hpos).
  rewrite <- (count_ext _ _ tickets (ReadingFacts.severity_is_spec key)) in Hn.
  exists d, (one_decimal n), n. split; [exact Hd|]. split; [exact Hg|].
  assert (H1000 : n <= 1000).
  { apply (nearest_tenths_le_1000 n (count (severity_is key) tickets)
             (Z.of_nat (length tickets))); try assumption.
    - apply count_bounds.
    - intros E. apply H0. destruct tickets; [reflexivity|discriminate E]. }
  split; [apply ReadingFacts.one_decimal_tenth; change (2 ^ 53) with 9007199254740992; lia|].
  split; [exact Hn|].
  intros E. rewrite (H0 E). reflexivity.
Qed.

Lemma C1_witness :
  Forall well_formed [twelve_hours; shouted; urgent] /\
  Z.of_nat (length [twelve_hours; shouted; urgent]) < 2 ^ 32 /\
  In "high" canonical /\
  count (severity_is "high") [twelve_hours; shouted; urgent] = 2 /\
  exists distribution x,
    calculateSeverityDistribution [twelve_hours; shouted; urgent] = Ok distribution /\
    get distribution "high" = Some (PNum x) /\
    tenth x 667.
Proof.
  assert (H1 : Forall well_formed [twelve_hours; shouted; urgent])
    by (repeat (apply List.Forall_cons; [exact I|]); apply List.Forall_nil).
  assert (H2 : Z.of_nat (length [twelve_hours; shouted; urgent]) < 2 ^ 32) by reflexivity.
  assert (H3 : In "high" canonical) by (simpl; tauto).
  split; [exact H1|]. split; [exact H2|]. split; [exact H3|]. split; [reflexivity|].
  destruct (C1_severity_distribution [twelve_hours; shouted; urgent] "high" H1 H2 H3)
    as (d & x & n & E1 & E2 & E3 & E4 & _).
  exists d, x. split; [exact E1|]. split; [exact E2|].
  replace 667 with n; [exact E3|].
  unfold nearest_tenths in E4.
  change (count (severity_is "high") [twelve_hours; shouted; urgent]) with 2 in E4.
  change (Z.of_nat (length [twelve_hours; shouted; urgent])) with 3 in E4. lia.
Defined.

(** Where the exact percentage lies half-way between two tenths, the
    double-precision product may fall on either side: 23 tickets out of 80
    are 28.75 percent, computed as 28.749999999999996 and stored as 28.7. *)
Example distribution_23_of_80 :
  exists distribution,
    calculateSeverityDistribution
      (repeat (ticket JNull (JString "low") JNull JNull JNull) 23
       ++ repeat (ticket JNull (JString "high") JNull JNull JNull) 57)
    = Ok distribution /\
    get distribution "low" = Some (PNum (one_decimal 287)).
Proof. eexists. split; vm_compute; reflexivity. Qed.

(** [C6], as stated, fails on a ticket of an unrecognized severity: the
    ticket counts in the total and in no bucket, and the four values add up
    to 0. *)
Lemma C6_counterexample :
  [urgent] <> [] /\
  exists distribution,
    calculateSeverityDistribution [urgent] = Ok distribution /\
    sum_of_values distribution = 0%R /\
    ~ (Rabs (sum_of_values distribution - 100) <= 4 / 10)%R.
Proof.
  split; [discriminate|].
  exists zeros. split; [vm_compute; reflexivity|].
  assert (E : sum_of_values zeros = 0%R)
    by (unfold sum_of_values, value; cbn; lra).
  split; [exact E|]. rewrite E. intros H.
  rewrite Rabs_left in H; lra.
Qed.

(** [C6], amended: for every non-empty list of tickets whose severities are
    all among the four canonical ones (at most [2^32 - 1] tickets), the four
    values of [severityDistribution] add up to 100 within 0.4. *)
Theorem C6_distribution_sum (tickets : list Ticket.t) :
  tickets <> [] ->
  forallb recognized tickets = true ->
  Z.of_nat (length tickets) < 2 ^ 32 ->
  exists distribution,
    calculateSeverityDistribution tickets = Ok distribution /\
    (Rabs (sum_of_values distribution - 100) <= 4 / 10)%R.
Proof.
  intros Hne Hrec Hlen.
  assert (Hwf : Forall well_formed tickets).
  { apply Forall_forall. intros t Ht. apply recognized_well_formed.
    rewrite forallb_forall in Hrec. apply Hrec.
    apply list_elem_of_In. exact Ht. }
  destruct (severity_distribution_nearest tickets Hwf Hlen) as (d & Hd & Hk).
  exists d. split; [exact Hd|].
  destruct (Hk "low" in_canonical_low) as (n1 & G1 & N1 & _ & P1).
  destruct (Hk "medium" in_canonical_medium) as (n2 & G2 & N2 & _ & P2).
  destruct (Hk "high" in_canonical_high) as (n3 & G3 & N3 & _ & P3).
  destruct (Hk "critical" in_canonical_critical) as (n4 & G4 & N4 & _ & P4).
  pose proof (recognized_partition tickets Hrec) as Hsum.
  pose proof (count_bounds (has_severity "low") tickets) as B1.
  pose proof (count_bounds (has_severity "medium") tickets) as B2.
  pose proof (count_bounds (has_severity "high") tickets) as B3.
  pose proof (count_bounds (has_severity "critical") tickets) as B4.
  set (t := Z.of_nat (length tickets)) in *.
  assert (Ht : 0 < t) by (subst t; destruct tickets; [contradiction|cbn; lia]).
  unfold nearest_tenths in N1, N2, N3, N4.
  assert (Hn : 998 <= n1 + n2 + n3 + n4 <= 1002) by (split; nia).
  assert (H53 : 1002 < 2 ^ 53) by reflexivity.
  pose proof (one_decimal_R n1 ltac:(lia)) as R1.
  pose proof (one_decimal_R n2 ltac:(lia)) as R2.
  pose proof (one_decimal_R n3 ltac:(lia)) as R3.
  pose proof (one_decimal_R n4 ltac:(lia)) as R4.
  unfold sum_of_values, value. rewrite G1, G2, G3, G4. cbn [to_number].
  assert (Hu : (0 < u < / 1000)%R).
  { split; [apply u_pos|]. unfold u. change (2 ^ 52) with 4503599627370496. lra. }
  assert (S1 : (998 <= IZR n1 + IZR n2 + IZR n3 + IZR n4 <= 1002)%R).
  { rewrite <- !plus_IZR. split; apply IZR_le; lia. }
  assert (Q1 : (0 <= IZR n1)%R) by (apply IZR_le; lia).
  assert (Q2 : (0 <= IZR n2)%R) by (apply IZR_le; lia).
  assert (Q3 : (0 <= IZR n3)%R) by (apply IZR_le; lia).
  assert (Q4 : (0 <= IZR n4)%R) by (apply IZR_le; lia).
  apply Rabs_le. split; nra.
Qed.

Lemma C6_witness :
  [twelve_hours] <> [] /\
  forallb recognized [twelve_hours] = true /\
  Z.of_nat (length [twelve_hours]) < 2 ^ 32 /\
  exists distribution,
    calculateSeverityDistribution [twelve_hours] = Ok distribution /\
    (Rabs (sum_of_values distribution - 100) <= 4 / 10)%R.
Proof.
  assert (H1 : [twelve_hours] <> []) by discriminate.
  assert (H2 : forallb recognized [twelve_hours] = true) by reflexivity.
  assert (H3 : Z.of_nat (length [twelve_hours]) < 2 ^ 32) by reflexivity.
  split; [exact H1|]. split; [exact H2|]. split; [exact H3|].
  exact (C6_distribution_sum [twelve_hours] H1 H2 H3).
Defined.

(** *** SLA compliance and resolution times *)

(** [C3]: for every list of well-formed tickets (at most [2^32 - 1] of them)
    and every date parser that gives time values, [slaCompliance] holds
    under each canonical severity a Number that is [n / 10] to the precision
    of a Number, where [n / 10] is a tenth nearest to
    [100 * compliant / qualifying]: a ticket qualifies when both its dates
    are there and its severity, lower-cased, is that key, and is compliant
    when moreover both dates are dates and the milliseconds from the
    creation to the resolution are at most the target of the severity in
    hours (critical 4, high 24, medium 72, low 168); a severity without
    qualifying ticket holds [0]. *)
Theorem C3_sla_compliance (Date_parse : string -> TimeValue)
    (tickets : list Ticket.t) (key : string) :
  time_values Date_parse ->
  Forall well_formed tickets ->
  Z.of_nat (length tickets) < 2 ^ 32 ->
  In key canonical ->
  (target "critical" = 4 /\ target "high" = 24 /\
   target "medium" = 72 /\ target "low" = 168 /\ hour = 1000 * 60 * 60) /\
  exists sla x n,
    calculateSLACompliance Date_parse tickets = Ok sla /\
    get sla key = Some (PNum x) /\
    tenth x n /\
    nearest_tenths n (100 * count (meets Date_parse key) tickets)
                     (count (counted key) tickets) /\
    (count (counted key) tickets = 0 -> x = zero).
Proof.
  intros Htimes Hwf Hlen Hkey. split; [repeat split|].
  apply ReadingClaims.sla_reading; assumption.
Qed.

Lemma C3_witness :
  time_values Date_parse_ISO /\
  Forall well_formed [twelve_hours; garbled_date; shouted] /\
  Z.of_nat (length [twelve_hours; garbled_date; shouted]) < 2 ^ 32 /\
  In "high" canonical /\
  count (counted "high") [twelve_hours; garbled_date; shouted] = 3 /\
  count (meets Date_parse_ISO "high") [twelve_hours; garbled_date; shouted] = 2 /\
  exists sla x,
    calculateSLACompliance Date_parse_ISO [twelve_hours; garbled_date; shouted] = Ok sla /\
    get sla "high" = Some (PNum x) /\
    tenth x 667.
Proof.
  pose proof ParserFacts.Date_parse_ISO_time_values as H0.
  assert (H1 : Forall well_formed [twelve_hours; garbled_date; shouted])
    by (repeat (apply List.Forall_cons; [exact I|]); apply List.Forall_nil).
  assert (H2 : Z.of_nat (length [twelve_hours; garbled_date; shouted]) < 2 ^ 32)
    by reflexivity.
  assert (H3 : In "high" canonical) by (simpl; tauto).
  split; [exact H0|]. split; [exact H1|]. split; [exact H2|]. split; [exact H3|].
  split; [reflexivity|]. split; [reflexivity|].
  destruct (C3_sla_compliance Date_parse_ISO [twelve_hours; garbled_date; shouted] "high"
              H0 H1 H2 H3) as (_ & sla & x & n & E1 & E2 & E3 & E4 & _).
  exists sla, x. split; [exact E1|]. split; [exact E2|].
  replace 667 with n; [exact E3|].
  unfold nearest_tenths in E4.
  change (count (meets Date_parse_ISO "high") [twelve_hours; garbled_date; shouted])
    with 2 in E4.
  change (count (counted "high") [twelve_hours; garbled_date; shouted]) with 3 in E4. lia.
Defined.

(** [C4], as stated, fails on a ticket whose creation date is present and
    is no date: the ticket makes the average of its severity NaN and counts
    in the denominator of the SLA compliance (one compliant ticket out of
    two: 50), whereas without that date it is left out of both (12 hours,
    and 100). *)
Lemma C4_counterexample :
  (exists art sla,
     calculateResolutionTimes Date_parse_ISO [twelve_hours; garbled_date] = Ok art /\
     calculateSLACompliance Date_parse_ISO [twelve_hours; garbled_date] = Ok sla /\
     get art "high" = Some (PNum NaN) /\
     get sla "high" = Some (PNum (of_Z 50))) /\
  (exists art sla,
     calculateResolutionTimes Date_parse_ISO [twelve_hours; missing_date] = Ok art /\
     calculateSLACompliance Date_parse_ISO [twelve_hours; missing_date] = Ok sla /\
     get art "high" = Some (PNum (of_Z 12)) /\
     get sla "high" = Some (PNum (of_Z 100))).
Proof. split; do 2 eexists; repeat split; vm_compute; reflexivity. Qed.

(** [C4], amended: for every list of well-formed tickets (at most
    [2^32 - 1]) and every date parser that gives time values,
    [averageResolutionTimes] holds under each canonical severity: [0] when
    no ticket has both dates there and that severity; NaN when one of
    those tickets has a date that is no date; otherwise a Number that is
    [n / 10] to the precision of a Number, where [n / 10] is within half a
    tenth of the average of the milliseconds from creation to resolution
    of those tickets, in hours, up to the roundings of the sum (for [N]
    tickets, [(6 N + 2) / 2^52] of the average of the magnitudes).  A
    ticket with a date that is no date counts in the denominator of the
    SLA compliance, as not compliant. *)
Theorem C4_resolution_times (Date_parse : string -> TimeValue)
    (tickets : list Ticket.t) (key : string) :
  time_values Date_parse ->
  Forall well_formed tickets ->
  Z.of_nat (length tickets) < 2 ^ 32 ->
  In key canonical ->
  (exists art x,
     calculateResolutionTimes Date_parse tickets = Ok art /\
     get art key = Some (PNum x) /\
     (count (counted key) tickets = 0 -> x = zero) /\
     (existsb (undated Date_parse key) tickets = true -> x = NaN) /\
     (0 < count (counted key) tickets ->
      existsb (undated Date_parse key) tickets = false ->
      exists n,
        tenth x n /\
        (Rabs (IZR n / 10 - mean (spans Date_parse key tickets))
         <= / 20 + slack (spans Date_parse key tickets))%R)) /\
  (exists sla y n,
     calculateSLACompliance Date_parse tickets = Ok sla /\
     get sla key = Some (PNum y) /\
     tenth y n /\
     nearest_tenths n (100 * count (meets Date_parse key) tickets)
                      (count (counted key) tickets)) /\
  (forall t, undated Date_parse key t = true ->
             counted key t = true /\ meets Date_parse key t = false).
Proof.
  intros Htimes Hwf Hlen Hkey. split; [|split].
  - apply ReadingClaims.average_reading; assumption.
  - destruct (ReadingClaims.sla_reading Date_parse Htimes tickets key Hwf Hlen Hkey)
      as (sla & y & n & H1 & H2 & H3 & H4 & _).
    exists sla, y, n. auto.
  - intros t Ht. unfold undated in Ht. apply andb_prop in Ht. destruct Ht as [Hc Hu].
    split; [exact Hc|]. unfold meets, on_time.
    destruct (elapsed Date_parse t); [discriminate Hu|]. apply andb_false_r.
Qed.

(** The roundings can move the tenth.  The elapsed time of [far_dates] is
    4756702462.95000027... hours; the subtraction of the dates loses the
    last millisecond (the difference needs 54 bits), the quotient is a
    Number just below 4756702462.95, and 4756702462.9 is stored, at more
    than 0.05 from the exact average. *)
Example average_of_far_dates :
  spans Date_parse_ISO "high" [far_dates] = [17124128866620001] /\
  exists art,
    calculateResolutionTimes Date_parse_ISO [far_dates] = Ok art /\
    get art "high" = Some (PNum (one_decimal 47567024629)) /\
    ~ nearest_tenths 47567024629 17124128866620001 3600000.
Proof.
  split; [vm_compute; reflexivity|].
  eexists. split; [vm_compute; reflexivity|]. split; [vm_compute; reflexivity|].
  unfold nearest_tenths. lia.
Qed.

Lemma C4_witness :
  time_values Date_parse_ISO /\
  Forall well_formed [twelve_hours; garbled_date] /\
  Forall well_formed [twelve_hours; shouted; missing_date] /\
  In "high" canonical /\
  (exists art,
     calculateResolutionTimes Date_parse_ISO [twelve_hours; garbled_date] = Ok art /\
     get art "high" = Some (PNum NaN)) /\
  spans Date_parse_ISO "high" [twelve_hours; shouted; missing_date]
  = [43200000; 43200000] /\
  (exists art x,
     calculateResolutionTimes Date_parse_ISO [twelve_hours; shouted; missing_date] = Ok art /\
     get art "high" = Some (PNum x) /\
     tenth x 120).
Proof.
  pose proof ParserFacts.Date_parse_ISO_time_values as H0.
  assert (H1 : Forall well_formed [twelve_hours; garbled_date])
    by (repeat (apply List.Forall_cons; [exact I|]); apply List.Forall_nil).
  assert (H1' : Forall well_formed [twelve_hours; shouted; missing_date])
    by (repeat (apply List.Forall_cons; [exact I|]); apply List.Forall_nil).
  assert (H3 : In "high" canonical) by (simpl; tauto).
  split; [exact H0|]. split; [exact H1|]. split; [exact H1'|]. split; [exact H3|].
  split; [|split; [reflexivity|]].
  - destruct (C4_resolution_times Date_parse_ISO [twelve_hours; garbled_date] "high"
                H0 H1 eq_refl H3) as ((art & x & E1 & E2 & _ & E4 & _) & _).
    exists art. split; [exact E1|]. rewrite E2, (E4 eq_refl). reflexivity.
  - destruct (C4_resolution_times Date_parse_ISO [twelve_hours; shouted; missing_date] "high"
                H0 H1' eq_refl H3) as ((art & x & E1 & E2 & _ & _ & E5) & _).
    exists art, x. split; [exact E1|]. split; [exact E2|].
    destruct (E5 eq_refl eq_refl) as (n & Hn & Hv).
    replace 120 with n; [exact Hn|].
    change (spans Date_parse_ISO "high" [twelve_hours; shouted; missing_date])
      with [43200000; 43200000] in Hv.
    unfold mean, slack in Hv.
    change (total [43200000; 43200000]) with 86400000 in Hv.
    change (total (map Z.abs [43200000; 43200000])) with 86400000 in Hv.
    change (Z.of_nat (length [43200000; 43200000])) with 2 in Hv.
    change (2 ^ 52) with 4503599627370496 in Hv.
    apply SumFacts.abs_bounds in Hv.
    assert (L : 119 < n) by (apply lt_IZR; lra).
    assert (U : n < 121) by (apply lt_IZR; lra).
    lia.
Defined.

(** *** Unrecognized severities *)

(** [C5], at the failing input: a ticket whose severity is [constructor]
    is not excluded from the severity-keyed maps.  [processTickets] returns,
    but [severityDistribution] has a fifth key [constructor] holding NaN and
    [averageResolutionTimes] a fifth key holding a String (the text of the
    function [Object] followed by the hours). *)
Theorem C5_constructor_not_excluded :
  exists m,
    processTickets Date_parse_ISO 0 (request [constructor_severity]) = Ok m /\
    keys (severityDistribution m) = (canonical ++ ["constructor"])%list /\
    get (severityDistribution m) "constructor" = Some (PNum NaN) /\
    keys (averageResolutionTimes m) = (canonical ++ ["constructor"])%list /\
    get (averageResolutionTimes m) "constructor"
    = Some (PConcat (PNative "constructor") (of_Z 12)) /\
    ticketCount m = 1.
Proof. eexists. repeat split; vm_compute; reflexivity. Qed.

(** [C10], at the failing input: with a ticket whose severity is
    [constructor], [severityDistribution] holds a value that is not between
    0 and 100. *)
Theorem C10_constructor_percentage :
  exists distribution,
    calculateSeverityDistribution [constructor_severity] = Ok distribution /\
    In "constructor" (keys distribution) /\
    to_number (get distribution "constructor") = NaN /\
    between_0_100 (to_number (get distribution "constructor")) = false.
Proof. eexists. repeat split; vm_compute; auto 10. Qed.

(** *** Counts, and what the computation reads and writes *)

(** [C7]: whenever [processTickets] returns (it does on well-formed
    tickets), [resolvedTickets] is the number of tickets whose status is
    exactly the string [resolved] or [closed], [openTickets] is the number of
    all the others, and [ticketCount] is their sum. *)
Theorem C7_open_resolved_counts (Date_parse : string -> TimeValue)
    (now : Z) (request : Request) :
  (Forall well_formed (tickets request) ->
   exists m, processTickets Date_parse now request = Ok m) /\
  forall m, processTickets Date_parse now request = Ok m ->
    resolvedTickets m = count resolved_status (tickets request) /\
    openTickets m = count (fun t => negb (resolved_status t)) (tickets request) /\
    ticketCount m = openTickets m + resolvedTickets m.
Proof.
  split; [apply processTickets_returns|].
  intros m Hm. destruct (processTickets_inv Date_parse now request m Hm) as (Hc & Ho & Hr & _).
  pose proof (open_resolved_partition (tickets request)) as Hp.
  rewrite Hc, Ho, Hr. unfold count.
  rewrite <- (List.filter_ext _ _ is_resolved_spec).
  rewrite <- (List.filter_ext _ _ is_open_spec). lia.
Qed.

Lemma C7_witness :
  Forall well_formed [twelve_hours; urgent] /\
  exists m,
    processTickets Date_parse_ISO 0 (request [twelve_hours; urgent]) = Ok m /\
    resolvedTickets m = 1 /\ openTickets m = 1 /\ ticketCount m = 2.
Proof.
  assert (H1 : Forall well_formed [twelve_hours; urgent])
    by (repeat (apply List.Forall_cons; [exact I|]); apply List.Forall_nil).
  split; [exact H1|].
  destruct (C7_open_resolved_counts Date_parse_ISO 0 (request [twelve_hours; urgent]))
    as (Hret & Hcount).
  destruct (Hret H1) as (m & Hm). exists m. split; [exact Hm|].
  destruct (Hcount m Hm) as (E1 & E2 & E3).
  rewrite E3, E1, E2. repeat split; reflexivity.
Defined.

(** [C9], as stated, fails between two readings of the clock: the two
    records differ in [timestamp]. *)
Lemma C9_counterexample :
  exists m1 m2,
    processTickets Date_parse_ISO 0 (request [twelve_hours]) = Ok m1 /\
    processTickets Date_parse_ISO 1 (request [twelve_hours]) = Ok m2 /\
    timestamp m1 = "1970-01-01T00:00:00.000Z" /\
    timestamp m2 = "1970-01-01T00:00:00.001Z" /\
    m1 <> m2.
Proof.
  do 2 eexists. split; [vm_compute; reflexivity|]. split; [vm_compute; reflexivity|].
  split; [reflexivity|]. split; [reflexivity|].
  intros E. apply (f_equal timestamp) in E. discriminate E.
Qed.

(** [C9], amended: on a store in which the array of the request holds the
    tickets, two calls of [processTickets] one after the other, the second
    on the store that the first has left, leave every object that was in
    the store as it was (the array and the tickets among them: the calls
    write to the objects they create only), and either both throw the same
    exception or both return; the record of the first is the one that the
    tickets and the first reading of the clock determine, whatever else
    the store holds, it is not disturbed by the second call, and the record
    of the second is the same record with the second reading of the clock
    for [timestamp]. *)
Theorem C9_reads_only (Date_parse : string -> TimeValue) (now1 now2 : Z)
    (request : Memory.Request) (h : Memory.Heap) (tickets : list Ticket.t) :
  holds h (Memory.tickets request) tickets ->
  let first := Memory.processTickets Date_parse now1 request h in
  let second := Memory.processTickets Date_parse now2 request first.2 in
  unchanged h first.2 /\
  unchanged first.2 second.2 /\
  holds second.2 (Memory.tickets request) tickets /\
  ((exists m1 m2 r1,
      first.1 = Ok m1 /\ second.1 = Ok m2 /\
      processTickets Date_parse now1
        {| projectId := Memory.projectId request; tickets := tickets |} = Ok r1 /\
      timestamp r1 = toISOString now1 /\
      denotes first.2 m1 = Some r1 /\
      denotes second.2 m1 = Some r1 /\
      denotes second.2 m2 = Some (with_timestamp (toISOString now2) r1))
   \/ (exists e, first.1 = Throw e /\ second.1 = Throw e)).
Proof.
  intros H first second.
  destruct (ProcessFacts.processTickets_simulates Date_parse now1 request h tickets H)
    as [U1 R1].
  fold first in U1, R1.
  pose proof (MemoryFacts.holds_unchanged _ _ _ _ U1 H) as H1.
  destruct (ProcessFacts.processTickets_simulates Date_parse now2 request first.2 tickets H1)
    as [U2 R2].
  fold second in U2, R2.
  split; [exact U1|]. split; [exact U2|].
  split; [exact (MemoryFacts.holds_unchanged _ _ _ _ U2 H1)|].
  rewrite (ProcessFacts.processTickets_clock Date_parse now1 now2) in R2.
  destruct (processTickets Date_parse now1
              {| projectId := Memory.projectId request; tickets := tickets |})
    as [r1|e] eqn:E.
  - left. destruct R1 as (m1 & F1 & D1). cbn [fmap_result] in R2.
    destruct R2 as (m2 & F2 & D2).
    exists m1, m2, r1. split; [exact F1|]. split; [exact F2|]. split; [reflexivity|].
    split; [apply (processTickets_inv Date_parse now1 _ r1 E)|].
    split; [exact D1|].
    split; [exact (ProcessFacts.denotes_unchanged _ _ _ _ U2 D1)|exact D2].
  - right. exists e. split; [exact R1|exact R2].
Qed.

(** On a store with two tickets: the three maps are the objects 8, 9 and
    12 that the call has created, and the store has now twelve objects
    instead of four. *)
Example processTickets_on_two_tickets :
  (Memory.processTickets Date_parse_ISO 0 stored_request two_tickets).1
  = Ok {| Memory.metrics_projectId := "PROJ";
          Memory.timestamp := "1970-01-01T00:00:00.000Z";
          Memory.severityDistribution := 8%positive;
          Memory.averageResolutionTimes := 9%positive;
          Memory.slaCompliance := 12%positive;
          Memory.ticketCount := 2;
          Memory.openTickets := 1;
          Memory.resolvedTickets := 1 |} /\
  size (Memory.processTickets Date_parse_ISO 0 stored_request two_tickets).2 = 12%nat.
Proof. split; vm_compute; reflexivity. Qed.

Lemma C9_witness :
  holds two_tickets (Memory.tickets stored_request) [twelve_hours; urgent] /\
  unchanged two_tickets
    (Memory.processTickets Date_parse_ISO 1
       stored_request
       (Memory.processTickets Date_parse_ISO 0 stored_request two_tickets).2).2 /\
  holds (Memory.processTickets Date_parse_ISO 1
           stored_request
           (Memory.processTickets Date_parse_ISO 0 stored_request two_tickets).2).2
        (Memory.tickets stored_request) [twelve_hours; urgent].
Proof.
  assert (H : holds two_tickets (Memory.tickets stored_request) [twelve_hours; urgent]).
  { exists [2%positive; 3%positive]. split; [reflexivity|].
    repeat constructor. }
  split; [exact H|].
  destruct (C9_reads_only Date_parse_ISO 0 1 stored_request two_tickets
              [twelve_hours; urgent] H) as (U1 & U2 & H2 & _).
  split; [|exact H2].
  intros a c Ha. apply U2, U1, Ha.
Defined.

(** *** The store writer *)

(** [C2]: when the table exists and the store lets both requests through,
    two calls of [storeMetrics] with the same key [(projectId, timestamp)]
    both return, and the record returned by the second has the [ttl] of the
    record returned by the first (the value computed by the first call when
    the key was absent before), while its metric fields are those of the
    second call. *)
Theorem C2_expiration_written_once
    (env : option string) (now1 upd1 now2 upd2 : Z) (m1 m2 : Metrics)
    (c : Client) (table : gmap (string * string) Item) :
  tables c !! table_name env = Some table ->
  lets_through (outcomes c) ->
  lets_through (tail (outcomes c)) ->
  key_of m1 = key_of m2 ->
  exists r1 c1 r2 c2,
    storeMetrics env now1 upd1 m1 c = (Ok r1, c1) /\
    storeMetrics env now2 upd2 m2 c1 = (Ok r2, c2) /\
    r2 !! "ttl" = r1 !! "ttl" /\
    (table !! key_of m1 = None -> r1 !! "ttl" = Some (ANumber (one_year_ttl now1))) /\
    r2 !! "severityDistribution" = Some (AMap (severityDistribution m2)) /\
    r2 !! "averageResolutionTimes" = Some (AMap (averageResolutionTimes m2)) /\
    r2 !! "slaCompliance" = Some (AMap (slaCompliance m2)) /\
    r2 !! "ticketCount" = Some (ANumber (of_Z (ticketCount m2))) /\
    r2 !! "openTickets" = Some (ANumber (of_Z (openTickets m2))) /\
    r2 !! "resolvedTickets" = Some (ANumber (of_Z (resolvedTickets m2))) /\
    stored c2 (table_name env) (key_of m1) = Some r2.
Proof.
  intros Htab Ho1 Ho2 Hkey. unfold key_of in *.
  set (p1 := params_of env now1 upd1 m1).
  set (p2 := params_of env now2 upd2 m2).
  set (r1 := apply_actions (default (key_attributes (Key p1)) (table !! Key p1))
                           (UpdateExpression p1)).
  set (c1 := {| tables := <[TableName p1 := <[Key p1 := r1]> table]> (tables c);
                requests := (requests c ++ [p1])%list;
                outcomes := tail (outcomes c) |}).
  set (r2 := apply_actions r1 (UpdateExpression p2)).
  set (c2 := {| tables := <[TableName p2 := <[Key p2 := r2]> (<[Key p1 := r1]> table)]> (tables c1);
                requests := (requests c1 ++ [p2])%list;
                outcomes := tail (outcomes c1) |}).
  assert (HK : Key p2 = Key p1) by (cbn; symmetry; exact Hkey).
  assert (E1 : storeMetrics env now1 upd1 m1 c = (Ok r1, c1)).
  { unfold storeMetrics. fold p1. cbv zeta.
    rewrite (update_ok p1 c table Ho1 Htab). reflexivity. }
  assert (E2 : storeMetrics env now2 upd2 m2 c1 = (Ok r2, c2)).
  { unfold storeMetrics. fold p2. cbv zeta.
    assert (Htab1 : tables c1 !! TableName p2 = Some (<[Key p1 := r1]> table))
      by (cbn; apply lookup_insert_eq).
    rewrite (update_ok p2 c1 _ Ho2 Htab1).
    replace (default (key_attributes (Key p2)) (<[Key p1 := r1]> table !! Key p2)) with r1
      by (rewrite HK, lookup_insert_eq; reflexivity).
    reflexivity. }
  exists r1, c1, r2, c2. split; [exact E1|]. split; [exact E2|].
  split; [|split; [|repeat split]].
  - subst r2 p2. rewrite apply_actions_ttl. subst r1 p1. rewrite apply_actions_ttl. reflexivity.
  - intros Hnone. subst r1 p1. rewrite apply_actions_ttl.
    cbn [Key params_of]. rewrite Hnone. reflexivity.
  - subst r2 p2. unfold apply_actions, params_of; cbn [UpdateExpression fold_left fst snd operand_value].
    repeat (rewrite lookup_insert_ne by discriminate). apply lookup_insert_eq.
  - subst r2 p2. unfold apply_actions, params_of; cbn [UpdateExpression fold_left fst snd operand_value].
    repeat (rewrite lookup_insert_ne by discriminate). apply lookup_insert_eq.
  - subst r2 p2. unfold apply_actions, params_of; cbn [UpdateExpression fold_left fst snd operand_value].
    repeat (rewrite lookup_insert_ne by discriminate). apply lookup_insert_eq.
  - subst r2 p2. unfold apply_actions, params_of; cbn [UpdateExpression fold_left fst snd operand_value].
    repeat (rewrite lookup_insert_ne by discriminate). apply lookup_insert_eq.
  - subst r2 p2. unfold apply_actions, params_of; cbn [UpdateExpression fold_left fst snd operand_value].
    repeat (rewrite lookup_insert_ne by discriminate). apply lookup_insert_eq.
  - subst r2 p2. unfold apply_actions, params_of; cbn [UpdateExpression fold_left fst snd operand_value].
    repeat (rewrite lookup_insert_ne by discriminate). apply lookup_insert_eq.
  - unfold stored. subst c2. cbn [tables]. change (TableName p2) with (table_name env).
    rewrite lookup_insert_eq. cbn [mbind option_bind]. rewrite HK.
    change (Key p1) with (metrics_projectId m1, timestamp m1).
    rewrite lookup_insert_eq. reflexivity.
Qed.

Lemma C2_witness :
  tables empty_client !! table_name None = Some ∅ /\
  lets_through (outcomes empty_client) /\
  lets_through (tail (outcomes empty_client)) /\
  key_of sample_metrics = key_of other_metrics /\
  exists r1 c1 r2 c2,
    storeMetrics None 1000 1000 sample_metrics empty_client = (Ok r1, c1) /\
    storeMetrics None 5000 5000 other_metrics c1 = (Ok r2, c2) /\
    r2 !! "ttl" = r1 !! "ttl" /\
    r1 !! "ttl" = Some (ANumber (one_year_ttl 1000)).
Proof.
  assert (H1 : tables empty_client !! table_name None = Some (∅ : gmap (string * string) Item))
    by reflexivity.
  assert (H2 : lets_through (outcomes empty_client)) by (intros e H; discriminate H).
  assert (H3 : lets_through (tail (outcomes empty_client))) by (intros e H; discriminate H).
  assert (H4 : key_of sample_metrics = key_of other_metrics) by reflexivity.
  split; [exact H1|]. split; [exact H2|]. split; [exact H3|]. split; [exact H4|].
  destruct (C2_expiration_written_once None 1000 1000 5000 5000 sample_metrics other_metrics
              empty_client ∅ H1 H2 H3 H4)
    as (r1 & c1 & r2 & c2 & E1 & E2 & E3 & E4 & _).
  exists r1, c1, r2, c2. split; [exact E1|]. split; [exact E2|]. split; [exact E3|].
  apply E4. reflexivity.
Defined.

(** [C8], as stated, fails for the three named kinds: the error that the
    writer throws has no [code], so the caller no longer sees the kind of
    the store failure. *)
Lemma C8_counterexample :
  exists thrown c',
    storeMetrics None 1000 1000 sample_metrics (failing_client throttled)
    = (Throw thrown, c') /\
    code throttled = Some "ProvisionedThroughputExceededException" /\
    thrown = Error "DynamoDB write capacity exceeded. Please try again later." /\
    code thrown <> code throttled.
Proof. do 2 eexists. repeat split; try reflexivity. discriminate. Qed.

(** [C8], amended: the writer sends one request and never retries; when
    the store rejects it, the writer throws as well and leaves the tables
    as they were.  For the three named kinds it throws a new error whose
    message names the condition (with the table for a missing table, and
    the message of the store for a validation failure) and which no longer
    carries the code of the store error; every other error is thrown
    again unchanged. *)
Theorem C8_store_failures (env : option string) (now upd : Z) (m : Metrics) (c : Client) :
  requests (snd (storeMetrics env now upd m c))
  = (requests c ++ [params_of env now upd m])%list /\
  forall e c',
    update (params_of env now upd m) c = (Throw e, c') ->
    storeMetrics env now upd m c = (Throw (surfaced (table_name env) e), c') /\
    tables c' = tables c /\
    (named_kind e = true -> code (surfaced (table_name env) e) = None) /\
    (named_kind e = false -> surfaced (table_name env) e = e).
Proof.
  split.
  - pose proof (update_requests (params_of env now upd m) c) as H.
    unfold storeMetrics. cbv zeta.
    destruct (update (params_of env now upd m) c) as [[r|e] c']; cbn [snd] in *;
      [exact H|].
    destruct (code_is e "ResourceNotFoundException"); [exact H|].
    destruct (code_is e "ProvisionedThroughputExceededException"); [exact H|].
    destruct (code_is e "ValidationException"); exact H.
  - intros e c' Hu. split; [|split; [exact (update_failed _ _ _ _ Hu)|]].
    + unfold storeMetrics, surfaced. cbv zeta. rewrite Hu.
      change (TableName (params_of env now upd m)) with (table_name env).
      destruct (code_is e "ResourceNotFoundException"); [reflexivity|].
      destruct (code_is e "ProvisionedThroughputExceededException"); [reflexivity|].
      destruct (code_is e "ValidationException"); reflexivity.
    + unfold named_kind, surfaced.
      destruct (code_is e "ResourceNotFoundException"); [split; [reflexivity|discriminate]|].
      destruct (code_is e "ProvisionedThroughputExceededException");
        [split; [reflexivity|discriminate]|].
      destruct (code_is e "ValidationException"); split; try reflexivity; discriminate.
Qed.

Lemma C8_witness :
  exists c',
    update (params_of None 1000 1000 sample_metrics) (failing_client throttled)
    = (Throw throttled, c') /\
    storeMetrics None 1000 1000 sample_metrics (failing_client throttled)
    = (Throw (surfaced (table_name None) throttled), c') /\
    tables c' = tables (failing_client throttled).
Proof.
  eexists.
  assert (H : update (params_of None 1000 1000 sample_metrics) (failing_client throttled)
              = (Throw throttled,
                 {| tables := tables (failing_client throttled);
                    requests := [params_of None 1000 1000 sample_metrics];
                    outcomes := [] |})) by reflexivity.
  split; [exact H|].
  destruct (C8_store_failures None 1000 1000 sample_metrics (failing_client throttled))
    as (_ & Hfail).
  destruct (Hfail _ _ H) as (E1 & E2 & _).
  split; [exact E1|exact E2].
Defined.

(** ** Further properties *)

Import Handler HandlerSpec HandlerAux HandlerExamples ValidationFacts HandlerFacts.

(** *** Validation *)

(** [X1]: [validateRequest] answers [isValid: true] exactly for the events
    that have a non-empty string [projectId] and a non-empty array of
    tickets in which every ticket has a truthy [id] and a severity that is
    one of the four in lower case; the list of errors is then empty. *)
Theorem X1_validateRequest_accepts (event : Event) :
  (exists v, validateRequest event = Ok v /\ isValid v = true /\ errors v = [])
  <-> acceptable event = true.
Proof.
  destruct (validateRequest_cases event) as [[Hc (m & E)]|[Hc E]]; rewrite E; split.
  - intros (v & Hv & _). discriminate Hv.
  - intros Ha. rewrite (acceptable_no_crash event Ha) in Hc. discriminate Hc.
  - intros (v & Hv & Hvalid & _). injection Hv as <-. exact Hvalid.
  - intros Ha. eexists. split; [reflexivity|]. cbn [isValid errors].
    split; [exact Ha|]. apply event_errors_nil. exact Ha.
Qed.

(** [X2]: on the events of this model (an object whose tickets, when
    they are an array, are objects with scalar fields), [validateRequest]
    throws exactly when some ticket of the array has a boolean or a Number
    for severity, and what it throws is a TypeError: such a ticket is not
    reported in the list of errors.  A severity that is an array or an
    object, a ticket or an event that is [null] are not events of this
    model. *)
Theorem X2_validateRequest_throws (event : Event) :
  ((exists e, validateRequest event = Throw e) <-> crashes_validation event = true) /\
  (forall e, validateRequest event = Throw e -> exists m, e = TypeError m).
Proof.
  destruct (validateRequest_cases event) as [[Hc (m & E)]|[Hc E]]; rewrite E, Hc.
  - split; [split; [reflexivity|eauto]|].
    intros e He. injection He as <-. eauto.
  - split; [split; [intros (e & He); discriminate He|discriminate]|].
    intros e He. discriminate He.
Qed.

(** [X3]: when [validateRequest] returns, a ticket whose severity is
    missing (or falsy) is reported twice, as [severity is required] and as
    [severity must be one of: low, medium, high, critical], under its index
    in the array. *)
Theorem X3_missing_severity_reported_twice
    (event : Event) (v : Validation) (tickets : list Ticket.t) (index : nat)
    (t : Ticket.t) :
  validateRequest event = Ok v ->
  event_tickets event = Some tickets ->
  nth_error tickets index = Some t ->
  truthy (Ticket.severity t) = false ->
  isValid v = false /\
  In ("Ticket " +:+ pretty index +:+ ": severity is required") (errors v) /\
  In ("Ticket " +:+ pretty index
      +:+ ": severity must be one of: low, medium, high, critical") (errors v).
Proof.
  intros Hv Ht Hn Hs.
  assert (Hr : recognized t = false).
  { destruct (recognized t) eqn:Hr; [|reflexivity].
    rewrite (recognized_truthy t Hr) in Hs. discriminate Hs. }
  assert (Hin : forall message, In message (ticket_errors index t) ->
                                In message (errors v)).
  { intros message Hm.
    destruct (validateRequest_cases event) as [[_ (m & E)]|[_ E]]; rewrite E in Hv;
      [discriminate Hv|].
    injection Hv as <-. cbn [errors]. unfold event_errors. rewrite Ht.
    apply in_or_app. right.
    assert (Hall : In message (tickets_errors 0 tickets))
      by (apply (nth_error_tickets_errors tickets 0 index t); assumption).
    destruct tickets; [destruct index; discriminate Hn|exact Hall]. }
  split; [|split].
  - destruct (validateRequest_cases event) as [[_ (m & E)]|[_ E]]; rewrite E in Hv;
      [discriminate Hv|].
    injection Hv as <-. cbn [isValid].
    apply not_true_is_false. intros Ha. unfold acceptable in Ha. rewrite Ht in Ha.
    apply andb_prop in Ha. destruct Ha as [_ Ha].
    apply andb_prop in Ha. destruct Ha as [_ Ha].
    rewrite forallb_forall in Ha.
    specialize (Ha t (nth_error_In _ _ Hn)). rewrite Hr, andb_false_r in Ha.
    discriminate Ha.
  - apply Hin. unfold ticket_errors. rewrite Hs.
    apply in_or_app. right. left. reflexivity.
  - apply Hin. unfold ticket_errors. rewrite Hr.
    apply in_or_app. right. apply in_or_app. right. left. reflexivity.
Qed.

Lemma X3_witness :
  validateRequest (event [twelve_hours; no_severity])
  = Ok {| isValid := false;
          errors := ["Ticket 1: severity is required";
                     "Ticket 1: severity must be one of: low, medium, high, critical"] |} /\
  In "Ticket 1: severity is required"
     ["Ticket 1: severity is required";
      "Ticket 1: severity must be one of: low, medium, high, critical"].
Proof.
  assert (H1 : validateRequest (event [twelve_hours; no_severity])
               = Ok {| isValid := false;
                       errors := ["Ticket 1: severity is required";
                                  "Ticket 1: severity must be one of: low, medium, high, critical"] |})
    by (vm_compute; reflexivity).
  split; [exact H1|].
  exact (proj1 (proj2 (X3_missing_severity_reported_twice
                  (event [twelve_hours; no_severity]) _ [twelve_hours; no_severity]
                  1%nat no_severity H1 eq_refl eq_refl eq_refl))).
Defined.

(** *** The responses *)

(** [X4]: an event that validation rejects is answered with status 400
    and the non-empty list of errors, and nothing is sent to the store; an
    empty array of tickets is among these events. *)
Theorem X4_handler_rejects (Date_parse : string -> TimeValue) (env : Environment)
    (clock : nat -> Z) (random36 : string) (event : Event) (c : Client) :
  crashes_validation event = false ->
  acceptable event = false ->
  exists r errs,
    handler Date_parse env clock random36 event c = (r, c) /\
    statusCode r = 400 /\
    body r = InvalidRequest "Invalid request format" errs /\
    errs <> [] /\
    validateRequest event = Ok {| isValid := false; errors := errs |} /\
    (event_tickets event = Some [] -> In "tickets array cannot be empty" errs).
Proof.
  intros Hc Ha. eexists. exists (event_errors event).
  split; [apply handler_rejected; assumption|].
  split; [reflexivity|]. split; [reflexivity|]. split; [|split].
  - intros E. apply event_errors_nil in E. rewrite E in Ha. discriminate Ha.
  - destruct (validateRequest_cases event) as [[Hc' _]|[_ ->]].
    + rewrite Hc in Hc'. discriminate Hc'.
    + rewrite Ha. reflexivity.
  - intros E. unfold event_errors. rewrite E. apply in_or_app. right. left. reflexivity.
Qed.

Lemma X4_witness :
  crashes_validation (event []) = false /\
  acceptable (event []) = false /\
  exists r,
    handler Date_parse_ISO production ticking draw (event []) empty_client
    = (r, empty_client) /\
    statusCode r = 400 /\
    body r = InvalidRequest "Invalid request format" ["tickets array cannot be empty"].
Proof.
  split; [reflexivity|]. split; [reflexivity|].
  destruct (X4_handler_rejects Date_parse_ISO production ticking draw (event [])
              empty_client eq_refl eq_refl) as (r & errs & H1 & H2 & H3 & _ & H5 & _).
  exists r. split; [exact H1|]. split; [exact H2|]. rewrite H3.
  injection H5 as <-. reflexivity.
Defined.

(** [X5]: an event in which some ticket has a boolean or a Number for
    severity is answered with status 500, not 400, whatever else is wrong
    with it, and nothing is sent to the store. *)
Theorem X5_handler_scalar_severity (Date_parse : string -> TimeValue)
    (env : Environment) (clock : nat -> Z) (random36 : string) (event : Event)
    (c : Client) :
  crashes_validation event = true ->
  exists r,
    handler Date_parse env clock random36 event c = (r, c) /\
    statusCode r = 500 /\
    exists text, body r = Failed "Internal Server Error" text.
Proof.
  intros Hc.
  destruct (handler_crashed Date_parse env clock random36 event c Hc) as (m & ->).
  eexists. split; [reflexivity|]. split; [reflexivity|]. eexists. reflexivity.
Qed.

Lemma X5_witness :
  crashes_validation (event [numeric_severity]) = true /\
  exists r,
    handler Date_parse_ISO production ticking draw (event [numeric_severity]) empty_client
    = (r, empty_client) /\
    statusCode r = 500.
Proof.
  split; [reflexivity|].
  destruct (X5_handler_scalar_severity Date_parse_ISO production ticking draw
              (event [numeric_severity]) empty_client eq_refl) as (r & H1 & H2 & _).
  exists r. split; [exact H1|exact H2].
Defined.

(** [X6]: for an event that validation accepts, when the table exists and
    the store lets the request through, the handler answers 200; [data] is
    the item that the store now keeps under the project and the timestamp
    of the computation, it carries the metrics that [processTickets] has
    computed, [ticketsProcessed] is the number of tickets, and exactly one
    request was sent to the store. *)
Theorem X6_handler_stores (Date_parse : string -> TimeValue) (env : Environment)
    (clock : nat -> Z) (random36 : string) (event : Event) (c : Client)
    (table : gmap (string * string) Item) :
  acceptable event = true ->
  tables c !! table_name (DYNAMODB_TABLE env) = Some table ->
  lets_through (outcomes c) ->
  exists r c' request m data,
    handler Date_parse env clock random36 event c = (r, c') /\
    request_of event = Some request /\
    processTickets Date_parse (clock 1%nat) request = Ok m /\
    statusCode r = 200 /\
    body r = Processed "Analytics processed successfully" data
               (sub (of_Z (clock 4%nat)) (of_Z (clock 0%nat)))
               (Z.of_nat (length (tickets request))) /\
    stored c' (table_name (DYNAMODB_TABLE env))
           (projectId request, toISOString (clock 1%nat)) = Some data /\
    data !! "severityDistribution" = Some (AMap (severityDistribution m)) /\
    data !! "averageResolutionTimes" = Some (AMap (averageResolutionTimes m)) /\
    data !! "slaCompliance" = Some (AMap (slaCompliance m)) /\
    data !! "ticketCount" = Some (ANumber (of_Z (Z.of_nat (length (tickets request))))) /\
    data !! "updatedAt" = Some (AString (toISOString (clock 3%nat))) /\
    length (requests c') = S (length (requests c)).
Proof.
  intros Ha Ht Ho.
  destruct (handler_accepted Date_parse env clock random36 event c Ha)
    as (request & m & Hreq & _ & Hm & ->).
  rewrite (storeMetrics_ok _ _ _ m c table Ho Ht). cbv zeta.
  destruct (processTickets_inv Date_parse _ _ _ Hm) as (Hcount & _ & _ & Hts & Hp).
  eexists. eexists. exists request, m. eexists.
  split; [reflexivity|]. split; [exact Hreq|]. split; [exact Hm|].
  split; [reflexivity|]. split; [reflexivity|]. split; [|repeat split].
  - unfold stored. cbn [tables]. rewrite lookup_insert_eq. cbn [mbind option_bind].
    unfold key_of. rewrite Hts, Hp. apply lookup_insert_eq.
  - rewrite apply_actions_lookup. reflexivity.
  - rewrite apply_actions_lookup. reflexivity.
  - rewrite apply_actions_lookup. reflexivity.
  - rewrite apply_actions_lookup. cbn. rewrite Hcount. reflexivity.
  - rewrite apply_actions_lookup. reflexivity.
  - cbn [requests]. rewrite length_app. cbn. lia.
Qed.

Lemma X6_witness :
  acceptable (event [twelve_hours]) = true /\
  tables empty_client !! table_name (DYNAMODB_TABLE production) = Some ∅ /\
  lets_through (outcomes empty_client) /\
  exists r c' data,
    handler Date_parse_ISO production ticking draw (event [twelve_hours]) empty_client
    = (r, c') /\
    statusCode r = 200 /\
    stored c' "MetricsHistory" ("PROJ", "2024-01-01T00:00:00.001Z") = Some data /\
    data !! "ticketCount" = Some (ANumber (of_Z 1)).
Proof.
  assert (H1 : acceptable (event [twelve_hours]) = true) by reflexivity.
  assert (H2 : tables empty_client !! table_name (DYNAMODB_TABLE production)
               = Some (∅ : gmap (string * string) Item)) by reflexivity.
  assert (H3 : lets_through (outcomes empty_client)) by (intros e H; discriminate H).
  split; [exact H1|]. split; [exact H2|]. split; [exact H3|].
  destruct (X6_handler_stores Date_parse_ISO production ticking draw (event [twelve_hours])
              empty_client ∅ H1 H2 H3)
    as (r & c' & request & m & data & E1 & E2 & _ & E4 & _ & E6 & _ & _ & _ & E10 & _).
  injection E2 as <-.
  exists r, c', data. split; [exact E1|]. split; [exact E4|].
  split; [exact E6|exact E10].
Defined.

(** [X7]: for an event that validation accepts, when the store rejects
    the request, the handler answers 500 after that one request, and the
    tables are as they were; the text of the error is that of the error
    thrown by [storeMetrics] in development and a fixed text otherwise. *)
Theorem X7_handler_store_failure (Date_parse : string -> TimeValue)
    (env : Environment) (clock : nat -> Z) (random36 : string) (event : Event)
    (c : Client) (e : Exception) :
  acceptable event = true ->
  head (outcomes c) = Some (Some e) ->
  exists r c',
    handler Date_parse env clock random36 event c = (r, c') /\
    statusCode r = 500 /\
    tables c' = tables c /\
    length (requests c') = S (length (requests c)) /\
    body r = Failed "Internal Server Error"
               (if bool_decide (NODE_ENV env = Some "development")
                then message (surfaced (table_name (DYNAMODB_TABLE env)) e)
                else "An unexpected error occurred").
Proof.
  intros Ha Ho.
  destruct (handler_accepted Date_parse env clock random36 event c Ha)
    as (request & m & _ & _ & _ & ->).
  rewrite (storeMetrics_rejected _ _ _ m c e Ho).
  eexists. eexists. split; [reflexivity|]. split; [reflexivity|].
  split; [reflexivity|]. split; [cbn [requests]; rewrite length_app; cbn; lia|].
  unfold internal_error. cbn [body]. f_equal.
  destruct (NODE_ENV env) as [mode|].
  - destruct (String.eqb_spec mode "development") as [->|Hne].
    + rewrite bool_decide_eq_true_2 by reflexivity. reflexivity.
    + rewrite bool_decide_eq_false_2 by congruence. reflexivity.
  - rewrite bool_decide_eq_false_2 by discriminate. reflexivity.
Qed.

Lemma X7_witness :
  acceptable (event [twelve_hours]) = true /\
  head (outcomes (failing_client throttled)) = Some (Some throttled) /\
  exists r c',
    handler Date_parse_ISO production ticking draw (event [twelve_hours])
            (failing_client throttled) = (r, c') /\
    statusCode r = 500 /\
    tables c' = tables (failing_client throttled) /\
    body r = Failed "Internal Server Error" "An unexpected error occurred".
Proof.
  split; [reflexivity|]. split; [reflexivity|].
  destruct (X7_handler_store_failure Date_parse_ISO production ticking draw
              (event [twelve_hours]) (failing_client throttled) throttled
              eq_refl eq_refl) as (r & c' & E1 & E2 & E3 & _ & E5).
  exists r, c'. split; [exact E1|]. split; [exact E2|]. split; [exact E3|exact E5].
Defined.

(** [X8]: outside development, a response 500 never carries the message
    of the error: whatever the event and the state of the store, its body
    is the same fixed pair of texts. *)
Theorem X8_handler_hides_errors (Date_parse : string -> TimeValue)
    (env : Environment) (clock : nat -> Z) (random36 : string) (event : Event)
    (c : Client) :
  NODE_ENV env <> Some "development" ->
  statusCode (handler Date_parse env clock random36 event c).1 = 500 ->
  body (handler Date_parse env clock random36 event c).1
  = Failed "Internal Server Error" "An unexpected error occurred".
Proof.
  intros Hdev.
  assert (Herr : forall requestId error,
            body (internal_error env requestId error)
            = Failed "Internal Server Error" "An unexpected error occurred").
  { intros requestId error. unfold internal_error. cbn [body]. f_equal.
    destruct (NODE_ENV env) as [mode|]; [|reflexivity].
    destruct (String.eqb_spec mode "development") as [->|]; [|reflexivity].
    contradiction Hdev. reflexivity. }
  unfold handler. cbv zeta.
  destruct (validateRequest event) as [v|error]; [|intros _; apply Herr].
  destruct (negb (isValid v)); [cbn; discriminate|].
  destruct (request_of event) as [request|]; [|intros _; apply Herr].
  destruct (processTickets Date_parse (clock 1%nat) request) as [m|error];
    [|intros _; apply Herr].
  destruct (storeMetrics (DYNAMODB_TABLE env) (clock 2%nat) (clock 3%nat) m c)
    as [[data|error] c']; [cbn; discriminate|intros _; apply Herr].
Qed.

Lemma X8_witness :
  NODE_ENV production <> Some "development" /\
  body (handler Date_parse_ISO production ticking draw (event [numeric_severity])
                empty_client).1
  = Failed "Internal Server Error" "An unexpected error occurred".
Proof.
  assert (H1 : NODE_ENV production <> Some "development") by discriminate.
  split; [exact H1|].
  exact (X8_handler_hides_errors Date_parse_ISO production ticking draw
           (event [numeric_severity]) empty_client H1 eq_refl).
Defined.

(** [X9]: on the tickets of an event that validation accepts (fewer than
    [2^32], as in an array), [processTickets] returns, each of its three
    maps has exactly the four keys [low], [medium], [high] and [critical],
    and every value of [severityDistribution] and of [slaCompliance] is
    between 0 and 100. *)
Theorem X9_accepted_metrics (Date_parse : string -> TimeValue) (now : Z)
    (event : Event) :
  acceptable event = true ->
  (forall tickets, event_tickets event = Some tickets ->
                   Z.of_nat (length tickets) < 2 ^ 32) ->
  exists request m,
    request_of event = Some request /\
    processTickets Date_parse now request = Ok m /\
    keys (severityDistribution m) = canonical /\
    keys (averageResolutionTimes m) = canonical /\
    keys (slaCompliance m) = canonical /\
    forall key, In key canonical ->
      between_0_100 (to_number (get (severityDistribution m) key)) = true /\
      between_0_100 (to_number (get (slaCompliance m) key)) = true.
Proof.
  intros Ha Hlen.
  destruct (acceptable_request event Ha) as (request & Hreq & _ & Ht & _ & Hrec).
  pose proof (recognized_all_well_formed _ Hrec) as Hwf.
  destruct (processTickets_canonical_keys Date_parse now request Hwf
              (recognized_not_constructor _ Hrec)) as (m & Hm & K1 & K2 & K3).
  exists request, m. split; [exact Hreq|]. split; [exact Hm|].
  split; [exact K1|]. split; [exact K2|]. split; [exact K3|].
  intros key Hkey.
  destruct (processTickets_fields Date_parse now request m Hm) as (F1 & _ & F3).
  destruct (canonical_distribution_between (tickets request) key Hwf (Hlen _ Ht) Hkey)
    as (d & Hd & Bd).
  destruct (canonical_sla_between Date_parse (tickets request) key Hwf (Hlen _ Ht) Hkey)
    as (s & Hs & Bs).
  rewrite F1 in Hd. injection Hd as <-. rewrite F3 in Hs. injection Hs as <-.
  split; assumption.
Qed.

Lemma X9_witness :
  acceptable (event [twelve_hours]) = true /\
  exists m,
    processTickets Date_parse_ISO 0 (request [twelve_hours]) = Ok m /\
    keys (severityDistribution m) = canonical /\
    between_0_100 (to_number (get (slaCompliance m) "high")) = true.
Proof.
  assert (H1 : acceptable (event [twelve_hours]) = true) by reflexivity.
  assert (H2 : forall tickets, event_tickets (event [twelve_hours]) = Some tickets ->
                               Z.of_nat (length tickets) < 2 ^ 32)
    by (intros tickets E; injection E as <-; reflexivity).
  split; [exact H1|].
  destruct (X9_accepted_metrics Date_parse_ISO 0 (event [twelve_hours]) H1 H2)
    as (request & m & E1 & E2 & E3 & _ & _ & E6).
  injection E1 as <-. exists m. split; [exact E2|]. split; [exact E3|].
  apply (E6 "high"). cbn. tauto.
Defined.

(** *** The store writer *)

Import PersistSpec PersistFacts.

(** [X10]: when the table exists and the store lets the request through,
    [storeMetrics] merges into the item of its key: the item returned is
    the one the table now holds under that key, every attribute other than
    the eight that the update sets is as it was in the item before, a new
    item gets the two attributes of its key, and no other item of any
    table changes. *)
Theorem X10_storeMetrics_merges (env : option string) (now upd : Z) (m : Metrics)
    (c : Client) (table : gmap (string * string) Item) :
  tables c !! table_name env = Some table ->
  lets_through (outcomes c) ->
  exists data c',
    storeMetrics env now upd m c = (Ok data, c') /\
    stored c' (table_name env) (key_of m) = Some data /\
    (forall old a, table !! key_of m = Some old -> ~ In a set_attributes ->
                   data !! a = old !! a) /\
    (table !! key_of m = None ->
     data !! "projectId" = Some (AString (metrics_projectId m)) /\
     data !! "timestamp" = Some (AString (timestamp m)) /\
     forall a, data !! a <> None ->
               a = "projectId" \/ a = "timestamp" \/ In a set_attributes) /\
    (forall name key, (name, key) <> (table_name env, key_of m) ->
                      stored c' name key = stored c name key).
Proof.
  intros Ht Ho. rewrite (storeMetrics_ok env now upd m c table Ho Ht). cbv zeta.
  eexists. eexists. split; [reflexivity|]. split; [|split; [|split]].
  - unfold stored. cbn [tables]. rewrite lookup_insert_eq. cbn [mbind option_bind].
    apply lookup_insert_eq.
  - intros old a Hold Hin. rewrite Hold. cbn [default]. rewrite apply_actions_lookup.
    unfold set_attributes in Hin. cbn [In] in Hin.
    repeat match goal with
    | |- context [String.eqb a ?k] =>
        destruct (String.eqb_spec a k) as [->|]; [exfalso; apply Hin; tauto|]
    end.
    reflexivity.
  - intros Hnone. rewrite Hnone. cbn [default].
    split; [rewrite apply_actions_lookup; reflexivity|].
    split; [rewrite apply_actions_lookup; reflexivity|].
    intros a. rewrite apply_actions_lookup. unfold set_attributes. cbn [In].
    repeat match goal with
    | |- context [String.eqb a ?k] =>
        destruct (String.eqb_spec a k) as [->|]; [intros _; tauto|]
    end.
    unfold key_attributes. cbn [fst snd key_of].
    destruct (String.eqb_spec a "projectId") as [->|Hp]; [tauto|].
    destruct (String.eqb_spec a "timestamp") as [->|Hts]; [tauto|].
    rewrite lookup_insert_ne by congruence.
    rewrite lookup_insert_ne by congruence.
    rewrite lookup_empty. congruence.
  - intros name key Hne. unfold stored. cbn [tables].
    destruct (String.eqb_spec name (table_name env)) as [->|Hname].
    + rewrite lookup_insert_eq, Ht. cbn [mbind option_bind].
      apply lookup_insert_ne. congruence.
    + rewrite lookup_insert_ne by congruence. reflexivity.
Qed.

Lemma X10_witness :
  tables empty_client !! table_name None = Some ∅ /\
  lets_through (outcomes empty_client) /\
  exists data c',
    storeMetrics None 1000 2000 sample_metrics empty_client = (Ok data, c') /\
    stored c' "MetricsHistory" (key_of sample_metrics) = Some data /\
    data !! "projectId" = Some (AString "PROJ").
Proof.
  assert (H1 : tables empty_client !! table_name None
               = Some (∅ : gmap (string * string) Item)) by reflexivity.
  assert (H2 : lets_through (outcomes empty_client)) by (intros e H; discriminate H).
  split; [exact H1|]. split; [exact H2|].
  destruct (X10_storeMetrics_merges None 1000 2000 sample_metrics empty_client ∅ H1 H2)
    as (data & c' & E1 & E2 & _ & E4 & _).
  exists data, c'. split; [exact E1|]. split; [exact E2|].
  apply E4. reflexivity.
Defined.

(** [X11]: after a first [storeMetrics] on a key that the table did not
    hold, any number of further calls for the same key, whatever their
    metrics and their clock readings, all return an item whose [ttl] is the
    one computed by the first call, as long as the store rejects none of
    them. *)
Theorem X11_expiration_never_reset (env : option string) (now upd : Z) (m : Metrics)
    (calls : list (Z * Z * Metrics)) (c : Client)
    (table : gmap (string * string) Item) :
  tables c !! table_name env = Some table ->
  table !! key_of m = None ->
  never_rejects c ->
  Forall (fun call => key_of call.2 = key_of m) calls ->
  exists items c',
    persist_all env ((now, upd, m) :: calls) c = (map Ok items, c') /\
    Forall (fun item => item !! "ttl" = Some (ANumber (one_year_ttl now))) items /\
    length items = S (length calls).
Proof.
  intros Ht Hk Hn Hc. cbn [persist_all].
  rewrite (storeMetrics_ok env now upd m c table (never_rejects_lets_through c Hn) Ht).
  cbv zeta. rewrite Hk. cbn [default].
  change (Datatypes.id (key_attributes (key_of m))) with (key_attributes (key_of m)).
  set (new := apply_actions (key_attributes (key_of m))
                            (UpdateExpression (params_of env now upd m))).
  assert (Hnew : new !! "ttl" = Some (ANumber (one_year_ttl now))).
  { subst new. rewrite apply_actions_ttl. reflexivity. }
  cbv beta iota.
  destruct (persist_all_ttl env calls
              {| tables := <[table_name env := <[key_of m := new]> table]> (tables c);
                 requests := (requests c ++ [params_of env now upd m])%list;
                 outcomes := tail (outcomes c) |}
              (<[key_of m := new]> table) new (key_of m) (ANumber (one_year_ttl now)))
    as (items & c' & E & Hall & Hlen).
  - cbn [tables]. apply lookup_insert_eq.
  - apply lookup_insert_eq.
  - exact Hnew.
  - apply never_rejects_tail. exact Hn.
  - exact Hc.
  - rewrite E. exists (new :: items), c'. split; [reflexivity|].
    split; [constructor; assumption|]. cbn. rewrite Hlen. reflexivity.
Qed.

Lemma X11_witness :
  tables empty_client !! table_name None = Some ∅ /\
  (∅ : gmap (string * string) Item) !! key_of sample_metrics = None /\
  never_rejects empty_client /\
  Forall (fun call => key_of call.2 = key_of sample_metrics)
         [(5000, 5000, other_metrics); (9000, 9000, sample_metrics)] /\
  exists items c',
    persist_all None [(1000, 1000, sample_metrics); (5000, 5000, other_metrics);
                      (9000, 9000, sample_metrics)] empty_client
    = (map Ok items, c') /\
    Forall (fun item => item !! "ttl" = Some (ANumber (one_year_ttl 1000))) items /\
    length items = 3%nat.
Proof.
  assert (H1 : tables empty_client !! table_name None
               = Some (∅ : gmap (string * string) Item)) by reflexivity.
  assert (H2 : (∅ : gmap (string * string) Item) !! key_of sample_metrics = None)
    by reflexivity.
  assert (H3 : never_rejects empty_client) by constructor.
  assert (H4 : Forall (fun call => key_of call.2 = key_of sample_metrics)
                      [(5000, 5000, other_metrics); (9000, 9000, sample_metrics)])
    by (repeat constructor).
  split; [exact H1|]. split; [exact H2|]. split; [exact H3|]. split; [exact H4|].
  exact (X11_expiration_never_reset None 1000 1000 sample_metrics _ empty_client ∅
           H1 H2 H3 H4).
Defined.

(** [X12]: when the table that [storeMetrics] writes to does not exist,
    the call throws an [Error] whose message names that table,
    [DynamoDB table '<name>' not found], and no table is created; the name
    is [MetricsHistory] when the variable [DYNAMODB_TABLE] is unset or
    empty. *)
Theorem X12_storeMetrics_missing_table (env : option string) (now upd : Z)
    (m : Metrics) (c : Client) :
  tables c !! table_name env = None ->
  lets_through (outcomes c) ->
  exists c',
    storeMetrics env now upd m c
    = (Throw (Error ("DynamoDB table '" +:+ table_name env +:+ "' not found")), c') /\
    tables c' = tables c /\
    (env = None \/ env = Some EmptyString -> table_name env = "MetricsHistory").
Proof.
  intros Ht Ho. rewrite (storeMetrics_no_table env now upd m c Ho Ht).
  eexists. split; [reflexivity|]. split; [reflexivity|].
  intros [->| ->]; reflexivity.
Qed.

Lemma X12_witness :
  tables {| tables := ∅; requests := []; outcomes := [] |} !! table_name None = None /\
  exists c',
    storeMetrics None 1000 1000 sample_metrics
                 {| tables := ∅; requests := []; outcomes := [] |}
    = (Throw (Error "DynamoDB table 'MetricsHistory' not found"), c') /\
    tables c' = ∅.
Proof.
  assert (H1 : tables {| tables := ∅; requests := []; outcomes := [] |} !! table_name None
               = None) by reflexivity.
  assert (H2 : lets_through (outcomes {| tables := ∅; requests := []; outcomes := [] |}))
    by (intros e H; discriminate H).
  split; [exact H1|].
  destruct (X12_storeMetrics_missing_table None 1000 1000 sample_metrics
              {| tables := ∅; requests := []; outcomes := [] |} H1 H2)
    as (c' & E1 & E2 & _).
  exists c'. split; [exact E1|exact E2].
Defined.

(** *** The batch of tickets *)

Import BatchFacts BatchExamples.

(** [X13]: the letter case of the severities does not matter to any
    metric: two batches whose tickets are the same once the severities are
    put in lower case give the same outcome of [processTickets]. *)
Theorem X13_severity_case_irrelevant (Date_parse : string -> TimeValue) (now : Z)
    (projectId : string) (tickets tickets' : list Ticket.t) :
  map lower_severity tickets = map lower_severity tickets' ->
  processTickets Date_parse now {| projectId := projectId; tickets := tickets |}
  = processTickets Date_parse now {| projectId := projectId; tickets := tickets' |}.
Proof.
  intros H.
  rewrite <- (processTickets_lower Date_parse now projectId tickets), H.
  apply processTickets_lower.
Qed.

Lemma X13_witness :
  map lower_severity [shouted; urgent] = map lower_severity [twelve_hours; urgent] /\
  processTickets Date_parse_ISO 0 {| projectId := "PROJ"; tickets := [shouted; urgent] |}
  = processTickets Date_parse_ISO 0
      {| projectId := "PROJ"; tickets := [twelve_hours; urgent] |}.
Proof.
  assert (H : map lower_severity [shouted; urgent]
              = map lower_severity [twelve_hours; urgent]) by reflexivity.
  split; [exact H|].
  exact (X13_severity_case_irrelevant Date_parse_ISO 0 "PROJ" _ _ H).
Defined.

(** [X14]: the order of the tickets does not matter to the severity
    distribution nor to the SLA compliance: on well-formed tickets (fewer
    than [2^32]), any reordering of the batch gives the same two maps. *)
Theorem X14_ticket_order_irrelevant (Date_parse : string -> TimeValue)
    (tickets tickets' : list Ticket.t) :
  Permutation tickets tickets' ->
  Forall well_formed tickets ->
  Z.of_nat (length tickets) < 2 ^ 32 ->
  calculateSeverityDistribution tickets' = calculateSeverityDistribution tickets /\
  calculateSLACompliance Date_parse tickets' = calculateSLACompliance Date_parse tickets.
Proof.
  intros H Hwf Hlen.
  assert (Hlen' : Z.of_nat (length tickets) < 2 ^ 53)
    by (pose proof pow_32_53; lia).
  split.
  - apply calculateSeverityDistribution_Permutation; assumption.
  - apply calculateSLACompliance_Permutation; assumption.
Qed.

Lemma X14_witness :
  Permutation [twelve_hours; urgent; garbled_date] [garbled_date; twelve_hours; urgent] /\
  Forall well_formed [twelve_hours; urgent; garbled_date] /\
  Z.of_nat (length [twelve_hours; urgent; garbled_date]) < 2 ^ 32 /\
  calculateSLACompliance Date_parse_ISO [garbled_date; twelve_hours; urgent]
  = calculateSLACompliance Date_parse_ISO [twelve_hours; urgent; garbled_date].
Proof.
  assert (H1 : Permutation [twelve_hours; urgent; garbled_date]
                           [garbled_date; twelve_hours; urgent]).
  { apply Permutation_sym. apply (Permutation_cons_app [twelve_hours; urgent] []).
    rewrite app_nil_r. apply Permutation_refl. }
  assert (H2 : Forall well_formed [twelve_hours; urgent; garbled_date])
    by (repeat (apply List.Forall_cons; [exact I|]); apply List.Forall_nil).
  assert (H3 : Z.of_nat (length [twelve_hours; urgent; garbled_date]) < 2 ^ 32)
    by reflexivity.
  split; [exact H1|]. split; [exact H2|]. split; [exact H3|].
  exact (proj2 (X14_ticket_order_irrelevant Date_parse_ISO _ _ H1 H2 H3)).
Defined.

(** [X15]: a ticket that lacks one of its two dates is ignored by the
    average resolution times and by the SLA compliance: both functions
    give the same outcome as on the tickets that have both dates, whatever
    the severities are (the severity of a ticket is read only once its two
    dates are found); with no such ticket, both maps are the four zeros. *)
Theorem X15_tickets_without_dates_ignored (Date_parse : string -> TimeValue)
    (tickets : list Ticket.t) :
  calculateResolutionTimes Date_parse tickets
  = calculateResolutionTimes Date_parse (List.filter has_both_dates tickets) /\
  calculateSLACompliance Date_parse tickets
  = calculateSLACompliance Date_parse (List.filter has_both_dates tickets) /\
  (existsb has_both_dates tickets = false ->
   calculateResolutionTimes Date_parse tickets = Ok zeros /\
   calculateSLACompliance Date_parse tickets = Ok zeros).
Proof.
  split; [apply calculateResolutionTimes_filter|].
  split; [apply calculateSLACompliance_filter|].
  intros H. split.
  - apply calculateResolutionTimes_no_dates. exact H.
  - apply calculateSLACompliance_no_dates. exact H.
Qed.

Lemma X15_witness :
  existsb has_both_dates [missing_date; numeric_severity] = false /\
  calculateResolutionTimes Date_parse_ISO [missing_date; numeric_severity] = Ok zeros /\
  calculateSLACompliance Date_parse_ISO [missing_date; numeric_severity] = Ok zeros.
Proof.
  assert (H : existsb has_both_dates [missing_date; numeric_severity] = false)
    by reflexivity.
  split; [exact H|].
  exact (proj2 (proj2 (X15_tickets_without_dates_ignored Date_parse_ISO
                         [missing_date; numeric_severity])) H).
Defined.

(** [X16]: [constructor] is the only severity that adds a key: on
    well-formed tickets none of which has a severity that reads
    [constructor] in lower case, [processTickets] returns, each of the
    three maps has exactly the keys [low], [medium], [high] and
    [critical], and [ticketCount] counts every ticket. *)
Theorem X16_only_constructor_adds_a_key (Date_parse : string -> TimeValue) (now : Z)
    (request : Request) :
  Forall well_formed (tickets request) ->
  existsb (has_severity "constructor") (tickets request) = false ->
  exists m,
    processTickets Date_parse now request = Ok m /\
    keys (severityDistribution m) = canonical /\
    keys (averageResolutionTimes m) = canonical /\
    keys (slaCompliance m) = canonical /\
    ticketCount m = Z.of_nat (length (tickets request)).
Proof.
  intros Hwf Hno.
  assert (Hno' : existsb (in_bucket "constructor") (tickets request) = false).
  { transitivity (existsb (has_severity "constructor") (tickets request)); [|exact Hno].
    clear. induction (tickets request) as [|t rest IH]; [reflexivity|].
    cbn [existsb]. rewrite in_bucket_constructor, IH. reflexivity. }
  destruct (processTickets_canonical_keys Date_parse now request Hwf Hno')
    as (m & Hm & K1 & K2 & K3).
  exists m. split; [exact Hm|]. split; [exact K1|]. split; [exact K2|].
  split; [exact K3|].
  apply (processTickets_inv Date_parse now request m Hm).
Qed.

Lemma X16_witness :
  Forall well_formed [twelve_hours; urgent; no_severity] /\
  existsb (has_severity "constructor") [twelve_hours; urgent; no_severity] = false /\
  exists m,
    processTickets Date_parse_ISO 0 (request [twelve_hours; urgent; no_severity]) = Ok m /\
    keys (severityDistribution m) = canonical /\
    ticketCount m = 3.
Proof.
  assert (H1 : Forall well_formed [twelve_hours; urgent; no_severity])
    by (repeat (apply List.Forall_cons; [exact I|]); apply List.Forall_nil).
  assert (H2 : existsb (has_severity "constructor") [twelve_hours; urgent; no_severity]
               = false) by reflexivity.
  split; [exact H1|]. split; [exact H2|].
  destruct (X16_only_constructor_adds_a_key Date_parse_ISO 0
              (request [twelve_hours; urgent; no_severity]) H1 H2)
    as (m & E1 & E2 & _ & _ & E5).
  exists m. split; [exact E1|]. split; [exact E2|exact E5].
Defined.

(** *** Deadlines *)

Import ExactFacts DeadlineFacts FarDatesFacts DeadlineExamples.

(** [X17]: the SLA test is exact to the millisecond.  For a ticket whose
    two dates are valid (time values, at most 8.64e15 in magnitude), the
    subtraction, the division by 3600000 and the comparison on Numbers
    decide exactly whether the elapsed milliseconds are at most the target
    in hours times 3600000: the target itself is compliant, one
    millisecond more is not, and a ticket resolved before its creation is
    compliant. *)
Theorem X17_sla_exact_to_the_millisecond (Date_parse : string -> TimeValue)
    (key : string) (t : Ticket.t) (created resolved : Z) :
  In key canonical ->
  new_Date Date_parse (Ticket.createdDate t) = Some created ->
  new_Date Date_parse (Ticket.resolvedDate t) = Some resolved ->
  Z.abs created <= 8640000000000000 ->
  Z.abs resolved <= 8640000000000000 ->
  compliant Date_parse key t
  = qualifies key t && (resolved - created <=? sla_target key * 3600000).
Proof.
  intros Hkey Hc Hr Bc Br. unfold compliant, hoursToResolve. cbv zeta.
  rewrite Hc, Hr. cbn [valueOf]. change (1000 * 60 * 60) with 3600000.
  assert (H53 : 8640000000000000 < 2 ^ 53) by reflexivity.
  rewrite (hours_leb_any resolved created _ (sla_target_canonical key Hkey))
    by lia.
  reflexivity.
Qed.

Lemma X17_witness :
  compliant Date_parse_ISO "critical" one_millisecond_late = false /\
  compliant Date_parse_ISO "critical" resolved_before_created = true.
Proof.
  assert (Hkey : In "critical" canonical) by (cbn; tauto).
  split.
  - rewrite (X17_sla_exact_to_the_millisecond Date_parse_ISO "critical"
               one_millisecond_late 1704067200000 1704081600001 Hkey
               eq_refl eq_refl ltac:(discriminate) ltac:(discriminate)).
    reflexivity.
  - rewrite (X17_sla_exact_to_the_millisecond Date_parse_ISO "critical"
               resolved_before_created 1704153600000 1704067200000 Hkey
               eq_refl eq_refl ltac:(discriminate) ltac:(discriminate)).
    reflexivity.
Defined.

(** *** The expiration *)

Import FloorFacts.

(** [X18]: the expiration that [storeMetrics] computes is exact: for a
    clock reading [now] in milliseconds (from the epoch to the year 73000,
    [0 <= now < 2^51]), [Math.floor(now / 1000) + 365 * 24 * 60 * 60] on
    Numbers is the integer [now / 1000 + 31536000], 365 days in
    seconds after the second of the reading; a first write stores that
    value under [ttl]. *)
Theorem X18_expiration_is_one_year (env : option string) (now upd : Z) (m : Metrics)
    (c : Client) (table : gmap (string * string) Item) :
  0 <= now < 2 ^ 51 ->
  tables c !! table_name env = Some table ->
  table !! key_of m = None ->
  lets_through (outcomes c) ->
  one_year_ttl now = of_Z (now / 1000 + 31536000) /\
  exists data c',
    storeMetrics env now upd m c = (Ok data, c') /\
    data !! "ttl" = Some (ANumber (of_Z (now / 1000 + 31536000))).
Proof.
  intros Hnow Ht Hk Ho. split; [apply one_year_ttl_exact; exact Hnow|].
  rewrite (storeMetrics_ok env now upd m c table Ho Ht). cbv zeta.
  eexists. eexists. split; [reflexivity|].
  rewrite apply_actions_ttl, Hk. cbn [default]. unfold key_attributes.
  rewrite lookup_insert_ne by discriminate.
  rewrite lookup_insert_ne by discriminate.
  rewrite lookup_empty. cbn. rewrite one_year_ttl_exact by exact Hnow. reflexivity.
Qed.

Lemma X18_witness :
  0 <= 1704067200123 < 2 ^ 51 /\
  one_year_ttl 1704067200123 = of_Z 1735603200 /\
  exists data c',
    storeMetrics None 1704067200123 1704067200124 sample_metrics empty_client
    = (Ok data, c') /\
    data !! "ttl" = Some (ANumber (of_Z 1735603200)).
Proof.
  assert (H1 : 0 <= 1704067200123 < 2 ^ 51) by (split; [discriminate|reflexivity]).
  assert (H2 : tables empty_client !! table_name None
               = Some (∅ : gmap (string * string) Item)) by reflexivity.
  assert (H3 : (∅ : gmap (string * string) Item) !! key_of sample_metrics = None)
    by reflexivity.
  assert (H4 : lets_through (outcomes empty_client)) by (intros e H; discriminate H).
  split; [exact H1|].
  exact (X18_expiration_is_one_year None 1704067200123 1704067200124 sample_metrics
           empty_client ∅ H1 H2 H3 H4).
Defined.

(** *** Totality and end points *)

Import TotalityFacts.

(** [X19]: [processTickets] returns exactly when no ticket has a boolean
    or a Number for severity; otherwise what it throws is a TypeError,
    from the first loop, which reads the severity of every ticket. *)
Theorem X19_processTickets_returns_iff (Date_parse : string -> TimeValue) (now : Z)
    (request : Request) :
  ((exists m, processTickets Date_parse now request = Ok m)
   <-> existsb scalar_severity (tickets request) = false) /\
  (forall e, processTickets Date_parse now request = Throw e ->
             exists text, e = TypeError text).
Proof.
  destruct (existsb scalar_severity (tickets request)) eqn:H.
  - destruct (calculateSeverityDistribution_throws _ H) as (text & E).
    assert (E' : processTickets Date_parse now request = Throw (TypeError text))
      by (unfold processTickets; rewrite E; reflexivity).
    rewrite E'. split.
    + split; [intros (m & Hm); discriminate Hm|discriminate].
    + intros e He. injection He as <-. exists text. reflexivity.
  - destruct (processTickets_returns Date_parse now request (no_scalar_well_formed _ H))
      as (m & ->).
    split.
    + split; [reflexivity|intros _; exists m; reflexivity].
    + intros e He. discriminate He.
Qed.

(** [X20]: the end points are exact.  On well-formed tickets (fewer than
    [2^32]), a severity that every ticket of the batch has gets exactly
    100 in the distribution and a severity that no ticket has gets exactly
    0; a severity all of whose qualifying tickets are compliant gets
    exactly 100 in the SLA compliance, and one with no compliant ticket
    gets exactly 0. *)
Theorem X20_end_points_exact (Date_parse : string -> TimeValue)
    (tickets : list Ticket.t) (key : string) :
  Forall well_formed tickets ->
  Z.of_nat (length tickets) < 2 ^ 32 ->
  In key canonical ->
  exists distribution sla,
    calculateSeverityDistribution tickets = Ok distribution /\
    calculateSLACompliance Date_parse tickets = Ok sla /\
    (tickets <> [] ->
     count (has_severity key) tickets = Z.of_nat (length tickets) ->
     get distribution key = Some (PNum (of_Z 100))) /\
    (count (has_severity key) tickets = 0 ->
     get distribution key = Some (PNum zero)) /\
    (0 < count (qualifies key) tickets ->
     count (compliant Date_parse key) tickets = count (qualifies key) tickets ->
     get sla key = Some (PNum (of_Z 100))) /\
    (count (compliant Date_parse key) tickets = 0 ->
     get sla key = Some (PNum zero)).
Proof.
  intros Hwf Hlen Hkey.
  destruct (severity_distribution_nearest tickets Hwf Hlen) as (d & Hd & Hk).
  destruct (Hk key Hkey) as (n & Gn & Nn & N0 & _).
  destruct (sla_compliance_nearest Date_parse tickets key Hwf Hlen Hkey)
    as (sla & n' & Hs & Gn' & Nn' & N0' & _).
  exists d, sla. split; [exact Hd|]. split; [exact Hs|].
  assert (Hlen0 : tickets <> [] -> 0 < Z.of_nat (length tickets))
    by (intros Hne; destruct tickets; [contradiction|cbn; lia]).
  split; [|split; [|split]].
  - intros Hne Hall. rewrite Hall in Nn.
    rewrite Gn, (nearest_tenths_all n _ (Hlen0 Hne) Nn), one_decimal_100. reflexivity.
  - intros Hnone. rewrite Gn. destruct tickets as [|t rest].
    + rewrite (N0 eq_refl). reflexivity.
    + rewrite Hnone in Nn.
      assert (Hpos : 0 < Z.of_nat (length (t :: rest))) by (cbn; lia).
      rewrite (nearest_tenths_none n _ Hpos Nn). reflexivity.
  - intros Hq Hall. rewrite Hall in Nn'.
    rewrite Gn', (nearest_tenths_all n' _ Hq Nn'), one_decimal_100. reflexivity.
  - intros Hnone. rewrite Gn'.
    pose proof (count_bounds (qualifies key) tickets) as [Hq _].
    destruct (Z.eq_dec (count (qualifies key) tickets) 0) as [Hz|Hnz].
    + rewrite (N0' Hz). reflexivity.
    + rewrite Hnone in Nn'.
      assert (Hpos : 0 < count (qualifies key) tickets) by lia.
      rewrite (nearest_tenths_none n' _ Hpos Nn'). reflexivity.
Qed.

Lemma X20_witness :
  Forall well_formed [twelve_hours; shouted] /\
  Z.of_nat (length [twelve_hours; shouted]) < 2 ^ 32 /\
  In "high" canonical /\
  calculateSeverityDistribution [twelve_hours; shouted]
  = Ok [("low", PNum zero); ("medium", PNum zero);
        ("high", PNum (of_Z 100)); ("critical", PNum zero)] /\
  exists distribution,
    calculateSeverityDistribution [twelve_hours; shouted] = Ok distribution /\
    get distribution "high" = Some (PNum (of_Z 100)).
Proof.
  assert (H1 : Forall well_formed [twelve_hours; shouted])
    by (repeat (apply List.Forall_cons; [exact I|]); apply List.Forall_nil).
  assert (H2 : Z.of_nat (length [twelve_hours; shouted]) < 2 ^ 32) by reflexivity.
  assert (H3 : In "high" canonical) by (cbn; tauto).
  split; [exact H1|]. split; [exact H2|]. split; [exact H3|].
  split; [vm_compute; reflexivity|].
  destruct (X20_end_points_exact Date_parse_ISO [twelve_hours; shouted] "high" H1 H2 H3)
    as (d & sla & E1 & _ & E3 & _).
  exists d. split; [exact E1|]. apply E3; [discriminate|reflexivity].
Defined.
